(** * metadata_lib: a shallow embedding of the metadata graph engine

    The development follows the Python package [metadata_lib]:
    - [definitions/allowed_values.py]  the fixed vocabularies,
    - [schemas/*.py]                   the five entity classes,
    - [unid.py]                        compound key (UNID) derivation,
    - [build.py]                       indexing, integration, flattening, storage,
    - [validate.py]                    validators and dependency analysis,
    - [view.py]                        the id -> unid projection used by the build,
    - [manage.py]                      [MetadataStructure] and [MetadataManager].

    Python values are immutable here, so [deepcopy] is the identity; wherever
    the Python code mutates an object that is reachable through two names, the
    embedding returns the updated object to both places explicitly.

    Outside the embedding: the storage adapters, the methods of the manager
    that load from or write to the stash and the store, and the record
    constructors of pydantic, which [metadata_json_to_objects] takes as an
    argument. *)

From Stdlib Require Import ZArith List String Ascii Bool Lia DecimalString.
Import ListNotations.
Local Open Scope string_scope.
Local Open Scope Z_scope.

Set Implicit Arguments.
Set Warnings "-register-all".

(* ================================================================== *)
(** ** Python exceptions and the error monad *)

Inductive PyExc : Type :=
| KeyError (msg : string)
| TypeError (msg : string)
| ValueError (msg : string)
| NameError (msg : string)
| AttributeError (msg : string)
| IndexError (msg : string)
| EOFError.

Inductive Exc (A : Type) : Type :=
| Ok (a : A)
| Raise (e : PyExc).
Arguments Ok {A} a.
Arguments Raise {A} e.

Definition bind {A B : Type} (m : Exc A) (f : A -> Exc B) : Exc B :=
  match m with
  | Ok a => f a
  | Raise e => Raise e
  end.

Notation "x <- m ;; k" := (bind m (fun x => k))
  (at level 61, m at next level, right associativity).
Notation "' p <- m ;; k" := (bind m (fun x => let p := x in k))
  (at level 61, p pattern, m at next level, right associativity).

(** [for x in l: acc = f(acc, x)] where the body may raise. *)
Fixpoint foldM {A B : Type} (f : B -> A -> Exc B) (l : list A) (acc : B) : Exc B :=
  match l with
  | [] => Ok acc
  | x :: l' => acc' <- f acc x ;; foldM f l' acc'
  end.

(** [[f(x) for x in l]] where [f] may raise; the first failure wins. *)
Fixpoint mapM {A B : Type} (f : A -> Exc B) (l : list A) : Exc (list B) :=
  match l with
  | [] => Ok []
  | x :: l' => y <- f x ;; ys <- mapM f l' ;; Ok (y :: ys)
  end.

(* ================================================================== *)
(** ** Python strings *)

(** [str(n)] for an [int]. *)
Definition str_of_int (n : Z) : string := NilZero.string_of_int (Z.to_int n).

(** [s.startswith(p)]. *)
Definition startswith (s p : string) : bool := String.prefix p s.

(** [s.rfind(c)] for a one-character needle: the highest index, or [-1]. *)
Fixpoint rfind_from (c : ascii) (s : string) (pos : Z) (best : Z) : Z :=
  match s with
  | EmptyString => best
  | String a s' =>
      rfind_from c s' (pos + 1) (if Ascii.eqb a c then pos else best)
  end.

Definition rfind (s : string) (c : ascii) : Z := rfind_from c s 0 (-1).

Fixpoint take (n : nat) (s : string) : string :=
  match n, s with
  | O, _ => EmptyString
  | S _, EmptyString => EmptyString
  | S n', String a s' => String a (take n' s')
  end.

(** [s[:n]]: a negative bound counts from the end, and both are clamped. *)
Definition slice_to (s : string) (n : Z) : string :=
  if n <? 0
  then take (Z.to_nat (Z.max 0 (Z.of_nat (String.length s) + n))) s
  else take (Z.to_nat n) s.

Definition dot : ascii := "."%char.

(** [x in l] for a list of strings. *)
Definition str_in (x : string) (l : list string) : bool :=
  existsb (String.eqb x) l.

(* ================================================================== *)
(** ** Python dicts

    A [dict] keeps its keys in insertion order, assigning to a key that is
    already present replaces the value where the key stands, and a new key
    goes to the end.  The iteration order is what [.values()] and [.items()]
    loops see, so the model is an association list without repeated keys. *)

Section PyDict.
Variables K V : Type.
Variable keq : K -> K -> bool.

Definition PyDict : Type := list (K * V).

Fixpoint dict_get (d : PyDict) (k : K) : option V :=
    match d with
    | [] => None
    | (k', v) :: d' => if keq k k' then Some v else dict_get d' k
    end.

  (** [k in d.keys()] *)
Definition dict_mem (d : PyDict) (k : K) : bool :=
    match dict_get d k with Some _ => true | None => false end.

  (** [d[k] = v] *)
Fixpoint dict_set (d : PyDict) (k : K) (v : V) : PyDict :=
    match d with
    | [] => [(k, v)]
    | (k', v') :: d' =>
        if keq k k' then (k', v) :: d' else (k', v') :: dict_set d' k v
    end.

  (** [del d[k]] for a key that is present. *)
Fixpoint dict_del (d : PyDict) (k : K) : PyDict :=
    match d with
    | [] => []
    | (k', v') :: d' => if keq k k' then d' else (k', v') :: dict_del d' k
    end.

Definition dict_keys (d : PyDict) : list K := map fst d.
Definition dict_values (d : PyDict) : list V := map snd d.

  (** [d.update(e)] *)
Definition dict_update (d e : PyDict) : PyDict :=
    fold_left (fun acc kv => dict_set acc (fst kv) (snd kv)) e d.
End PyDict.

Arguments dict_get {K V} keq d k.
Arguments dict_mem {K V} keq d k.
Arguments dict_set {K V} keq d k v.
Arguments dict_del {K V} keq d k.
Arguments dict_keys {K V} d.
Arguments dict_values {K V} d.
Arguments dict_update {K V} keq d e.

(** The key of a unid index: the [unid] attribute, which is [str | None]. *)
Definition ounid_eqb (a b : option string) : bool :=
  match a, b with
  | Some x, Some y => String.eqb x y
  | None, None => true
  | _, _ => false
  end.

(* ================================================================== *)
(** ** definitions/allowed_values.py *)

Definition ENTITIES : list string :=
  ["namespaces"; "schemas"; "systems"; "data_entities"; "pipelines";
   "dag_config"].

Definition FLAT_PL_KEYS : list string :=
  ["id"; "unid"; "namespace"; "name"; "type"; "version"; "scope"; "velocity"].

Definition FLAT_ENT_KEYS : list string :=
  ["id"; "unid"; "namespace"; "name"; "type"; "interface"; "entity_schema"].

Definition FLAT_SYS_KEYS : list string :=
  ["id"; "unid"; "namespace"; "name"; "type"].

Definition RESERVED_CONFIG_KEY_PREFIXES : list string :=
  ["pl_"; "ent_"; "sys_"].

Definition SCHEMA_TYPES : list string := ["avro"; "bigquery"].
Definition SYSTEM_TYPES : list string := ["external"; "internal"; "platform"].
Definition DATA_ENTITY_ALLOWED_TYPES : list string := ["datasource"; "dataset"].
Definition DATA_ENTITY_ALLOWED_INTERFACES : list string :=
  ["api_rest"; "api_graphql"; "sql"; "google_cloud_storage"].
Definition PIPELINE_ALLOWED_SCOPES : list string := ["single"; "compound"].
Definition PIPELINE_ALLOWED_TYPES : list string :=
  ["ingest"; "transform"; "delivery"].
Definition PIPELINE_ALLOWED_VELOCITY : list string := ["batch"; "streaming"].

(* ================================================================== *)
(** ** Values *)

(** A [datetime]: an instant and the name of its time zone. *)
Record datetime : Type := mk_datetime { epoch : Z; tz : string }.

(** What a field typed [Any] can hold, what [model_dump()] returns and what a
    flat instance record stores.  [VObj] is a pydantic object kept as an
    object (class name and attributes), as opposed to its dumped [VDict]. *)
Inductive PyVal : Type :=
| VNone
| VBool (b : bool)
| VInt (n : Z)
| VStr (s : string)
| VTime (t : datetime)
| VList (l : list PyVal)
| VDict (d : list (string * PyVal))
| VObj (cls : string) (attrs : list (string * PyVal)).

(** A config map ([dict[Any, Any] | None]); keys are the strings of a JSON
    object. *)
Definition Config : Type := option (PyDict string PyVal).

Definition val_of_ostr (o : option string) : PyVal :=
  match o with Some s => VStr s | None => VNone end.

(** A foreign key field [int | str | T]: an id, a compound key, or, after
    integration, the referenced object itself. *)
Inductive Ref (A : Type) : Type :=
| RId (i : Z)
| RUnid (u : string)
| RObj (a : A).
Arguments RId {A} i.
Arguments RUnid {A} u.
Arguments RObj {A} a.

(** [ref == id] for an [int] on the right: only an equal [int] compares
    equal; a [str] or a model object does not. *)
Definition ref_eq_id {A : Type} (r : Ref A) (i : Z) : bool :=
  match r with
  | RId j => j =? i
  | _ => false
  end.

(* ================================================================== *)
(** ** schemas/*.py *)

Module Namespace.
Record t : Type := mk {
    id : Z;
    unid : option string;
    name : string;
    description : option string;
    created : datetime;
    modified : datetime
  }.
Definition set_unid (o : t) (u : option string) : t :=
    mk (id o) u (name o) (description o) (created o) (modified o).
Definition set_modified (o : t) (m : datetime) : t :=
    mk (id o) (unid o) (name o) (description o) (created o) m.
End Namespace.

Module Schema.
Record t : Type := mk {
    id : Z;
    unid : option string;
    namespace : Ref Namespace.t;
    name : string;
    description : option string;
    type : string;
    version : Z;
    entity_schema : PyVal;
    created : datetime;
    modified : datetime
  }.
Definition set_unid (o : t) (u : option string) : t :=
    mk (id o) u (namespace o) (name o) (description o) (type o) (version o)
       (entity_schema o) (created o) (modified o).
Definition set_namespace (o : t) (n : Ref Namespace.t) : t :=
    mk (id o) (unid o) n (name o) (description o) (type o) (version o)
       (entity_schema o) (created o) (modified o).
Definition set_modified (o : t) (m : datetime) : t :=
    mk (id o) (unid o) (namespace o) (name o) (description o) (type o)
       (version o) (entity_schema o) (created o) m.
End Schema.

Module System.
Record t : Type := mk {
    id : Z;
    unid : option string;
    namespace : Ref Namespace.t;
    name : string;
    description : option string;
    type : string;
    config : Config;
    created : datetime;
    modified : datetime
  }.
Definition set_unid (o : t) (u : option string) : t :=
    mk (id o) u (namespace o) (name o) (description o) (type o) (config o)
       (created o) (modified o).
Definition set_namespace (o : t) (n : Ref Namespace.t) : t :=
    mk (id o) (unid o) n (name o) (description o) (type o) (config o)
       (created o) (modified o).
Definition set_modified (o : t) (m : datetime) : t :=
    mk (id o) (unid o) (namespace o) (name o) (description o) (type o)
       (config o) (created o) m.
End System.

(** The [entity_schema] field of a data entity: [int | str | Schema], and,
    after [integrate_pipelines(flatten_schemas=True)], the bare schema body. *)
Inductive SchemaField : Type :=
| SfId (i : Z)
| SfUnid (u : string)
| SfObj (s : Schema.t)
| SfBody (b : PyVal).

Definition schemafield_eq_id (r : SchemaField) (i : Z) : bool :=
  match r with
  | SfId j => j =? i
  | _ => false
  end.

Module Data_entity.
Record t : Type := mk {
    id : Z;
    unid : option string;
    namespace : Ref Namespace.t;
    system : Ref System.t;
    name : string;
    description : option string;
    type : string;
    interface : string;
    entity_schema : SchemaField;
    checks : option (list PyVal);
    config : Config;
    created : datetime;
    modified : datetime
  }.
Definition set_unid (o : t) (u : option string) : t :=
    mk (id o) u (namespace o) (system o) (name o) (description o) (type o)
       (interface o) (entity_schema o) (checks o) (config o) (created o)
       (modified o).
Definition set_namespace (o : t) (n : Ref Namespace.t) : t :=
    mk (id o) (unid o) n (system o) (name o) (description o) (type o)
       (interface o) (entity_schema o) (checks o) (config o) (created o)
       (modified o).
Definition set_system (o : t) (s : Ref System.t) : t :=
    mk (id o) (unid o) (namespace o) s (name o) (description o) (type o)
       (interface o) (entity_schema o) (checks o) (config o) (created o)
       (modified o).
Definition set_entity_schema (o : t) (s : SchemaField) : t :=
    mk (id o) (unid o) (namespace o) (system o) (name o) (description o)
       (type o) (interface o) s (checks o) (config o) (created o)
       (modified o).
Definition set_modified (o : t) (m : datetime) : t :=
    mk (id o) (unid o) (namespace o) (system o) (name o) (description o)
       (type o) (interface o) (entity_schema o) (checks o) (config o)
       (created o) m.
End Data_entity.

(** One side of a pipeline instance: a single reference or a list of them. *)
Inductive IOSide : Type :=
| One (r : Ref Data_entity.t)
| Many (l : list (Ref Data_entity.t)).

(** One [{'input': ..., 'output': ...}] element of [input_output]. *)
Record Instance : Type := mk_instance { input : IOSide; output : IOSide }.

Module Pipeline.
  (** [input_output] is the list form: one instance for a single pipeline,
      one or more for a compound one. *)
Record t : Type := mk {
    id : Z;
    unid : option string;
    namespace : Ref Namespace.t;
    name : string;
    description : option string;
    enabled : bool;
    version : Z;
    scope : string;
    type : string;
    velocity : string;
    input_output : list Instance;
    config : Config;
    created : datetime;
    modified : datetime
  }.
Definition set_unid (o : t) (u : option string) : t :=
    mk (id o) u (namespace o) (name o) (description o) (enabled o)
       (version o) (scope o) (type o) (velocity o) (input_output o)
       (config o) (created o) (modified o).
Definition set_namespace (o : t) (n : Ref Namespace.t) : t :=
    mk (id o) (unid o) n (name o) (description o) (enabled o) (version o)
       (scope o) (type o) (velocity o) (input_output o) (config o)
       (created o) (modified o).
Definition set_input_output (o : t) (io : list Instance) : t :=
    mk (id o) (unid o) (namespace o) (name o) (description o) (enabled o)
       (version o) (scope o) (type o) (velocity o) io (config o)
       (created o) (modified o).
Definition set_modified (o : t) (m : datetime) : t :=
    mk (id o) (unid o) (namespace o) (name o) (description o) (enabled o)
       (version o) (scope o) (type o) (velocity o) (input_output o)
       (config o) (created o) m.
End Pipeline.

(** [Namespace | Schema | System | Data_entity | Pipeline] *)
Inductive Entity : Type :=
| ENamespace (n : Namespace.t)
| ESchema (s : Schema.t)
| ESystem (s : System.t)
| EData_entity (e : Data_entity.t)
| EPipeline (p : Pipeline.t).

(* ================================================================== *)
(** ** The metadata forms *)

(** [md_objects]: a dict with the five collections, in this key order (the
    order in which [metadata_json_to_objects], [objects_from_id_index] and
    [objects_from_unid_index] create the keys). *)
Record MdObjects : Type := mk_objects {
  namespaces : list Namespace.t;
  schemas : list Schema.t;
  systems : list System.t;
  data_entities : list Data_entity.t;
  pipelines : list Pipeline.t
}.

(** [by_id]: the five [<type>_idx] dicts. *)
Record IdIdx : Type := mk_id_idx {
  namespaces_idx : PyDict Z Namespace.t;
  schemas_idx : PyDict Z Schema.t;
  systems_idx : PyDict Z System.t;
  data_entities_idx : PyDict Z Data_entity.t;
  pipelines_idx : PyDict Z Pipeline.t
}.

(** [by_unid]: the five [<type>_unid_idx] dicts. *)
Record UnidIdx : Type := mk_unid_idx {
  namespaces_unid_idx : PyDict (option string) Namespace.t;
  schemas_unid_idx : PyDict (option string) Schema.t;
  systems_unid_idx : PyDict (option string) System.t;
  data_entities_unid_idx : PyDict (option string) Data_entity.t;
  pipelines_unid_idx : PyDict (option string) Pipeline.t
}.

(* ================================================================== *)
(** ** Subscripting an index *)

(** What the code puts between the brackets of [idx[...]]: the content of a
    reference field.  A model object is not hashable. *)
Inductive PyKey : Type :=
| KInt (i : Z)
| KStr (s : string)
| KNone
| KUnhashable (cls : string).

Definition key_of_ref {A : Type} (cls : string) (r : Ref A) : PyKey :=
  match r with
  | RId i => KInt i
  | RUnid u => KStr u
  | RObj _ => KUnhashable cls
  end.

Definition key_of_schemafield (r : SchemaField) : PyKey :=
  match r with
  | SfId i => KInt i
  | SfUnid u => KStr u
  | SfObj _ => KUnhashable "Schema"
  | SfBody VNone => KNone
  | SfBody (VList _) => KUnhashable "list"
  | SfBody _ => KUnhashable "dict"
  end.

(** [d[k]] on an index keyed by [int] ids. *)
Definition getitem_id {V : Type} (d : PyDict Z V) (k : PyKey) : Exc V :=
  match k with
  | KInt i =>
      match dict_get Z.eqb d i with
      | Some v => Ok v
      | None => Raise (KeyError (str_of_int i))
      end
  | KStr s => Raise (KeyError s)
  | KNone => Raise (KeyError "None")
  | KUnhashable cls => Raise (TypeError ("unhashable type: " ++ cls))
  end.

(** [d[u]] on an index keyed by unids, for a [str] [u]. *)
Definition getitem_unid {V : Type} (d : PyDict (option string) V) (u : string)
  : Exc V :=
  match dict_get ounid_eqb d (Some u) with
  | Some v => Ok v
  | None => Raise (KeyError u)
  end.

(* ================================================================== *)
(** ** unid.py *)

(** f'{a}.{b}' *)
Definition dotted (a b : string) : string := a ++ "." ++ b.

Definition namespace_id_to_unid (metadata_id_idx : IdIdx) (id : PyKey)
  : Exc string :=
  ns <- getitem_id (namespaces_idx metadata_id_idx) id ;;
  Ok (Namespace.name ns).

Definition schema_id_to_unid (metadata_id_idx : IdIdx) (id : PyKey)
  : Exc string :=
  sch <- getitem_id (schemas_idx metadata_id_idx) id ;;
  let name := Schema.name sch in
  let version := str_of_int (Schema.version sch) in
  Ok (dotted name version).

Definition system_id_to_unid (metadata_id_idx : IdIdx) (id : PyKey)
  : Exc string :=
  sys <- getitem_id (systems_idx metadata_id_idx) id ;;
  ns <- namespace_id_to_unid metadata_id_idx
          (key_of_ref "Namespace" (System.namespace sys)) ;;
  let name := System.name sys in
  Ok (dotted ns name).

Definition data_entity_id_to_unid (metadata_id_idx : IdIdx) (id : PyKey)
  : Exc string :=
  ent <- getitem_id (data_entities_idx metadata_id_idx) id ;;
  ns <- namespace_id_to_unid metadata_id_idx
          (key_of_ref "Namespace" (Data_entity.namespace ent)) ;;
  let name := Data_entity.name ent in
  sys_unid <- system_id_to_unid metadata_id_idx
                (key_of_ref "System" (Data_entity.system ent)) ;;
  let ent_type := Data_entity.type ent in
  Ok (dotted ns (dotted sys_unid (dotted name ent_type))).

Definition pipeline_id_to_unid (metadata_id_idx : IdIdx) (id : PyKey)
  : Exc string :=
  pl <- getitem_id (pipelines_idx metadata_id_idx) id ;;
  ns <- namespace_id_to_unid metadata_id_idx
          (key_of_ref "Namespace" (Pipeline.namespace pl)) ;;
  let name := Pipeline.name pl in
  let pl_type := Pipeline.type pl in
  let version := str_of_int (Pipeline.version pl) in
  Ok (dotted ns (dotted name (dotted pl_type version))).

Definition not_an_entity (entity : string) : PyExc :=
  ValueError (entity ++ " is not a valid metadata entity.").

Definition id_to_unid (metadata_id_idx : IdIdx) (metadata_entity : string)
    (id : Z) : Exc string :=
  if negb (str_in metadata_entity ENTITIES)
  then Raise (not_an_entity metadata_entity)
  else if (metadata_entity =? "namespaces")%string
  then namespace_id_to_unid metadata_id_idx (KInt id)
  else if (metadata_entity =? "schemas")%string
  then schema_id_to_unid metadata_id_idx (KInt id)
  else if (metadata_entity =? "systems")%string
  then system_id_to_unid metadata_id_idx (KInt id)
  else if (metadata_entity =? "data_entities")%string
  then data_entity_id_to_unid metadata_id_idx (KInt id)
  else if (metadata_entity =? "pipelines")%string
  then pipeline_id_to_unid metadata_id_idx (KInt id)
  else Raise (ValueError
                (metadata_entity ++ " Cannot be processed by id_to_unid()")).

(* ================================================================== *)
(** ** Code that changes a state and may raise

    [SE S A] is a computation on a state [S] that returns an [A] or raises;
    what it did to the state before raising stays done, as in Python. *)

Definition SE (S A : Type) : Type := S -> S * Exc A.

Definition sret {S A : Type} (a : A) : SE S A := fun s => (s, Ok a).

Definition sraise {S A : Type} (e : PyExc) : SE S A := fun s => (s, Raise e).

Definition sbind {S A B : Type} (m : SE S A) (f : A -> SE S B) : SE S B :=
  fun s =>
    match m s with
    | (s', Ok a) => f a s'
    | (s', Raise e) => (s', Raise e)
    end.

Definition lift {S A : Type} (m : Exc A) : SE S A := fun s => (s, m).
Definition sget {S : Type} : SE S S := fun s => (s, Ok s).
Definition sput {S : Type} (s : S) : SE S unit := fun _ => (s, Ok tt).
Definition smodify {S : Type} (f : S -> S) : SE S unit :=
  fun s => (f s, Ok tt).

Notation "x <~ m ;; k" := (sbind m (fun x => k))
  (at level 61, m at next level, right associativity).
Notation "' p <~ m ;; k" := (sbind m (fun x => let p := x in k))
  (at level 61, p pattern, m at next level, right associativity).
Notation "m ;;; k" := (sbind m (fun _ => k))
  (at level 61, right associativity).

(** [for x in l: body(x)] *)
Fixpoint sfor {S A : Type} (l : list A) (body : A -> SE S unit) : SE S unit :=
  match l with
  | [] => sret tt
  | x :: l' => body x ;;; sfor l' body
  end.

(* ================================================================== *)
(** ** build.py: the storage boundary *)

(** [md_json]: entity type name -> list of records. *)
Definition MdJson : Type := PyDict string (list PyVal).

Section Storage.
  (** The backing store behind the adapter's [read] and [write]. *)
Variable Store : Type.

Definition Reader : Type := PyVal -> string -> SE Store (list PyVal).
Definition Writer : Type := PyVal -> string -> PyVal -> SE Store unit.

  (** [not md_entities] *)
Definition falsy_list (l : option (list string)) : bool :=
    match l with
    | None => true
    | Some [] => true
    | Some _ => false
    end.

  (** [x not in l] where [l] may be [None]. *)
Definition not_in_opt (x : string) (l : option (list string)) : Exc bool :=
    match l with
    | None => Raise (TypeError "argument of type 'NoneType' is not iterable")
    | Some l' => Ok (negb (str_in x l'))
    end.

Definition read_metadata_step (storage_reader : Reader) (location : PyVal)
      (exclude_entities : option (list string)) (md_json : MdJson)
      (entity : string) : SE Store MdJson :=
    if negb (str_in entity ENTITIES)
    then sraise (not_an_entity entity)
    else
      wanted <~ lift (not_in_opt entity exclude_entities) ;;
      if wanted
      then
        records <~ storage_reader location entity ;;
        sret (dict_set String.eqb md_json entity records)
      else sret md_json.

Fixpoint read_metadata_loop (storage_reader : Reader) (location : PyVal)
      (exclude_entities : option (list string)) (entities : list string)
      (md_json : MdJson) : SE Store MdJson :=
    match entities with
    | [] => sret md_json
    | entity :: rest =>
        md_json' <~ read_metadata_step storage_reader location
                      exclude_entities md_json entity ;;
        read_metadata_loop storage_reader location exclude_entities rest
          md_json'
    end.

  (** The defaults [md_entities=None], [exclude_entities=None] are the
      [None] arguments here. *)
  (** [if not md_entities: md_entities = ENTITIES] *)
Definition entities_considered (md_entities : option (list string))
    : list string :=
    if falsy_list md_entities then ENTITIES
    else match md_entities with Some l => l | None => ENTITIES end.

Definition read_metadata (storage_reader : Reader) (location : PyVal)
      (md_entities : option (list string))
      (exclude_entities : option (list string)) : SE Store MdJson :=
    let md_json : MdJson := [] in
    let md_entities := entities_considered md_entities in
    read_metadata_loop storage_reader location exclude_entities md_entities
      md_json.

  (** The names bound at the top level of [build.py]. *)
Definition build_module_globals : list string :=
    ["SimpleNamespace"; "deepcopy"; "jsonable_encoder"; "Namespace"; "Schema";
     "System"; "Data_entity"; "Pipeline"; "id_to_unid"; "ENTITIES";
     "FLAT_PL_KEYS"; "FLAT_ENT_KEYS"; "FLAT_SYS_KEYS"; "Callable";
     "read_metadata"; "write_metadata"; "write_dag_config";
     "metadata_json_to_objects"; "create_id_indexes"; "generate_unids";
     "create_unid_indexes"; "integrate_pipelines"; "objectify_flat_instance";
     "flatten_instance"; "integrated_to_dag_config";
     "metadata_objects_to_json"; "schema_unid_refs_to_ids";
     "system_unid_refs_to_ids"; "data_entity_unid_refs_to_ids";
     "pipeline_unid_refs_to_ids"; "unid_refs_to_ids";
     "objects_from_unid_index"; "objects_from_id_index"].

  (** Reading a name inside a function: a local (a parameter or a variable
      the function assigns) if the function has one of that name, else a
      module global; a global is a function or a constant and is opaque
      here.  No builtin is called [metadata_obj_or_json]. *)
Definition load_name (locals : list (string * PyVal)) (name : string)
    : Exc PyVal :=
    match dict_get String.eqb locals name with
    | Some v => Ok v
    | None =>
        if str_in name build_module_globals
        then Ok (VObj "global" [("__name__", VStr name)])
        else Raise (NameError ("name '" ++ name ++ "' is not defined"))
    end.

  (** [fastapi.encoders.jsonable_encoder] *)
Variable jsonable_encoder : PyVal -> PyVal.

Definition write_dag_config (storage_writer : Writer) (location : PyVal)
      (dag_config : PyVal) : SE Store unit :=
    let locals :=
      [("storage_writer", VObj "function" []); ("location", location);
       ("dag_config", dag_config)] in
    let ent_type := "dag_config" in
    let locals := (locals ++ [("ent_type", VStr ent_type)])%list in
    arg <~ lift (load_name locals "metadata_obj_or_json") ;;
    let config_to_write := jsonable_encoder arg in
    storage_writer location ent_type config_to_write.
End Storage.

(* ================================================================== *)
(** ** build.py: indexes *)

Definition index_by {V : Type} (key : V -> Z) (l : list V) : PyDict Z V :=
  fold_left (fun idx o => dict_set Z.eqb idx (key o) o) l [].

Definition create_id_indexes (metadata_obj : MdObjects) : IdIdx :=
  {| namespaces_idx := index_by Namespace.id (namespaces metadata_obj);
     schemas_idx := index_by Schema.id (schemas metadata_obj);
     systems_idx := index_by System.id (systems metadata_obj);
     data_entities_idx := index_by Data_entity.id (data_entities metadata_obj);
     pipelines_idx := index_by Pipeline.id (pipelines metadata_obj) |}.

Definition index_by_unid {V : Type} (key : V -> option string) (l : list V)
  : PyDict (option string) V :=
  fold_left (fun idx o => dict_set ounid_eqb idx (key o) o) l [].

Definition create_unid_indexes (metadata_unid : MdObjects) : UnidIdx :=
  {| namespaces_unid_idx := index_by_unid Namespace.unid (namespaces metadata_unid);
     schemas_unid_idx := index_by_unid Schema.unid (schemas metadata_unid);
     systems_unid_idx := index_by_unid System.unid (systems metadata_unid);
     data_entities_unid_idx :=
       index_by_unid Data_entity.unid (data_entities metadata_unid);
     pipelines_unid_idx := index_by_unid Pipeline.unid (pipelines metadata_unid) |}.

Definition set_namespaces_idx (i : IdIdx) (d : PyDict Z Namespace.t) : IdIdx :=
  mk_id_idx d (schemas_idx i) (systems_idx i) (data_entities_idx i)
    (pipelines_idx i).
Definition set_schemas_idx (i : IdIdx) (d : PyDict Z Schema.t) : IdIdx :=
  mk_id_idx (namespaces_idx i) d (systems_idx i) (data_entities_idx i)
    (pipelines_idx i).
Definition set_systems_idx (i : IdIdx) (d : PyDict Z System.t) : IdIdx :=
  mk_id_idx (namespaces_idx i) (schemas_idx i) d (data_entities_idx i)
    (pipelines_idx i).
Definition set_data_entities_idx (i : IdIdx) (d : PyDict Z Data_entity.t)
  : IdIdx :=
  mk_id_idx (namespaces_idx i) (schemas_idx i) (systems_idx i) d
    (pipelines_idx i).
Definition set_pipelines_idx (i : IdIdx) (d : PyDict Z Pipeline.t) : IdIdx :=
  mk_id_idx (namespaces_idx i) (schemas_idx i) (systems_idx i)
    (data_entities_idx i) d.

Section GenerateUnids.
Variable V : Type.
Variable get_idx : IdIdx -> PyDict Z V.
Variable set_idx : IdIdx -> PyDict Z V -> IdIdx.
Variable ident : V -> Z.
Variable set_unid : V -> option string -> V.
Variable entity : string.

  (** One turn of [for o in idx[..].values(): o.unid = id_to_unid(idx, .., o.id);
      out.append(o)].  The object assigned to is the one that sits in the
      index, so the index sees the new [unid] too. *)
Definition generate_unids_step (k : Z) (out : list V) : SE IdIdx (list V) :=
    fun idx =>
      match dict_get Z.eqb (get_idx idx) k with
      | None => (idx, Ok out)
      | Some o =>
          match id_to_unid idx entity (ident o) with
          | Raise e => (idx, Raise e)
          | Ok u =>
              let o' := set_unid o (Some u) in
              (set_idx idx (dict_set Z.eqb (get_idx idx) k o'),
               Ok (out ++ [o'])%list)
          end
      end.

Fixpoint generate_unids_loop (keys : list Z) (out : list V)
    : SE IdIdx (list V) :=
    match keys with
    | [] => sret out
    | k :: keys' =>
        out' <~ generate_unids_step k out ;; generate_unids_loop keys' out'
    end.

Definition generate_unids_for : SE IdIdx (list V) :=
    fun idx => generate_unids_loop (dict_keys (get_idx idx)) [] idx.
End GenerateUnids.

(** [generate_unids(metadata_id_idx)] fills [unid] in the objects of the
    index it is given (the state) and returns them as lists. *)
Definition generate_unids : SE IdIdx MdObjects :=
  nss <~ generate_unids_for namespaces_idx set_namespaces_idx Namespace.id
           Namespace.set_unid "namespaces" ;;
  schs <~ generate_unids_for schemas_idx set_schemas_idx Schema.id
            Schema.set_unid "schemas" ;;
  syss <~ generate_unids_for systems_idx set_systems_idx System.id
            System.set_unid "systems" ;;
  ents <~ generate_unids_for data_entities_idx set_data_entities_idx
            Data_entity.id Data_entity.set_unid "data_entities" ;;
  pls <~ generate_unids_for pipelines_idx set_pipelines_idx Pipeline.id
           Pipeline.set_unid "pipelines" ;;
  sret (mk_objects nss schs syss ents pls).

(* ================================================================== *)
(** ** build.py: integration *)

(** Apply [f] to the values of a dict in iteration order, keeping the keys. *)
Definition dict_mapM {K V W : Type} (f : V -> Exc W) (d : PyDict K V)
  : Exc (PyDict K W) :=
  mapM (fun kv => w <- f (snd kv) ;; Ok (fst kv, w)) d.

Section Integrate.
Variable ns_byid : PyDict Z Namespace.t.
Variable flatten_namespaces : bool.
Variable flatten_schemas : bool.

  (** [x.namespace = ns_byid[x.namespace].name] or [= ns_byid[x.namespace]] *)
Definition connect_namespace (r : Ref Namespace.t) : Exc (Ref Namespace.t) :=
    ns <- getitem_id ns_byid (key_of_ref "Namespace" r) ;;
    Ok (if flatten_namespaces then RUnid (Namespace.name ns) else RObj ns).

Definition integrate_schema (sch : Schema.t) : Exc Schema.t :=
    n <- connect_namespace (Schema.namespace sch) ;;
    Ok (Schema.set_namespace sch n).

Definition integrate_system (sys : System.t) : Exc System.t :=
    n <- connect_namespace (System.namespace sys) ;;
    Ok (System.set_namespace sys n).

  (** [sys_byid] and [sch_byid] hold the objects the two loops before have
      already rewritten. *)
Definition integrate_data_entity (sys_byid : PyDict Z System.t)
      (sch_byid : PyDict Z Schema.t) (ent : Data_entity.t)
    : Exc Data_entity.t :=
    n <- connect_namespace (Data_entity.namespace ent) ;;
    let ent := Data_entity.set_namespace ent n in
    sys <- getitem_id sys_byid (key_of_ref "System" (Data_entity.system ent)) ;;
    let ent := Data_entity.set_system ent (RObj sys) in
    sch <- getitem_id sch_byid
             (key_of_schemafield (Data_entity.entity_schema ent)) ;;
    Ok (Data_entity.set_entity_schema ent
          (if flatten_schemas then SfBody (Schema.entity_schema sch)
           else SfObj sch)).

Definition connect_entity (ent_byid : PyDict Z Data_entity.t)
      (r : Ref Data_entity.t) : Exc (Ref Data_entity.t) :=
    ent <- getitem_id ent_byid (key_of_ref "Data_entity" r) ;;
    Ok (RObj ent).

Definition integrate_side (ent_byid : PyDict Z Data_entity.t) (s : IOSide)
    : Exc IOSide :=
    match s with
    | Many l => l' <- mapM (connect_entity ent_byid) l ;; Ok (Many l')
    | One r => r' <- connect_entity ent_byid r ;; Ok (One r')
    end.

Definition integrate_instance (ent_byid : PyDict Z Data_entity.t)
      (instance : Instance) : Exc Instance :=
    i <- integrate_side ent_byid (input instance) ;;
    o <- integrate_side ent_byid (output instance) ;;
    Ok (mk_instance i o).

Definition integrate_pipeline (ent_byid : PyDict Z Data_entity.t)
      (pl : Pipeline.t) : Exc Pipeline.t :=
    n <- connect_namespace (Pipeline.namespace pl) ;;
    let pl := Pipeline.set_namespace pl n in
    io <- mapM (integrate_instance ent_byid) (Pipeline.input_output pl) ;;
    Ok (Pipeline.set_input_output pl io).
End Integrate.

(** [integrate_pipelines(metadata_id_idx, flatten_namespaces=True,
    flatten_schemas=False)]; the index it rewrites is the caller's private
    copy, so only the returned list is kept. *)
Definition integrate_pipelines (metadata_id_idx : IdIdx)
    (flatten_namespaces flatten_schemas : bool) : Exc (list Pipeline.t) :=
  let ns_byid := namespaces_idx metadata_id_idx in
  sch_byid <- dict_mapM (integrate_schema ns_byid flatten_namespaces)
                (schemas_idx metadata_id_idx) ;;
  sys_byid <- dict_mapM (integrate_system ns_byid flatten_namespaces)
                (systems_idx metadata_id_idx) ;;
  ent_byid <- dict_mapM
                (integrate_data_entity ns_byid flatten_namespaces
                   flatten_schemas sys_byid sch_byid)
                (data_entities_idx metadata_id_idx) ;;
  pl_byid <- dict_mapM (integrate_pipeline ns_byid flatten_namespaces ent_byid)
               (pipelines_idx metadata_id_idx) ;;
  Ok (dict_values pl_byid).

(* ================================================================== *)
(** ** Attributes of the model objects and [model_dump()] *)

(** An embedded model object is kept as an object by [getattr] and becomes a
    dict under [model_dump()]. *)
Definition wrap_model (dump : bool) (cls : string)
    (attrs : list (string * PyVal)) : PyVal :=
  if dump then VDict attrs else VObj cls attrs.

Definition val_of_config (c : Config) : PyVal :=
  match c with Some d => VDict d | None => VNone end.

Definition namespace_attrs (n : Namespace.t) : list (string * PyVal) :=
  [("id", VInt (Namespace.id n)); ("unid", val_of_ostr (Namespace.unid n));
   ("name", VStr (Namespace.name n));
   ("description", val_of_ostr (Namespace.description n));
   ("created", VTime (Namespace.created n));
   ("modified", VTime (Namespace.modified n))].

Definition val_of_nsref (dump : bool) (r : Ref Namespace.t) : PyVal :=
  match r with
  | RId i => VInt i
  | RUnid u => VStr u
  | RObj n => wrap_model dump "Namespace" (namespace_attrs n)
  end.

Definition schema_attrs (dump : bool) (s : Schema.t) : list (string * PyVal) :=
  [("id", VInt (Schema.id s)); ("unid", val_of_ostr (Schema.unid s));
   ("namespace", val_of_nsref dump (Schema.namespace s));
   ("name", VStr (Schema.name s));
   ("description", val_of_ostr (Schema.description s));
   ("type", VStr (Schema.type s)); ("version", VInt (Schema.version s));
   ("entity_schema", Schema.entity_schema s);
   ("created", VTime (Schema.created s));
   ("modified", VTime (Schema.modified s))].

Definition system_attrs (dump : bool) (s : System.t) : list (string * PyVal) :=
  [("id", VInt (System.id s)); ("unid", val_of_ostr (System.unid s));
   ("namespace", val_of_nsref dump (System.namespace s));
   ("name", VStr (System.name s));
   ("description", val_of_ostr (System.description s));
   ("type", VStr (System.type s)); ("config", val_of_config (System.config s));
   ("created", VTime (System.created s));
   ("modified", VTime (System.modified s))].

Definition val_of_sysref (dump : bool) (r : Ref System.t) : PyVal :=
  match r with
  | RId i => VInt i
  | RUnid u => VStr u
  | RObj s => wrap_model dump "System" (system_attrs dump s)
  end.

Definition val_of_schemafield (dump : bool) (r : SchemaField) : PyVal :=
  match r with
  | SfId i => VInt i
  | SfUnid u => VStr u
  | SfObj s => wrap_model dump "Schema" (schema_attrs dump s)
  | SfBody b => b
  end.

Definition data_entity_attrs (dump : bool) (e : Data_entity.t)
  : list (string * PyVal) :=
  [("id", VInt (Data_entity.id e)); ("unid", val_of_ostr (Data_entity.unid e));
   ("namespace", val_of_nsref dump (Data_entity.namespace e));
   ("system", val_of_sysref dump (Data_entity.system e));
   ("name", VStr (Data_entity.name e));
   ("description", val_of_ostr (Data_entity.description e));
   ("type", VStr (Data_entity.type e));
   ("interface", VStr (Data_entity.interface e));
   ("entity_schema", val_of_schemafield dump (Data_entity.entity_schema e));
   ("checks", match Data_entity.checks e with
              | Some l => VList l
              | None => VNone
              end);
   ("config", val_of_config (Data_entity.config e));
   ("created", VTime (Data_entity.created e));
   ("modified", VTime (Data_entity.modified e))].

Definition val_of_entref (dump : bool) (r : Ref Data_entity.t) : PyVal :=
  match r with
  | RId i => VInt i
  | RUnid u => VStr u
  | RObj e => wrap_model dump "Data_entity" (data_entity_attrs dump e)
  end.

Definition val_of_side (dump : bool) (s : IOSide) : PyVal :=
  match s with
  | One r => val_of_entref dump r
  | Many l => VList (map (val_of_entref dump) l)
  end.

Definition val_of_instance (dump : bool) (i : Instance) : PyVal :=
  VDict [("input", val_of_side dump (input i));
         ("output", val_of_side dump (output i))].

Definition pipeline_attrs (dump : bool) (p : Pipeline.t)
  : list (string * PyVal) :=
  [("id", VInt (Pipeline.id p)); ("unid", val_of_ostr (Pipeline.unid p));
   ("namespace", val_of_nsref dump (Pipeline.namespace p));
   ("name", VStr (Pipeline.name p));
   ("description", val_of_ostr (Pipeline.description p));
   ("enabled", VBool (Pipeline.enabled p));
   ("version", VInt (Pipeline.version p));
   ("scope", VStr (Pipeline.scope p)); ("type", VStr (Pipeline.type p));
   ("velocity", VStr (Pipeline.velocity p));
   ("input_output", VList (map (val_of_instance dump) (Pipeline.input_output p)));
   ("config", val_of_config (Pipeline.config p));
   ("created", VTime (Pipeline.created p));
   ("modified", VTime (Pipeline.modified p))].

Definition no_attribute (cls attr : string) : PyExc :=
  AttributeError ("'" ++ cls ++ "' object has no attribute '" ++ attr ++ "'").

(** [getattr(obj, key)] on the attributes of an object of class [cls]. *)
Definition getattr (cls : string) (attrs : list (string * PyVal))
    (key : string) : Exc PyVal :=
  match dict_get String.eqb attrs key with
  | Some v => Ok v
  | None => Raise (no_attribute cls key)
  end.

(** [bool(config)]: a config that is neither [None] nor empty. *)
Definition config_truthy (c : Config) : bool :=
  match c with
  | None => false
  | Some [] => false
  | Some _ => true
  end.

Definition config_items (c : Config) : PyDict string PyVal :=
  match c with Some d => d | None => [] end.

(** [l[i]] with Python's negative indices. *)
Definition py_index {A : Type} (l : list A) (i : Z) : Exc A :=
  let n := Z.of_nat (List.length l) in
  let j := if i <? 0 then i + n else i in
  if (j <? 0) || (n <=? j)
  then Raise (IndexError "list index out of range")
  else match nth_error l (Z.to_nat j) with
       | Some a => Ok a
       | None => Raise (IndexError "list index out of range")
       end.

(* ================================================================== *)
(** ** build.py: flattening *)

Definition simple_namespace (v : PyVal) : Exc PyVal :=
  match v with
  | VDict d => Ok (VObj "SimpleNamespace" d)
  | _ => Raise (TypeError "argument after ** must be a mapping")
  end.

Definition objectify_side (v : PyVal) : Exc PyVal :=
  match v with
  | VList l => l' <- mapM simple_namespace l ;; Ok (VList l')
  | _ => simple_namespace v
  end.

Definition getitem_str {V : Type} (d : PyDict string V) (k : string) : Exc V :=
  match dict_get String.eqb d k with
  | Some v => Ok v
  | None => Raise (KeyError k)
  end.

Definition objectify_flat_instance (instance : PyDict string PyVal)
  : Exc PyVal :=
  let obj_instance_conf := instance in
  i <- getitem_str instance "i" ;;
  i' <- objectify_side i ;;
  let obj_instance_conf := dict_set String.eqb obj_instance_conf "i" i' in
  o <- getitem_str instance "o" ;;
  o' <- objectify_side o ;;
  let obj_instance_conf := dict_set String.eqb obj_instance_conf "o" o' in
  Ok (VObj "SimpleNamespace" obj_instance_conf).

(** [for key in keys: d[prefix + key] = value(key)] *)
Definition put_keys (prefix : string) (keys : list string)
    (value : string -> Exc PyVal) (d : PyDict string PyVal)
  : Exc (PyDict string PyVal) :=
  foldM (fun acc key =>
           v <- value key ;; Ok (dict_set String.eqb acc (prefix ++ key) v))
        keys d.

(** [getattr(input_instance, entkey)] for an element of an instance side. *)
Definition ent_attr (input_instance : Ref Data_entity.t) (entkey : string)
  : Exc PyVal :=
  match input_instance with
  | RId _ => Raise (no_attribute "int" entkey)
  | RUnid _ => Raise (no_attribute "str" entkey)
  | RObj e => getattr "Data_entity" (data_entity_attrs false e) entkey
  end.

(** [getattr(input_instance, 'entity_schema').model_dump()] *)
Definition ent_schema_dump (input_instance : Ref Data_entity.t) : Exc PyVal :=
  match input_instance with
  | RId _ => Raise (no_attribute "int" "entity_schema")
  | RUnid _ => Raise (no_attribute "str" "entity_schema")
  | RObj e =>
      match Data_entity.entity_schema e with
      | SfObj s => Ok (VDict (schema_attrs true s))
      | SfId _ => Raise (no_attribute "int" "model_dump")
      | SfUnid _ => Raise (no_attribute "str" "model_dump")
      | SfBody VNone => Raise (no_attribute "NoneType" "model_dump")
      | SfBody (VList _) => Raise (no_attribute "list" "model_dump")
      | SfBody _ => Raise (no_attribute "dict" "model_dump")
      end
  end.

(** [input_instance.system] *)
Definition ent_system (input_instance : Ref Data_entity.t)
  : Exc (Ref System.t) :=
  match input_instance with
  | RId _ => Raise (no_attribute "int" "system")
  | RUnid _ => Raise (no_attribute "str" "system")
  | RObj e => Ok (Data_entity.system e)
  end.

(** [getattr(input_instance.system, syskey)] *)
Definition sys_attr (input_instance : Ref Data_entity.t) (syskey : string)
  : Exc PyVal :=
  sys <- ent_system input_instance ;;
  match sys with
  | RId _ => Raise (no_attribute "int" syskey)
  | RUnid _ => Raise (no_attribute "str" syskey)
  | RObj s => getattr "System" (system_attrs false s) syskey
  end.

(** [input_instance.config] *)
Definition ent_config (input_instance : Ref Data_entity.t) : Exc Config :=
  match input_instance with
  | RId _ => Raise (no_attribute "int" "config")
  | RUnid _ => Raise (no_attribute "str" "config")
  | RObj e => Ok (Data_entity.config e)
  end.

(** [input_instance.system.config] *)
Definition ent_system_config (input_instance : Ref Data_entity.t)
  : Exc Config :=
  sys <- ent_system input_instance ;;
  match sys with
  | RId _ => Raise (no_attribute "int" "config")
  | RUnid _ => Raise (no_attribute "str" "config")
  | RObj s => Ok (System.config s)
  end.

(** The flat record of one entity.  [flatten_instance] spells this block out
    four times: for an element of a list-shaped input, for a single input,
    and the same for the output side. *)
Definition flatten_entity (input_instance : Ref Data_entity.t)
  : Exc (PyDict string PyVal) :=
  let current_ent : PyDict string PyVal := [] in
  current_ent <- put_keys "ent_" FLAT_ENT_KEYS
                   (fun entkey =>
                      if (entkey =? "entity_schema")%string
                      then ent_schema_dump input_instance
                      else ent_attr input_instance entkey)
                   current_ent ;;
  current_ent <- put_keys "sys_" FLAT_SYS_KEYS (sys_attr input_instance)
                   current_ent ;;
  cfg <- ent_config input_instance ;;
  let current_ent :=
    if config_truthy cfg
    then dict_update String.eqb current_ent (config_items cfg)
    else current_ent in
  sys_cfg <- ent_system_config input_instance ;;
  let current_ent :=
    if config_truthy sys_cfg
    then dict_update String.eqb current_ent (config_items sys_cfg)
    else current_ent in
  Ok current_ent.

Definition flatten_side (s : IOSide) : Exc PyVal :=
  match s with
  | Many l => recs <- mapM flatten_entity l ;; Ok (VList (map VDict recs))
  | One r => rec <- flatten_entity r ;; Ok (VDict rec)
  end.

Definition flatten_instance (pipeline : Pipeline.t) (instance_nr : Z)
    (objectify_output : bool) : Exc PyVal :=
  let pl := pipeline in
  let instance_conf : PyDict string PyVal := [] in
  instance_conf <- put_keys "pl_" FLAT_PL_KEYS
                     (getattr "Pipeline" (pipeline_attrs false pl))
                     instance_conf ;;
  let instance_conf :=
    if config_truthy (Pipeline.config pl)
    then dict_update String.eqb instance_conf (config_items (Pipeline.config pl))
    else instance_conf in
  instance <- py_index (Pipeline.input_output pl) instance_nr ;;
  i <- flatten_side (input instance) ;;
  let instance_conf := dict_set String.eqb instance_conf "i" i in
  o <- flatten_side (output instance) ;;
  let instance_conf := dict_set String.eqb instance_conf "o" o in
  if objectify_output
  then objectify_flat_instance instance_conf
  else Ok (VDict instance_conf).

(** [enumerate(l)]'s indices. *)
Definition indices {A : Type} (l : list A) : list Z :=
  map Z.of_nat (seq 0 (List.length l)).

(** [dag_config]: consumer-facing key -> list of flat instance records. *)
Definition DagConfig : Type := PyDict string (list PyVal).

(** [pl.unid[:pl.unid.rfind('.')]] *)
Definition pipeline_identifier_of (pl : Pipeline.t) : Exc string :=
  match Pipeline.unid pl with
  | Some unid => Ok (slice_to unid (rfind unid dot))
  | None => Raise (no_attribute "NoneType" "rfind")
  end.

Definition instance_list_of (pl : Pipeline.t) : Exc (list PyVal) :=
  mapM (fun i => flatten_instance pl i false)
       (indices (Pipeline.input_output pl)).

Definition dag_config_step (conf : DagConfig) (pl : Pipeline.t)
  : Exc DagConfig :=
  instance_list <- instance_list_of pl ;;
  pipeline_identifier <- pipeline_identifier_of pl ;;
  Ok (dict_set String.eqb conf pipeline_identifier instance_list).

Definition integrated_to_dag_config (integrated : list Pipeline.t)
  : Exc DagConfig :=
  let enabled_pipelines := filter Pipeline.enabled integrated in
  foldM dag_config_step enabled_pipelines [].

(* ================================================================== *)
(** ** build.py: objects, json and reference normalisation *)

(** The pydantic constructors of the five classes, each applied to the
    unpacked fields of one raw record: they check the presence and the types
    of the fields and raise when the record is malformed. *)
Record Pydantic : Type := mk_pydantic {
  make_namespace : PyVal -> Exc Namespace.t;
  make_schema : PyVal -> Exc Schema.t;
  make_system : PyVal -> Exc System.t;
  make_data_entity : PyVal -> Exc Data_entity.t;
  make_pipeline : PyVal -> Exc Pipeline.t
}.

Definition metadata_json_to_objects (models : Pydantic) (metadata_json : MdJson)
  : Exc MdObjects :=
  raw <- getitem_str metadata_json "namespaces" ;;
  nss <- mapM (make_namespace models) raw ;;
  raw <- getitem_str metadata_json "schemas" ;;
  schs <- mapM (make_schema models) raw ;;
  raw <- getitem_str metadata_json "systems" ;;
  syss <- mapM (make_system models) raw ;;
  raw <- getitem_str metadata_json "data_entities" ;;
  ents <- mapM (make_data_entity models) raw ;;
  raw <- getitem_str metadata_json "pipelines" ;;
  pls <- mapM (make_pipeline models) raw ;;
  Ok (mk_objects nss schs syss ents pls).

(** [if obj.unid: obj.unid = None]: an empty string is falsy and stays. *)
Definition clear_unid (u : option string) : option string :=
  match u with
  | Some "" => Some ""
  | _ => None
  end.

Definition metadata_objects_to_json (md_obj : MdObjects) : MdJson :=
  [("namespaces",
    map (fun o => VDict (namespace_attrs
                           (Namespace.set_unid o (clear_unid (Namespace.unid o)))))
        (namespaces md_obj));
   ("schemas",
    map (fun o => VDict (schema_attrs true
                           (Schema.set_unid o (clear_unid (Schema.unid o)))))
        (schemas md_obj));
   ("systems",
    map (fun o => VDict (system_attrs true
                           (System.set_unid o (clear_unid (System.unid o)))))
        (systems md_obj));
   ("data_entities",
    map (fun o => VDict (data_entity_attrs true
                           (Data_entity.set_unid o
                              (clear_unid (Data_entity.unid o)))))
        (data_entities md_obj));
   ("pipelines",
    map (fun o => VDict (pipeline_attrs true
                           (Pipeline.set_unid o (clear_unid (Pipeline.unid o)))))
        (pipelines md_obj))].

(** [ref = idx[ref].id] when [ref] is a [str]; anything else stays. *)
Definition unid_ref_to_id {A V : Type} (idx : PyDict (option string) V)
    (ident : V -> Z) (r : Ref A) : Exc (Ref A) :=
  match r with
  | RUnid u => o <- getitem_unid idx u ;; Ok (RId (ident o))
  | _ => Ok r
  end.

Definition schema_unid_refs_to_ids (metadata_unid_idx : UnidIdx)
    (schema : Schema.t) : Exc Schema.t :=
  n <- unid_ref_to_id (namespaces_unid_idx metadata_unid_idx) Namespace.id
         (Schema.namespace schema) ;;
  Ok (Schema.set_namespace schema n).

Definition system_unid_refs_to_ids (metadata_unid_idx : UnidIdx)
    (system : System.t) : Exc System.t :=
  n <- unid_ref_to_id (namespaces_unid_idx metadata_unid_idx) Namespace.id
         (System.namespace system) ;;
  Ok (System.set_namespace system n).

Definition data_entity_unid_refs_to_ids (metadata_unid_idx : UnidIdx)
    (data_entity : Data_entity.t) : Exc Data_entity.t :=
  n <- unid_ref_to_id (namespaces_unid_idx metadata_unid_idx) Namespace.id
         (Data_entity.namespace data_entity) ;;
  let data_entity := Data_entity.set_namespace data_entity n in
  s <- unid_ref_to_id (systems_unid_idx metadata_unid_idx) System.id
         (Data_entity.system data_entity) ;;
  let data_entity := Data_entity.set_system data_entity s in
  match Data_entity.entity_schema data_entity with
  | SfUnid u =>
      sch <- getitem_unid (schemas_unid_idx metadata_unid_idx) u ;;
      Ok (Data_entity.set_entity_schema data_entity (SfId (Schema.id sch)))
  | _ => Ok data_entity
  end.

Definition side_unid_refs_to_ids (metadata_unid_idx : UnidIdx) (s : IOSide)
  : Exc IOSide :=
  let conv := unid_ref_to_id (data_entities_unid_idx metadata_unid_idx)
                Data_entity.id in
  match s with
  | Many l => l' <- mapM conv l ;; Ok (Many l')
  | One r => r' <- conv r ;; Ok (One r')
  end.

Definition instance_unid_refs_to_ids (metadata_unid_idx : UnidIdx)
    (instance : Instance) : Exc Instance :=
  i <- side_unid_refs_to_ids metadata_unid_idx (input instance) ;;
  o <- side_unid_refs_to_ids metadata_unid_idx (output instance) ;;
  Ok (mk_instance i o).

Definition pipeline_unid_refs_to_ids (metadata_unid_idx : UnidIdx)
    (pipeline : Pipeline.t) : Exc Pipeline.t :=
  n <- unid_ref_to_id (namespaces_unid_idx metadata_unid_idx) Namespace.id
         (Pipeline.namespace pipeline) ;;
  let pipeline := Pipeline.set_namespace pipeline n in
  io <- mapM (instance_unid_refs_to_ids metadata_unid_idx)
          (Pipeline.input_output pipeline) ;;
  Ok (Pipeline.set_input_output pipeline io).

Definition unid_refs_to_ids (metadata_unid_idx : UnidIdx) (obj : Entity)
  : Exc Entity :=
  match obj with
  | ESchema s =>
      s' <- schema_unid_refs_to_ids metadata_unid_idx s ;; Ok (ESchema s')
  | ESystem s =>
      s' <- system_unid_refs_to_ids metadata_unid_idx s ;; Ok (ESystem s')
  | EData_entity e =>
      e' <- data_entity_unid_refs_to_ids metadata_unid_idx e ;;
      Ok (EData_entity e')
  | EPipeline p =>
      p' <- pipeline_unid_refs_to_ids metadata_unid_idx p ;; Ok (EPipeline p')
  | ENamespace n => Ok (ENamespace n)
  end.

Definition objects_from_unid_index (metadata_unid_idx : UnidIdx) : MdObjects :=
  {| namespaces := dict_values (namespaces_unid_idx metadata_unid_idx);
     schemas := dict_values (schemas_unid_idx metadata_unid_idx);
     systems := dict_values (systems_unid_idx metadata_unid_idx);
     data_entities := dict_values (data_entities_unid_idx metadata_unid_idx);
     pipelines := dict_values (pipelines_unid_idx metadata_unid_idx) |}.

Definition objects_from_id_index (metadata_id_idx : IdIdx) : MdObjects :=
  {| namespaces := dict_values (namespaces_idx metadata_id_idx);
     schemas := dict_values (schemas_idx metadata_id_idx);
     systems := dict_values (systems_idx metadata_id_idx);
     data_entities := dict_values (data_entities_idx metadata_id_idx);
     pipelines := dict_values (pipelines_idx metadata_id_idx) |}.

(* ================================================================== *)
(** ** validate.py: support functions *)

Definition id_exists (metadata_id_idx : IdIdx) (entity : string) (id : Z)
  : Exc bool :=
  if negb (str_in entity ENTITIES)
  then Raise (not_an_entity entity)
  else if (entity =? "namespaces")%string
  then Ok (dict_mem Z.eqb (namespaces_idx metadata_id_idx) id)
  else if (entity =? "schemas")%string
  then Ok (dict_mem Z.eqb (schemas_idx metadata_id_idx) id)
  else if (entity =? "systems")%string
  then Ok (dict_mem Z.eqb (systems_idx metadata_id_idx) id)
  else if (entity =? "data_entities")%string
  then Ok (dict_mem Z.eqb (data_entities_idx metadata_id_idx) id)
  else if (entity =? "pipelines")%string
  then Ok (dict_mem Z.eqb (pipelines_idx metadata_id_idx) id)
  else Raise (KeyError (entity ++ "_idx")).

Definition unid_exists (metadata_unid_idx : UnidIdx) (entity : string)
    (unid : string) : Exc bool :=
  if negb (str_in entity ENTITIES)
  then Raise (not_an_entity entity)
  else if (entity =? "namespaces")%string
  then Ok (dict_mem ounid_eqb (namespaces_unid_idx metadata_unid_idx) (Some unid))
  else if (entity =? "schemas")%string
  then Ok (dict_mem ounid_eqb (schemas_unid_idx metadata_unid_idx) (Some unid))
  else if (entity =? "systems")%string
  then Ok (dict_mem ounid_eqb (systems_unid_idx metadata_unid_idx) (Some unid))
  else if (entity =? "data_entities")%string
  then Ok (dict_mem ounid_eqb (data_entities_unid_idx metadata_unid_idx)
             (Some unid))
  else if (entity =? "pipelines")%string
  then Ok (dict_mem ounid_eqb (pipelines_unid_idx metadata_unid_idx) (Some unid))
  else Raise (KeyError (entity ++ "_unid_idx")).

(** [key.startswith('pl_') or key.startswith('ent_') or
    key.startswith('sys_')] *)
Definition reserved_key (key : string) : bool :=
  startswith key "pl_" || startswith key "ent_" || startswith key "sys_".

Definition config_of_entity (entity : Entity) : Exc Config :=
  match entity with
  | ESystem s => Ok (System.config s)
  | EData_entity e => Ok (Data_entity.config e)
  | EPipeline p => Ok (Pipeline.config p)
  | ENamespace _ => Raise (no_attribute "Namespace" "config")
  | ESchema _ => Raise (no_attribute "Schema" "config")
  end.

Definition config_keys_are_legal (entity : Entity) : Exc bool :=
  cfg <- config_of_entity entity ;;
  if negb (config_truthy cfg)
  then Ok true
  else Ok (negb (existsb reserved_key (dict_keys (config_items cfg)))).

(* ================================================================== *)
(** ** validate.py: validation of existing entities *)

(** The result of validating one entity: [{'valid': ..., 'errors': [...]}] *)
Record Report : Type := mk_report { valid : bool; errors : list string }.

Definition new_result : Report := {| valid := true; errors := [] |}.

(** [result['valid'] = False; result['errors'].append(msg)] *)
Definition add_error (result : Report) (msg : string) : Report :=
  {| valid := false; errors := (errors result ++ [msg])%list |}.

Definition add_error_unless (ok : bool) (result : Report) (msg : string)
  : Report :=
  if ok then result else add_error result msg.

(** [f'{value} is not a valid {what} for {kinds}.'], then
    [' Valid {plural} are:'], then [' {v},'] for every allowed value. *)
Definition enum_error (value what kinds plural : string)
    (allowed : list string) : string :=
  value ++ " is not a valid " ++ what ++ " for " ++ kinds ++ "."
  ++ " Valid " ++ plural ++ " are:"
  ++ String.concat "" (map (fun v => " " ++ v ++ ",") allowed).

Definition check_enum (value what kinds plural : string)
    (allowed : list string) (result : Report) : Report :=
  add_error_unless (str_in value allowed) result
    (enum_error value what kinds plural allowed).

(** The "referenced namespace exists" block of the schema, system and data
    entity validators. *)
Definition check_namespace (owner : string) (metadata_id_idx : IdIdx)
    (metadata_unid_idx : UnidIdx) (r : Ref Namespace.t) (result : Report)
  : Exc Report :=
  match r with
  | RId i =>
      b <- id_exists metadata_id_idx "namespaces" i ;;
      Ok (add_error_unless b result
            ("Referenced namespace id " ++ str_of_int i ++ " does not exist"))
  | RUnid u =>
      b <- unid_exists metadata_unid_idx "namespaces" u ;;
      Ok (add_error_unless b result
            ("Referenced namespace UNID " ++ u ++ " does not exist"))
  | RObj _ =>
      Raise (TypeError ("Cannot validate " ++ owner
                        ++ ".namespace if it is not a str or int"))
  end.

Definition validate_schema (schema : Schema.t) (metadata_id_idx : IdIdx)
    (metadata_unid_idx : UnidIdx) : Exc Report :=
  let result := new_result in
  result <- check_namespace "schema" metadata_id_idx metadata_unid_idx
              (Schema.namespace schema) result ;;
  let result := check_enum (Schema.type schema) "type" "schemas" "types"
                  SCHEMA_TYPES result in
  Ok result.

Definition validate_system (system : System.t) (metadata_obj : MdObjects)
    (metadata_id_idx : IdIdx) (metadata_unid_idx : UnidIdx) : Exc Report :=
  let result := new_result in
  result <- check_namespace "system" metadata_id_idx metadata_unid_idx
              (System.namespace system) result ;;
  let result := check_enum (System.type system) "type" "systems" "types"
                  SYSTEM_TYPES result in
  Ok result.

Definition validate_data_entity (data_entity : Data_entity.t)
    (metadata_obj : MdObjects) (metadata_id_idx : IdIdx)
    (metadata_unid_idx : UnidIdx) : Exc Report :=
  let result := new_result in
  result <- check_namespace "data_entity" metadata_id_idx metadata_unid_idx
              (Data_entity.namespace data_entity) result ;;
  result <-
    match Data_entity.system data_entity with
    | RId i =>
        b <- id_exists metadata_id_idx "systems" i ;;
        Ok (add_error_unless b result
              ("Referenced system id " ++ str_of_int i ++ " does not exist"))
    | RUnid u =>
        b <- unid_exists metadata_unid_idx "systems" u ;;
        Ok (add_error_unless b result
              ("Referenced system UNID " ++ u ++ " does not exist"))
    | RObj _ =>
        Raise (TypeError
                 "Cannot validate data_entity.system if it is not a str or int")
    end ;;
  result <-
    match Data_entity.entity_schema data_entity with
    | SfId i =>
        b <- id_exists metadata_id_idx "schemas" i ;;
        Ok (add_error_unless b result
              ("Referenced schema id " ++ str_of_int i ++ " does not exist"))
    | SfUnid u =>
        b <- unid_exists metadata_unid_idx "schemas" u ;;
        Ok (add_error_unless b result
              ("Referenced schema UNID " ++ u ++ " does not exist"))
    | _ =>
        Raise (TypeError
                 "Cannot validate data_entity.entity_schema if it is not a str or int")
    end ;;
  let result := check_enum (Data_entity.type data_entity) "type"
                  "data_entities" "types" DATA_ENTITY_ALLOWED_TYPES result in
  let result := check_enum (Data_entity.interface data_entity) "interface"
                  "data_entities" "interfaces" DATA_ENTITY_ALLOWED_INTERFACES
                  result in
  Ok result.

(** One referenced entity of an instance side; [side] is "Input" or "Output"
    and [side_lc] the same word in lower case. *)
Definition check_io_ref (side side_lc : string) (metadata_id_idx : IdIdx)
    (metadata_unid_idx : UnidIdx) (result : Report) (r : Ref Data_entity.t)
  : Exc Report :=
  match r with
  | RId i =>
      b <- id_exists metadata_id_idx "data_entities" i ;;
      Ok (add_error_unless b result
            (side ++ " entity " ++ str_of_int i ++ " does not exist."))
  | RUnid u =>
      b <- unid_exists metadata_unid_idx "data_entities" u ;;
      Ok (add_error_unless b result
            (side ++ " entity " ++ u ++ " does not exist."))
  | RObj _ =>
      Raise (TypeError ("Cannot validate " ++ side_lc
                        ++ " entity if it is not a str or int"))
  end.

Definition check_io_side (side side_lc : string) (metadata_id_idx : IdIdx)
    (metadata_unid_idx : UnidIdx) (result : Report) (s : IOSide)
  : Exc Report :=
  match s with
  | Many l =>
      foldM (check_io_ref side side_lc metadata_id_idx metadata_unid_idx) l
        result
  | One r => check_io_ref side side_lc metadata_id_idx metadata_unid_idx result r
  end.

Definition check_instance (metadata_id_idx : IdIdx)
    (metadata_unid_idx : UnidIdx) (result : Report) (instance : Instance)
  : Exc Report :=
  result <- check_io_side "Input" "input" metadata_id_idx metadata_unid_idx
              result (input instance) ;;
  check_io_side "Output" "output" metadata_id_idx metadata_unid_idx result
    (output instance).

Definition validate_pipeline (pipeline : Pipeline.t) (metadata_obj : MdObjects)
    (metadata_id_idx : IdIdx) (metadata_unid_idx : UnidIdx) : Exc Report :=
  let result := new_result in
  result <-
    match Pipeline.namespace pipeline with
    | RId i =>
        b <- id_exists metadata_id_idx "namespaces" i ;;
        Ok (add_error_unless b result
              ("Referenced namespace id " ++ str_of_int i ++ " does not exist"))
    | RUnid u =>
        b <- unid_exists metadata_unid_idx "namespaces" u ;;
        (* the message is formatted with [pl_unid], a name this function
           does not bind *)
        if b then Ok result
        else Raise (NameError "name 'pl_unid' is not defined")
    | RObj _ =>
        Raise (TypeError
                 "Cannot validate pipeline.namespace if it is not a str or int")
    end ;;
  result <- foldM (check_instance metadata_id_idx metadata_unid_idx)
              (Pipeline.input_output pipeline) result ;;
  let result := check_enum (Pipeline.type pipeline) "type" "pipelines" "types"
                  PIPELINE_ALLOWED_TYPES result in
  let result := check_enum (Pipeline.scope pipeline) "scope" "pipelines"
                  "types" PIPELINE_ALLOWED_SCOPES result in
  let result := check_enum (Pipeline.velocity pipeline) "velocity" "pipelines"
                  "types" PIPELINE_ALLOWED_VELOCITY result in
  Ok result.

(* ================================================================== *)
(** ** validate.py: additional validation of new or edited entities *)

Definition validate_new_namespace (namespace : Namespace.t)
    (metadata_id_idx : IdIdx) (metadata_unid_idx : UnidIdx) : Exc Report :=
  let result := new_result in
  taken <- unid_exists metadata_unid_idx "namespaces" (Namespace.name namespace) ;;
  let result :=
    add_error_unless (negb taken) result
      ("A namespace with name " ++ Namespace.name namespace
       ++ " exists already") in
  used <- id_exists metadata_id_idx "namespaces" (Namespace.id namespace) ;;
  let result :=
    add_error_unless (negb used) result
      ("A namespace with id " ++ str_of_int (Namespace.id namespace)
       ++ " exists already") in
  Ok result.

Definition validate_new_schema (schema : Schema.t) (metadata_id_idx : IdIdx)
    (metadata_unid_idx : UnidIdx) : Exc Report :=
  result <- validate_schema schema metadata_id_idx metadata_unid_idx ;;
  if negb (valid result)
  then Ok result
  else
    used <- id_exists metadata_id_idx "schemas" (Schema.id schema) ;;
    let result :=
      add_error_unless (negb used) result
        ("A schema with id " ++ str_of_int (Schema.id schema)
         ++ " exists already") in
    let schema_unid :=
      dotted (Schema.name schema) (str_of_int (Schema.version schema)) in
    taken <- unid_exists metadata_unid_idx "schemas" schema_unid ;;
    let result :=
      add_error_unless (negb taken) result
        ("A schema with UNID " ++ schema_unid ++ " exists already") in
    Ok result.

Definition with_systems (o : MdObjects) (l : list System.t) : MdObjects :=
  mk_objects (namespaces o) (schemas o) l (data_entities o) (pipelines o).
Definition with_data_entities (o : MdObjects) (l : list Data_entity.t)
  : MdObjects :=
  mk_objects (namespaces o) (schemas o) (systems o) l (pipelines o).
Definition with_pipelines (o : MdObjects) (l : list Pipeline.t) : MdObjects :=
  mk_objects (namespaces o) (schemas o) (systems o) (data_entities o) l.
Definition with_namespaces (o : MdObjects) (l : list Namespace.t) : MdObjects :=
  mk_objects l (schemas o) (systems o) (data_entities o) (pipelines o).
Definition with_schemas (o : MdObjects) (l : list Schema.t) : MdObjects :=
  mk_objects (namespaces o) l (systems o) (data_entities o) (pipelines o).

(** The compound key of a candidate system: the candidate, with its
    references turned into ids, is appended to a scratch copy of the objects,
    the id index of the copy is built and the key derived in it. *)
Definition scratch_system_unid (system : System.t) (metadata_obj : MdObjects)
    (metadata_unid_idx : UnidIdx) : Exc string :=
  tmp_sys <- system_unid_refs_to_ids metadata_unid_idx system ;;
  let tmp_obj :=
    with_systems metadata_obj (systems metadata_obj ++ [tmp_sys])%list in
  let tmp_id_idx := create_id_indexes tmp_obj in
  id_to_unid tmp_id_idx "systems" (System.id tmp_sys).

Definition validate_new_system (system : System.t) (metadata_obj : MdObjects)
    (metadata_id_idx : IdIdx) (metadata_unid_idx : UnidIdx) : Exc Report :=
  result <- validate_system system metadata_obj metadata_id_idx
              metadata_unid_idx ;;
  if negb (valid result)
  then Ok result
  else
    used <- id_exists metadata_id_idx "systems" (System.id system) ;;
    let result :=
      add_error_unless (negb used) result
        ("A system with id " ++ str_of_int (System.id system)
         ++ " exists already") in
    system_unid <- scratch_system_unid system metadata_obj metadata_unid_idx ;;
    taken <- unid_exists metadata_unid_idx "systems" system_unid ;;
    let result :=
      add_error_unless (negb taken) result
        ("A system with UNID " ++ system_unid ++ " exists already") in
    Ok result.

Definition scratch_data_entity_unid (data_entity : Data_entity.t)
    (metadata_obj : MdObjects) (metadata_unid_idx : UnidIdx) : Exc string :=
  tmp_ent <- data_entity_unid_refs_to_ids metadata_unid_idx data_entity ;;
  let tmp_obj :=
    with_data_entities metadata_obj
      (data_entities metadata_obj ++ [tmp_ent])%list in
  let tmp_id_idx := create_id_indexes tmp_obj in
  id_to_unid tmp_id_idx "data_entities" (Data_entity.id data_entity).

Definition validate_new_data_entity (data_entity : Data_entity.t)
    (metadata_obj : MdObjects) (metadata_id_idx : IdIdx)
    (metadata_unid_idx : UnidIdx) : Exc Report :=
  result <- validate_data_entity data_entity metadata_obj metadata_id_idx
              metadata_unid_idx ;;
  if negb (valid result)
  then Ok result
  else
    used <- id_exists metadata_id_idx "data_entities"
              (Data_entity.id data_entity) ;;
    let result :=
      add_error_unless (negb used) result
        ("A data_entity with id " ++ str_of_int (Data_entity.id data_entity)
         ++ " exists already") in
    data_entity_unid <- scratch_data_entity_unid data_entity metadata_obj
                          metadata_unid_idx ;;
    taken <- unid_exists metadata_unid_idx "data_entities" data_entity_unid ;;
    let result :=
      add_error_unless (negb taken) result
        ("A data_entity with UNID " ++ data_entity_unid ++ " exists already") in
    Ok result.

Definition scratch_pipeline_unid (pipeline : Pipeline.t)
    (metadata_obj : MdObjects) (metadata_unid_idx : UnidIdx) : Exc string :=
  tmp_pl <- pipeline_unid_refs_to_ids metadata_unid_idx pipeline ;;
  let tmp_obj :=
    with_pipelines metadata_obj (pipelines metadata_obj ++ [tmp_pl])%list in
  let tmp_id_idx := create_id_indexes tmp_obj in
  id_to_unid tmp_id_idx "pipelines" (Pipeline.id pipeline).

Definition validate_new_pipeline (pipeline : Pipeline.t)
    (metadata_obj : MdObjects) (metadata_id_idx : IdIdx)
    (metadata_unid_idx : UnidIdx) : Exc Report :=
  result <- validate_pipeline pipeline metadata_obj metadata_id_idx
              metadata_unid_idx ;;
  if negb (valid result)
  then Ok result
  else
    used <- id_exists metadata_id_idx "pipelines" (Pipeline.id pipeline) ;;
    let result :=
      add_error_unless (negb used) result
        ("A pipeline with id " ++ str_of_int (Pipeline.id pipeline)
         ++ " exists already") in
    pl_unid <- scratch_pipeline_unid pipeline metadata_obj metadata_unid_idx ;;
    taken <- unid_exists metadata_unid_idx "pipelines" pl_unid ;;
    let result :=
      add_error_unless (negb taken) result
        ("A pipeline with UNID " ++ pl_unid ++ " exists already") in
    Ok result.

(* ================================================================== *)
(** ** validate.py: dependency analysis *)

(** [a == b] on values: numbers by value ([True == 1]), datetimes by
    instant, lists element by element, dicts and model objects key by key
    whatever the order of the keys. *)
Fixpoint py_eq (a b : PyVal) {struct a} : bool :=
  match a, b with
  | VNone, VNone => true
  | VBool x, VBool y => Bool.eqb x y
  | VBool x, VInt y => (if x then 1 else 0) =? y
  | VInt x, VBool y => x =? (if y then 1 else 0)
  | VInt x, VInt y => x =? y
  | VStr x, VStr y => String.eqb x y
  | VTime x, VTime y => epoch x =? epoch y
  | VList x, VList y =>
      (fix list_eq (l1 l2 : list PyVal) {struct l1} : bool :=
         match l1, l2 with
         | [], [] => true
         | v1 :: l1', v2 :: l2' => py_eq v1 v2 && list_eq l1' l2'
         | _, _ => false
         end) x y
  | VDict x, VDict y =>
      (List.length x =? List.length y)%nat
      && (fix sub (d1 : list (string * PyVal)) {struct d1} : bool :=
            match d1 with
            | [] => true
            | (k, v1) :: d1' =>
                match dict_get String.eqb y k with
                | Some v2 => py_eq v1 v2
                | None => false
                end && sub d1'
            end) x
  | VObj c x, VObj d y =>
      String.eqb c d
      && (List.length x =? List.length y)%nat
      && (fix sub (d1 : list (string * PyVal)) {struct d1} : bool :=
            match d1 with
            | [] => true
            | (k, v1) :: d1' =>
                match dict_get String.eqb y k with
                | Some v2 => py_eq v1 v2
                | None => false
                end && sub d1'
            end) x
  | _, _ => false
  end.

Definition val_of_entity (e : Entity) : PyVal :=
  match e with
  | ENamespace n => VObj "Namespace" (namespace_attrs n)
  | ESchema s => VObj "Schema" (schema_attrs false s)
  | ESystem s => VObj "System" (system_attrs false s)
  | EData_entity d => VObj "Data_entity" (data_entity_attrs false d)
  | EPipeline p => VObj "Pipeline" (pipeline_attrs false p)
  end.

(** [x in l] for model objects. *)
Definition entity_in (x : Entity) (l : list Entity) : bool :=
  existsb (fun y => py_eq (val_of_entity x) (val_of_entity y)) l.

(** [{'has_dependants': ..., 'dependants': [...]}] *)
Record DepReport : Type := mk_dep_report {
  has_dependants : bool;
  dependants : list Entity
}.

Definition no_dependants : DepReport :=
  {| has_dependants := false; dependants := [] |}.

(** [result['has_dependants'] = True; result['dependants'].append(ent)] *)
Definition add_dependant (result : DepReport) (ent : Entity) : DepReport :=
  {| has_dependants := true; dependants := (dependants result ++ [ent])%list |}.

(** [for ent in ent_list: if <ent refers to the id>: <add ent>] *)
Definition scan_dependants {A : Type} (refers : A -> bool) (inj : A -> Entity)
    (ent_list : list A) (result : DepReport) : DepReport :=
  fold_left
    (fun result ent => if refers ent then add_dependant result (inj ent)
                       else result)
    ent_list result.

(** The loop over [metadata_obj.items()] skips the key ['namespaces'] and
    visits the other four collections in the order of the keys. *)
Definition get_namespace_dependants (namespace : Namespace.t)
    (metadata_obj : MdObjects) : DepReport :=
  let id := Namespace.id namespace in
  let result := no_dependants in
  let result :=
    scan_dependants (fun ent => ref_eq_id (Schema.namespace ent) id) ESchema
      (schemas metadata_obj) result in
  let result :=
    scan_dependants (fun ent => ref_eq_id (System.namespace ent) id) ESystem
      (systems metadata_obj) result in
  let result :=
    scan_dependants (fun ent => ref_eq_id (Data_entity.namespace ent) id)
      EData_entity (data_entities metadata_obj) result in
  let result :=
    scan_dependants (fun ent => ref_eq_id (Pipeline.namespace ent) id)
      EPipeline (pipelines metadata_obj) result in
  result.

Definition get_schema_dependants (schema : Schema.t) (metadata_obj : MdObjects)
  : DepReport :=
  scan_dependants
    (fun ent => schemafield_eq_id (Data_entity.entity_schema ent)
                  (Schema.id schema))
    EData_entity (data_entities metadata_obj) no_dependants.

Definition get_system_dependants (system : System.t) (metadata_obj : MdObjects)
  : DepReport :=
  scan_dependants
    (fun ent => ref_eq_id (Data_entity.system ent) (System.id system))
    EData_entity (data_entities metadata_obj) no_dependants.

(** One side of an instance: the pipeline is appended once for every
    reference that equals the id. *)
Definition scan_side (id : Z) (pl : Pipeline.t) (s : IOSide)
    (result : DepReport) : DepReport :=
  match s with
  | Many l =>
      fold_left
        (fun result inent =>
           if ref_eq_id inent id then add_dependant result (EPipeline pl)
           else result)
        l result
  | One r =>
      if ref_eq_id r id then add_dependant result (EPipeline pl) else result
  end.

Definition get_data_entity_dependants (data_entity : Data_entity.t)
    (metadata_obj : MdObjects) : DepReport :=
  let id := Data_entity.id data_entity in
  fold_left
    (fun result pl =>
       if entity_in (EPipeline pl) (dependants result)
       then result
       else
         fold_left
           (fun result instance =>
              let result := scan_side id pl (input instance) result in
              scan_side id pl (output instance) result)
           (Pipeline.input_output pl) result)
    (pipelines metadata_obj) no_dependants.

Definition get_entity_dependants (entity : Entity) (metadata_obj : MdObjects)
  : Exc DepReport :=
  match entity with
  | ENamespace n => Ok (get_namespace_dependants n metadata_obj)
  | ESchema s => Ok (get_schema_dependants s metadata_obj)
  | ESystem s => Ok (get_system_dependants s metadata_obj)
  | EData_entity e => Ok (get_data_entity_dependants e metadata_obj)
  | EPipeline _ =>
      Raise (TypeError
               "get_entity_dependants cannot proces object of type Pipeline")
  end.

(* ================================================================== *)
(** ** view.py *)

(** The objects of the readable view hold a [unid] ([str | None]) in every
    reference field, so they are kept as attribute lists. *)
Definition ViewObjects : Type := PyDict string (list PyVal).

Section AllIdsToUnids.
Variable metadata_id_idx : IdIdx.

Definition ns_unid_of (r : Ref Namespace.t) : Exc PyVal :=
    ns <- getitem_id (namespaces_idx metadata_id_idx)
            (key_of_ref "Namespace" r) ;;
    Ok (val_of_ostr (Namespace.unid ns)).

Definition ent_unid_of (r : Ref Data_entity.t) : Exc PyVal :=
    ent <- getitem_id (data_entities_idx metadata_id_idx)
             (key_of_ref "Data_entity" r) ;;
    Ok (val_of_ostr (Data_entity.unid ent)).

Definition view_schema (sch : Schema.t) : Exc PyVal :=
    n <- ns_unid_of (Schema.namespace sch) ;;
    Ok (VObj "Schema"
          (dict_set String.eqb (schema_attrs false sch) "namespace" n)).

Definition view_system (sys : System.t) : Exc PyVal :=
    n <- ns_unid_of (System.namespace sys) ;;
    Ok (VObj "System"
          (dict_set String.eqb (system_attrs false sys) "namespace" n)).

Definition view_data_entity (ent : Data_entity.t) : Exc PyVal :=
    n <- ns_unid_of (Data_entity.namespace ent) ;;
    sys <- getitem_id (systems_idx metadata_id_idx)
             (key_of_ref "System" (Data_entity.system ent)) ;;
    sch <- getitem_id (schemas_idx metadata_id_idx)
             (key_of_schemafield (Data_entity.entity_schema ent)) ;;
    let attrs := data_entity_attrs false ent in
    let attrs := dict_set String.eqb attrs "namespace" n in
    let attrs :=
      dict_set String.eqb attrs "system" (val_of_ostr (System.unid sys)) in
    let attrs :=
      dict_set String.eqb attrs "entity_schema"
        (val_of_ostr (Schema.unid sch)) in
    Ok (VObj "Data_entity" attrs).

Definition view_side (s : IOSide) : Exc PyVal :=
    match s with
    | Many l => l' <- mapM ent_unid_of l ;; Ok (VList l')
    | One r => ent_unid_of r
    end.

Definition view_instance (instance : Instance) : Exc PyVal :=
    i <- view_side (input instance) ;;
    o <- view_side (output instance) ;;
    Ok (VDict [("input", i); ("output", o)]).

Definition view_pipeline (pl : Pipeline.t) : Exc PyVal :=
    n <- ns_unid_of (Pipeline.namespace pl) ;;
    io <- mapM view_instance (Pipeline.input_output pl) ;;
    let attrs := pipeline_attrs false pl in
    let attrs := dict_set String.eqb attrs "namespace" n in
    let attrs := dict_set String.eqb attrs "input_output" (VList io) in
    Ok (VObj "Pipeline" attrs).

Definition all_ids_to_unids : Exc ViewObjects :=
    let nss := map (fun ns => VObj "Namespace" (namespace_attrs ns))
                 (dict_values (namespaces_idx metadata_id_idx)) in
    schs <- mapM view_schema (dict_values (schemas_idx metadata_id_idx)) ;;
    syss <- mapM view_system (dict_values (systems_idx metadata_id_idx)) ;;
    ents <- mapM view_data_entity
              (dict_values (data_entities_idx metadata_id_idx)) ;;
    pls <- mapM view_pipeline (dict_values (pipelines_idx metadata_id_idx)) ;;
    Ok [("namespaces", nss); ("schemas", schs); ("systems", syss);
        ("data_entities", ents); ("pipelines", pls)].
End AllIdsToUnids.

(** [obj.model_dump()] on a value: model objects become dicts, at any depth. *)
Fixpoint dump_val (v : PyVal) : PyVal :=
  match v with
  | VList l => VList (map dump_val l)
  | VDict d => VDict (map (fun kv => let '(k, x) := kv in (k, dump_val x)) d)
  | VObj _ d => VDict (map (fun kv => let '(k, x) := kv in (k, dump_val x)) d)
  | _ => v
  end.

Definition metadata_obj_to_records (metadata_obj : ViewObjects) : ViewObjects :=
  fold_left
    (fun md_records kv =>
       dict_set String.eqb md_records (fst kv) (map dump_val (snd kv)))
    metadata_obj [].

(** A [DataFrame] is kept as the records it is made from. *)
Definition metadata_records_to_dataframes (metadata_records : ViewObjects)
  : ViewObjects :=
  fold_left
    (fun md_df kv => dict_set String.eqb md_df (fst kv) (snd kv))
    metadata_records [].

(* ================================================================== *)
(** ** The world outside: clock and console *)

Record World : Type := mk_world {
  ticks : nat;               (** how often the clock has been read *)
  clock : nat -> Z;          (** what the clock shows at each reading *)
  stdin : list string;       (** the lines the user is going to type *)
  stdout : list string       (** what has been printed *)
}.

(** [pendulum.now(tz=...)] *)
Definition pendulum_now (zone : string) : SE World datetime :=
  fun w =>
    (mk_world (S (ticks w)) (clock w) (stdin w) (stdout w),
     Ok (mk_datetime (clock w (ticks w)) zone)).

(** [print(line)]; [print()] prints the empty line. *)
Definition print (line : string) : SE World unit :=
  fun w => (mk_world (ticks w) (clock w) (stdin w) (stdout w ++ [line])%list,
            Ok tt).

(** [input(prompt)] *)
Definition input_line (prompt : string) : SE World string :=
  fun w =>
    match stdin w with
    | [] =>
        (mk_world (ticks w) (clock w) [] (stdout w ++ [prompt])%list,
         Raise EOFError)
    | line :: rest =>
        (mk_world (ticks w) (clock w) rest (stdout w ++ [prompt])%list,
         Ok line)
    end.

Definition lower_ascii (c : ascii) : ascii :=
  let n := nat_of_ascii c in
  if ((65 <=? n) && (n <=? 90))%nat then ascii_of_nat (n + 32) else c.

(** [s.lower()] *)
Fixpoint lower (s : string) : string :=
  match s with
  | EmptyString => EmptyString
  | String c s' => String (lower_ascii c) (lower s')
  end.

(* ================================================================== *)
(** ** manage.py: MetadataStructure *)

(** The report of a whole-graph validation. *)
Module StructReport.
Record t : Type := mk {
    valid : bool;
    last_validated : datetime;
    schemas : list Report;
    systems : list Report;
    data_entities : list Report;
    pipelines : list Report
  }.
End StructReport.

(** [result['valid']] of a per-entity result. *)
Definition result_valid (result : Report) : bool := valid result.

Module MetadataStructure.
Record t : Type := mk {
    md_json : MdJson;
    md_objects : MdObjects;
    md_obj_with_unids : MdObjects;
    by_id : IdIdx;
    by_unid : UnidIdx;
    integrated : list Pipeline.t;
    dag_config : DagConfig;
    view : ViewObjects;
    valid : bool;
    report : option StructReport.t
  }.

Definition set_md_json (s : t) (x : MdJson) : t :=
    mk x (md_objects s) (md_obj_with_unids s) (by_id s) (by_unid s)
       (integrated s) (dag_config s) (view s) (valid s) (report s).
Definition set_md_objects (s : t) (x : MdObjects) : t :=
    mk (md_json s) x (md_obj_with_unids s) (by_id s) (by_unid s)
       (integrated s) (dag_config s) (view s) (valid s) (report s).
Definition set_md_obj_with_unids (s : t) (x : MdObjects) : t :=
    mk (md_json s) (md_objects s) x (by_id s) (by_unid s) (integrated s)
       (dag_config s) (view s) (valid s) (report s).
Definition set_by_id (s : t) (x : IdIdx) : t :=
    mk (md_json s) (md_objects s) (md_obj_with_unids s) x (by_unid s)
       (integrated s) (dag_config s) (view s) (valid s) (report s).
Definition set_by_unid (s : t) (x : UnidIdx) : t :=
    mk (md_json s) (md_objects s) (md_obj_with_unids s) (by_id s) x
       (integrated s) (dag_config s) (view s) (valid s) (report s).
Definition set_integrated (s : t) (x : list Pipeline.t) : t :=
    mk (md_json s) (md_objects s) (md_obj_with_unids s) (by_id s) (by_unid s)
       x (dag_config s) (view s) (valid s) (report s).
Definition set_dag_config (s : t) (x : DagConfig) : t :=
    mk (md_json s) (md_objects s) (md_obj_with_unids s) (by_id s) (by_unid s)
       (integrated s) x (view s) (valid s) (report s).
Definition set_view (s : t) (x : ViewObjects) : t :=
    mk (md_json s) (md_objects s) (md_obj_with_unids s) (by_id s) (by_unid s)
       (integrated s) (dag_config s) x (valid s) (report s).
Definition set_validation (s : t) (v : bool) (r : StructReport.t) : t :=
    mk (md_json s) (md_objects s) (md_obj_with_unids s) (by_id s) (by_unid s)
       (integrated s) (dag_config s) (view s) v (Some r).

  (** A method runs on [self] and on the world. *)
Definition Method (A : Type) : Type := SE (t * World) A.

Definition self : Method t := fun st => (st, Ok (fst st)).
Definition assign (f : t -> t) : Method unit :=
    fun st => ((f (fst st), snd st), Ok tt).
Definition world {A : Type} (m : SE World A) : Method A :=
    fun st => let '(w, r) := m (snd st) in ((fst st, w), r).

  (** [for x in l: result = f(x); if not result['valid']: report['valid'] =
      False; report[...].append(result)] *)
Definition validate_each {A : Type} (f : A -> Exc Report) (l : list A)
      (ok : bool) : Exc (bool * list Report) :=
    foldM (fun acc x =>
             result <- f x ;;
             Ok (if negb (result_valid result) then false else fst acc,
                 (snd acc ++ [result])%list))
          l (ok, []).

Definition validate : Method StructReport.t :=
    now <~ world (pendulum_now "UTC") ;;
    s <~ self ;;
    '(ok, schs) <~ lift (validate_each
                           (fun schema => validate_schema schema (by_id s)
                                            (by_unid s))
                           (schemas (md_objects s)) true) ;;
    '(ok, syss) <~ lift (validate_each
                           (fun system => validate_system system (md_objects s)
                                            (by_id s) (by_unid s))
                           (systems (md_objects s)) ok) ;;
    '(ok, ents) <~ lift (validate_each
                           (fun data_entity =>
                              validate_data_entity data_entity (md_objects s)
                                (by_id s) (by_unid s))
                           (data_entities (md_objects s)) ok) ;;
    '(ok, pls) <~ lift (validate_each
                          (fun pipeline =>
                             validate_pipeline pipeline (md_objects s)
                               (by_id s) (by_unid s))
                          (pipelines (md_objects s)) ok) ;;
    let report := StructReport.mk ok now schs syss ents pls in
    assign (fun s => set_validation s ok report) ;;;
    sret report.

  (** The steps [build_from_json] and [build_from_objects] share, from the
      id index on; [with_dag_config] is true in [build_from_json] only. *)
Definition rebuild (with_dag_config : bool) : Method unit :=
    assign (fun s => set_by_id s (create_id_indexes (md_objects s))) ;;;
    unids <~ (fun st =>
                let '(idx, r) := generate_unids (by_id (fst st)) in
                ((set_by_id (fst st) idx, snd st), r)) ;;
    assign (fun s => set_md_obj_with_unids s unids) ;;;
    assign (fun s => set_by_unid s (create_unid_indexes (md_obj_with_unids s))) ;;;
    s <~ self ;;
    pls <~ lift (integrate_pipelines (by_id s) true false) ;;
    assign (fun s => set_integrated s pls) ;;;
    (if with_dag_config
     then
       conf <~ lift (integrated_to_dag_config pls) ;;
       assign (fun s => set_dag_config s conf)
     else sret tt) ;;;
    s <~ self ;;
    unidseverywhere <~ lift (all_ids_to_unids (by_id s)) ;;
    let records := metadata_obj_to_records unidseverywhere in
    assign (fun s => set_view s (metadata_records_to_dataframes records)) ;;;
    _ <~ validate ;;
    sret tt.

Definition build_from_objects : Method unit :=
    assign (fun s => set_md_json s (metadata_objects_to_json (md_objects s))) ;;;
    rebuild false.

Definition build_from_json (models : Pydantic) : Method unit :=
    s <~ self ;;
    objs <~ lift (metadata_json_to_objects models (md_json s)) ;;
    assign (fun s => set_md_objects s objs) ;;;
    rebuild true.

  (** The attributes of an instance whose [__init__] has only stored
      [md_json]: the class defaults ([valid = False], [report = None]; the
      other defaults are [None] and are assigned before they are read). *)
Definition fresh (md_json : MdJson) : t :=
    mk md_json (mk_objects [] [] [] [] []) (mk_objects [] [] [] [] [])
       (mk_id_idx [] [] [] [] []) (mk_unid_idx [] [] [] [] []) [] [] []
       false None.

  (** [MetadataStructure(md_json)]: the object exists only if the build
      does not raise. *)
Definition init (models : Pydantic) (md_json : MdJson) : SE World t :=
    fun w =>
      match build_from_json models (fresh md_json, w) with
      | ((s, w'), Ok _) => (w', Ok s)
      | ((_, w'), Raise e) => (w', Raise e)
      end.
End MetadataStructure.

(* ================================================================== *)
(** ** manage.py: MetadataManager *)

Record MetadataLocation : Type := mk_location {
  storage_type : string;
  address : PyVal;
  entities_to_load : option (list string);
  is_git_repo : bool
}.

(** What a manager method hands back to its caller. *)
Inductive Ret : Type :=
| RetTrue
| RetFalse
| RetNone
| RetReport (result : Report)
| RetDependants (dep_report : DepReport).

(** [list.sort(key=lambda x: x.id)]: a stable sort. *)
Fixpoint insert_by_id {A : Type} (key : A -> Z) (x : A) (l : list A) : list A :=
  match l with
  | [] => [x]
  | y :: l' => if key x <=? key y then x :: l else y :: insert_by_id key x l'
  end.

Definition sort_by_id {A : Type} (key : A -> Z) (l : list A) : list A :=
  fold_right (insert_by_id key) [] l.

(** [md_objects[<type of entity>].append(entity)] and the sort by id. *)
Definition append_sorted (objs : MdObjects) (entity : Entity) : MdObjects :=
  match entity with
  | ENamespace n =>
      with_namespaces objs
        (sort_by_id Namespace.id (namespaces objs ++ [n])%list)
  | ESchema s =>
      with_schemas objs (sort_by_id Schema.id (schemas objs ++ [s])%list)
  | ESystem s =>
      with_systems objs (sort_by_id System.id (systems objs ++ [s])%list)
  | EData_entity e =>
      with_data_entities objs
        (sort_by_id Data_entity.id (data_entities objs ++ [e])%list)
  | EPipeline p =>
      with_pipelines objs (sort_by_id Pipeline.id (pipelines objs ++ [p])%list)
  end.

Definition entity_id (entity : Entity) : Z :=
  match entity with
  | ENamespace n => Namespace.id n
  | ESchema s => Schema.id s
  | ESystem s => System.id s
  | EData_entity e => Data_entity.id e
  | EPipeline p => Pipeline.id p
  end.

Definition entity_class (entity : Entity) : string :=
  match entity with
  | ENamespace _ => "Namespace"
  | ESchema _ => "Schema"
  | ESystem _ => "System"
  | EData_entity _ => "Data_entity"
  | EPipeline _ => "Pipeline"
  end.

(** [entity.modified = m; entity.unid = None] *)
Definition stamp_entity (entity : Entity) (m : datetime) : Entity :=
  match entity with
  | ENamespace n =>
      ENamespace (Namespace.set_unid (Namespace.set_modified n m) None)
  | ESchema s => ESchema (Schema.set_unid (Schema.set_modified s m) None)
  | ESystem s => ESystem (System.set_unid (System.set_modified s m) None)
  | EData_entity e =>
      EData_entity (Data_entity.set_unid (Data_entity.set_modified e m) None)
  | EPipeline p => EPipeline (Pipeline.set_unid (Pipeline.set_modified p m) None)
  end.

(** [entity.id in by_id[<idx of the entity's type>].keys()] *)
Definition id_in_index (idx : IdIdx) (entity : Entity) : bool :=
  match entity with
  | ENamespace n => dict_mem Z.eqb (namespaces_idx idx) (Namespace.id n)
  | ESchema s => dict_mem Z.eqb (schemas_idx idx) (Schema.id s)
  | ESystem s => dict_mem Z.eqb (systems_idx idx) (System.id s)
  | EData_entity e => dict_mem Z.eqb (data_entities_idx idx) (Data_entity.id e)
  | EPipeline p => dict_mem Z.eqb (pipelines_idx idx) (Pipeline.id p)
  end.

(** [by_id[<idx of the entity's type>][entity.id] = entity] *)
Definition put_in_index (idx : IdIdx) (entity : Entity) : IdIdx :=
  match entity with
  | ENamespace n =>
      set_namespaces_idx idx
        (dict_set Z.eqb (namespaces_idx idx) (Namespace.id n) n)
  | ESchema s =>
      set_schemas_idx idx (dict_set Z.eqb (schemas_idx idx) (Schema.id s) s)
  | ESystem s =>
      set_systems_idx idx (dict_set Z.eqb (systems_idx idx) (System.id s) s)
  | EData_entity e =>
      set_data_entities_idx idx
        (dict_set Z.eqb (data_entities_idx idx) (Data_entity.id e) e)
  | EPipeline p =>
      set_pipelines_idx idx
        (dict_set Z.eqb (pipelines_idx idx) (Pipeline.id p) p)
  end.

(** [by_unid[f'{entity_type}_unid_idx'].get(unid)], raising [KeyError] when
    there is no index of that name. *)
Definition unid_index_get (idx : UnidIdx) (entity_type : string) (unid : string)
  : Exc (option Entity) :=
  let k := Some unid in
  if (entity_type =? "namespaces")%string
  then Ok (option_map ENamespace (dict_get ounid_eqb (namespaces_unid_idx idx) k))
  else if (entity_type =? "schemas")%string
  then Ok (option_map ESchema (dict_get ounid_eqb (schemas_unid_idx idx) k))
  else if (entity_type =? "systems")%string
  then Ok (option_map ESystem (dict_get ounid_eqb (systems_unid_idx idx) k))
  else if (entity_type =? "data_entities")%string
  then Ok (option_map EData_entity
             (dict_get ounid_eqb (data_entities_unid_idx idx) k))
  else if (entity_type =? "pipelines")%string
  then Ok (option_map EPipeline (dict_get ounid_eqb (pipelines_unid_idx idx) k))
  else Raise (KeyError (entity_type ++ "_unid_idx")).

(** [del by_unid[f'{entity_type}_unid_idx'][unid]] for a key that is there. *)
Definition unid_index_del (idx : UnidIdx) (entity_type : string) (unid : string)
  : UnidIdx :=
  let k := Some unid in
  if (entity_type =? "namespaces")%string
  then mk_unid_idx (dict_del ounid_eqb (namespaces_unid_idx idx) k)
         (schemas_unid_idx idx) (systems_unid_idx idx)
         (data_entities_unid_idx idx) (pipelines_unid_idx idx)
  else if (entity_type =? "schemas")%string
  then mk_unid_idx (namespaces_unid_idx idx)
         (dict_del ounid_eqb (schemas_unid_idx idx) k) (systems_unid_idx idx)
         (data_entities_unid_idx idx) (pipelines_unid_idx idx)
  else if (entity_type =? "systems")%string
  then mk_unid_idx (namespaces_unid_idx idx) (schemas_unid_idx idx)
         (dict_del ounid_eqb (systems_unid_idx idx) k)
         (data_entities_unid_idx idx) (pipelines_unid_idx idx)
  else if (entity_type =? "data_entities")%string
  then mk_unid_idx (namespaces_unid_idx idx) (schemas_unid_idx idx)
         (systems_unid_idx idx)
         (dict_del ounid_eqb (data_entities_unid_idx idx) k)
         (pipelines_unid_idx idx)
  else if (entity_type =? "pipelines")%string
  then mk_unid_idx (namespaces_unid_idx idx) (schemas_unid_idx idx)
         (systems_unid_idx idx) (data_entities_unid_idx idx)
         (dict_del ounid_eqb (pipelines_unid_idx idx) k)
  else idx.

(** The [if isinstance(entity, ...)] chain that picks the validator of a new
    entity and runs it against the workspace. *)
Definition validate_new_entity (entity : Entity) (ws : MetadataStructure.t)
  : Exc Report :=
  let md_objects := MetadataStructure.md_objects ws in
  let by_id := MetadataStructure.by_id ws in
  let by_unid := MetadataStructure.by_unid ws in
  match entity with
  | ENamespace n => validate_new_namespace n by_id by_unid
  | ESchema s => validate_new_schema s by_id by_unid
  | ESystem s => validate_new_system s md_objects by_id by_unid
  | EData_entity e => validate_new_data_entity e md_objects by_id by_unid
  | EPipeline p => validate_new_pipeline p md_objects by_id by_unid
  end.

Module MetadataManager.
Record t : Type := mk {
    store : MetadataLocation;
    stash : MetadataLocation;
    current : option MetadataStructure.t;
    workspace : option MetadataStructure.t;
    cache : option MetadataStructure.t
  }.

Definition set_workspace (mm : t) (x : option MetadataStructure.t) : t :=
    mk (store mm) (stash mm) (current mm) x (cache mm).
Definition set_cache (mm : t) (x : option MetadataStructure.t) : t :=
    mk (store mm) (stash mm) (current mm) (workspace mm) x.

Definition Method (A : Type) : Type := SE (t * World) A.

Definition self : Method t := fun st => (st, Ok (fst st)).
Definition assign (f : t -> t) : Method unit :=
    fun st => ((f (fst st), snd st), Ok tt).
Definition world {A : Type} (m : SE World A) : Method A :=
    fun st => let '(w, r) := m (snd st) in ((fst st, w), r).

  (** [self.workspace.<attr>]: the workspace, which must not be [None]. *)
Definition workspace_for (attr : string) : Method MetadataStructure.t :=
    fun st =>
      match workspace (fst st) with
      | Some ws => (st, Ok ws)
      | None => (st, Raise (no_attribute "NoneType" attr))
      end.

  (** [self.cache.<attr>] *)
Definition cache_for (attr : string) : Method MetadataStructure.t :=
    fun st =>
      match cache (fst st) with
      | Some c => (st, Ok c)
      | None => (st, Raise (no_attribute "NoneType" attr))
      end.

  (** Run a method of [MetadataStructure] on [self.cache]. *)
Definition on_cache {A : Type} (attr : string)
      (m : MetadataStructure.Method A) : Method A :=
    fun st =>
      match cache (fst st) with
      | Some c =>
          let '((c', w'), r) := m (c, snd st) in
          ((set_cache (fst st) (Some c'), w'), r)
      | None => (st, Raise (no_attribute "NoneType" attr))
      end.

Definition say (line : string) : Method unit := world (print line).

Definition ask_add : string :=
    "Do you want to add your entity to Workspace? (y/n): ".

Definition is_y_or_n (choice : string) : bool :=
    (lower choice =? "y")%string || (lower choice =? "n")%string.

  (** [while choice.lower() != 'y' and choice.lower() != 'n': ...]; every
      turn reads one line, so the lines still to come bound the loop, and
      [input] raises when there are none left. *)
Fixpoint ask_again (pending : list string) (choice : string)
    : SE World string :=
    if is_y_or_n choice
    then sret choice
    else
      print "" ;;;
      print (choice ++ " is not a valid option. Enter y or n.") ;;;
      print "" ;;;
      choice' <~ input_line ask_add ;;
      match pending with
      | [] => sret choice'
      | _ :: pending' => ask_again pending' choice'
      end.

Definition ask_choice : SE World string :=
    choice <~ input_line ask_add ;;
    fun w => ask_again (stdin w) choice w.

  (** The workspace attribute the validator call of a new entity reads
      first. *)
Definition first_attr (entity : Entity) : string :=
    match entity with
    | ENamespace _ | ESchema _ => "by_id"
    | _ => "md_objects"
    end.

Definition say_save_hint : Method unit :=
    say "If you're happy with the state of workspace..." ;;;
    say "don't forget to save to storage by calling: " ;;;
    say "mm.stash_workspace()" ;;;
    say "or mm.store_workspace()".

  (** [self.workspace = deepcopy(self.cache); self.cache = None] *)
Definition commit_cache : Method unit :=
    assign (fun mm => set_cache (set_workspace mm (cache mm)) None).

  (** [self.cache.build_from_objects()] *)
Definition rebuild_cache : Method unit :=
    on_cache "build_from_objects" MetadataStructure.build_from_objects.

  (** The question put to the user once the new entity has passed. *)
Definition confirm_add : Method string :=
    say "Your new metadata entity is valid." ;;;
    say "" ;;;
    world ask_choice.

  (** "Take steps to add object to Workspace", up to and including the
      rebuild of the cache. *)
Definition stage_add (ws : MetadataStructure.t) (entity : Entity)
    : Method unit :=
    entity <~ lift (unid_refs_to_ids (MetadataStructure.by_unid ws) entity) ;;
    assign (fun mm => set_cache mm (workspace mm)) ;;;
    c <~ cache_for "md_objects" ;;
    assign (fun mm =>
              set_cache mm
                (Some (MetadataStructure.set_md_objects c
                         (append_sorted (MetadataStructure.md_objects c)
                            entity)))) ;;;
    rebuild_cache.

Definition add_new_entity (entity : Entity) : Method Ret :=
    ws <~ workspace_for (first_attr entity) ;;
    result <~ lift (validate_new_entity entity ws) ;;
    if negb (valid result)
    then
      say "ERROR! Adding this object leads to invalid metadata." ;;;
      say "" ;;;
      say "The following errors were found in validation:" ;;;
      say "" ;;;
      sfor (errors result) (fun error => say error ;;; say "") ;;;
      sret (RetReport result)
    else
      choice <~ confirm_add ;;
      if (lower choice =? "n")%string
      then say "Aborting" ;;; sret RetFalse
      else if (lower choice =? "y")%string
      then
        stage_add ws entity ;;;
        c <~ cache_for "valid" ;;
        if MetadataStructure.valid c
        then
          say "Your new entity is added to cache." ;;;
          say "Cache is still a valid structure" ;;;
          say "Copying cache to Workspace and deleting cache" ;;;
          commit_cache ;;;
          say_save_hint ;;;
          sret RetTrue
        else
          say "Adding your new object made cache an invalid structure." ;;;
          say "Aborting" ;;;
          say "Inspect mm.cache.report to find out what is wrong." ;;;
          sret RetFalse
      else sret RetNone.

Definition get_entity_by_unid (entity_type unid : string) : Method Entity :=
    if negb (str_in entity_type ENTITIES)
    then sraise (ValueError (entity_type ++ " is not a valid entity type."))
    else
      ws <~ workspace_for "by_unid" ;;
      found <~ lift (unid_index_get (MetadataStructure.by_unid ws) entity_type
                       unid) ;;
      match found with
      | None =>
          sraise (ValueError ("There are no " ++ entity_type ++ " with unid "
                              ++ unid))
      | Some entity => sret entity
      end.

  (** [update_entity] up to and including the rebuild of the cache. *)
Definition stage_update (entity : Entity) : Method unit :=
    assign (fun mm => set_cache mm (workspace mm)) ;;;
    ws <~ workspace_for "by_unid" ;;
    entity <~ lift (unid_refs_to_ids (MetadataStructure.by_unid ws) entity) ;;
    now <~ world (pendulum_now "Europe/Amsterdam") ;;
    let entity := stamp_entity entity now in
    c <~ cache_for "by_id" ;;
    if negb (id_in_index (MetadataStructure.by_id c) entity)
    then
      sraise (ValueError (entity_class entity ++ " with id "
                          ++ str_of_int (entity_id entity)
                          ++ " not found in indexes"))
    else
      let c :=
        MetadataStructure.set_by_id c
          (put_in_index (MetadataStructure.by_id c) entity) in
      let c :=
        MetadataStructure.set_md_objects c
          (objects_from_id_index (MetadataStructure.by_id c)) in
      assign (fun mm => set_cache mm (Some c)) ;;;
      rebuild_cache.

Definition update_entity (entity : Entity) : Method Ret :=
    stage_update entity ;;;
    c <~ cache_for "valid" ;;
    if MetadataStructure.valid c
    then
      say "Your update was applied to cache." ;;;
      say "Cache is still a valid structure" ;;;
      say "Copying cache to Workspace and deleting cache" ;;;
      commit_cache ;;;
      say_save_hint ;;;
      sret RetNone
    else
      say "Your update made cache an invalid structure." ;;;
      say "Aborting" ;;;
      say "Inspect mm.cache.report to find out what is wrong." ;;;
      sret RetNone.

  (** The deletion staged in the cache, up to and including the rebuild. *)
Definition stage_delete (entity_type unid : string) : Method unit :=
    assign (fun mm => set_cache mm (workspace mm)) ;;;
    c <~ cache_for "by_unid" ;;
    let c :=
      MetadataStructure.set_by_unid c
        (unid_index_del (MetadataStructure.by_unid c) entity_type unid) in
    let c :=
      MetadataStructure.set_md_objects c
        (objects_from_unid_index (MetadataStructure.by_unid c)) in
    assign (fun mm => set_cache mm (Some c)) ;;;
    rebuild_cache.

  (** The part of [delete_entity] after the dependency gate: stage the
      deletion, then commit or give up. *)
Definition delete_staged (entity_type unid : string) : Method Ret :=
    stage_delete entity_type unid ;;;
    c <~ cache_for "valid" ;;
    if MetadataStructure.valid c
    then
      say "Your delete operation was applied to cache." ;;;
      say "Cache is still a valid structure" ;;;
      say "Copying cache to Workspace and deleting cache" ;;;
      commit_cache ;;;
      say_save_hint ;;;
      sret RetTrue
    else
      say "Your update made cache an invalid structure." ;;;
      say "Aborting" ;;;
      say "Inspect mm.cache.report to find out what is wrong." ;;;
      sret RetFalse.

Definition delete_entity (entity_type unid : string) : Method Ret :=
    if negb (str_in entity_type ENTITIES)
    then sraise (ValueError (entity_type ++ " is not a valid entity type."))
    else
      ws <~ workspace_for "by_unid" ;;
      found <~ lift (unid_index_get (MetadataStructure.by_unid ws) entity_type
                       unid) ;;
      match found with
      | None =>
          sraise (ValueError ("There are no " ++ entity_type ++ " with unid "
                              ++ unid))
      | Some _ =>
          entity <~ get_entity_by_unid entity_type unid ;;
          if negb (entity_type =? "pipelines")%string
          then
            dep_report <~ lift (get_entity_dependants entity
                                  (MetadataStructure.md_objects ws)) ;;
            if has_dependants dep_report
            then
              say "The object you're trying to delete is depended upon by other objects." ;;;
              say "Aborting" ;;;
              say "Please inspect the dependants report returned by delete_entity()" ;;;
              sret (RetDependants dep_report)
            else delete_staged entity_type unid
          else delete_staged entity_type unid
      end.
End MetadataManager.

(* ================================================================== *)
(** ** Notions the properties are stated with *)

(** The objects of the four referencing collections, in the order the
    dependency scan visits them. *)
Definition referencing_candidates (objs : MdObjects) : list Entity :=
  (map ESchema (schemas objs) ++ map ESystem (systems objs)
   ++ map EData_entity (data_entities objs) ++ map EPipeline (pipelines objs))%list.

(** The object names the namespace [id] by id in its [namespace] field. *)
Definition references_namespace (id : Z) (e : Entity) : bool :=
  match e with
  | ENamespace _ => false
  | ESchema s => ref_eq_id (Schema.namespace s) id
  | ESystem s => ref_eq_id (System.namespace s) id
  | EData_entity d => ref_eq_id (Data_entity.namespace d) id
  | EPipeline p => ref_eq_id (Pipeline.namespace p) id
  end.

(** The first step of every [validate_new_*]: the checks an existing entity
    undergoes too (a namespace has none). *)
Definition standard_validation (entity : Entity) (ws : MetadataStructure.t)
  : Exc Report :=
  let md_objects := MetadataStructure.md_objects ws in
  let by_id := MetadataStructure.by_id ws in
  let by_unid := MetadataStructure.by_unid ws in
  match entity with
  | ENamespace _ => Ok new_result
  | ESchema s => validate_schema s by_id by_unid
  | ESystem s => validate_system s md_objects by_id by_unid
  | EData_entity e => validate_data_entity e md_objects by_id by_unid
  | EPipeline p => validate_pipeline p md_objects by_id by_unid
  end.

(** The compound key [validate_new_*] derives for the candidate: the name of
    a namespace, [name.version] of a schema, and for the other types the key
    derived in the scratch copy of the id index. *)
Definition candidate_key (entity : Entity) (ws : MetadataStructure.t)
  : Exc string :=
  let md_objects := MetadataStructure.md_objects ws in
  let by_unid := MetadataStructure.by_unid ws in
  match entity with
  | ENamespace n => Ok (Namespace.name n)
  | ESchema s => Ok (dotted (Schema.name s) (str_of_int (Schema.version s)))
  | ESystem s => scratch_system_unid s md_objects by_unid
  | EData_entity e => scratch_data_entity_unid e md_objects by_unid
  | EPipeline p => scratch_pipeline_unid p md_objects by_unid
  end.

(** An existing entity of the candidate's type has the candidate's id. *)
Definition id_in_use (entity : Entity) (ws : MetadataStructure.t) : bool :=
  id_in_index (MetadataStructure.by_id ws) entity.

(** An existing entity of the candidate's type has the compound key [k]. *)
Definition key_in_use (entity : Entity) (ws : MetadataStructure.t) (k : string)
  : bool :=
  let by_unid := MetadataStructure.by_unid ws in
  match entity with
  | ENamespace _ => dict_mem ounid_eqb (namespaces_unid_idx by_unid) (Some k)
  | ESchema _ => dict_mem ounid_eqb (schemas_unid_idx by_unid) (Some k)
  | ESystem _ => dict_mem ounid_eqb (systems_unid_idx by_unid) (Some k)
  | EData_entity _ =>
      dict_mem ounid_eqb (data_entities_unid_idx by_unid) (Some k)
  | EPipeline _ => dict_mem ounid_eqb (pipelines_unid_idx by_unid) (Some k)
  end.

Definition entity_kind (entity : Entity) : string :=
  match entity with
  | ENamespace _ => "namespace"
  | ESchema _ => "schema"
  | ESystem _ => "system"
  | EData_entity _ => "data_entity"
  | EPipeline _ => "pipeline"
  end.

(** The error a duplicate id is reported with. *)
Definition duplicate_id_error (entity : Entity) : string :=
  "A " ++ entity_kind entity ++ " with id " ++ str_of_int (entity_id entity)
  ++ " exists already".

(** The error a duplicate compound key is reported with. *)
Definition duplicate_key_error (entity : Entity) (k : string) : string :=
  match entity with
  | ENamespace _ => "A namespace with name " ++ k ++ " exists already"
  | _ => "A " ++ entity_kind entity ++ " with UNID " ++ k ++ " exists already"
  end.

(** The violated reference-existence and enum-membership invariants of an
    entity, written down from the description of the validator: one message
    per reference that does not resolve and per enum field outside its
    allowed set, in the order namespace, system, schema, instances (input
    before output), type, interface or scope, velocity. *)
Section Violations.
Variable by_id : IdIdx.
Variable by_unid : UnidIdx.

Definition unless (ok : bool) (msg : string) : list string :=
    if ok then [] else [msg].

Definition namespace_violation (r : Ref Namespace.t) : list string :=
    match r with
    | RId i =>
        unless (dict_mem Z.eqb (namespaces_idx by_id) i)
          ("Referenced namespace id " ++ str_of_int i ++ " does not exist")
    | RUnid u =>
        unless (dict_mem ounid_eqb (namespaces_unid_idx by_unid) (Some u))
          ("Referenced namespace UNID " ++ u ++ " does not exist")
    | RObj _ => []
    end.

Definition system_violation (r : Ref System.t) : list string :=
    match r with
    | RId i =>
        unless (dict_mem Z.eqb (systems_idx by_id) i)
          ("Referenced system id " ++ str_of_int i ++ " does not exist")
    | RUnid u =>
        unless (dict_mem ounid_eqb (systems_unid_idx by_unid) (Some u))
          ("Referenced system UNID " ++ u ++ " does not exist")
    | RObj _ => []
    end.

Definition schema_violation (r : SchemaField) : list string :=
    match r with
    | SfId i =>
        unless (dict_mem Z.eqb (schemas_idx by_id) i)
          ("Referenced schema id " ++ str_of_int i ++ " does not exist")
    | SfUnid u =>
        unless (dict_mem ounid_eqb (schemas_unid_idx by_unid) (Some u))
          ("Referenced schema UNID " ++ u ++ " does not exist")
    | _ => []
    end.

Definition entity_ref_violation (side : string) (r : Ref Data_entity.t)
    : list string :=
    match r with
    | RId i =>
        unless (dict_mem Z.eqb (data_entities_idx by_id) i)
          (side ++ " entity " ++ str_of_int i ++ " does not exist.")
    | RUnid u =>
        unless (dict_mem ounid_eqb (data_entities_unid_idx by_unid) (Some u))
          (side ++ " entity " ++ u ++ " does not exist.")
    | RObj _ => []
    end.

Definition side_violations (side : string) (s : IOSide) : list string :=
    match s with
    | Many l => flat_map (entity_ref_violation side) l
    | One r => entity_ref_violation side r
    end.

Definition instance_violations (instance : Instance) : list string :=
    (side_violations "Input" (input instance)
     ++ side_violations "Output" (output instance))%list.

Definition enum_violation (value what kinds plural : string)
      (allowed : list string) : list string :=
    unless (str_in value allowed) (enum_error value what kinds plural allowed).

Definition violations (entity : Entity) : list string :=
    match entity with
    | ENamespace _ => []
    | ESchema s =>
        (namespace_violation (Schema.namespace s)
         ++ enum_violation (Schema.type s) "type" "schemas" "types"
              SCHEMA_TYPES)%list
    | ESystem s =>
        (namespace_violation (System.namespace s)
         ++ enum_violation (System.type s) "type" "systems" "types"
              SYSTEM_TYPES)%list
    | EData_entity e =>
        (namespace_violation (Data_entity.namespace e)
         ++ system_violation (Data_entity.system e)
         ++ schema_violation (Data_entity.entity_schema e)
         ++ enum_violation (Data_entity.type e) "type" "data_entities" "types"
              DATA_ENTITY_ALLOWED_TYPES
         ++ enum_violation (Data_entity.interface e) "interface"
              "data_entities" "interfaces" DATA_ENTITY_ALLOWED_INTERFACES)%list
    | EPipeline p =>
        (namespace_violation (Pipeline.namespace p)
         ++ flat_map instance_violations (Pipeline.input_output p)
         ++ enum_violation (Pipeline.type p) "type" "pipelines" "types"
              PIPELINE_ALLOWED_TYPES
         ++ enum_violation (Pipeline.scope p) "scope" "pipelines" "types"
              PIPELINE_ALLOWED_SCOPES
         ++ enum_violation (Pipeline.velocity p) "velocity" "pipelines"
              "types" PIPELINE_ALLOWED_VELOCITY)%list
    end.
End Violations.

(** The uniqueness violations of a candidate whose derived key is [k], in
    the order the validator tests them (key before id for a namespace, id
    before key for the other types). *)
Definition uniqueness_violations (entity : Entity) (ws : MetadataStructure.t)
    (k : string) : list string :=
  let id_error :=
    if id_in_use entity ws then [duplicate_id_error entity] else [] in
  let key_error :=
    if key_in_use entity ws k then [duplicate_key_error entity k] else [] in
  match entity with
  | ENamespace _ => (key_error ++ id_error)%list
  | _ => (id_error ++ key_error)%list
  end.

(** A manager method that leaves [self.workspace] as it found it, whether it
    returns or raises. *)
Definition keeps_workspace {A : Type} (m : MetadataManager.Method A) : Prop :=
  forall st st' r,
    m st = (st', r) ->
    MetadataManager.workspace (fst st') = MetadataManager.workspace (fst st).

(** The console after [lines] have been printed. *)
Definition after_printing (w : World) (lines : list string) : World :=
  mk_world (ticks w) (clock w) (stdin w) (stdout w ++ lines)%list.

(** An entity as the integrator leaves it when schemas are kept whole: its
    system and its schema are embedded objects. *)
Definition embedded (e : Data_entity.t) : Prop :=
  (exists s, Data_entity.system e = RObj s)
  /\ (exists sch, Data_entity.entity_schema e = SfObj sch).

(** Every reference of an instance side is such an embedded entity. *)
Definition side_embedded (s : IOSide) : Prop :=
  match s with
  | One r => exists e, r = RObj e /\ embedded e
  | Many l => forall r, In r l -> exists e, r = RObj e /\ embedded e
  end.

Definition is_nil {A : Type} (l : list A) : bool :=
  match l with [] => true | _ => false end.

(** [result'] is [result] with the errors [l] appended: it is valid if
    [result] was valid and [l] is empty. *)
Definition report_extends (result result' : Report) (l : list string) : Prop :=
  errors result' = (errors result ++ l)%list
  /\ valid result' = valid result && is_nil l.

(** [s] has no occurrence of the character [c]. *)
Fixpoint no_char (c : ascii) (s : string) : bool :=
  match s with
  | EmptyString => true
  | String a s' => negb (Ascii.eqb a c) && no_char c s'
  end.

(* ================================================================== *)
(** ** Scenarios

    Concrete graphs and sessions for the examples: the scenario of the
    documentation (namespace [sales], schema [orders], system [erp], data
    entity [orders_raw]) and variations of it. *)

Module Scenario.
Definition t0 : datetime := mk_datetime 0 "UTC".

Definition empty_json : MdJson :=
    [("namespaces", []); ("schemas", []); ("systems", []);
     ("data_entities", []); ("pipelines", [])].

  (** A console on which the user is going to type [lines]; the clock shows
      the number of times it has been read. *)
Definition console (lines : list string) : World :=
    mk_world 0 Z.of_nat lines [].

Definition location : MetadataLocation := mk_location "local" (VStr ".") None true.

  (** What [MetadataStructure(md_json)] is for the empty collections when
      the validation run reads [t] from the clock. *)
Definition empty_structure (t : datetime) : MetadataStructure.t :=
    MetadataStructure.mk empty_json (mk_objects [] [] [] [] [])
      (mk_objects [] [] [] [] []) (mk_id_idx [] [] [] [] [])
      (mk_unid_idx [] [] [] [] []) [] []
      [("namespaces", []); ("schemas", []); ("systems", []);
       ("data_entities", []); ("pipelines", [])]
      true (Some (StructReport.mk true t [] [] [] [])).

  (** [ms = MetadataStructure(empty); ms.md_objects = objs;
      ms.build_from_objects()] *)
Definition load (objs : MdObjects) (w : World)
    : (MetadataStructure.t * World) * Exc unit :=
    MetadataStructure.build_from_objects
      (MetadataStructure.set_md_objects (empty_structure t0) objs, w).

Definition loaded (objs : MdObjects) : MetadataStructure.t :=
    fst (fst (load objs (console []))).

  (** A manager whose workspace is [ws]. *)
Definition manager (ws : MetadataStructure.t) : MetadataManager.t :=
    MetadataManager.mk location location None (Some ws) None.

Definition sales : Namespace.t := Namespace.mk 1 None "sales" None t0 t0.

Definition orders : Schema.t :=
    Schema.mk 1 None (RId 1) "orders" None "avro" 1 VNone t0 t0.

Definition erp : System.t :=
    System.mk 1 None (RId 1) "erp" None "internal" None t0 t0.

Definition orders_raw : Data_entity.t :=
    Data_entity.mk 1 None (RId 1) (RId 1) "orders_raw" None "dataset" "sql"
      (SfId 1) None None t0 t0.

Definition graph : MdObjects :=
    mk_objects [sales] [orders] [erp] [orders_raw] [].

  (** A second namespace record that reuses id 1. *)
Definition marketing : Namespace.t :=
    Namespace.mk 1 None "marketing" None t0 t0.

  (** A namespace nothing refers to. *)
Definition finance : Namespace.t :=
    Namespace.mk 2 None "finance" None t0 t0.

Definition graph_with_finance : MdObjects :=
    mk_objects [sales; finance] [orders] [erp] [orders_raw] [].

  (** [orders] with a type outside [SCHEMA_TYPES]. *)
Definition orders_json : Schema.t :=
    Schema.mk 1 None (RId 1) "orders" None "json" 1 VNone t0 t0.

  (** A system whose config claims the key [sys_name]. *)
Definition erp_shadowed : System.t :=
    System.mk 1 None (RId 1) "erp" None "internal"
      (Some [("sys_name", VStr "shadow")]) t0 t0.

  (** A fresh system in the namespace [sales]. *)
Definition crm : System.t :=
    System.mk 2 None (RUnid "sales") "crm" None "external" None t0 t0.

  (** Two enabled versions of one pipeline and a disabled third. *)
Definition load_v (id version : Z) (enabled : bool) : Pipeline.t :=
    Pipeline.mk id None (RId 1) "load" None enabled version "single" "ingest"
      "batch" [mk_instance (One (RId 1)) (Many [RId 1])]
      (Some [("retries", VInt version)]) t0 t0.

Definition graph_with_pipelines : MdObjects :=
    mk_objects [sales] [orders] [erp] [orders_raw]
      [load_v 1 1 true; load_v 2 2 true; load_v 3 3 false].

  (** The graph of the documentation with [erp_shadowed] for [erp] and one
      enabled pipeline reading and writing [orders_raw]. *)
Definition graph_shadowed : MdObjects :=
    mk_objects [sales] [orders] [erp_shadowed] [orders_raw] [load_v 1 1 true].

  (** The [sys_name] entry of the input record of the first flat instance
      under [key]. *)
Definition input_sys_name (conf : DagConfig) (key : string) : option PyVal :=
    match dict_get String.eqb conf key with
    | Some (VDict record :: _) =>
        match dict_get String.eqb record "i" with
        | Some (VDict i) => dict_get String.eqb i "sys_name"
        | _ => None
        end
    | _ => None
    end.

  (** A store that counts the calls of its reader. *)
Definition counting_reader : Reader nat :=
    fun _ _ calls => (S calls, Ok []).
End Scenario.

(* ================================================================== *)
(** ** validate.py: the next free id *)

(** [max(keys)]; an empty sequence has no maximum. *)
Definition py_max (keys : list Z) : Exc Z :=
  match keys with
  | [] => Raise (ValueError "max() arg is an empty sequence")
  | k :: keys' => Ok (fold_left Z.max keys' k)
  end.

(** [metadata_id_idx[f'{entity}_idx'].keys()] *)
Definition id_index_keys (metadata_id_idx : IdIdx) (entity : string)
  : Exc (list Z) :=
  if (entity =? "namespaces")%string
  then Ok (dict_keys (namespaces_idx metadata_id_idx))
  else if (entity =? "schemas")%string
  then Ok (dict_keys (schemas_idx metadata_id_idx))
  else if (entity =? "systems")%string
  then Ok (dict_keys (systems_idx metadata_id_idx))
  else if (entity =? "data_entities")%string
  then Ok (dict_keys (data_entities_idx metadata_id_idx))
  else if (entity =? "pipelines")%string
  then Ok (dict_keys (pipelines_idx metadata_id_idx))
  else Raise (KeyError (entity ++ "_idx")).

Definition get_next_free_id (metadata_id_idx : IdIdx) (entity : string)
  : Exc Z :=
  if negb (str_in entity ENTITIES)
  then Raise (not_an_entity entity)
  else
    keys <- id_index_keys metadata_id_idx entity ;;
    m <- py_max keys ;;
    Ok (m + 1).

(* ================================================================== *)
(** ** build.py: writing metadata *)

(** [type(v).__name__] *)
Definition type_name (v : PyVal) : string :=
  match v with
  | VNone => "NoneType"
  | VBool _ => "bool"
  | VInt _ => "int"
  | VStr _ => "str"
  | VTime _ => "DateTime"
  | VList _ => "list"
  | VDict _ => "dict"
  | VObj cls _ => cls
  end.

(** [v.items()] *)
Definition py_items (v : PyVal) : Exc (list (string * PyVal)) :=
  match v with
  | VDict d => Ok d
  | _ => Raise (no_attribute (type_name v) "items")
  end.

(** [md_objects] as the value handed to [write_metadata]. *)
Definition val_of_objects (objs : MdObjects) : PyVal :=
  VDict
    [("namespaces",
      VList (map (fun o => val_of_entity (ENamespace o)) (namespaces objs)));
     ("schemas", VList (map (fun o => val_of_entity (ESchema o)) (schemas objs)));
     ("systems", VList (map (fun o => val_of_entity (ESystem o)) (systems objs)));
     ("data_entities",
      VList (map (fun o => val_of_entity (EData_entity o)) (data_entities objs)));
     ("pipelines",
      VList (map (fun o => val_of_entity (EPipeline o)) (pipelines objs)))].

Section StorageWrite.
Variable Store : Type.
  (** [fastapi.encoders.jsonable_encoder] *)
Variable jsonable_encoder : PyVal -> PyVal.

Definition write_metadata (storage_writer : Writer Store) (location : PyVal)
      (metadata_obj_or_json : PyVal) : SE Store unit :=
    let md_to_write := jsonable_encoder metadata_obj_or_json in
    items <~ lift (py_items md_to_write) ;;
    sfor items
      (fun item => storage_writer location (fst item) (snd item)).
End StorageWrite.

(* ================================================================== *)
(** ** manage.py: the manager and its storage locations *)

(** The interface of [storage_adapters/abstract_adapter.py]. *)
Record StorageAdapter (Store : Type) : Type := mk_adapter {
  adapter_exists : PyVal -> SE Store bool;
  adapter_create : PyVal -> SE Store unit;
  adapter_read : Reader Store;
  adapter_write : Writer Store
}.

Definition set_current (mm : MetadataManager.t)
    (x : option MetadataStructure.t) : MetadataManager.t :=
  MetadataManager.mk (MetadataManager.store mm) (MetadataManager.stash mm) x
    (MetadataManager.workspace mm) (MetadataManager.cache mm).

Definition ask_go_on : string := "Continue (y), or abort (n)?".

(** [while go_on.lower() != 'y' and go_on.lower() != 'n': ...] of
    [stash_workspace]; the lines still to come bound the loop. *)
Fixpoint go_on_again (pending : list string) (go_on : string)
  : SE World string :=
  if MetadataManager.is_y_or_n go_on
  then sret go_on
  else
    print (go_on ++ " is not valid input.") ;;;
    go_on' <~ input_line ask_go_on ;;
    match pending with
    | [] => sret go_on'
    | _ :: pending' => go_on_again pending' go_on'
    end.

Definition ask_go_on_choice : SE World string :=
  go_on <~ input_line ask_go_on ;;
  fun w => go_on_again (stdin w) go_on w.

Section ManagerStorage.
  (** The storage behind the two locations, the adapters instantiated for
      them, and the record constructors. *)
Variable Store : Type.
Variable models : Pydantic.
Variable jsonable_encoder : PyVal -> PyVal.
Variable store_adapter : StorageAdapter Store.
Variable stash_adapter : StorageAdapter Store.

  (** A method that also reaches the storage. *)
Definition StorageMethod (A : Type) : Type :=
    SE ((MetadataManager.t * World) * Store) A.

Definition in_manager {A : Type} (m : MetadataManager.Method A)
    : StorageMethod A :=
    fun st => let '(st', r) := m (fst st) in ((st', snd st), r).

Definition in_store {A : Type} (m : SE Store A) : StorageMethod A :=
    fun st => let '(s', r) := m (snd st) in ((fst st, s'), r).

  (** [MetadataStructure(read_metadata(storage_reader=adapter.read,
      location=location.address))] *)
Definition load_from (adapter : StorageAdapter Store)
      (location : MetadataLocation) : StorageMethod MetadataStructure.t :=
    md_json <~ in_store (read_metadata (adapter_read adapter)
                           (address location) None None) ;;
    in_manager (MetadataManager.world (MetadataStructure.init models md_json)).

Definition load_current : StorageMethod unit :=
    mm <~ in_manager MetadataManager.self ;;
    ms <~ load_from store_adapter (MetadataManager.store mm) ;;
    in_manager (MetadataManager.assign (fun mm => set_current mm (Some ms))).

Definition load_workspace (source : string) : StorageMethod unit :=
    mm <~ in_manager MetadataManager.self ;;
    if (source =? "store")%string
    then
      ms <~ load_from store_adapter (MetadataManager.store mm) ;;
      in_manager (MetadataManager.assign
                    (fun mm => MetadataManager.set_workspace mm (Some ms)))
    else if (source =? "stash")%string
    then
      ms <~ load_from stash_adapter (MetadataManager.stash mm) ;;
      in_manager (MetadataManager.assign
                    (fun mm => MetadataManager.set_workspace mm (Some ms)))
    else sraise (ValueError ("Source must be store or stash. Not " ++ source)).

  (** [MetadataManager(store, stash, load_current, load_workspace)]: the
      [load_workspace] argument is [False] ([None] here) or the name of a
      source; the object exists only if [__init__] does not raise. *)
Definition manager_init (store stash : MetadataLocation)
      (load_current_arg : bool) (load_workspace_arg : option string)
    : SE (World * Store) MetadataManager.t :=
    fun ws =>
      let body : StorageMethod unit :=
        (if load_current_arg then load_current else sret tt) ;;;
        match load_workspace_arg with
        | None | Some "" => sret tt
        | Some source => load_workspace source
        end in
      match body ((MetadataManager.mk store stash None None None, fst ws),
                  snd ws) with
      | ((mm, w, s), Ok _) => ((w, s), Ok mm)
      | ((_, w, s), Raise e) => ((w, s), Raise e)
      end.

  (** The write both [stash_workspace] and [store_workspace] end with. *)
Definition write_workspace (adapter : StorageAdapter Store)
      (location : MetadataLocation) : StorageMethod unit :=
    ws <~ in_manager (MetadataManager.workspace_for "md_objects") ;;
    in_store (write_metadata jsonable_encoder (adapter_write adapter)
                (address location)
                (val_of_objects (MetadataStructure.md_objects ws))).

Definition stash_workspace : StorageMethod bool :=
    ws <~ in_manager (MetadataManager.workspace_for "valid") ;;
    let write : StorageMethod bool :=
      in_manager (MetadataManager.say
                    "Writing all metadata in Workspace to Stash.") ;;;
      mm <~ in_manager MetadataManager.self ;;
      write_workspace stash_adapter (MetadataManager.stash mm) ;;;
      in_manager (MetadataManager.say "Write complete") ;;;
      sret true in
    if negb (MetadataStructure.valid ws)
    then
      in_manager (MetadataManager.say
                    "WARNING! Workspace is in an invalid state.") ;;;
      go_on <~ in_manager (MetadataManager.world ask_go_on_choice) ;;
      if (go_on =? "n")%string
      then
        in_manager (MetadataManager.say "Aborting save to stash") ;;;
        sret false
      else write
    else write.

Definition store_workspace : StorageMethod bool :=
    ws <~ in_manager (MetadataManager.workspace_for "valid") ;;
    if negb (MetadataStructure.valid ws)
    then
      in_manager (MetadataManager.say
                    "ERROR!! Workspace is in an invalid state.") ;;;
      in_manager (MetadataManager.say
                    "Inspect workspace.report to find out what is going on") ;;;
      in_manager (MetadataManager.say
                    "Consider writing to stash instead of store.") ;;;
      in_manager (MetadataManager.say
                    "Stash will accept an invalid workspace with a warning.") ;;;
      sret false
    else
      in_manager (MetadataManager.say
                    "Workspace is a valid structure. Writing to Store.") ;;;
      mm <~ in_manager MetadataManager.self ;;
      write_workspace store_adapter (MetadataManager.store mm) ;;;
      in_manager (MetadataManager.say "Write complete") ;;;
      in_manager (MetadataManager.say "Reloading current from store") ;;;
      (* [self.load_current] names the bound method and does not call it *)
      sret true.
End ManagerStorage.

(* ================================================================== *)
(** ** Further notions the properties are stated with *)

(** The reference is an id that the index [d] holds. *)
Definition resolves {A V : Type} (d : PyDict Z V) (r : Ref A) : bool :=
  match r with
  | RId i => dict_mem Z.eqb d i
  | _ => false
  end.

Definition schema_resolves (d : PyDict Z Schema.t) (r : SchemaField) : bool :=
  match r with
  | SfId i => dict_mem Z.eqb d i
  | _ => false
  end.

Definition side_resolves (d : PyDict Z Data_entity.t) (s : IOSide) : bool :=
  match s with
  | One r => resolves d r
  | Many l => forallb (resolves d) l
  end.

Definition instance_resolves (d : PyDict Z Data_entity.t) (i : Instance)
  : bool :=
  side_resolves d (input i) && side_resolves d (output i).

Definition data_entity_resolves (idx : IdIdx) (e : Data_entity.t) : bool :=
  resolves (namespaces_idx idx) (Data_entity.namespace e)
  && resolves (systems_idx idx) (Data_entity.system e)
  && schema_resolves (schemas_idx idx) (Data_entity.entity_schema e).

Definition pipeline_resolves (idx : IdIdx) (p : Pipeline.t) : bool :=
  resolves (namespaces_idx idx) (Pipeline.namespace p)
  && forallb (instance_resolves (data_entities_idx idx))
       (Pipeline.input_output p).

(** Every reference held by an object of the index is the id of an object
    of the index. *)
Definition referential_integrity (idx : IdIdx) : bool :=
  forallb (fun s => resolves (namespaces_idx idx) (Schema.namespace s))
    (dict_values (schemas_idx idx))
  && forallb (fun s => resolves (namespaces_idx idx) (System.namespace s))
       (dict_values (systems_idx idx))
  && forallb (data_entity_resolves idx) (dict_values (data_entities_idx idx))
  && forallb (pipeline_resolves idx) (dict_values (pipelines_idx idx)).

(** One side of an instance names the data entity [id]. *)
Definition side_references (id : Z) (s : IOSide) : bool :=
  match s with
  | One r => ref_eq_id r id
  | Many l => existsb (fun r => ref_eq_id r id) l
  end.

(** Some instance of the pipeline names the data entity [id]. *)
Definition pipeline_references (id : Z) (pl : Pipeline.t) : bool :=
  existsb (fun instance => side_references id (input instance)
                           || side_references id (output instance))
    (Pipeline.input_output pl).

(** The five collections, each with pairwise distinct ids. *)
Definition distinct_ids (objs : MdObjects) : Prop :=
  NoDup (map Namespace.id (namespaces objs))
  /\ NoDup (map Schema.id (schemas objs))
  /\ NoDup (map System.id (systems objs))
  /\ NoDup (map Data_entity.id (data_entities objs))
  /\ NoDup (map Pipeline.id (pipelines objs)).

(** The five collections, each with pairwise distinct compound keys. *)
Definition distinct_unids (objs : MdObjects) : Prop :=
  NoDup (map Namespace.unid (namespaces objs))
  /\ NoDup (map Schema.unid (schemas objs))
  /\ NoDup (map System.unid (systems objs))
  /\ NoDup (map Data_entity.unid (data_entities objs))
  /\ NoDup (map Pipeline.unid (pipelines objs)).

(** [o'] is [o] with the compound key derived for its id in [idx]. *)
Definition with_derived_key {V : Type} (idx : IdIdx) (entity : string)
    (ident : V -> Z) (set_unid : V -> option string -> V) (o o' : V) : Prop :=
  exists u,
    id_to_unid idx entity (ident o) = Ok u /\ o' = set_unid o (Some u).

(** Two dicts with the same keys whose objects differ in [unid] only. *)
Definition same_but_unid {V : Type} (set_unid : V -> option string -> V)
    (d d' : PyDict Z V) : Prop :=
  Forall2 (fun kv kv' => fst kv' = fst kv
                         /\ exists u, snd kv' = set_unid (snd kv) u) d d'.

(** An entry of the index and what key generation leaves in its place. *)
Definition keyed_entry {V : Type} (ident : V -> Z)
    (set_unid : V -> option string -> V) (entity : string) (idx0 : IdIdx)
    (kv kv' : Z * V) : Prop :=
  fst kv' = fst kv
  /\ with_derived_key idx0 entity ident set_unid (snd kv) (snd kv').

(** The data entity names the schema or the system [e] by id. *)
Definition references_entity (e : Entity) (d : Data_entity.t) : bool :=
  match e with
  | ESchema s => schemafield_eq_id (Data_entity.entity_schema d) (Schema.id s)
  | ESystem s => ref_eq_id (Data_entity.system d) (System.id s)
  | _ => false
  end.

(** A method of [MetadataStructure] that leaves the attribute [proj] of
    [self] as it found it, whether it returns or raises. *)
Definition structure_keeps {A B : Type} (proj : MetadataStructure.t -> A)
    (m : MetadataStructure.Method B) : Prop :=
  forall st st' r, m st = (st', r) -> proj (fst st') = proj (fst st).

(** A transaction has committed: the workspace [ws] was replaced by the
    staged copy [ws'], which validated, and the cache was cleared; the
    copy still carries the [dag_config] of [ws]. *)
Definition committed (mm mm' : MetadataManager.t)
    (ws ws' : MetadataStructure.t) : Prop :=
  MetadataManager.workspace mm = Some ws
  /\ MetadataManager.workspace mm' = Some ws'
  /\ MetadataManager.cache mm' = None
  /\ MetadataStructure.valid ws' = true
  /\ MetadataStructure.dag_config ws' = MetadataStructure.dag_config ws.

(** What the console shows while the lines [bad] are turned down, one
    after the other, each followed by the question asked again. *)
Definition turned_down (bad : list string) : list string :=
  flat_map
    (fun line => [""; line ++ " is not a valid option. Enter y or n."; "";
                  MetadataManager.ask_add])
    bad.

(** No line of [lines] is an answer. *)
Definition no_answer (lines : list string) : bool :=
  forallb (fun line => negb (MetadataManager.is_y_or_n line)) lines.

(* ================================================================== *)
(** ** Further scenarios *)

Module Examples.
  (** [orders_raw] as integration leaves it, its system and its schema
      embedded. *)
Definition orders_raw_embedded : Data_entity.t :=
    Data_entity.set_entity_schema
      (Data_entity.set_system Scenario.orders_raw (RObj Scenario.erp))
      (SfObj Scenario.orders).

  (** An integrated pipeline whose config claims the key [i]. *)
Definition load_integrated : Pipeline.t :=
    Pipeline.mk 1 (Some "sales.load.ingest.1") (RUnid "sales") "load" None
      true 1 "single" "ingest" "batch"
      [mk_instance (One (RObj orders_raw_embedded))
         (Many [RObj orders_raw_embedded])]
      (Some [("i", VInt 7); ("retries", VInt 3)]) Scenario.t0 Scenario.t0.

  (** A pipeline that names its namespace by a key nobody has. *)
Definition load_retail : Pipeline.t :=
    Pipeline.set_namespace (Scenario.load_v 4 1 true) (RUnid "retail").

  (** [orders] with a description. *)
Definition orders_described : Schema.t :=
    Schema.mk 1 None (RId 1) "orders" (Some "customer orders") "avro" 1 VNone
      Scenario.t0 Scenario.t0.

  (** The graph of the documentation with the schema of an unknown type:
      a workspace that does not validate. *)
Definition graph_json : MdObjects :=
    mk_objects [Scenario.sales] [Scenario.orders_json] [Scenario.erp]
      [Scenario.orders_raw] [].

  (** An adapter that keeps in memory what is written, one entry per
      entity type. *)
Definition memory_adapter : StorageAdapter (PyDict string PyVal) :=
    mk_adapter
      (fun _ => sret true)
      (fun _ => sret tt)
      (fun _ entity s =>
         (s, match dict_get String.eqb s entity with
             | Some (VList records) => Ok records
             | _ => Raise (KeyError entity)
             end))
      (fun _ entity records s =>
         (dict_set String.eqb s entity records, Ok tt)).
End Examples.

(* ================================================================== *)
(** * Properties *)

(** ** Dicts *)

Section DictFacts.
Variables K V : Type.
Variable keq : K -> K -> bool.
Hypothesis keq_eq : forall a b, keq a b = true <-> a = b.

Lemma keq_refl : forall a, keq a a = true.
  Proof. intro a. apply keq_eq. reflexivity. Qed.

Lemma keq_sym : forall a b, keq a b = keq b a.
  Proof.
    intros a b. destruct (keq a b) eqn:E1, (keq b a) eqn:E2; try reflexivity.
    - apply keq_eq in E1. subst. rewrite keq_refl in E2. discriminate.
    - apply keq_eq in E2. subst. rewrite keq_refl in E1. discriminate.
  Qed.

Lemma keq_trans_false : forall a b c,
    keq a b = true -> keq c b = false -> keq c a = false.
  Proof.
    intros a b c Hab Hcb. apply keq_eq in Hab. subst. exact Hcb.
  Qed.

  (** Reading a dict after an assignment. *)
Lemma dict_get_set : forall (d : PyDict K V) k v i,
    dict_get keq (dict_set keq d k v) i =
    if keq i k then Some v else dict_get keq d i.
  Proof.
    induction d as [|[k' v'] d IH]; intros k v i; simpl.
    - reflexivity.
    - destruct (keq k k') eqn:Ekk'; simpl.
      + apply keq_eq in Ekk'. subst k'.
        destruct (keq i k); reflexivity.
      + rewrite IH. destruct (keq i k') eqn:Eik'.
        * apply keq_eq in Eik'. subst k'.
          rewrite keq_sym, Ekk'. reflexivity.
        * reflexivity.
  Qed.

Lemma dict_mem_set : forall (d : PyDict K V) k v i,
    dict_mem keq (dict_set keq d k v) i = keq i k || dict_mem keq d i.
  Proof.
    intros. unfold dict_mem. rewrite dict_get_set.
    destruct (keq i k); reflexivity.
  Qed.
End DictFacts.

Lemma Zeqb_eq : forall a b : Z, (a =? b) = true <-> a = b.
Proof. intros. apply Z.eqb_eq. Qed.

Lemma ounid_eqb_eq : forall a b, ounid_eqb a b = true <-> a = b.
Proof.
  intros [a|] [b|]; simpl; split; intro H; try discriminate; try reflexivity.
  - apply String.eqb_eq in H. subst. reflexivity.
  - injection H as ->. apply String.eqb_refl.
Qed.

(** ** The id index keeps the last record of every id *)

Lemma find_app_last : forall (A : Type) (p : A -> bool) l x,
  find p (l ++ [x])%list =
  match find p l with
  | Some y => Some y
  | None => if p x then Some x else None
  end.
Proof.
  induction l as [|a l IH]; intros x; simpl.
  - reflexivity.
  - destruct (p a); [reflexivity | apply IH].
Qed.

Lemma index_by_fold_get : forall (V : Type) (key : V -> Z) l (d : PyDict Z V) i,
  dict_get Z.eqb
    (fold_left (fun idx o => dict_set Z.eqb idx (key o) o) l d) i =
  match find (fun o => key o =? i) (rev l) with
  | Some o => Some o
  | None => dict_get Z.eqb d i
  end.
Proof.
  induction l as [|x l IH]; intros d i; simpl.
  - reflexivity.
  - rewrite IH, find_app_last.
    destruct (find (fun o => key o =? i) (rev l)); [reflexivity|].
    rewrite dict_get_set by exact Zeqb_eq. rewrite Z.eqb_sym.
    destruct (key x =? i); reflexivity.
Qed.

Lemma index_by_get : forall (V : Type) (key : V -> Z) l i,
  dict_get Z.eqb (index_by key l) i = find (fun o => key o =? i) (rev l).
Proof.
  intros. unfold index_by. rewrite index_by_fold_get.
  destruct (find _ _); reflexivity.
Qed.

(** C3 (as amended).  Building the id index never fails, and for every
    entity type and every id the index holds the last record of the
    collection that carries this id: of two records sharing an id only the
    later one is kept. *)
Theorem create_id_indexes_keeps_last : forall (metadata_obj : MdObjects) (i : Z),
  let idx := create_id_indexes metadata_obj in
  dict_get Z.eqb (namespaces_idx idx) i
    = find (fun o => Namespace.id o =? i) (rev (namespaces metadata_obj))
  /\ dict_get Z.eqb (schemas_idx idx) i
    = find (fun o => Schema.id o =? i) (rev (schemas metadata_obj))
  /\ dict_get Z.eqb (systems_idx idx) i
    = find (fun o => System.id o =? i) (rev (systems metadata_obj))
  /\ dict_get Z.eqb (data_entities_idx idx) i
    = find (fun o => Data_entity.id o =? i) (rev (data_entities metadata_obj))
  /\ dict_get Z.eqb (pipelines_idx idx) i
    = find (fun o => Pipeline.id o =? i) (rev (pipelines metadata_obj)).
Proof.
  intros metadata_obj i idx. subst idx. unfold create_id_indexes. simpl.
  repeat split; apply index_by_get.
Qed.

(** C3 (as stated) fails: two namespace records share id 1, and the index is
    built all the same; it has one entry, the second record. *)
Lemma create_id_indexes_duplicate_id :
  namespaces (mk_objects [Scenario.sales; Scenario.marketing] [] [] [] [])
    = [Scenario.sales; Scenario.marketing]
  /\ Namespace.id Scenario.sales = Namespace.id Scenario.marketing
  /\ namespaces_idx
       (create_id_indexes
          (mk_objects [Scenario.sales; Scenario.marketing] [] [] [] []))
     = [(1, Scenario.marketing)].
Proof. repeat split. Qed.

(** ** The storage boundary *)

(** C9.  Whatever the writer, the location, the payload and the store,
    [write_dag_config] raises [NameError] for [metadata_obj_or_json] and
    leaves the store as it was: the writer is not reached. *)
Theorem write_dag_config_raises_NameError :
  forall (Store : Type) (jsonable_encoder : PyVal -> PyVal)
         (storage_writer : Writer Store) (location dag_config : PyVal)
         (store : Store),
    write_dag_config jsonable_encoder storage_writer location dag_config store
    = (store, Raise (NameError "name 'metadata_obj_or_json' is not defined")).
Proof. intros. reflexivity. Qed.

(** C10 (as amended).  A call of [read_metadata] that leaves
    [exclude_entities] at [None] always raises on the first entity type it
    considers, before the reader is called and without returning metadata:
    [TypeError] from the membership test if that entity type is a valid one,
    and the [ValueError] of the validity check if it is not. *)
Theorem read_metadata_without_exclude_raises :
  forall (Store : Type) (storage_reader : Reader Store) (location : PyVal)
         (md_entities : option (list string)) (store : Store),
  exists first rest,
    entities_considered md_entities = first :: rest
    /\ read_metadata storage_reader location md_entities None store
       = (store,
          Raise (if str_in first ENTITIES
                 then TypeError "argument of type 'NoneType' is not iterable"
                 else not_an_entity first)).
Proof.
  intros Store storage_reader location md_entities store.
  assert (Hstep : forall first rest,
             read_metadata_loop storage_reader location None (first :: rest) []
               store
             = (store,
                Raise (if str_in first ENTITIES
                       then TypeError "argument of type 'NoneType' is not iterable"
                       else not_an_entity first))).
  { intros first rest. cbn [read_metadata_loop].
    unfold sbind, read_metadata_step.
    destruct (str_in first ENTITIES); reflexivity. }
  unfold read_metadata.
  destruct md_entities as [[|e l]|].
  - exists "namespaces", (tl ENTITIES). split; [reflexivity|]. apply Hstep.
  - exists e, l. split; [reflexivity|]. apply (Hstep e l).
  - exists "namespaces", (tl ENTITIES). split; [reflexivity|]. apply Hstep.
Qed.

(** C10 (as stated) fails: with ["bogus"] as the first entity type the call
    raises [ValueError], not [TypeError]; the reader has not been called. *)
Lemma read_metadata_bogus_entity_ValueError :
  read_metadata Scenario.counting_reader (VStr ".") (Some ["bogus"]) None 0%nat
  = (0%nat, Raise (ValueError "bogus is not a valid metadata entity.")).
Proof. reflexivity. Qed.

(** ** Key derivation *)

(** C6.  In an id index where the data entity [id] is found and the ids of
    its namespace and of its system resolve to the compound keys [ns_key]
    and [sys_key], the derived compound key of the data entity is
    [<ns_key>.<sys_key>.<name>.<type>]. *)
Theorem data_entity_key_derivation :
  forall (metadata_id_idx : IdIdx) (id : Z) (ent : Data_entity.t) (n s : Z)
         (ns_key sys_key : string),
    dict_get Z.eqb (data_entities_idx metadata_id_idx) id = Some ent ->
    Data_entity.namespace ent = RId n ->
    Data_entity.system ent = RId s ->
    id_to_unid metadata_id_idx "namespaces" n = Ok ns_key ->
    id_to_unid metadata_id_idx "systems" s = Ok sys_key ->
    id_to_unid metadata_id_idx "data_entities" id
    = Ok (ns_key ++ "." ++ sys_key ++ "." ++ Data_entity.name ent ++ "."
          ++ Data_entity.type ent).
Proof.
  intros idx id ent n s ns_key sys_key Hent Hns Hsys Hnk Hsk.
  cbn in Hnk, Hsk |- *.
  unfold data_entity_id_to_unid, getitem_id. rewrite Hent. cbn [bind].
  rewrite Hns, Hsys. cbn [key_of_ref]. rewrite Hnk. cbn [bind].
  rewrite Hsk. reflexivity.
Qed.

(** The scenario of the documentation: the namespace key is [sales], the
    system key [sales.erp] already starts with it, and so the key of
    [orders_raw] names the namespace twice. *)
Lemma data_entity_key_derivation_scenario :
  id_to_unid (create_id_indexes Scenario.graph) "namespaces" 1 = Ok "sales"
  /\ id_to_unid (create_id_indexes Scenario.graph) "systems" 1 = Ok "sales.erp"
  /\ id_to_unid (create_id_indexes Scenario.graph) "data_entities" 1
     = Ok "sales.sales.erp.orders_raw.dataset".
Proof.
  split; [reflexivity|]. split; [reflexivity|].
  apply (@data_entity_key_derivation (create_id_indexes Scenario.graph) 1
           Scenario.orders_raw 1 1 "sales" "sales.erp"); reflexivity.
Defined.

(** ** The dependency gate *)

Lemma scan_dependants_filter :
  forall (A : Type) (refers : A -> bool) (inj : A -> Entity) l result,
    scan_dependants refers inj l result
    = {| has_dependants := has_dependants result || existsb refers l;
         dependants := (dependants result ++ map inj (filter refers l))%list |}.
Proof.
  intros A refers inj. unfold scan_dependants.
  induction l as [|x l IH]; intros [h d]; simpl.
  - rewrite orb_false_r, app_nil_r. reflexivity.
  - rewrite IH. destruct (refers x); simpl.
    + rewrite orb_true_r, <- app_assoc. reflexivity.
    + reflexivity.
Qed.

Lemma filter_map_entity :
  forall (A : Type) (inj : A -> Entity) (p : Entity -> bool) l,
    filter p (map inj l) = map inj (filter (fun x => p (inj x)) l).
Proof.
  induction l as [|x l IH]; simpl; [reflexivity|].
  rewrite IH. destruct (p (inj x)); reflexivity.
Qed.

Lemma existsb_filter_nil : forall (A : Type) (p : A -> bool) l,
  existsb p l = negb (match filter p l with [] => true | _ => false end).
Proof.
  induction l as [|x l IH]; simpl; [reflexivity|].
  destruct (p x); simpl; [reflexivity | exact IH].
Qed.

(** The dependants of a namespace are the objects of the other four
    collections that name it by id, in the order of the scan. *)
Lemma get_namespace_dependants_filter : forall namespace metadata_obj,
  let referencing :=
    filter (references_namespace (Namespace.id namespace))
      (referencing_candidates metadata_obj) in
  get_namespace_dependants namespace metadata_obj
  = {| has_dependants := match referencing with [] => false | _ => true end;
       dependants := referencing |}.
Proof.
  intros namespace metadata_obj referencing. subst referencing.
  unfold get_namespace_dependants, referencing_candidates.
  rewrite !scan_dependants_filter. cbn [has_dependants dependants no_dependants].
  rewrite !filter_app, !filter_map_entity. cbn [references_namespace app].
  rewrite <- !app_assoc. f_equal.
  rewrite !existsb_filter_nil.
  destruct (filter _ (schemas metadata_obj)); [|reflexivity].
  destruct (filter _ (systems metadata_obj)); [|reflexivity].
  destruct (filter _ (data_entities metadata_obj)); [|reflexivity].
  destruct (filter _ (pipelines metadata_obj)); reflexivity.
Qed.

(** C4.  Deleting a namespace found in the workspace under [unid]: when
    objects of the schema, system, data entity or pipeline collections name
    it by id, [delete_entity] prints its refusal, changes nothing in the
    manager and returns the dependants report, whose list is exactly these
    objects; when none does, the call goes on with the staged deletion and
    its rebuild. *)
Theorem delete_namespace_dependency_gate :
  forall (mm : MetadataManager.t) (w : World) (ws : MetadataStructure.t)
         (unid : string) (ns : Namespace.t),
    MetadataManager.workspace mm = Some ws ->
    dict_get ounid_eqb (namespaces_unid_idx (MetadataStructure.by_unid ws))
      (Some unid) = Some ns ->
    let referencing :=
      filter (references_namespace (Namespace.id ns))
        (referencing_candidates (MetadataStructure.md_objects ws)) in
    (referencing <> [] ->
     MetadataManager.delete_entity "namespaces" unid (mm, w)
     = ((mm,
         mk_world (ticks w) (clock w) (stdin w)
           (stdout w
            ++ ["The object you're trying to delete is depended upon by other objects.";
                "Aborting";
                "Please inspect the dependants report returned by delete_entity()"])),
        Ok (RetDependants
              {| has_dependants := true; dependants := referencing |})))
    /\ (referencing = [] ->
        MetadataManager.delete_entity "namespaces" unid (mm, w)
        = MetadataManager.delete_staged "namespaces" unid (mm, w)).
Proof.
  intros mm w ws unid ns Hws Hns referencing.
  assert (Hrun : MetadataManager.delete_entity "namespaces" unid (mm, w)
                 = (if has_dependants
                         (get_namespace_dependants ns
                            (MetadataStructure.md_objects ws))
                    then
                      ((mm,
                        mk_world (ticks w) (clock w) (stdin w)
                          (stdout w
                           ++ ["The object you're trying to delete is depended upon by other objects.";
                               "Aborting";
                               "Please inspect the dependants report returned by delete_entity()"])),
                       Ok (RetDependants
                             (get_namespace_dependants ns
                                (MetadataStructure.md_objects ws))))
                    else MetadataManager.delete_staged "namespaces" unid (mm, w))).
  { destruct mm as [store stash current wsp cache]. cbn in Hws. subst wsp.
    unfold MetadataManager.delete_entity, MetadataManager.get_entity_by_unid.
    cbn [str_in existsb ENTITIES String.eqb Ascii.eqb Bool.eqb orb negb].
    unfold sbind, MetadataManager.workspace_for, lift, sret, sraise.
    cbn [fst snd MetadataManager.workspace unid_index_get String.eqb
         Ascii.eqb Bool.eqb].
    rewrite Hns.
    cbn [option_map negb get_entity_dependants fst snd
         MetadataManager.workspace].
    rewrite Hns. cbn [option_map get_entity_dependants].
    destruct (has_dependants
                (get_namespace_dependants ns (MetadataStructure.md_objects ws)));
      [|reflexivity].
    unfold MetadataManager.say, MetadataManager.world, print. cbn.
    rewrite <- !app_assoc. reflexivity. }
  rewrite Hrun, get_namespace_dependants_filter.
  fold referencing. cbn [has_dependants].
  split; intro H.
  - destruct referencing; [contradiction|reflexivity].
  - rewrite H. reflexivity.
Qed.

(** ** The consumer-facing key: a compound key without its last segment *)

Lemma rfind_from_split : forall (c : ascii) (s : string) (pos best : Z),
  (no_char c s = true /\ rfind_from c s pos best = best)
  \/ (exists pre suf,
        s = pre ++ String c suf
        /\ no_char c suf = true
        /\ rfind_from c s pos best = pos + Z.of_nat (String.length pre)).
Proof.
  intros c. induction s as [|a s IH]; intros pos best; simpl.
  - left. split; reflexivity.
  - destruct (IH (pos + 1) (if Ascii.eqb a c then pos else best))
      as [[Hno Hr] | (pre & suf & Hs & Hno & Hr)].
    + destruct (Ascii.eqb a c) eqn:Eac.
      * right. exists "", s. apply Ascii.eqb_eq in Eac. subst a.
        repeat split; [exact Hno | rewrite Hr; simpl; lia].
      * left. simpl. split; [exact Hno | exact Hr].
    + right. exists (String a pre), suf. subst s.
      repeat split; [exact Hno|]. rewrite Hr. simpl String.length. lia.
Qed.

Lemma take_length_app : forall pre rest, take (String.length pre) (pre ++ rest) = pre.
Proof.
  induction pre as [|a pre IH]; intro rest; simpl.
  - destruct rest; reflexivity.
  - rewrite IH. reflexivity.
Qed.

Lemma no_char_app_char : forall c pre suf,
  no_char c (pre ++ String c suf) = false.
Proof.
  intros c. induction pre as [|a pre IH]; intro suf; simpl.
  - rewrite Ascii.eqb_refl. reflexivity.
  - rewrite IH. apply andb_false_r.
Qed.

(** Cutting a string at its last dot: what is kept and what is dropped. *)
Lemma slice_to_last_dot : forall u,
  no_char dot u = false ->
  exists k version,
    slice_to u (rfind u dot) = k
    /\ u = k ++ "." ++ version
    /\ no_char dot version = true.
Proof.
  intros u Hdot. unfold rfind.
  destruct (rfind_from_split dot u 0 (-1))
    as [[Hno _] | (pre & suf & Hs & Hno & Hr)].
  - rewrite Hno in Hdot. discriminate.
  - exists pre, suf. rewrite Hr. split; [|split; [exact Hs | exact Hno]].
    unfold slice_to.
    replace (0 + Z.of_nat (String.length pre) <? 0) with false
      by (symmetry; apply Z.ltb_ge; lia).
    replace (Z.to_nat (0 + Z.of_nat (String.length pre)))
      with (String.length pre) by lia.
    rewrite Hs. apply take_length_app.
Qed.

(** ** The consumption-ready structure *)

Lemma dag_config_fold :
  forall (l : list Pipeline.t),
    (forall pl, In pl l ->
       exists recs k,
         instance_list_of pl = Ok recs /\ pipeline_identifier_of pl = Ok k) ->
    forall conf0 : DagConfig,
    exists conf,
      foldM dag_config_step l conf0 = Ok conf
      /\ forall k recs,
           dict_get String.eqb conf k = Some recs
           <-> ((exists before pl after,
                   l = (before ++ pl :: after)%list
                   /\ pipeline_identifier_of pl = Ok k
                   /\ instance_list_of pl = Ok recs
                   /\ forall q, In q after -> pipeline_identifier_of q <> Ok k)
                \/ (dict_get String.eqb conf0 k = Some recs
                    /\ forall q, In q l -> pipeline_identifier_of q <> Ok k)).
Proof.
  induction l as [|x l IH]; intros Hall conf0.
  - exists conf0. split; [reflexivity|]. intros k recs. split.
    + intro H. right. split; [exact H | intros q []].
    + intros [(before & pl & after & Hl & _) | [H _]]; [|exact H].
      destruct before; discriminate.
  - destruct (Hall x (or_introl eq_refl)) as (recsx & kx & Hrx & Hkx).
    destruct (IH (fun pl Hpl => Hall pl (or_intror Hpl))
                 (dict_set String.eqb conf0 kx recsx)) as (conf & Hconf & Hget).
    exists conf. split.
    { simpl. unfold dag_config_step. rewrite Hrx, Hkx. simpl. exact Hconf. }
    intros k recs. rewrite Hget. clear Hget.
    rewrite dict_get_set by exact String.eqb_eq.
    split.
    + intros [(before & pl & after & Hl & Hk & Hr & Hafter) | [Hg Hnone]].
      * left. exists (x :: before), pl, after. subst l.
        repeat split; assumption.
      * destruct (String.eqb k kx) eqn:Ek.
        -- apply String.eqb_eq in Ek. subst kx. injection Hg as <-.
           left. exists [], x, l. repeat split; assumption.
        -- right. split; [exact Hg|]. intros q [<- | Hq].
           ++ rewrite Hkx. intro Heq. injection Heq as ->.
              rewrite String.eqb_refl in Ek. discriminate.
           ++ apply Hnone. exact Hq.
    + intros [(before & pl & after & Hl & Hk & Hr & Hafter) | [Hg Hnone]].
      * destruct before as [|b before]; simpl in Hl; injection Hl as <- ->.
        -- right. rewrite Hkx in Hk. injection Hk as ->.
           rewrite Hrx in Hr. injection Hr as ->.
           rewrite String.eqb_refl. split; [reflexivity | exact Hafter].
        -- left. exists before, pl, after. repeat split; assumption.
      * right. assert (Hx : pipeline_identifier_of x <> Ok k)
          by (apply Hnone; left; reflexivity).
        destruct (String.eqb k kx) eqn:Ek.
        -- apply String.eqb_eq in Ek. subst kx. contradiction.
        -- split; [exact Hg|]. intros q Hq. apply Hnone. right. exact Hq.
Qed.

Lemma mapM_nth : forall (A B : Type) (f : A -> Exc B) l ys,
  mapM f l = Ok ys ->
  List.length ys = List.length l
  /\ forall i x, nth_error l i = Some x ->
       exists y, nth_error ys i = Some y /\ f x = Ok y.
Proof.
  induction l as [|a l IH]; intros ys H; simpl in H.
  - injection H as <-. split; [reflexivity|]. intros [|i] x Hx; discriminate.
  - destruct (f a) as [b|e] eqn:Efa; simpl in H; [|discriminate].
    destruct (mapM f l) as [bs|e] eqn:El; simpl in H; [|discriminate].
    injection H as <-. destruct (IH bs eq_refl) as [Hlen Hnth].
    split; [simpl; rewrite Hlen; reflexivity|].
    intros [|i] x Hx; simpl in Hx |- *.
    + injection Hx as <-. exists b. split; [reflexivity | exact Efa].
    + apply Hnth. exact Hx.
Qed.

Lemma nth_error_seq_start : forall n start i,
  (i < n)%nat -> nth_error (seq start n) i = Some (start + i)%nat.
Proof.
  induction n as [|n IH]; intros start i Hi; [lia|].
  destruct i as [|i]; simpl.
  - f_equal. lia.
  - rewrite IH by lia. f_equal. lia.
Qed.

Lemma nth_error_indices : forall (A : Type) (l : list A) i,
  (i < List.length l)%nat -> nth_error (indices l) i = Some (Z.of_nat i).
Proof.
  intros A l i Hi. unfold indices.
  rewrite nth_error_map, nth_error_seq_start by exact Hi. reflexivity.
Qed.

(** The instance list of a pipeline has one flat record per instance, in the
    order of the instances. *)
Lemma instance_list_of_nth : forall pl recs,
  instance_list_of pl = Ok recs ->
  List.length recs = List.length (Pipeline.input_output pl)
  /\ forall i, (i < List.length (Pipeline.input_output pl))%nat ->
       exists record,
         nth_error recs i = Some record
         /\ flatten_instance pl (Z.of_nat i) false = Ok record.
Proof.
  intros pl recs H. unfold instance_list_of in H.
  destruct (mapM_nth _ _ H) as [Hlen Hnth]. split.
  - rewrite Hlen. unfold indices. rewrite length_map, length_seq. reflexivity.
  - intros i Hi. apply (Hnth i (Z.of_nat i)). apply nth_error_indices. exact Hi.
Qed.

Lemma last_such : forall (A : Type) (p : A -> bool) l,
  existsb p l = true ->
  exists before x after,
    l = (before ++ x :: after)%list /\ p x = true
    /\ forall q, In q after -> p q = false.
Proof.
  induction l as [|a l IH]; simpl; intro H; [discriminate|].
  destruct (existsb p l) eqn:El.
  - destruct (IH eq_refl) as (before & x & after & -> & Hx & Hafter).
    exists (a :: before), x, after. repeat split; assumption.
  - rewrite orb_false_r in H. exists [], a, l. repeat split; [exact H|].
    intros q Hq. destruct (p q) eqn:Epq; [|reflexivity].
    assert (existsb p l = true) by (apply existsb_exists; exists q; auto).
    congruence.
Qed.

(** The mapping built from pipelines that flatten and carry a compound key:
    which keys it has, which list is found under a key, what an identifier
    is and what an instance list is. *)
Lemma dag_config_of_flattening_pipelines :
  forall integrated : list Pipeline.t,
    (forall pl, In pl integrated -> Pipeline.enabled pl = true ->
       exists recs k,
         instance_list_of pl = Ok recs /\ pipeline_identifier_of pl = Ok k) ->
    exists conf,
      integrated_to_dag_config integrated = Ok conf
      /\ (forall k recs,
            dict_get String.eqb conf k = Some recs
            <-> exists before pl after,
                  filter Pipeline.enabled integrated
                  = (before ++ pl :: after)%list
                  /\ pipeline_identifier_of pl = Ok k
                  /\ instance_list_of pl = Ok recs
                  /\ forall q, In q after -> pipeline_identifier_of q <> Ok k)
      /\ (forall k,
            dict_mem String.eqb conf k = true
            <-> exists pl,
                  In pl integrated /\ Pipeline.enabled pl = true
                  /\ pipeline_identifier_of pl = Ok k)
      /\ (forall pl u,
            Pipeline.unid pl = Some u -> no_char dot u = false ->
            exists k version,
              pipeline_identifier_of pl = Ok k
              /\ u = k ++ "." ++ version
              /\ no_char dot version = true)
      /\ (forall pl recs,
            instance_list_of pl = Ok recs ->
            List.length recs = List.length (Pipeline.input_output pl)
            /\ forall i, (i < List.length (Pipeline.input_output pl))%nat ->
                 exists record,
                   nth_error recs i = Some record
                   /\ flatten_instance pl (Z.of_nat i) false = Ok record).
Proof.
  intros integrated Hall.
  assert (Hen : forall pl, In pl (filter Pipeline.enabled integrated) ->
                  exists recs k,
                    instance_list_of pl = Ok recs
                    /\ pipeline_identifier_of pl = Ok k).
  { intros pl Hpl. apply filter_In in Hpl. destruct Hpl. apply Hall; assumption. }
  destruct (dag_config_fold _ Hen []) as (conf & Hconf & Hget).
  assert (Hget' : forall k recs,
            dict_get String.eqb conf k = Some recs
            <-> exists before pl after,
                  filter Pipeline.enabled integrated
                  = (before ++ pl :: after)%list
                  /\ pipeline_identifier_of pl = Ok k
                  /\ instance_list_of pl = Ok recs
                  /\ forall q, In q after -> pipeline_identifier_of q <> Ok k).
  { intros k recs. rewrite Hget. split.
    - intros [H | [H _]]; [exact H | discriminate].
    - intro H. left. exact H. }
  exists conf. split; [exact Hconf|]. split; [exact Hget'|]. split; [|split].
  - intros k. unfold dict_mem. split.
    + destruct (dict_get String.eqb conf k) as [recs|] eqn:Eg; [|discriminate].
      intros _. apply Hget' in Eg.
      destruct Eg as (before & pl & after & Hl & Hk & _).
      assert (Hin : In pl (filter Pipeline.enabled integrated))
        by (rewrite Hl; apply in_elt).
      apply filter_In in Hin. exists pl. tauto.
    + intros (pl & Hin & Hen' & Hk).
      set (p := fun q => match pipeline_identifier_of q with
                         | Ok k' => String.eqb k' k
                         | Raise _ => false
                         end).
      assert (Hex : existsb p (filter Pipeline.enabled integrated) = true).
      { apply existsb_exists. exists pl. split.
        - apply filter_In. split; assumption.
        - unfold p. rewrite Hk. apply String.eqb_refl. }
      destruct (last_such _ _ Hex) as (before & x & after & Hl & Hx & Hafter).
      assert (Hxin : In x (filter Pipeline.enabled integrated))
        by (rewrite Hl; apply in_elt).
      destruct (Hen x Hxin) as (recs & kx & Hrx & Hkx).
      unfold p in Hx. rewrite Hkx in Hx. apply String.eqb_eq in Hx. subst kx.
      assert (Hg : dict_get String.eqb conf k = Some recs).
      { apply Hget'. exists before, x, after. repeat split; try assumption.
        intros q Hq Heq. specialize (Hafter q Hq). unfold p in Hafter.
        rewrite Heq, String.eqb_refl in Hafter. discriminate. }
      rewrite Hg. reflexivity.
  - intros pl u Hu Hdot. unfold pipeline_identifier_of. rewrite Hu.
    destruct (slice_to_last_dot u Hdot) as (k & version & Hk & Hsplit & Hno).
    exists k, version. rewrite Hk. repeat split; assumption.
  - exact instance_list_of_nth.
Qed.

(** ** What the integrator hands to the flattener *)

Lemma mapM_in : forall (A B : Type) (f : A -> Exc B) l ys y,
  mapM f l = Ok ys -> In y ys -> exists x, In x l /\ f x = Ok y.
Proof.
  induction l as [|a l IH]; intros ys y H Hy; simpl in H.
  - injection H as <-. destruct Hy.
  - destruct (f a) as [b|] eqn:Efa; simpl in H; [|discriminate].
    destruct (mapM f l) as [bs|] eqn:El; simpl in H; [|discriminate].
    injection H as <-. destruct Hy as [<- | Hy].
    + exists a. split; [left; reflexivity | exact Efa].
    + destruct (IH bs y eq_refl Hy) as (x & Hx & Hfx).
      exists x. split; [right; exact Hx | exact Hfx].
Qed.

Lemma mapM_total : forall (A B : Type) (f : A -> Exc B) l,
  (forall x, In x l -> exists y, f x = Ok y) ->
  exists ys, mapM f l = Ok ys.
Proof.
  induction l as [|a l IH]; intro H; simpl.
  - exists []. reflexivity.
  - destruct (H a (or_introl eq_refl)) as [b ->].
    destruct (IH (fun x Hx => H x (or_intror Hx))) as [bs ->].
    exists (b :: bs). reflexivity.
Qed.

Lemma dict_mapM_value : forall (K V W : Type) (f : V -> Exc W)
                               (d : PyDict K V) d' k w,
  dict_mapM f d = Ok d' -> In (k, w) d' ->
  exists v, In (k, v) d /\ f v = Ok w.
Proof.
  intros K V W f d d' k w H Hin. unfold dict_mapM in H.
  destruct (@mapM_in _ _ _ _ _ _ H Hin) as ([k0 v] & Hx & Hfx). simpl in Hfx.
  destruct (f v) as [w0|] eqn:Efv; simpl in Hfx; [|discriminate].
  injection Hfx as <- <-. exists v. split; assumption.
Qed.

Lemma dict_get_in : forall (V : Type) (d : PyDict Z V) i v,
  dict_get Z.eqb d i = Some v -> exists k, In (k, v) d.
Proof.
  induction d as [|[k v'] d IH]; intros i v H; simpl in H; [discriminate|].
  destruct (i =? k).
  - injection H as <-. exists k. left. reflexivity.
  - destruct (IH i v H) as [k' Hk']. exists k'. right. exact Hk'.
Qed.

Lemma integrate_data_entity_embedded :
  forall ns_byid fn sys_byid sch_byid ent ent',
    integrate_data_entity ns_byid fn false sys_byid sch_byid ent = Ok ent' ->
    embedded ent'.
Proof.
  intros ns_byid fn sys_byid sch_byid ent ent' H.
  unfold integrate_data_entity in H.
  destruct (connect_namespace ns_byid fn (Data_entity.namespace ent))
    as [n|]; simpl in H; [|discriminate].
  destruct (getitem_id sys_byid _) as [sys|]; simpl in H; [|discriminate].
  destruct (getitem_id sch_byid _) as [sch|]; simpl in H; [|discriminate].
  injection H as <-. split; [exists sys | exists sch]; reflexivity.
Qed.

Lemma flatten_entity_embedded : forall e,
  embedded e -> exists record, flatten_entity (RObj e) = Ok record.
Proof.
  intros e [[s Hs] [sch Hsch]]. destruct e. cbn in Hs, Hsch. subst.
  eexists. reflexivity.
Qed.

Lemma flatten_side_embedded : forall s,
  side_embedded s -> exists v, flatten_side s = Ok v.
Proof.
  intros [r|l] H; simpl in H |- *.
  - destruct H as (e & -> & He).
    destruct (@flatten_entity_embedded e He) as [record ->].
    eexists. reflexivity.
  - destruct (@mapM_total _ _ flatten_entity l) as [recs ->].
    + intros r Hr. destruct (H r Hr) as (e & -> & He).
      apply flatten_entity_embedded. exact He.
    + eexists. reflexivity.
Qed.

Lemma connect_entity_embedded : forall (ent_byid : PyDict Z Data_entity.t) r r',
  (forall k e, In (k, e) ent_byid -> embedded e) ->
  connect_entity ent_byid r = Ok r' ->
  exists e, r' = RObj e /\ embedded e.
Proof.
  intros ent_byid r r' Hall H. unfold connect_entity in H.
  destruct (getitem_id ent_byid _) as [ent|] eqn:Eg; simpl in H; [|discriminate].
  injection H as <-. exists ent. split; [reflexivity|].
  unfold getitem_id in Eg. destruct (key_of_ref "Data_entity" r); try discriminate.
  destruct (dict_get Z.eqb ent_byid i) as [e'|] eqn:Ed; [|discriminate].
  injection Eg as ->. destruct (dict_get_in _ _ Ed) as [k Hk].
  exact (Hall k ent Hk).
Qed.

Lemma integrate_side_embedded : forall (ent_byid : PyDict Z Data_entity.t) s s',
  (forall k e, In (k, e) ent_byid -> embedded e) ->
  integrate_side ent_byid s = Ok s' ->
  side_embedded s'.
Proof.
  intros ent_byid [r|l] s' Hall H; simpl in H.
  - destruct (connect_entity ent_byid r) as [r'|] eqn:Ec; simpl in H;
      [|discriminate].
    injection H as <-. simpl. eapply connect_entity_embedded; eassumption.
  - destruct (mapM (connect_entity ent_byid) l) as [l'|] eqn:Em; simpl in H;
      [|discriminate].
    injection H as <-. simpl. intros r' Hr'.
    destruct (@mapM_in _ _ _ _ _ _ Em Hr') as (r & _ & Hc).
    eapply connect_entity_embedded; eassumption.
Qed.

Lemma integrate_pipeline_shape :
  forall ns_byid fn (ent_byid : PyDict Z Data_entity.t) pl pl',
    (forall k e, In (k, e) ent_byid -> embedded e) ->
    integrate_pipeline ns_byid fn ent_byid pl = Ok pl' ->
    Pipeline.unid pl' = Pipeline.unid pl
    /\ forall instance, In instance (Pipeline.input_output pl') ->
         side_embedded (input instance) /\ side_embedded (output instance).
Proof.
  intros ns_byid fn ent_byid pl pl' Hall H. unfold integrate_pipeline in H.
  destruct (connect_namespace ns_byid fn (Pipeline.namespace pl)) as [n|];
    simpl in H; [|discriminate].
  destruct (mapM _ _) as [io|] eqn:Em; simpl in H; [|discriminate].
  injection H as <-. split; [reflexivity|].
  intros instance Hin. simpl in Hin.
  destruct (@mapM_in _ _ _ _ _ _ Em Hin) as (x & _ & Hx).
  unfold integrate_instance in Hx.
  destruct (integrate_side ent_byid (input x)) as [i|] eqn:Ei; simpl in Hx;
    [|discriminate].
  destruct (integrate_side ent_byid (output x)) as [o|] eqn:Eo; simpl in Hx;
    [|discriminate].
  injection Hx as <-. simpl.
  split; eapply integrate_side_embedded; eassumption.
Qed.

Lemma py_index_nat : forall (A : Type) (l : list A) i,
  (i < List.length l)%nat ->
  exists x, nth_error l i = Some x /\ py_index l (Z.of_nat i) = Ok x.
Proof.
  intros A l i Hi. unfold py_index.
  replace (Z.of_nat i <? 0) with false by (symmetry; apply Z.ltb_ge; lia).
  replace (Z.of_nat i <? 0) with false by (symmetry; apply Z.ltb_ge; lia).
  replace (Z.of_nat (List.length l) <=? Z.of_nat i) with false
    by (symmetry; apply Z.leb_gt; lia).
  cbn [orb]. rewrite Nat2Z.id.
  destruct (nth_error l i) as [x|] eqn:En.
  - exists x. split; reflexivity.
  - apply nth_error_None in En. lia.
Qed.

Lemma flatten_instance_embedded : forall pl i,
  (i < List.length (Pipeline.input_output pl))%nat ->
  (forall instance, In instance (Pipeline.input_output pl) ->
     side_embedded (input instance) /\ side_embedded (output instance)) ->
  exists v, flatten_instance pl (Z.of_nat i) false = Ok v.
Proof.
  intros pl i Hi Hall. unfold flatten_instance.
  assert (Hpl : exists d,
             put_keys "pl_" FLAT_PL_KEYS
               (getattr "Pipeline" (pipeline_attrs false pl)) [] = Ok d)
    by (destruct pl; eexists; reflexivity).
  destruct Hpl as [d ->]. cbn [bind].
  destruct (py_index_nat _ Hi) as (instance & Hnth & ->). cbn [bind].
  destruct (Hall instance (nth_error_In _ _ Hnth)) as [Hin Hout].
  destruct (flatten_side_embedded _ Hin) as [vi ->].
  destruct (flatten_side_embedded _ Hout) as [vo ->].
  eexists. reflexivity.
Qed.

Lemma instance_list_of_embedded : forall pl,
  (forall instance, In instance (Pipeline.input_output pl) ->
     side_embedded (input instance) /\ side_embedded (output instance)) ->
  exists recs, instance_list_of pl = Ok recs.
Proof.
  intros pl Hall. unfold instance_list_of. apply mapM_total.
  intros x Hx. unfold indices in Hx. apply in_map_iff in Hx.
  destruct Hx as (i & <- & Hi). apply in_seq in Hi.
  apply flatten_instance_embedded; [lia | exact Hall].
Qed.

(** With whole schemas ([flatten_schemas=False], the setting of the build)
    every pipeline the integrator returns flattens, and has an identifier if
    the pipeline of the index carried a compound key. *)
Lemma integrated_graph_flattens :
  forall (metadata_id_idx : IdIdx) (flatten_namespaces : bool)
         (integrated : list Pipeline.t),
    integrate_pipelines metadata_id_idx flatten_namespaces false = Ok integrated ->
    (forall k pl, In (k, pl) (pipelines_idx metadata_id_idx) ->
       exists u, Pipeline.unid pl = Some u) ->
    forall pl, In pl integrated ->
      exists recs k,
        instance_list_of pl = Ok recs /\ pipeline_identifier_of pl = Ok k.
Proof.
  intros idx fn integrated H Hunid pl Hpl. unfold integrate_pipelines in H.
  destruct (dict_mapM _ (schemas_idx idx)) as [sch_byid|]; simpl in H;
    [|discriminate].
  destruct (dict_mapM _ (systems_idx idx)) as [sys_byid|]; simpl in H;
    [|discriminate].
  destruct (dict_mapM _ (data_entities_idx idx)) as [ent_byid|] eqn:Eent;
    simpl in H; [|discriminate].
  destruct (dict_mapM _ (pipelines_idx idx)) as [pl_byid|] eqn:Epl;
    simpl in H; [|discriminate].
  injection H as <-. unfold dict_values in Hpl. apply in_map_iff in Hpl.
  destruct Hpl as ([k pl'] & Heq & Hin). simpl in Heq. subst pl'.
  destruct (dict_mapM_value _ _ _ _ Epl Hin) as (pl0 & Hin0 & Hint).
  assert (Hemb : forall k e, In (k, e) ent_byid -> embedded e).
  { intros k' e He. destruct (dict_mapM_value _ _ _ _ Eent He) as (e0 & _ & He0).
    eapply integrate_data_entity_embedded. exact He0. }
  destruct (integrate_pipeline_shape _ _ _ _ Hemb Hint) as [Hu Hshape].
  destruct (instance_list_of_embedded _ Hshape) as [recs Hrecs].
  destruct (Hunid k pl0 Hin0) as [u Hu0].
  exists recs, (slice_to u (rfind u dot)). split; [exact Hrecs|].
  unfold pipeline_identifier_of. rewrite Hu, Hu0. reflexivity.
Qed.

(** C7.  For the integrated graph the integrator returns (with whole
    schemas, as the build calls it) from an index whose pipelines carry
    their compound keys, [integrated_to_dag_config] returns a mapping such
    that
    - a key maps to a list of records exactly when an enabled pipeline has
      this identifier, and the list is the instance list of the last such
      pipeline in processing order (a later version overwrites an earlier);
    - its keys are the identifiers of the enabled pipelines and no other;
    - the identifier of a pipeline is its compound key cut at the last dot:
      the compound key is the identifier, a dot, and a last segment without
      dots (the version);
    - the instance list has one flat record per instance, in order. *)
Theorem dag_config_construction :
  forall (metadata_id_idx : IdIdx) (flatten_namespaces : bool)
         (integrated : list Pipeline.t),
    integrate_pipelines metadata_id_idx flatten_namespaces false = Ok integrated ->
    (forall k pl, In (k, pl) (pipelines_idx metadata_id_idx) ->
       exists u, Pipeline.unid pl = Some u) ->
    exists conf,
      integrated_to_dag_config integrated = Ok conf
      /\ (forall k recs,
            dict_get String.eqb conf k = Some recs
            <-> exists before pl after,
                  filter Pipeline.enabled integrated
                  = (before ++ pl :: after)%list
                  /\ pipeline_identifier_of pl = Ok k
                  /\ instance_list_of pl = Ok recs
                  /\ forall q, In q after -> pipeline_identifier_of q <> Ok k)
      /\ (forall k,
            dict_mem String.eqb conf k = true
            <-> exists pl,
                  In pl integrated /\ Pipeline.enabled pl = true
                  /\ pipeline_identifier_of pl = Ok k)
      /\ (forall pl u,
            Pipeline.unid pl = Some u -> no_char dot u = false ->
            exists k version,
              pipeline_identifier_of pl = Ok k
              /\ u = k ++ "." ++ version
              /\ no_char dot version = true)
      /\ (forall pl recs,
            instance_list_of pl = Ok recs ->
            List.length recs = List.length (Pipeline.input_output pl)
            /\ forall i, (i < List.length (Pipeline.input_output pl))%nat ->
                 exists record,
                   nth_error recs i = Some record
                   /\ flatten_instance pl (Z.of_nat i) false = Ok record).
Proof.
  intros idx fn integrated Hint Hunid.
  apply dag_config_of_flattening_pipelines.
  intros pl Hin _.
  exact (@integrated_graph_flattens idx fn integrated Hint Hunid pl Hin).
Qed.

(** ** Validation reports *)

Lemma report_extends_refl : forall r, report_extends r r [].
Proof.
  intro r. split; [rewrite app_nil_r | simpl; rewrite andb_true_r]; reflexivity.
Qed.

Lemma report_extends_trans : forall a b c l1 l2,
  report_extends a b l1 -> report_extends b c l2 ->
  report_extends a c (l1 ++ l2).
Proof.
  intros a b c l1 l2 [He1 Hv1] [He2 Hv2]. split.
  - rewrite He2, He1, app_assoc. reflexivity.
  - rewrite Hv2, Hv1. destruct l1, l2; simpl;
      rewrite ?andb_true_r, ?andb_false_r; reflexivity.
Qed.

Lemma add_error_unless_extends : forall ok r msg,
  report_extends r (add_error_unless ok r msg) (unless ok msg).
Proof.
  intros [|] r msg; unfold add_error_unless, unless.
  - apply report_extends_refl.
  - split; simpl; [reflexivity | rewrite andb_false_r; reflexivity].
Qed.

Lemma check_enum_extends : forall value what kinds plural allowed r,
  report_extends r (check_enum value what kinds plural allowed r)
    (enum_violation value what kinds plural allowed).
Proof. intros. apply add_error_unless_extends. Qed.

Lemma check_namespace_extends :
  forall owner by_id by_unid ref r r',
    check_namespace owner by_id by_unid ref r = Ok r' ->
    report_extends r r' (namespace_violation by_id by_unid ref).
Proof.
  intros owner by_id by_unid [i|u|n] r r' H; cbn in H;
    [injection H as <- | injection H as <- | discriminate];
    apply add_error_unless_extends.
Qed.

Lemma check_io_ref_extends :
  forall side side_lc by_id by_unid r ref r',
    check_io_ref side side_lc by_id by_unid r ref = Ok r' ->
    report_extends r r' (entity_ref_violation by_id by_unid side ref).
Proof.
  intros side side_lc by_id by_unid r [i|u|n] r' H; cbn in H;
    [injection H as <- | injection H as <- | discriminate];
    apply add_error_unless_extends.
Qed.

Lemma foldM_extends :
  forall (A : Type) (check : Report -> A -> Exc Report)
         (viol : A -> list string),
    (forall r x r', check r x = Ok r' -> report_extends r r' (viol x)) ->
    forall l r r',
      foldM check l r = Ok r' -> report_extends r r' (flat_map viol l).
Proof.
  intros A check viol Hcheck. induction l as [|x l IH]; intros r r' H.
  - injection H as <-. apply report_extends_refl.
  - simpl in H. destruct (check r x) as [r1|e] eqn:E1; simpl in H;
      [|discriminate].
    simpl. eapply report_extends_trans; [apply Hcheck; exact E1 | apply IH; exact H].
Qed.

Lemma check_io_side_extends :
  forall side side_lc by_id by_unid r s r',
    check_io_side side side_lc by_id by_unid r s = Ok r' ->
    report_extends r r' (side_violations by_id by_unid side s).
Proof.
  intros side side_lc by_id by_unid r [ref|l] r' H; simpl in H |- *.
  - eapply check_io_ref_extends. exact H.
  - eapply foldM_extends; [|exact H].
    intros r0 x r0' H0. eapply check_io_ref_extends. exact H0.
Qed.

Lemma check_instance_extends :
  forall by_id by_unid r instance r',
    check_instance by_id by_unid r instance = Ok r' ->
    report_extends r r' (instance_violations by_id by_unid instance).
Proof.
  intros by_id by_unid r instance r' H. unfold check_instance in H.
  destruct (check_io_side "Input" "input" by_id by_unid r (input instance))
    as [r1|e] eqn:E1; simpl in H; [|discriminate].
  eapply report_extends_trans; eapply check_io_side_extends; eassumption.
Qed.

Lemma report_extends_new : forall r l,
  report_extends new_result r l ->
  errors r = l /\ valid r = is_nil l.
Proof. intros r l [He Hv]. split; assumption. Qed.

(** The report of the standard checks lists the violated reference and enum
    invariants, all of them, and is valid when there is none. *)
Lemma standard_validation_violations : forall e ws rs,
  standard_validation e ws = Ok rs ->
  errors rs
  = violations (MetadataStructure.by_id ws) (MetadataStructure.by_unid ws) e
  /\ valid rs
     = is_nil (violations (MetadataStructure.by_id ws)
                 (MetadataStructure.by_unid ws) e).
Proof.
  intros e ws rs H. apply report_extends_new.
  destruct e as [n|s|s|d|p]; cbn [standard_validation violations] in *.
  - injection H as <-. apply report_extends_refl.
  - unfold validate_schema in H.
    destruct (check_namespace _ _ _ _ _) as [r1|] eqn:E1; simpl in H;
      [|discriminate].
    injection H as <-.
    eapply report_extends_trans;
      [eapply check_namespace_extends; exact E1 | apply check_enum_extends].
  - unfold validate_system in H.
    destruct (check_namespace _ _ _ _ _) as [r1|] eqn:E1; simpl in H;
      [|discriminate].
    injection H as <-.
    eapply report_extends_trans;
      [eapply check_namespace_extends; exact E1 | apply check_enum_extends].
  - unfold validate_data_entity in H.
    destruct (check_namespace _ _ _ _ _) as [r1|] eqn:E1; simpl in H;
      [|discriminate].
    eapply report_extends_trans;
      [eapply check_namespace_extends; exact E1 |].
    destruct (Data_entity.system d) as [i|u|o]; cbn in H |- *; [| |discriminate].
    + destruct (Data_entity.entity_schema d) as [j|v|o|b]; cbn in H |- *;
        try discriminate; injection H as <-;
        (eapply report_extends_trans; [apply add_error_unless_extends|]);
        (eapply report_extends_trans; [apply add_error_unless_extends|]);
        (eapply report_extends_trans; apply check_enum_extends).
    + destruct (Data_entity.entity_schema d) as [j|v|o|b]; cbn in H |- *;
        try discriminate; injection H as <-;
        (eapply report_extends_trans; [apply add_error_unless_extends|]);
        (eapply report_extends_trans; [apply add_error_unless_extends|]);
        (eapply report_extends_trans; apply check_enum_extends).
  - unfold validate_pipeline in H.
    assert (Hns : forall r1,
               match Pipeline.namespace p with
               | RId i =>
                   b <- id_exists (MetadataStructure.by_id ws) "namespaces" i ;;
                   Ok (add_error_unless b new_result
                         ("Referenced namespace id " ++ str_of_int i
                          ++ " does not exist"))
               | RUnid u =>
                   b <- unid_exists (MetadataStructure.by_unid ws) "namespaces" u ;;
                   (if b then Ok new_result
                    else Raise (NameError "name 'pl_unid' is not defined"))
               | RObj _ =>
                   Raise (TypeError
                            "Cannot validate pipeline.namespace if it is not a str or int")
               end = Ok r1 ->
               report_extends new_result r1
                 (namespace_violation (MetadataStructure.by_id ws)
                    (MetadataStructure.by_unid ws) (Pipeline.namespace p))).
    { intros r1 H1. destruct (Pipeline.namespace p) as [i|u|o]; cbn in H1 |- *.
      - injection H1 as <-. apply add_error_unless_extends.
      - destruct (dict_mem ounid_eqb _ _); [|discriminate].
        injection H1 as <-. apply report_extends_refl.
      - discriminate. }
    match type of H with
    | bind ?m _ = _ => destruct m as [r1|] eqn:E1; simpl in H; [|discriminate]
    end.
    specialize (Hns r1 eq_refl).
    destruct (foldM _ _ r1) as [r2|] eqn:E2; simpl in H; [|discriminate].
    injection H as <-.
    eapply report_extends_trans; [exact Hns|].
    eapply report_extends_trans.
    { eapply foldM_extends; [|exact E2].
      intros r0 x r0' H0. eapply check_instance_extends. exact H0. }
    eapply report_extends_trans; [apply check_enum_extends|].
    eapply report_extends_trans; apply check_enum_extends.
Qed.

Lemma unless_negb : forall b msg,
  unless (negb b) msg = if b then [msg] else [].
Proof. intros [|] msg; reflexivity. Qed.

(** The two stages of new-entity validation: a report of the standard
    checks that is invalid is returned as it is; a valid one is extended by
    the uniqueness violations of the candidate. *)
Lemma validate_new_entity_stages : forall e ws rs,
  standard_validation e ws = Ok rs ->
  (valid rs = false -> validate_new_entity e ws = Ok rs)
  /\ (valid rs = true ->
      forall k, candidate_key e ws = Ok k ->
        exists r,
          validate_new_entity e ws = Ok r
          /\ report_extends rs r (uniqueness_violations e ws k)).
Proof.
  intros e ws rs Hrs.
  destruct e as [n|s|s|d|p];
    cbn [standard_validation validate_new_entity candidate_key] in *.
  - injection Hrs as <-. split; [discriminate|].
    intros _ k Hk. injection Hk as <-.
    eexists. split; [reflexivity|].
    unfold uniqueness_violations, id_in_use, key_in_use.
    cbn [id_in_index]. rewrite <- !unless_negb.
    eapply report_extends_trans; apply add_error_unless_extends.
  - unfold validate_new_schema. rewrite Hrs. cbn [bind]. split.
    + intros ->. reflexivity.
    + intros -> k Hk. injection Hk as <-. cbn [negb].
      eexists. split; [reflexivity|].
      unfold uniqueness_violations, id_in_use, key_in_use.
      cbn [id_in_index]. rewrite <- !unless_negb.
      eapply report_extends_trans; apply add_error_unless_extends.
  - unfold validate_new_system. rewrite Hrs. cbn [bind]. split.
    + intros ->. reflexivity.
    + intros -> k Hk. cbn [negb]. rewrite Hk.
      eexists. split; [reflexivity|].
      unfold uniqueness_violations, id_in_use, key_in_use.
      cbn [id_in_index]. rewrite <- !unless_negb.
      eapply report_extends_trans; apply add_error_unless_extends.
  - unfold validate_new_data_entity. rewrite Hrs. cbn [bind]. split.
    + intros ->. reflexivity.
    + intros -> k Hk. cbn [negb]. rewrite Hk.
      eexists. split; [reflexivity|].
      unfold uniqueness_violations, id_in_use, key_in_use.
      cbn [id_in_index]. rewrite <- !unless_negb.
      eapply report_extends_trans; apply add_error_unless_extends.
  - unfold validate_new_pipeline. rewrite Hrs. cbn [bind]. split.
    + intros ->. reflexivity.
    + intros -> k Hk. cbn [negb]. rewrite Hk.
      eexists. split; [reflexivity|].
      unfold uniqueness_violations, id_in_use, key_in_use.
      cbn [id_in_index]. rewrite <- !unless_negb.
      eapply report_extends_trans; apply add_error_unless_extends.
Qed.

Lemma uniqueness_violations_nil : forall e ws k,
  uniqueness_violations e ws k = []
  <-> id_in_use e ws = false /\ key_in_use e ws k = false.
Proof.
  intros e ws k. unfold uniqueness_violations.
  destruct e; destruct (id_in_use _ ws), (key_in_use _ ws k); simpl;
    split; try discriminate; try tauto; intros [? ?]; discriminate.
Qed.

Lemma uniqueness_violations_id : forall e ws k,
  id_in_use e ws = true ->
  In (duplicate_id_error e) (uniqueness_violations e ws k).
Proof.
  intros e ws k H. unfold uniqueness_violations. rewrite H.
  destruct e; destruct (key_in_use _ ws k); simpl; auto.
Qed.

Lemma uniqueness_violations_key : forall e ws k,
  key_in_use e ws k = true ->
  In (duplicate_key_error e k) (uniqueness_violations e ws k).
Proof.
  intros e ws k H. unfold uniqueness_violations. rewrite H.
  destruct e; destruct (id_in_use _ ws); simpl; auto.
Qed.

Lemma report_extends_nil_eq : forall r r', report_extends r r' [] -> r' = r.
Proof.
  intros [v e] [v' e'] [He Hv]. simpl in *.
  rewrite app_nil_r in He. rewrite andb_true_r in Hv. subst. reflexivity.
Qed.

Lemma report_extends_invalid : forall r r' l,
  report_extends r r' l -> l <> [] -> valid r' = false.
Proof.
  intros r r' l [_ Hv] Hl. rewrite Hv. destruct l; [contradiction|].
  apply andb_false_r.
Qed.

(** C5.  A candidate whose standard checks return a report (and whose
    compound key can be derived when they pass) gets a report from
    new-entity validation, and in it
    - a candidate whose id is in use by an entity of its type is invalid,
      and so is one whose derived compound key is in use;
    - when the standard checks pass, the duplicate id and the duplicate key
      are named among the errors;
    - with a fresh id and a fresh key, a candidate that passes the standard
      checks is accepted: the report is the valid report of those checks. *)
Theorem uniqueness_on_insert :
  forall (e : Entity) (ws : MetadataStructure.t) (rs : Report),
    standard_validation e ws = Ok rs ->
    (valid rs = true -> exists k, candidate_key e ws = Ok k) ->
    exists r,
      validate_new_entity e ws = Ok r
      /\ (id_in_use e ws = true -> valid r = false)
      /\ (forall k, candidate_key e ws = Ok k ->
            key_in_use e ws k = true -> valid r = false)
      /\ (valid rs = true -> id_in_use e ws = true ->
          In (duplicate_id_error e) (errors r))
      /\ (forall k, valid rs = true -> candidate_key e ws = Ok k ->
            key_in_use e ws k = true ->
            In (duplicate_key_error e k) (errors r))
      /\ (forall k, valid rs = true -> candidate_key e ws = Ok k ->
            id_in_use e ws = false -> key_in_use e ws k = false ->
            r = rs /\ valid r = true).
Proof.
  intros e ws rs Hrs Hkey.
  destruct (validate_new_entity_stages e ws Hrs) as [Hbad Hgood].
  destruct (valid rs) eqn:Hv.
  - destruct (Hkey eq_refl) as [k0 Hk0].
    destruct (Hgood eq_refl k0 Hk0) as (r & Hr & Hext).
    assert (Hsame : forall k, candidate_key e ws = Ok k -> k = k0)
      by (intros k Hk; congruence).
    exists r. split; [exact Hr|].
    split; [|split; [|split; [|split]]].
    + intro Hid. eapply report_extends_invalid; [exact Hext|].
      intro Hnil. apply uniqueness_violations_nil in Hnil. destruct Hnil.
      congruence.
    + intros k Hk Hin. apply Hsame in Hk. subst k.
      eapply report_extends_invalid; [exact Hext|].
      intro Hnil. apply uniqueness_violations_nil in Hnil. destruct Hnil.
      congruence.
    + intros _ Hid. destruct Hext as [He _]. rewrite He. apply in_or_app.
      right. apply uniqueness_violations_id. exact Hid.
    + intros k _ Hk Hin. apply Hsame in Hk. subst k.
      destruct Hext as [He _]. rewrite He. apply in_or_app.
      right. apply uniqueness_violations_key. exact Hin.
    + intros k _ Hk Hid Hfresh. apply Hsame in Hk. subst k.
      assert (Hnil : uniqueness_violations e ws k0 = [])
        by (apply uniqueness_violations_nil; split; assumption).
      rewrite Hnil in Hext. apply report_extends_nil_eq in Hext. subst r.
      split; [reflexivity | exact Hv].
  - exists rs. split; [apply Hbad; reflexivity|].
    split; [|split; [|split; [|split]]].
    + intros _. exact Hv.
    + intros k _ _. exact Hv.
    + discriminate.
    + intros k Habs. discriminate Habs.
    + intros k Habs. discriminate Habs.
Qed.

(** ** What [add_new_entity] does with a rejected candidate *)

(** The console after printing [lines]. *)
Lemma say_lines : forall (mm : MetadataManager.t) (w : World) line,
  MetadataManager.say line (mm, w)
  = ((mm, mk_world (ticks w) (clock w) (stdin w) (stdout w ++ [line])), Ok tt).
Proof. reflexivity. Qed.

Lemma print_errors_loop : forall (l : list string) (mm : MetadataManager.t) w,
  sfor l (fun error => MetadataManager.say error ;;; MetadataManager.say "")
    (mm, w)
  = ((mm,
      mk_world (ticks w) (clock w) (stdin w)
        (stdout w ++ flat_map (fun error => [error; ""]) l)),
     Ok tt).
Proof.
  induction l as [|x l IH]; intros mm w.
  - simpl. rewrite app_nil_r. destruct w; reflexivity.
  - cbn [sfor flat_map]. unfold sbind. rewrite say_lines, say_lines, IH.
    cbn [ticks clock stdin stdout].
    rewrite <- !app_assoc. reflexivity.
Qed.

(** The lines [add_new_entity] prints for a rejected candidate. *)
Lemma add_new_entity_rejected : forall mm w ws e r,
  MetadataManager.workspace mm = Some ws ->
  validate_new_entity e ws = Ok r ->
  valid r = false ->
  MetadataManager.add_new_entity e (mm, w)
  = ((mm,
      mk_world (ticks w) (clock w) (stdin w)
        (stdout w
         ++ ["ERROR! Adding this object leads to invalid metadata."; "";
             "The following errors were found in validation:"; ""]
         ++ flat_map (fun error => [error; ""]) (errors r))),
     Ok (RetReport r)).
Proof.
  intros mm w ws e r Hws Hr Hv.
  unfold MetadataManager.add_new_entity.
  unfold sbind at 1. unfold MetadataManager.workspace_for. cbn [fst].
  rewrite Hws. unfold sbind at 1. unfold lift. rewrite Hr, Hv. cbn [negb].
  unfold sbind. rewrite !say_lines, print_errors_loop.
  unfold sret. cbn [ticks clock stdin stdout].
  rewrite <- !app_assoc. reflexivity.
Qed.

(** C8 (as amended).  New-entity validation reports in two stages.  The
    report of the standard checks lists every violated reference-existence
    and enum-membership invariant of the candidate, not only the first.  If
    there is such a violation, this report is the result, the uniqueness of
    the id and of the key is not tested, and [add_new_entity] prints the
    errors and returns the report, leaving the manager as it was.  If there
    is none, the result lists the uniqueness violations, the duplicate id
    and the duplicate key together when both are present, and
    [add_new_entity] returns it in the same way when it is not empty. *)
Theorem staged_error_reports :
  forall (e : Entity) (ws : MetadataStructure.t) (rs : Report)
         (mm : MetadataManager.t) (w : World),
    standard_validation e ws = Ok rs ->
    MetadataManager.workspace mm = Some ws ->
    let found :=
      violations (MetadataStructure.by_id ws) (MetadataStructure.by_unid ws) e in
    let printed (r : Report) :=
      mk_world (ticks w) (clock w) (stdin w)
        (stdout w
         ++ ["ERROR! Adding this object leads to invalid metadata."; "";
             "The following errors were found in validation:"; ""]
         ++ flat_map (fun error => [error; ""]) (errors r)) in
    errors rs = found
    /\ (found <> [] ->
        validate_new_entity e ws = Ok rs
        /\ MetadataManager.add_new_entity e (mm, w)
           = ((mm, printed rs), Ok (RetReport rs)))
    /\ (found = [] ->
        forall k, candidate_key e ws = Ok k ->
          exists r,
            validate_new_entity e ws = Ok r
            /\ errors r = uniqueness_violations e ws k
            /\ (uniqueness_violations e ws k <> [] ->
                MetadataManager.add_new_entity e (mm, w)
                = ((mm, printed r), Ok (RetReport r)))).
Proof.
  intros e ws rs mm w Hrs Hws found printed.
  destruct (standard_validation_violations e ws Hrs) as [Herr Hvalid].
  destruct (validate_new_entity_stages e ws Hrs) as [Hbad Hgood].
  fold found in Herr, Hvalid.
  split; [exact Herr|]. split.
  - intro Hfound.
    assert (Hv : valid rs = false)
      by (rewrite Hvalid; destruct found; [contradiction | reflexivity]).
    split; [apply Hbad; exact Hv|].
    apply add_new_entity_rejected with (ws := ws); auto.
  - intros Hfound k Hk.
    assert (Hv : valid rs = true) by (rewrite Hvalid, Hfound; reflexivity).
    destruct (Hgood Hv k Hk) as (r & Hr & Hext).
    exists r. split; [exact Hr|]. split.
    + destruct Hext as [He _]. rewrite He, Herr, Hfound. reflexivity.
    + intro Hu. apply add_new_entity_rejected with (ws := ws); auto.
      eapply report_extends_invalid; eassumption.
Qed.

(** C8 (as stated) fails: the candidate schema has a type outside the
    allowed set and the id and the key of an existing schema; the report
    names the type and says nothing about the id or the key. *)
Lemma early_return_hides_duplicates :
  let ws := Scenario.loaded Scenario.graph in
  let candidate := ESchema Scenario.orders_json in
  id_in_use candidate ws = true
  /\ candidate_key candidate ws = Ok "orders.1"
  /\ key_in_use candidate ws "orders.1" = true
  /\ validate_new_entity candidate ws
     = Ok {| valid := false;
             errors := ["json is not a valid type for schemas. Valid types are: avro, bigquery,"] |}.
Proof. vm_compute. repeat split. Qed.

(** The candidates of the scenario: a fresh system [crm] in the namespace
    [sales] is accepted; [erp] offered again is rejected for its id and for
    its key. *)
Lemma uniqueness_on_insert_scenario :
  validate_new_entity (ESystem Scenario.crm) (Scenario.loaded Scenario.graph)
  = Ok new_result
  /\ exists r,
       validate_new_entity (ESystem Scenario.erp)
         (Scenario.loaded Scenario.graph) = Ok r
       /\ valid r = false
       /\ In "A system with id 1 exists already" (errors r)
       /\ In "A system with UNID sales.erp exists already" (errors r).
Proof.
  split.
  - destruct (@uniqueness_on_insert (ESystem Scenario.crm)
                (Scenario.loaded Scenario.graph) new_result)
      as (r & Hr & _ & _ & _ & _ & Hfresh);
      [reflexivity | intros _; exists "sales.crm"; reflexivity |].
    destruct (Hfresh "sales.crm" eq_refl eq_refl eq_refl eq_refl) as [-> _].
    exact Hr.
  - destruct (@uniqueness_on_insert (ESystem Scenario.erp)
                (Scenario.loaded Scenario.graph) new_result)
      as (r & Hr & Hid & _ & Hidmsg & Hkeymsg & _);
      [reflexivity | intros _; exists "sales.erp"; reflexivity |].
    exists r. split; [exact Hr|]. split; [apply Hid; reflexivity|]. split.
    + apply Hidmsg; reflexivity.
    + apply (Hkeymsg "sales.erp"); reflexivity.
Defined.

(** ** Transactions *)

Lemma sbind_ok : forall (S A B : Type) (m : SE S A) (f : A -> SE S B) s s' b,
  sbind m f s = (s', Ok b) ->
  exists s1 a, m s = (s1, Ok a) /\ f a s1 = (s', Ok b).
Proof.
  intros S A B m f s s' b H. unfold sbind in H.
  destruct (m s) as [s1 [a|e]]; [|discriminate].
  exists s1, a. split; [reflexivity | exact H].
Qed.

Lemma keeps_sbind : forall (A B : Type) (m : MetadataManager.Method A)
                           (f : A -> MetadataManager.Method B),
  keeps_workspace m -> (forall a, keeps_workspace (f a)) ->
  keeps_workspace (sbind m f).
Proof.
  intros A B m f Hm Hf st st' r H. unfold sbind in H.
  destruct (m st) as [s1 [a|e]] eqn:Em.
  - rewrite (Hf a _ _ _ H). exact (Hm _ _ _ Em).
  - injection H as <- <-. exact (Hm _ _ _ Em).
Qed.

Lemma keeps_sret : forall (A : Type) (a : A),
  keeps_workspace (sret a : MetadataManager.Method A).
Proof. intros A a st st' r H. injection H as <- <-. reflexivity. Qed.

Lemma keeps_sraise : forall (A : Type) e,
  keeps_workspace (sraise e : MetadataManager.Method A).
Proof. intros A e st st' r H. injection H as <- <-. reflexivity. Qed.

Lemma keeps_lift : forall (A : Type) (m : Exc A),
  keeps_workspace (lift m : MetadataManager.Method A).
Proof. intros A m st st' r H. injection H as <- <-. reflexivity. Qed.

Lemma keeps_world : forall (A : Type) (m : SE World A),
  keeps_workspace (MetadataManager.world m).
Proof.
  intros A m st st' r H. unfold MetadataManager.world in H.
  destruct (m (snd st)) as [w' r']. injection H as <- <-. reflexivity.
Qed.

Lemma keeps_workspace_for : forall attr,
  keeps_workspace (MetadataManager.workspace_for attr).
Proof.
  intros attr st st' r H. unfold MetadataManager.workspace_for in H.
  destruct (MetadataManager.workspace (fst st)) eqn:E; injection H as <- <-;
    congruence.
Qed.

Lemma keeps_cache_for : forall attr,
  keeps_workspace (MetadataManager.cache_for attr).
Proof.
  intros attr st st' r H. unfold MetadataManager.cache_for in H.
  destruct (MetadataManager.cache (fst st)); injection H as <- <-;
    reflexivity.
Qed.

Lemma keeps_set_cache : forall f,
  keeps_workspace
    (MetadataManager.assign (fun mm => MetadataManager.set_cache mm (f mm))).
Proof. intros f st st' r H. injection H as <- <-. reflexivity. Qed.

Lemma keeps_on_cache : forall (A : Type) attr (m : MetadataStructure.Method A),
  keeps_workspace (MetadataManager.on_cache attr m).
Proof.
  intros A attr m st st' r H. unfold MetadataManager.on_cache in H.
  destruct (MetadataManager.cache (fst st)) as [c|].
  - destruct (m (c, snd st)) as [[c' w'] r']. injection H as <- <-. reflexivity.
  - injection H as <- <-. reflexivity.
Qed.

Ltac keeps :=
  repeat first
    [ apply keeps_sbind; [|intro]
    | apply keeps_sret | apply keeps_sraise | apply keeps_lift
    | apply keeps_world | apply keeps_workspace_for | apply keeps_cache_for
    | apply keeps_set_cache | apply keeps_on_cache
    | match goal with |- keeps_workspace (if ?b then _ else _) => destruct b end ].

(** Staging works on the cache only. *)
Lemma stage_add_keeps_workspace : forall ws e,
  keeps_workspace (MetadataManager.stage_add ws e).
Proof.
  intros ws e. unfold MetadataManager.stage_add, MetadataManager.rebuild_cache.
  keeps.
Qed.

Lemma stage_update_keeps_workspace : forall e,
  keeps_workspace (MetadataManager.stage_update e).
Proof.
  intros e. unfold MetadataManager.stage_update, MetadataManager.rebuild_cache.
  keeps.
Qed.

Lemma stage_delete_keeps_workspace : forall entity_type unid,
  keeps_workspace (MetadataManager.stage_delete entity_type unid).
Proof.
  intros. unfold MetadataManager.stage_delete, MetadataManager.rebuild_cache.
  keeps.
Qed.

Lemma confirm_add_keeps_workspace :
  keeps_workspace MetadataManager.confirm_add.
Proof. unfold MetadataManager.confirm_add, MetadataManager.say. keeps. Qed.

Ltac peel H :=
  repeat match type of H with
         | sbind _ _ _ = (_, Ok _) =>
             let s1 := fresh "s" in
             let a := fresh "a" in
             let H1 := fresh "Hstep" in
             apply sbind_ok in H; destruct H as (s1 & a & H1 & H)
         | (let '(_, _) := ?p in _) _ = _ => destruct p
         end.

(** A validation run that returns stores its verdict and its report. *)
Lemma validate_stores_report : forall st st' rep,
  MetadataStructure.validate st = (st', Ok rep) ->
  MetadataStructure.report (fst st') = Some rep
  /\ MetadataStructure.valid (fst st') = StructReport.valid rep.
Proof.
  intros st st' rep H. unfold MetadataStructure.validate in H.
  peel H. unfold sret in H. injection H as <- <-.
  match goal with
  | Ha : MetadataStructure.assign _ _ = (_, Ok _) |- _ =>
      unfold MetadataStructure.assign in Ha; injection Ha as <- _
  end.
  split; reflexivity.
Qed.

Lemma rebuild_stores_report : forall with_dag_config st st',
  MetadataStructure.rebuild with_dag_config st = (st', Ok tt) ->
  exists rep,
    MetadataStructure.report (fst st') = Some rep
    /\ MetadataStructure.valid (fst st') = StructReport.valid rep.
Proof.
  intros b st st' H. unfold MetadataStructure.rebuild in H.
  peel H. unfold sret in H. injection H as <-.
  match goal with
  | Hv : MetadataStructure.validate _ = (_, Ok ?r) |- _ =>
      exists r; exact (validate_stores_report _ Hv)
  end.
Qed.

Lemma rebuild_cache_stores_report : forall st st',
  MetadataManager.rebuild_cache st = (st', Ok tt) ->
  exists c rep,
    MetadataManager.cache (fst st') = Some c
    /\ MetadataStructure.report c = Some rep
    /\ MetadataStructure.valid c = StructReport.valid rep.
Proof.
  intros st st' H.
  unfold MetadataManager.rebuild_cache, MetadataManager.on_cache in H.
  destruct (MetadataManager.cache (fst st)) as [c|]; [|discriminate].
  destruct (MetadataStructure.build_from_objects (c, snd st))
    as [[c' w'] r] eqn:Eb.
  injection H as <- ->. exists c'.
  unfold MetadataStructure.build_from_objects in Eb.
  apply sbind_ok in Eb. destruct Eb as (s1 & a & _ & Eb).
  destruct (rebuild_stores_report _ _ Eb) as (rep & Hrep & Hval).
  exists rep. cbn. split; [reflexivity|]. split; assumption.
Qed.

Lemma stage_add_report : forall ws e st st1,
  MetadataManager.stage_add ws e st = (st1, Ok tt) ->
  exists c rep,
    MetadataManager.cache (fst st1) = Some c
    /\ MetadataStructure.report c = Some rep
    /\ MetadataStructure.valid c = StructReport.valid rep.
Proof.
  intros ws e st st1 H. unfold MetadataManager.stage_add in H. peel H.
  eapply rebuild_cache_stores_report. exact H.
Qed.

Lemma stage_update_report : forall e st st1,
  MetadataManager.stage_update e st = (st1, Ok tt) ->
  exists c rep,
    MetadataManager.cache (fst st1) = Some c
    /\ MetadataStructure.report c = Some rep
    /\ MetadataStructure.valid c = StructReport.valid rep.
Proof.
  intros e st st1 H. unfold MetadataManager.stage_update in H. peel H.
  match type of H with
  | (if ?b then _ else _) _ = _ => destruct b; [discriminate|]
  end.
  peel H. eapply rebuild_cache_stores_report. exact H.
Qed.

Lemma stage_delete_report : forall entity_type unid st st1,
  MetadataManager.stage_delete entity_type unid st = (st1, Ok tt) ->
  exists c rep,
    MetadataManager.cache (fst st1) = Some c
    /\ MetadataStructure.report c = Some rep
    /\ MetadataStructure.valid c = StructReport.valid rep.
Proof.
  intros entity_type unid st st1 H.
  unfold MetadataManager.stage_delete in H. peel H.
  eapply rebuild_cache_stores_report. exact H.
Qed.

(** C1 (as amended).  A transaction whose rebuilt staged copy, left in
    [cache], fails the whole-graph validation: [add_new_entity] and
    [delete_entity] return [False] and [update_entity] returns [None]; each
    prints that the cache is invalid and that [mm.cache.report] is to be
    inspected; the staged copy stays in [cache] with its report, whose
    verdict is invalid; and the workspace is the one the transaction
    started with. *)
Theorem failed_transaction_keeps_workspace :
  forall (mm : MetadataManager.t) (w : World),
    (forall e ws result st2 choice st3 c,
        MetadataManager.workspace mm = Some ws ->
        validate_new_entity e ws = Ok result ->
        valid result = true ->
        MetadataManager.confirm_add (mm, w) = (st2, Ok choice) ->
        lower choice = "y" ->
        MetadataManager.stage_add ws e st2 = (st3, Ok tt) ->
        MetadataManager.cache (fst st3) = Some c ->
        MetadataStructure.valid c = false ->
        MetadataManager.add_new_entity e (mm, w)
        = ((fst st3,
            after_printing (snd st3)
              ["Adding your new object made cache an invalid structure.";
               "Aborting";
               "Inspect mm.cache.report to find out what is wrong."]),
           Ok RetFalse)
        /\ MetadataManager.workspace (fst st3) = MetadataManager.workspace mm
        /\ exists rep,
             MetadataStructure.report c = Some rep
             /\ StructReport.valid rep = false)
    /\ (forall e st1 c,
          MetadataManager.stage_update e (mm, w) = (st1, Ok tt) ->
          MetadataManager.cache (fst st1) = Some c ->
          MetadataStructure.valid c = false ->
          MetadataManager.update_entity e (mm, w)
          = ((fst st1,
              after_printing (snd st1)
                ["Your update made cache an invalid structure.";
                 "Aborting";
                 "Inspect mm.cache.report to find out what is wrong."]),
             Ok RetNone)
          /\ MetadataManager.workspace (fst st1) = MetadataManager.workspace mm
          /\ exists rep,
               MetadataStructure.report c = Some rep
               /\ StructReport.valid rep = false)
    /\ (forall entity_type unid ws entity st1 c,
          str_in entity_type ENTITIES = true ->
          MetadataManager.workspace mm = Some ws ->
          unid_index_get (MetadataStructure.by_unid ws) entity_type unid
          = Ok (Some entity) ->
          (entity_type = "pipelines"
           \/ exists dep_report,
                get_entity_dependants entity (MetadataStructure.md_objects ws)
                = Ok dep_report
                /\ has_dependants dep_report = false) ->
          MetadataManager.stage_delete entity_type unid (mm, w) = (st1, Ok tt) ->
          MetadataManager.cache (fst st1) = Some c ->
          MetadataStructure.valid c = false ->
          MetadataManager.delete_entity entity_type unid (mm, w)
          = ((fst st1,
              after_printing (snd st1)
                ["Your update made cache an invalid structure.";
                 "Aborting";
                 "Inspect mm.cache.report to find out what is wrong."]),
             Ok RetFalse)
          /\ MetadataManager.workspace (fst st1) = MetadataManager.workspace mm
          /\ exists rep,
               MetadataStructure.report c = Some rep
               /\ StructReport.valid rep = false).
Proof.
  intros mm w. split; [|split].
  - intros e ws result st2 choice st3 c Hws Hres Hvalid Hconfirm Hy Hstage Hc Hv.
    split; [|split].
    + unfold MetadataManager.add_new_entity.
      unfold sbind at 1. unfold MetadataManager.workspace_for. cbn [fst].
      rewrite Hws. unfold sbind at 1. unfold lift. rewrite Hres, Hvalid.
      cbn [negb]. unfold sbind at 1. rewrite Hconfirm, Hy.
      cbn [String.eqb Ascii.eqb Bool.eqb].
      unfold sbind at 1. rewrite Hstage.
      unfold sbind at 1. unfold MetadataManager.cache_for. rewrite Hc, Hv.
      destruct st3 as [mm3 w3]. unfold sbind. rewrite !say_lines.
      unfold sret, after_printing. cbn [ticks clock stdin stdout fst snd].
      rewrite <- !app_assoc. reflexivity.
    + rewrite (@stage_add_keeps_workspace ws e _ _ _ Hstage).
      exact (@confirm_add_keeps_workspace _ _ _ Hconfirm).
    + destruct (stage_add_report _ _ _ Hstage) as (c' & rep & Hc' & Hrep & Hval).
      rewrite Hc in Hc'. injection Hc' as <-. exists rep.
      split; [exact Hrep | congruence].
  - intros e st1 c Hstage Hc Hv. split; [|split].
    + unfold MetadataManager.update_entity.
      unfold sbind at 1. rewrite Hstage.
      unfold sbind at 1. unfold MetadataManager.cache_for. rewrite Hc, Hv.
      destruct st1 as [mm1 w1]. unfold sbind. rewrite !say_lines.
      unfold sret, after_printing. cbn [ticks clock stdin stdout fst snd].
      rewrite <- !app_assoc. reflexivity.
    + exact (@stage_update_keeps_workspace e _ _ _ Hstage).
    + destruct (stage_update_report _ _ Hstage) as (c' & rep & Hc' & Hrep & Hval).
      rewrite Hc in Hc'. injection Hc' as <-. exists rep.
      split; [exact Hrep | congruence].
  - intros entity_type unid ws entity st1 c Hty Hws Hget Hgate Hstage Hc Hv.
    split; [|split].
    + assert (Hstaged :
                MetadataManager.delete_staged entity_type unid (mm, w)
                = ((fst st1,
                    after_printing (snd st1)
                      ["Your update made cache an invalid structure.";
                       "Aborting";
                       "Inspect mm.cache.report to find out what is wrong."]),
                   Ok RetFalse)).
      { unfold MetadataManager.delete_staged.
        unfold sbind at 1. rewrite Hstage.
        unfold sbind at 1. unfold MetadataManager.cache_for. rewrite Hc, Hv.
        destruct st1 as [mm1 w1]. unfold sbind. rewrite !say_lines.
        unfold sret, after_printing. cbn [ticks clock stdin stdout fst snd].
        rewrite <- !app_assoc. reflexivity. }
      unfold MetadataManager.delete_entity, MetadataManager.get_entity_by_unid.
      rewrite Hty. cbn [negb].
      unfold sbind at 1. unfold MetadataManager.workspace_for. cbn [fst].
      rewrite Hws. unfold sbind at 1. unfold lift. rewrite Hget.
      unfold sbind at 1. unfold sbind at 1. cbn [fst]. rewrite Hws.
      unfold sbind at 1. rewrite Hget. unfold sret at 1.
      destruct Hgate as [-> | (dep_report & Hdep & Hnone)].
      * cbn [String.eqb Ascii.eqb Bool.eqb negb]. exact Hstaged.
      * destruct (negb (entity_type =? "pipelines")%string);
          [|exact Hstaged].
        unfold sbind at 1. rewrite Hdep, Hnone. exact Hstaged.
    + exact (@stage_delete_keeps_workspace entity_type unid _ _ _ Hstage).
    + destruct (stage_delete_report _ _ _ Hstage)
        as (c' & rep & Hc' & Hrep & Hval).
      rewrite Hc in Hc'. injection Hc' as <-. exists rep.
      split; [exact Hrep | congruence].
Qed.

(** ** The scenarios *)

(** [MetadataStructure(md_json)] for the empty collections, whatever the
    pydantic constructors: none of them is called. *)
Lemma init_empty_json : forall (models : Pydantic) (w : World),
  MetadataStructure.init models Scenario.empty_json w
  = (mk_world (S (ticks w)) (clock w) (stdin w) (stdout w),
     Ok (Scenario.empty_structure (mk_datetime (clock w (ticks w)) "UTC"))).
Proof. intros models w. reflexivity. Qed.

(** C1 (as stated) fails: the update gives the schema [orders] a type
    outside the allowed set, the rebuilt cache is invalid, and the call
    returns [None]: the validation errors are neither returned nor printed,
    they stay in the report of the cache.  The workspace is unchanged. *)
Lemma failed_update_returns_none :
  let mm := Scenario.manager (Scenario.loaded Scenario.graph) in
  let out :=
    MetadataManager.update_entity (ESchema Scenario.orders_json)
      (mm, Scenario.console []) in
  snd out = Ok RetNone
  /\ option_map MetadataStructure.valid (MetadataManager.cache (fst (fst out)))
     = Some false
  /\ option_map
       (fun c => option_map StructReport.schemas (MetadataStructure.report c))
       (MetadataManager.cache (fst (fst out)))
     = Some (Some [{| valid := false;
                      errors := ["json is not a valid type for schemas. Valid types are: avro, bigquery,"] |}])
  /\ stdout (snd (fst out))
     = ["Your update made cache an invalid structure."; "Aborting";
        "Inspect mm.cache.report to find out what is wrong."]
  /\ MetadataManager.workspace (fst (fst out)) = MetadataManager.workspace mm.
Proof. vm_compute. repeat split. Qed.

(** The three failing transactions of the scenarios: a namespace added to,
    and a namespace deleted from, a graph that was loaded with an invalid
    schema, and the update that makes the schema invalid. *)
Lemma failed_transactions_scenario :
  snd (MetadataManager.add_new_entity (ENamespace Scenario.finance)
         (Scenario.manager
            (Scenario.loaded
               (mk_objects [Scenario.sales] [Scenario.orders_json] [] [] [])),
          Scenario.console ["y"]))
  = Ok RetFalse
  /\ snd (MetadataManager.update_entity (ESchema Scenario.orders_json)
            (Scenario.manager (Scenario.loaded Scenario.graph),
             Scenario.console []))
     = Ok RetNone
  /\ snd (MetadataManager.delete_entity "namespaces" "finance"
            (Scenario.manager
               (Scenario.loaded
                  (mk_objects [Scenario.sales; Scenario.finance]
                     [Scenario.orders_json] [] [] [])),
             Scenario.console []))
     = Ok RetFalse.
Proof.
  split; [|split].
  - set (ws := Scenario.loaded
                 (mk_objects [Scenario.sales] [Scenario.orders_json] [] [] [])).
    set (mm := Scenario.manager ws).
    set (w := Scenario.console ["y"]).
    set (e := ENamespace Scenario.finance).
    set (st2 := fst (MetadataManager.confirm_add (mm, w))).
    set (st3 := fst (MetadataManager.stage_add ws e st2)).
    destruct (failed_transaction_keeps_workspace mm w) as [Hadd _].
    destruct (Hadd e ws new_result st2 "y" st3
                (fst (fst (MetadataStructure.build_from_objects
                             (MetadataStructure.set_md_objects ws
                                (append_sorted (MetadataStructure.md_objects ws) e),
                              snd st2)))))
      as [Hret _];
      [vm_compute; reflexivity .. | rewrite Hret; reflexivity].
  - set (mm := Scenario.manager (Scenario.loaded Scenario.graph)).
    set (w := Scenario.console []).
    set (e := ESchema Scenario.orders_json).
    set (st1 := fst (MetadataManager.stage_update e (mm, w))).
    destruct (failed_transaction_keeps_workspace mm w) as [_ [Hupd _]].
    destruct (Hupd e st1
                (match MetadataManager.cache (fst st1) with
                 | Some c => c
                 | None => Scenario.loaded Scenario.graph
                 end))
      as [Hret _];
      [vm_compute; reflexivity .. | rewrite Hret; reflexivity].
  - set (ws := Scenario.loaded
                 (mk_objects [Scenario.sales; Scenario.finance]
                    [Scenario.orders_json] [] [] [])).
    set (mm := Scenario.manager ws).
    set (w := Scenario.console []).
    set (st1 := fst (MetadataManager.stage_delete "namespaces" "finance" (mm, w))).
    destruct (failed_transaction_keeps_workspace mm w) as [_ [_ Hdel]].
    destruct (Hdel "namespaces" "finance" ws
                (ENamespace (Namespace.set_unid Scenario.finance (Some "finance")))
                st1
                (match MetadataManager.cache (fst st1) with
                 | Some c => c
                 | None => ws
                 end))
      as [Hret _];
      [first [ vm_compute; reflexivity
             | right; exists no_dependants; split; vm_compute; reflexivity ] ..
      | rewrite Hret; reflexivity].
Defined.

(** The schema offered with a wrong type and a used id: the report of the
    standard checks, one error, is printed and returned. *)
Lemma staged_error_reports_scenario :
  MetadataManager.add_new_entity (ESchema Scenario.orders_json)
    (Scenario.manager (Scenario.loaded Scenario.graph), Scenario.console [])
  = ((Scenario.manager (Scenario.loaded Scenario.graph),
      after_printing (Scenario.console [])
        ["ERROR! Adding this object leads to invalid metadata."; "";
         "The following errors were found in validation:"; "";
         "json is not a valid type for schemas. Valid types are: avro, bigquery,";
         ""]),
     Ok (RetReport
           {| valid := false;
              errors := ["json is not a valid type for schemas. Valid types are: avro, bigquery,"] |})).
Proof.
  destruct (@staged_error_reports (ESchema Scenario.orders_json)
              (Scenario.loaded Scenario.graph)
              {| valid := false;
                 errors := ["json is not a valid type for schemas. Valid types are: avro, bigquery,"] |}
              (Scenario.manager (Scenario.loaded Scenario.graph))
              (Scenario.console []))
    as (_ & Hfound & _); [reflexivity | reflexivity |].
  destruct Hfound as [_ Hadd]; [vm_compute; discriminate|].
  exact Hadd.
Defined.

(** Deleting [sales], which the schema, the system and the data entity of
    the scenario name, is refused with these three; deleting [finance],
    which nothing names, goes on to the staged deletion. *)
Lemma delete_namespace_gate_scenario :
  let mm := Scenario.manager (Scenario.loaded Scenario.graph_with_finance) in
  let w := Scenario.console [] in
  MetadataManager.delete_entity "namespaces" "sales" (mm, w)
  = ((mm,
      after_printing w
        ["The object you're trying to delete is depended upon by other objects.";
         "Aborting";
         "Please inspect the dependants report returned by delete_entity()"]),
     Ok (RetDependants
           {| has_dependants := true;
              dependants := [ESchema Scenario.orders; ESystem Scenario.erp;
                             EData_entity Scenario.orders_raw] |}))
  /\ MetadataManager.delete_entity "namespaces" "finance" (mm, w)
     = MetadataManager.delete_staged "namespaces" "finance" (mm, w).
Proof.
  intros mm w. split.
  - destruct (@delete_namespace_dependency_gate mm w
                (Scenario.loaded Scenario.graph_with_finance) "sales"
                (Namespace.set_unid Scenario.sales (Some "sales")))
      as [Hrefuse _]; [reflexivity | reflexivity |].
    apply Hrefuse. vm_compute. discriminate.
  - destruct (@delete_namespace_dependency_gate mm w
                (Scenario.loaded Scenario.graph_with_finance) "finance"
                (Namespace.set_unid Scenario.finance (Some "finance")))
      as [_ Hgo]; [reflexivity | reflexivity |].
    apply Hgo. vm_compute. reflexivity.
Defined.

(** The graph with two enabled versions of the pipeline [load] and a
    disabled third: one key, [sales.load.ingest], and under it the instance
    list of version 2, the later of the two. *)
Lemma dag_config_scenario :
  let ws := Scenario.loaded Scenario.graph_with_pipelines in
  let integrated := MetadataStructure.integrated ws in
  integrate_pipelines (MetadataStructure.by_id ws) true false = Ok integrated
  /\ exists conf p2,
       integrated_to_dag_config integrated = Ok conf
       /\ dict_keys conf = ["sales.load.ingest"]
       /\ nth_error integrated 1 = Some p2
       /\ Pipeline.version p2 = 2
       /\ option_map Ok (dict_get String.eqb conf "sales.load.ingest")
          = Some (instance_list_of p2).
Proof.
  intros ws integrated. split; [vm_compute; reflexivity|].
  destruct (@dag_config_construction (MetadataStructure.by_id ws) true
              integrated) as (conf & Hconf & _).
  { vm_compute. reflexivity. }
  { intros k pl Hin. vm_compute in Hin.
    destruct Hin as [Heq | [Heq | [Heq | []]]]; injection Heq as _ <-;
      eexists; reflexivity. }
  exists conf. vm_compute in Hconf. injection Hconf as <-.
  eexists. repeat split; vm_compute; reflexivity.
Defined.

(** C2.  The code at the failing input: the system [erp_shadowed] has the
    config key [sys_name]; [config_keys_are_legal] says so, but the
    validation of a new entity and the whole-graph validation do not ask:
    the system is accepted and committed, the graph holding it validates
    without an error, and the flat record of a pipeline instance shows the
    config value under [sys_name] where the name of the system belongs. *)
Theorem reserved_config_key_passes_validation :
  config_keys_are_legal (ESystem Scenario.erp_shadowed) = Ok false
  /\ validate_new_entity (ESystem Scenario.erp_shadowed)
       (Scenario.loaded (mk_objects [Scenario.sales] [] [] [] []))
     = Ok {| valid := true; errors := [] |}
  /\ (let out :=
        MetadataManager.add_new_entity (ESystem Scenario.erp_shadowed)
          (Scenario.manager
             (Scenario.loaded (mk_objects [Scenario.sales] [] [] [] [])),
           Scenario.console ["y"]) in
      snd out = Ok RetTrue
      /\ option_map MetadataStructure.valid
           (MetadataManager.workspace (fst (fst out))) = Some true
      /\ option_map (fun ws => systems (MetadataStructure.md_objects ws))
           (MetadataManager.workspace (fst (fst out)))
         = Some [Scenario.erp_shadowed])
  /\ (let ws := Scenario.loaded Scenario.graph_shadowed in
      MetadataStructure.valid ws = true
      /\ option_map StructReport.systems (MetadataStructure.report ws)
         = Some [{| valid := true; errors := [] |}]
      /\ option_map
           (fun conf => Scenario.input_sys_name conf "sales.load.ingest")
           (match integrated_to_dag_config (MetadataStructure.integrated ws) with
            | Ok conf => Some conf
            | Raise _ => None
            end)
         = Some (Some (VStr "shadow"))).
Proof. vm_compute. repeat split. Qed.

(* ================================================================== *)
(** * Further properties *)

(** ** Indexes and the collections they are built from *)

Section DictOrder.
Variables K V : Type.
Variable keq : K -> K -> bool.
Hypothesis keq_eq : forall a b, keq a b = true <-> a = b.

Lemma dict_get_none_keys : forall (d : PyDict K V) k,
  dict_get keq d k = None <-> ~ In k (dict_keys d).
Proof.
  induction d as [|[k' v'] d IH]; intros k; simpl.
  - split; [intros _ []|reflexivity].
  - destruct (keq k k') eqn:E.
    + apply keq_eq in E. subst. split; [discriminate|].
      intros H. exfalso. apply H. left. reflexivity.
    + rewrite IH. split.
      * intros H [Heq|Hin]; [|exact (H Hin)].
        subst. rewrite (proj2 (keq_eq k k) eq_refl) in E. discriminate.
      * intros H Hin. apply H. right. exact Hin.
Qed.

Lemma dict_mem_keys : forall (d : PyDict K V) k,
  dict_mem keq d k = true <-> In k (dict_keys d).
Proof.
  intros d k. unfold dict_mem.
  destruct (dict_get keq d k) eqn:E.
  - split; [intros _|reflexivity].
    destruct (in_dec (fun a b =>
                ltac:(destruct (keq a b) eqn:Eab;
                      [left; apply keq_eq; exact Eab
                      |right; intros ->;
                       rewrite (proj2 (keq_eq b b) eq_refl) in Eab;
                       discriminate]) : {a = b} + {a <> b})
              k (dict_keys d)) as [Hin|Hnin]; [exact Hin|].
    apply dict_get_none_keys in Hnin. congruence.
  - apply dict_get_none_keys in E. split; [discriminate|]. intros H.
    exfalso. exact (E H).
Qed.

(** Assigning to a key the dict does not hold appends the entry. *)
Lemma dict_set_fresh : forall (d : PyDict K V) k v,
  ~ In k (dict_keys d) -> dict_set keq d k v = (d ++ [(k, v)])%list.
Proof.
  induction d as [|[k' v'] d IH]; intros k v Hnin; simpl.
  - reflexivity.
  - destruct (keq k k') eqn:E.
    + apply keq_eq in E. subst. exfalso. apply Hnin. left. reflexivity.
    + rewrite IH; [reflexivity|]. intros Hin. apply Hnin. right. exact Hin.
Qed.

(** Assigning never changes the order of the keys already there. *)
Lemma dict_keys_set_present : forall (d : PyDict K V) k v,
  In k (dict_keys d) -> dict_keys (dict_set keq d k v) = dict_keys d.
Proof.
  induction d as [|[k' v'] d IH]; intros k v Hin; simpl.
  - destruct Hin.
  - destruct (keq k k') eqn:E; simpl.
    + reflexivity.
    + f_equal. apply IH. destruct Hin as [Heq|Hin]; [|exact Hin].
      simpl in Heq. subst k'. rewrite (proj2 (keq_eq k k) eq_refl) in E.
      discriminate.
Qed.

Lemma fold_set_distinct : forall (key : V -> K) (l : list V) (d : PyDict K V),
  NoDup (map key l) ->
  (forall o, In o l -> ~ In (key o) (dict_keys d)) ->
  fold_left (fun idx o => dict_set keq idx (key o) o) l d
  = (d ++ map (fun o => (key o, o)) l)%list.
Proof.
  induction l as [|o l IH]; intros d Hnd Hfresh; simpl.
  - rewrite app_nil_r. reflexivity.
  - inversion Hnd as [|? ? Hnin Hnd']; subst.
    rewrite dict_set_fresh by (apply Hfresh; left; reflexivity).
    rewrite IH.
    + rewrite <- app_assoc. reflexivity.
    + exact Hnd'.
    + intros o' Hin Hk. unfold dict_keys in Hk. rewrite map_app in Hk.
      apply in_app_or in Hk. destruct Hk as [Hk|Hk].
      * exact (Hfresh o' (or_intror Hin) Hk).
      * simpl in Hk. destruct Hk as [Hk|[]]. apply Hnin. rewrite Hk.
        apply in_map. exact Hin.
Qed.

Lemma fold_set_values : forall (key : V -> K) (l : list V),
  NoDup (map key l) ->
  dict_values (fold_left (fun idx o => dict_set keq idx (key o) o) l []) = l.
Proof.
  intros key l Hnd. rewrite fold_set_distinct by (auto; intros o _ []).
  simpl. unfold dict_values. rewrite map_map. simpl. apply map_id.
Qed.
End DictOrder.

(** X1. Round trip through the id index: when the ids of each collection are
    pairwise distinct, reading the collections back from the id index built
    from them gives the same lists, in the same order. *)
Theorem id_index_round_trip : forall objs : MdObjects,
  distinct_ids objs ->
  objects_from_id_index (create_id_indexes objs) = objs.
Proof.
  intros [nss schs syss ents pls] (H1 & H2 & H3 & H4 & H5). simpl in *.
  unfold objects_from_id_index, create_id_indexes, index_by. simpl.
  rewrite !fold_set_values by (exact Zeqb_eq || assumption).
  reflexivity.
Qed.

Ltac distinct :=
  repeat first
    [ apply NoDup_nil
    | apply NoDup_cons; [simpl; intuition (try discriminate; try lia)|] ].

Lemma id_index_round_trip_scenario :
  distinct_ids Scenario.graph_with_pipelines
  /\ objects_from_id_index (create_id_indexes Scenario.graph_with_pipelines)
     = Scenario.graph_with_pipelines.
Proof.
  assert (H : distinct_ids Scenario.graph_with_pipelines).
  { unfold distinct_ids. simpl. repeat split; distinct. }
  split; [exact H | exact (id_index_round_trip H)].
Defined.

(** X2. Round trip through the key index: when the compound keys of each
    collection are pairwise distinct, reading the collections back from the
    key index built from them gives the same lists, in the same order. *)
Theorem unid_index_round_trip : forall objs : MdObjects,
  distinct_unids objs ->
  objects_from_unid_index (create_unid_indexes objs) = objs.
Proof.
  intros [nss schs syss ents pls] (H1 & H2 & H3 & H4 & H5). simpl in *.
  unfold objects_from_unid_index, create_unid_indexes, index_by_unid. simpl.
  rewrite !fold_set_values by (exact ounid_eqb_eq || assumption).
  reflexivity.
Qed.

Lemma unid_index_round_trip_scenario :
  let objs :=
    MetadataStructure.md_obj_with_unids
      (Scenario.loaded Scenario.graph_with_pipelines) in
  map Pipeline.unid (pipelines objs)
  = [Some "sales.load.ingest.1"; Some "sales.load.ingest.2";
     Some "sales.load.ingest.3"]
  /\ objects_from_unid_index (create_unid_indexes objs) = objs.
Proof.
  intro objs.
  assert (H : distinct_unids objs).
  { unfold distinct_unids. repeat split; vm_compute; distinct. }
  split; [vm_compute; reflexivity | exact (unid_index_round_trip H)].
Defined.

(** ** The next free id *)

Lemma fold_max_ge : forall (l : list Z) (x : Z),
  x <= fold_left Z.max l x
  /\ forall y, In y l -> y <= fold_left Z.max l x.
Proof.
  induction l as [|a l IH]; intros x; simpl.
  - split; [lia | intros y []].
  - destruct (IH (Z.max x a)) as [H1 H2]. split; [lia|].
    intros y [Hy|Hy]; [subst; lia | exact (H2 y Hy)].
Qed.

Lemma next_id_fresh : forall (V : Type) (d : PyDict Z V) (m : Z),
  py_max (dict_keys d) = Ok m ->
  dict_mem Z.eqb d (m + 1) = false
  /\ forall k, dict_mem Z.eqb d k = true -> k < m + 1.
Proof.
  intros V d m H.
  assert (Hle : forall k, In k (dict_keys d) -> k <= m).
  { unfold py_max in H. destruct (dict_keys d) as [|k0 keys]; [discriminate|].
    injection H as <-. destruct (fold_max_ge keys k0) as [H1 H2].
    intros k [Hk|Hk]; [subst; exact H1 | exact (H2 k Hk)]. }
  split.
  - destruct (dict_mem Z.eqb d (m + 1)) eqn:E; [|reflexivity].
    apply (@dict_mem_keys _ _ _ Zeqb_eq) in E. apply Hle in E. lia.
  - intros k Hk. apply (@dict_mem_keys _ _ _ Zeqb_eq) in Hk. apply Hle in Hk. lia.
Qed.

(** X3. The id [get_next_free_id] proposes is not in use and lies above
    every id in use; on an index without any entity of the type it raises
    [ValueError] instead of proposing a first id. *)
Theorem get_next_free_id_is_fresh : forall (idx : IdIdx) (entity : string),
  (forall n, get_next_free_id idx entity = Ok n ->
     id_exists idx entity n = Ok false
     /\ forall k, id_exists idx entity k = Ok true -> k < n)
  /\ (id_index_keys idx entity = Ok [] ->
      exists msg, get_next_free_id idx entity = Raise (ValueError msg)).
Proof.
  intros idx entity. unfold get_next_free_id, id_exists, id_index_keys.
  destruct (str_in entity ENTITIES); cbn [negb].
  2:{ split; [discriminate|]. intros _. eexists. reflexivity. }
  repeat match goal with
         | |- context [(entity =? ?s)%string] =>
             destruct (entity =? s)%string
         end;
    (split;
     [ intros n H; cbn [bind] in H;
       try discriminate;
       match type of H with
       | context [py_max (dict_keys ?d)] =>
           destruct (py_max (dict_keys d)) as [m|e] eqn:Em;
           [|discriminate];
           cbn [bind] in H; injection H as <-;
           destruct (next_id_fresh d Em) as [Hf Hlt];
           rewrite Hf; split; [reflexivity|];
           intros k Hk; injection Hk as Hk; exact (Hlt k Hk)
       end
     | intros H; try discriminate; injection H as ->; cbn [bind py_max];
       eexists; reflexivity ]).
Qed.

Lemma get_next_free_id_scenario :
  get_next_free_id (create_id_indexes Scenario.graph_with_pipelines)
    "pipelines" = Ok 4
  /\ id_exists (create_id_indexes Scenario.graph_with_pipelines) "pipelines" 4
     = Ok false
  /\ exists msg,
       get_next_free_id (create_id_indexes Scenario.graph) "pipelines"
       = Raise (ValueError msg).
Proof.
  split; [reflexivity|]. split.
  - exact (proj1 (proj1 (get_next_free_id_is_fresh
                           (create_id_indexes Scenario.graph_with_pipelines)
                           "pipelines") 4 eq_refl)).
  - exact (proj2 (get_next_free_id_is_fresh
                    (create_id_indexes Scenario.graph) "pipelines") eq_refl).
Defined.

(** ** The pipeline validator and a namespace key that is not known *)

(** X4. A pipeline that names its namespace by a compound key the workspace
    does not hold is not reported: [validate_pipeline] raises [NameError]
    (its message is formatted with a name the function does not bind), and
    so does [add_new_entity], which leaves the manager and the console as
    they were.  A system in the same situation gets the report the code
    means to give. *)
Theorem validate_pipeline_unknown_namespace_key :
  forall (pipeline : Pipeline.t) (u : string),
    Pipeline.namespace pipeline = RUnid u ->
    (forall objs idx uidx,
        dict_mem ounid_eqb (namespaces_unid_idx uidx) (Some u) = false ->
        validate_pipeline pipeline objs idx uidx
        = Raise (NameError "name 'pl_unid' is not defined"))
    /\ (forall mm w ws,
          MetadataManager.workspace mm = Some ws ->
          dict_mem ounid_eqb
            (namespaces_unid_idx (MetadataStructure.by_unid ws)) (Some u)
          = false ->
          MetadataManager.add_new_entity (EPipeline pipeline) (mm, w)
          = ((mm, w), Raise (NameError "name 'pl_unid' is not defined")))
    /\ (forall (system : System.t) objs idx uidx,
          System.namespace system = RUnid u ->
          dict_mem ounid_eqb (namespaces_unid_idx uidx) (Some u) = false ->
          exists r,
            validate_system system objs idx uidx = Ok r
            /\ valid r = false
            /\ In ("Referenced namespace UNID " ++ u ++ " does not exist")
                 (errors r)).
Proof.
  intros pipeline u Hns.
  assert (Hraise : forall objs idx uidx,
            dict_mem ounid_eqb (namespaces_unid_idx uidx) (Some u) = false ->
            validate_pipeline pipeline objs idx uidx
            = Raise (NameError "name 'pl_unid' is not defined")).
  { intros objs idx uidx Hmem. unfold validate_pipeline. rewrite Hns.
    unfold unid_exists. cbn [str_in existsb String.eqb Ascii.eqb Bool.eqb
                             ENTITIES negb orb bind].
    rewrite Hmem. reflexivity. }
  split; [exact Hraise|]. split.
  - intros mm w ws Hws Hmem.
    unfold MetadataManager.add_new_entity, sbind,
      MetadataManager.workspace_for, lift.
    cbn [fst snd MetadataManager.first_attr]. rewrite Hws.
    cbn [validate_new_entity]. unfold validate_new_pipeline.
    rewrite (Hraise _ _ _ Hmem). reflexivity.
  - intros system objs idx uidx Hsys Hmem.
    unfold validate_system, check_namespace. rewrite Hsys.
    unfold unid_exists. cbn [str_in existsb String.eqb Ascii.eqb Bool.eqb
                             ENTITIES negb orb bind].
    rewrite Hmem. cbn [bind add_error_unless].
    eexists. split; [reflexivity|]. split.
    + unfold check_enum, add_error_unless.
      destruct (str_in (System.type system) SYSTEM_TYPES); reflexivity.
    + unfold check_enum, add_error_unless.
      destruct (str_in (System.type system) SYSTEM_TYPES); simpl; auto.
Qed.

Lemma validate_pipeline_unknown_namespace_key_scenario :
  let mm := Scenario.manager (Scenario.loaded Scenario.graph) in
  MetadataManager.add_new_entity (EPipeline Examples.load_retail)
    (mm, Scenario.console [])
  = ((mm, Scenario.console []),
     Raise (NameError "name 'pl_unid' is not defined")).
Proof.
  intros mm.
  exact (proj1 (proj2 (@validate_pipeline_unknown_namespace_key
                         Examples.load_retail "retail" eq_refl))
           mm (Scenario.console []) (Scenario.loaded Scenario.graph) eq_refl
           ltac:(vm_compute; reflexivity)).
Defined.

(** ** Key generation *)

Lemma same_but_unid_get : forall (V : Type) set_unid (d d' : PyDict Z V) k,
  same_but_unid set_unid d d' ->
  match getitem_id d k, getitem_id d' k with
  | Ok o, Ok o' => exists u, o' = set_unid o u
  | Raise e, Raise e' => e = e'
  | _, _ => False
  end.
Proof.
  intros V set_unid d d' k H. destruct k as [i|s| |cls]; simpl; auto.
  induction H as [|[k1 o1] [k2 o2] d d' [Hk [u Hu]] _ IH]; simpl in *.
  - reflexivity.
  - subst k2. destruct (i =? k1).
    + exists u. exact Hu.
    + exact IH.
Qed.

(** One step through the lookup at the head of a key derivation, when the
    two sides read the same dict or two dicts that differ in [unid] only. *)
Ltac blind_head H :=
  unfold bind;
  match goal with
  | |- match getitem_id ?d' ?k with Ok _ => _ | Raise _ => _ end
       = match getitem_id ?d ?k with Ok _ => _ | Raise _ => _ end =>
      first
        [ change d' with d; destruct (getitem_id d k); [|reflexivity]
        | let Hg := fresh "Hg" in
          pose proof (@same_but_unid_get _ _ d d' k H) as Hg;
          destruct (getitem_id d k), (getitem_id d' k);
          try contradiction;
          [destruct Hg as [? ->]; cbn | subst; reflexivity] ]
  end.

Ltac blind_start :=
  intros;
  unfold namespace_id_to_unid, schema_id_to_unid, system_id_to_unid,
    data_entity_id_to_unid, pipeline_id_to_unid;
  cbn [set_namespaces_idx set_schemas_idx set_systems_idx
       set_data_entities_idx set_pipelines_idx
       namespaces_idx schemas_idx systems_idx data_entities_idx pipelines_idx].

Section KeyBlind.
Variable i : IdIdx.

(** *** The namespaces *)
Section Namespaces.
Variable d' : PyDict Z Namespace.t.
Hypothesis H : same_but_unid Namespace.set_unid (namespaces_idx i) d'.

Lemma ns_blind_ns : forall k,
  namespace_id_to_unid (set_namespaces_idx i d') k = namespace_id_to_unid i k.
Proof. blind_start. blind_head H; reflexivity. Qed.

Lemma sys_blind_ns : forall k,
  system_id_to_unid (set_namespaces_idx i d') k = system_id_to_unid i k.
Proof.
  intros. unfold system_id_to_unid. blind_head H. rewrite ns_blind_ns.
  reflexivity.
Qed.

Lemma ent_blind_ns : forall k,
  data_entity_id_to_unid (set_namespaces_idx i d') k = data_entity_id_to_unid i k.
Proof.
  intros. unfold data_entity_id_to_unid. blind_head H.
  rewrite ns_blind_ns, sys_blind_ns. reflexivity.
Qed.

Lemma pl_blind_ns : forall k,
  pipeline_id_to_unid (set_namespaces_idx i d') k = pipeline_id_to_unid i k.
Proof.
  intros. unfold pipeline_id_to_unid. blind_head H. rewrite ns_blind_ns.
  reflexivity.
Qed.

Lemma unid_blind_namespaces : forall e x,
  id_to_unid (set_namespaces_idx i d') e x = id_to_unid i e x.
Proof.
  intros e x. unfold id_to_unid.
  rewrite ns_blind_ns, sys_blind_ns, ent_blind_ns, pl_blind_ns. reflexivity.
Qed.
End Namespaces.

(** *** The schemas *)
Section Schemas.
Variable d' : PyDict Z Schema.t.
Hypothesis H : same_but_unid Schema.set_unid (schemas_idx i) d'.

Lemma sch_blind_sch : forall k,
  schema_id_to_unid (set_schemas_idx i d') k = schema_id_to_unid i k.
Proof. blind_start. blind_head H; reflexivity. Qed.

Lemma unid_blind_schemas : forall e x,
  id_to_unid (set_schemas_idx i d') e x = id_to_unid i e x.
Proof.
  intros e x. unfold id_to_unid. rewrite sch_blind_sch. reflexivity.
Qed.
End Schemas.

(** *** The systems *)
Section Systems.
Variable d' : PyDict Z System.t.
Hypothesis H : same_but_unid System.set_unid (systems_idx i) d'.

Lemma sys_blind_sys : forall k,
  system_id_to_unid (set_systems_idx i d') k = system_id_to_unid i k.
Proof. blind_start. blind_head H; reflexivity. Qed.

Lemma ent_blind_sys : forall k,
  data_entity_id_to_unid (set_systems_idx i d') k = data_entity_id_to_unid i k.
Proof.
  intros. unfold data_entity_id_to_unid. blind_head H.
  change (namespace_id_to_unid (set_systems_idx i d')) with (namespace_id_to_unid i).
  rewrite sys_blind_sys. reflexivity.
Qed.

Lemma unid_blind_systems : forall e x,
  id_to_unid (set_systems_idx i d') e x = id_to_unid i e x.
Proof.
  intros e x. unfold id_to_unid. rewrite sys_blind_sys, ent_blind_sys.
  reflexivity.
Qed.
End Systems.

(** *** The data entities *)
Section DataEntities.
Variable d' : PyDict Z Data_entity.t.
Hypothesis H : same_but_unid Data_entity.set_unid (data_entities_idx i) d'.

Lemma ent_blind_ent : forall k,
  data_entity_id_to_unid (set_data_entities_idx i d') k = data_entity_id_to_unid i k.
Proof. blind_start. blind_head H; reflexivity. Qed.

Lemma unid_blind_data_entities : forall e x,
  id_to_unid (set_data_entities_idx i d') e x = id_to_unid i e x.
Proof.
  intros e x. unfold id_to_unid. rewrite ent_blind_ent. reflexivity.
Qed.
End DataEntities.

(** *** The pipelines *)
Section Pipelines.
Variable d' : PyDict Z Pipeline.t.
Hypothesis H : same_but_unid Pipeline.set_unid (pipelines_idx i) d'.

Lemma pl_blind_pl : forall k,
  pipeline_id_to_unid (set_pipelines_idx i d') k = pipeline_id_to_unid i k.
Proof. blind_start. blind_head H; reflexivity. Qed.

Lemma unid_blind_pipelines : forall e x,
  id_to_unid (set_pipelines_idx i d') e x = id_to_unid i e x.
Proof.
  intros e x. unfold id_to_unid. rewrite pl_blind_pl. reflexivity.
Qed.
End Pipelines.
End KeyBlind.

Section GenerateUnidsFacts.
Variable V : Type.
Variable get_idx : IdIdx -> PyDict Z V.
Variable set_idx : IdIdx -> PyDict Z V -> IdIdx.
Variable ident : V -> Z.
Variable set_unid : V -> option string -> V.
Variable entity : string.
Hypothesis get_set : forall i d, get_idx (set_idx i d) = d.
Hypothesis set_set : forall i d d', set_idx (set_idx i d) d' = set_idx i d'.
Hypothesis set_get : forall i, set_idx i (get_idx i) = i.
Hypothesis unid_blind : forall i d',
  same_but_unid set_unid (get_idx i) d' ->
  forall e x, id_to_unid (set_idx i d') e x = id_to_unid i e x.

Lemma keyed_same_but_unid : forall idx0 d d',
  Forall2 (keyed_entry ident set_unid entity idx0) d d' -> same_but_unid set_unid d d'.
Proof.
  intros idx0 d d' H. induction H as [|kv kv' d d' [Hk (u & _ & Hu)] _ IH].
  - constructor.
  - constructor; [|exact IH]. split; [exact Hk|]. exists (Some u). exact Hu.
Qed.

Lemma same_but_unid_refl :
  forall (d : PyDict Z V) (unid_of : V -> option string),
    (forall o, set_unid o (unid_of o) = o) ->
    same_but_unid set_unid d d.
Proof.
  intros d unid_of Hid. induction d as [|kv d IH]; constructor; [|exact IH].
  split; [reflexivity|]. exists (unid_of (snd kv)). symmetry. apply Hid.
Qed.

Lemma Forall2_keys : forall idx0 d d',
  Forall2 (keyed_entry ident set_unid entity idx0) d d' -> dict_keys d' = dict_keys d.
Proof.
  intros idx0 d d' H. induction H as [|kv kv' d d' [Hk _] _ IH]; simpl.
  - reflexivity.
  - rewrite Hk, IH. reflexivity.
Qed.

Lemma dict_get_app_fresh : forall (d1 d2 : PyDict Z V) k,
  ~ In k (dict_keys d1) ->
  dict_get Z.eqb (d1 ++ d2)%list k = dict_get Z.eqb d2 k.
Proof.
  induction d1 as [|[k1 v1] d1 IH]; intros d2 k Hnin; simpl.
  - reflexivity.
  - destruct (k =? k1) eqn:E.
    + apply Z.eqb_eq in E. subst. exfalso. apply Hnin. left. reflexivity.
    + apply IH. intros Hin. apply Hnin. right. exact Hin.
Qed.

Lemma dict_set_app_fresh : forall (d1 d2 : PyDict Z V) k v,
  ~ In k (dict_keys d1) ->
  dict_set Z.eqb (d1 ++ d2)%list k v = (d1 ++ dict_set Z.eqb d2 k v)%list.
Proof.
  induction d1 as [|[k1 v1] d1 IH]; intros d2 k v Hnin; simpl.
  - reflexivity.
  - destruct (k =? k1) eqn:E.
    + apply Z.eqb_eq in E. subst. exfalso. apply Hnin. left. reflexivity.
    + rewrite IH; [reflexivity|]. intros Hin. apply Hnin. right. exact Hin.
Qed.

(** The loop, started in the middle of the index: the entries before have
    their key, the entries to come are still as they were. *)
Lemma generate_unids_loop_spec :
  forall (idx0 : IdIdx) (unid_of : V -> option string),
    (forall o, set_unid o (unid_of o) = o) ->
    forall (todo done done' : PyDict Z V) (out : list V) cur' out',
      get_idx idx0 = (done ++ todo)%list ->
      NoDup (dict_keys (done ++ todo)%list) ->
      Forall2 (keyed_entry ident set_unid entity idx0) done done' ->
      generate_unids_loop get_idx set_idx ident set_unid entity
        (dict_keys todo) out (set_idx idx0 (done' ++ todo)%list)
      = (cur', Ok out') ->
      exists todo',
        Forall2 (keyed_entry ident set_unid entity idx0) todo todo'
        /\ cur' = set_idx idx0 (done' ++ todo')%list
        /\ out' = (out ++ dict_values todo')%list.
Proof.
  intros idx0 unid_of Hid.
  induction todo as [|[k o] todo IH];
    intros done done' out cur' out' Hget Hnd Hdone Hloop.
  - simpl in Hloop. injection Hloop as <- <-. exists []. split; [constructor|].
    split; [reflexivity|]. simpl. rewrite app_nil_r. reflexivity.
  - assert (Hfresh : ~ In k (dict_keys done')).
    { rewrite (Forall2_keys Hdone). unfold dict_keys in Hnd.
      rewrite map_app in Hnd. simpl in Hnd.
      apply NoDup_remove_2 in Hnd. intros Hin. apply Hnd.
      apply in_or_app. left. exact Hin. }
    assert (Hsame : same_but_unid set_unid (get_idx idx0)
                      (done' ++ (k, o) :: todo)%list).
    { rewrite Hget. apply Forall2_app.
      - apply (keyed_same_but_unid Hdone).
      - apply same_but_unid_refl with (unid_of := unid_of); auto. }
    cbn [dict_keys map fst generate_unids_loop] in Hloop.
    unfold sbind in Hloop at 1. unfold generate_unids_step in Hloop at 1.
    rewrite get_set in Hloop.
    rewrite dict_get_app_fresh in Hloop by exact Hfresh.
    cbn [dict_get] in Hloop. rewrite Z.eqb_refl in Hloop.
    rewrite (unid_blind Hsame) in Hloop.
    destruct (id_to_unid idx0 entity (ident o)) as [u|e] eqn:Eu;
      [|discriminate].
    rewrite set_set in Hloop.
    rewrite dict_set_app_fresh in Hloop by exact Hfresh.
    cbn [dict_set] in Hloop. rewrite Z.eqb_refl in Hloop.
    replace (done' ++ (k, set_unid o (Some u)) :: todo)%list
      with ((done' ++ [(k, set_unid o (Some u))]) ++ todo)%list in Hloop
      by (rewrite <- app_assoc; reflexivity).
    destruct (IH (done ++ [(k, o)])%list
                 (done' ++ [(k, set_unid o (Some u))])%list
                 (out ++ [set_unid o (Some u)])%list cur' out')
      as (todo' & Htodo & Hcur & Hout).
    + rewrite <- app_assoc. exact Hget.
    + rewrite <- app_assoc. exact Hnd.
    + apply Forall2_app; [exact Hdone|]. constructor; [|constructor].
      split; [reflexivity|]. exists u. split; [exact Eu | reflexivity].
    + exact Hloop.
    + exists ((k, set_unid o (Some u)) :: todo'). split.
      * constructor; [|exact Htodo]. split; [reflexivity|].
        exists u. split; [exact Eu | reflexivity].
      * split.
        -- rewrite Hcur, <- app_assoc. reflexivity.
        -- rewrite Hout, <- app_assoc. reflexivity.
Qed.

(** One of the five loops of [generate_unids] on a dict without repeated
    keys. *)
Lemma generate_unids_for_spec :
  forall (idx idx' : IdIdx) (out : list V) (unid_of : V -> option string),
    (forall o, set_unid o (unid_of o) = o) ->
    NoDup (dict_keys (get_idx idx)) ->
    generate_unids_for get_idx set_idx ident set_unid entity idx
    = (idx', Ok out) ->
    exists d',
      Forall2 (keyed_entry ident set_unid entity idx) (get_idx idx) d'
      /\ idx' = set_idx idx d'
      /\ out = dict_values d'.
Proof.
  intros idx idx' out unid_of Hid Hnd H. unfold generate_unids_for in H.
  assert (Hloop : generate_unids_loop get_idx set_idx ident set_unid entity
                    (dict_keys (get_idx idx)) []
                    (set_idx idx ([] ++ get_idx idx)%list)
                  = (idx', Ok out)).
  { simpl. rewrite set_get. exact H. }
  destruct (@generate_unids_loop_spec idx unid_of Hid (get_idx idx) [] []
              [] idx' out eq_refl Hnd (Forall2_nil _) Hloop)
    as (d' & Hd' & Hidx & Hout).
  exists d'. auto.
Qed.
End GenerateUnidsFacts.

Lemma dict_set_keys_nodup : forall (V : Type) (d : PyDict Z V) k v,
  NoDup (dict_keys d) -> NoDup (dict_keys (dict_set Z.eqb d k v)).
Proof.
  intros V d k v Hnd.
  destruct (in_dec Z.eq_dec k (dict_keys d)) as [Hin|Hnin].
  - rewrite (@dict_keys_set_present _ _ _ Zeqb_eq) by exact Hin. exact Hnd.
  - rewrite (@dict_set_fresh _ _ _ Zeqb_eq) by exact Hnin.
    unfold dict_keys. rewrite map_app. simpl.
    apply NoDup_app; [exact Hnd | constructor; [intros []|constructor] |].
    intros a Ha [<-|[]]. exact (Hnin Ha).
Qed.

Lemma index_by_keys_nodup : forall (V : Type) (key : V -> Z) (l : list V),
  NoDup (dict_keys (index_by key l)).
Proof.
  intros V key l. unfold index_by.
  assert (H : forall d : PyDict Z V,
             NoDup (dict_keys d) ->
             NoDup (dict_keys
                      (fold_left (fun idx o => dict_set Z.eqb idx (key o) o)
                         l d))).
  { induction l as [|o l IH]; intros d Hd; simpl; [exact Hd|].
    apply IH. apply dict_set_keys_nodup. exact Hd. }
  apply H. constructor.
Qed.

Lemma keyed_values : forall (V : Type) (ident : V -> Z) set_unid entity idx0
                            (d d' : PyDict Z V),
  Forall2 (@keyed_entry V ident set_unid entity idx0) d d' ->
  Forall2 (with_derived_key idx0 entity ident set_unid)
    (dict_values d) (dict_values d').
Proof.
  intros V ident set_unid entity idx0 d d' H.
  induction H as [|kv kv' d d' [_ Hk] _ IH]; simpl; constructor; assumption.
Qed.

Lemma with_derived_key_blind :
  forall (V : Type) (ident : V -> Z) set_unid entity idx idx' (l l' : list V),
    (forall e x, id_to_unid idx' e x = id_to_unid idx e x) ->
    Forall2 (with_derived_key idx' entity ident set_unid) l l' ->
    Forall2 (with_derived_key idx entity ident set_unid) l l'.
Proof.
  intros V ident set_unid entity idx idx' l l' Heq H.
  induction H as [|o o' l l' (u & Hu & Ho) _ IH]; constructor; [|exact IH].
  exists u. split; [rewrite <- Heq; exact Hu | exact Ho].
Qed.

(** X5. Key generation on the id index of any collections: when
    [generate_unids] returns, each returned list holds the objects of the
    index, in the order of the index, each with [unid] set to the compound
    key derived for its id and nothing else changed; the index it worked on
    holds these same objects. *)
Theorem generate_unids_assigns_derived_keys :
  forall (objs : MdObjects) (idx' : IdIdx) (unids : MdObjects),
    let idx := create_id_indexes objs in
    generate_unids idx = (idx', Ok unids) ->
    Forall2 (with_derived_key idx "namespaces" Namespace.id Namespace.set_unid)
      (dict_values (namespaces_idx idx)) (namespaces unids)
    /\ Forall2 (with_derived_key idx "schemas" Schema.id Schema.set_unid)
         (dict_values (schemas_idx idx)) (schemas unids)
    /\ Forall2 (with_derived_key idx "systems" System.id System.set_unid)
         (dict_values (systems_idx idx)) (systems unids)
    /\ Forall2 (with_derived_key idx "data_entities" Data_entity.id
                  Data_entity.set_unid)
         (dict_values (data_entities_idx idx)) (data_entities unids)
    /\ Forall2 (with_derived_key idx "pipelines" Pipeline.id Pipeline.set_unid)
         (dict_values (pipelines_idx idx)) (pipelines unids)
    /\ objects_from_id_index idx' = unids.
Proof.
  intros objs idx' unids idx H. unfold generate_unids in H.
  apply sbind_ok in H. destruct H as (i1 & nss & H1 & H).
  apply sbind_ok in H. destruct H as (i2 & schs & H2 & H).
  apply sbind_ok in H. destruct H as (i3 & syss & H3 & H).
  apply sbind_ok in H. destruct H as (i4 & ents & H4 & H).
  apply sbind_ok in H. destruct H as (i5 & pls & H5 & H).
  unfold sret in H. injection H as <- <-.
  destruct (@generate_unids_for_spec _ namespaces_idx set_namespaces_idx
              Namespace.id Namespace.set_unid "namespaces"
              (fun _ _ => eq_refl) (fun _ _ _ => eq_refl)
              (fun i => match i with mk_id_idx _ _ _ _ _ => eq_refl end)
              unid_blind_namespaces idx i1 nss Namespace.unid
              (fun o => match o with Namespace.mk _ _ _ _ _ _ => eq_refl end)
              (index_by_keys_nodup _ _) H1)
    as (d1 & Hd1 & -> & ->).
  assert (B1 : forall e x,
             id_to_unid (set_namespaces_idx idx d1) e x = id_to_unid idx e x)
    by (apply unid_blind_namespaces; apply (keyed_same_but_unid Hd1)).
  destruct (@generate_unids_for_spec _ schemas_idx set_schemas_idx
              Schema.id Schema.set_unid "schemas"
              (fun _ _ => eq_refl) (fun _ _ _ => eq_refl)
              (fun i => match i with mk_id_idx _ _ _ _ _ => eq_refl end)
              unid_blind_schemas (set_namespaces_idx idx d1) i2 schs Schema.unid
              (fun o => match o with
                        | Schema.mk _ _ _ _ _ _ _ _ _ _ => eq_refl
                        end)
              (index_by_keys_nodup Schema.id (schemas objs)) H2)
    as (d2 & Hd2 & -> & ->).
  assert (B2 : forall e x,
             id_to_unid (set_schemas_idx (set_namespaces_idx idx d1) d2) e x
             = id_to_unid idx e x).
  { intros e x. rewrite unid_blind_schemas; [apply B1|].
    apply (keyed_same_but_unid Hd2). }
  destruct (@generate_unids_for_spec _ systems_idx set_systems_idx
              System.id System.set_unid "systems"
              (fun _ _ => eq_refl) (fun _ _ _ => eq_refl)
              (fun i => match i with mk_id_idx _ _ _ _ _ => eq_refl end)
              unid_blind_systems
              (set_schemas_idx (set_namespaces_idx idx d1) d2) i3 syss
              System.unid
              (fun o => match o with
                        | System.mk _ _ _ _ _ _ _ _ _ => eq_refl
                        end)
              (index_by_keys_nodup System.id (systems objs)) H3)
    as (d3 & Hd3 & -> & ->).
  assert (B3 : forall e x,
             id_to_unid
               (set_systems_idx
                  (set_schemas_idx (set_namespaces_idx idx d1) d2) d3) e x
             = id_to_unid idx e x).
  { intros e x. rewrite unid_blind_systems; [apply B2|].
    apply (keyed_same_but_unid Hd3). }
  destruct (@generate_unids_for_spec _ data_entities_idx
              set_data_entities_idx Data_entity.id Data_entity.set_unid
              "data_entities"
              (fun _ _ => eq_refl) (fun _ _ _ => eq_refl)
              (fun i => match i with mk_id_idx _ _ _ _ _ => eq_refl end)
              unid_blind_data_entities
              (set_systems_idx
                 (set_schemas_idx (set_namespaces_idx idx d1) d2) d3)
              i4 ents Data_entity.unid
              (fun o => match o with
                        | Data_entity.mk _ _ _ _ _ _ _ _ _ _ _ _ _ => eq_refl
                        end)
              (index_by_keys_nodup Data_entity.id (data_entities objs)) H4)
    as (d4 & Hd4 & -> & ->).
  assert (B4 : forall e x,
             id_to_unid
               (set_data_entities_idx
                  (set_systems_idx
                     (set_schemas_idx (set_namespaces_idx idx d1) d2) d3) d4)
               e x
             = id_to_unid idx e x).
  { intros e x. rewrite unid_blind_data_entities; [apply B3|].
    apply (keyed_same_but_unid Hd4). }
  destruct (@generate_unids_for_spec _ pipelines_idx set_pipelines_idx
              Pipeline.id Pipeline.set_unid "pipelines"
              (fun _ _ => eq_refl) (fun _ _ _ => eq_refl)
              (fun i => match i with mk_id_idx _ _ _ _ _ => eq_refl end)
              unid_blind_pipelines
              (set_data_entities_idx
                 (set_systems_idx
                    (set_schemas_idx (set_namespaces_idx idx d1) d2) d3) d4)
              i5 pls Pipeline.unid
              (fun o => match o with
                        | Pipeline.mk _ _ _ _ _ _ _ _ _ _ _ _ _ _ => eq_refl
                        end)
              (index_by_keys_nodup Pipeline.id (pipelines objs)) H5)
    as (d5 & Hd5 & -> & ->).
  cbn [namespaces schemas systems data_entities pipelines].
  split; [exact (keyed_values Hd1)|].
  split; [exact (@with_derived_key_blind _ _ _ _ idx _ _ _ B1 (keyed_values Hd2))|].
  split; [exact (@with_derived_key_blind _ _ _ _ idx _ _ _ B2 (keyed_values Hd3))|].
  split; [exact (@with_derived_key_blind _ _ _ _ idx _ _ _ B3 (keyed_values Hd4))|].
  split; [exact (@with_derived_key_blind _ _ _ _ idx _ _ _ B4 (keyed_values Hd5))|].
  reflexivity.
Qed.

Lemma generate_unids_scenario :
  exists idx' unids,
    generate_unids (create_id_indexes Scenario.graph) = (idx', Ok unids)
    /\ map Data_entity.unid (data_entities unids)
       = [Some "sales.sales.erp.orders_raw.dataset"]
    /\ Forall2 (with_derived_key (create_id_indexes Scenario.graph)
                  "data_entities" Data_entity.id Data_entity.set_unid)
         [Scenario.orders_raw] (data_entities unids)
    /\ objects_from_id_index idx' = unids.
Proof.
  eexists. eexists. split; [vm_compute; reflexivity|].
  split; [reflexivity|].
  pose proof (@generate_unids_assigns_derived_keys Scenario.graph _ _
                ltac:(vm_compute; reflexivity)) as H.
  split; [exact (proj1 (proj2 (proj2 (proj2 H)))) |
          exact (proj2 (proj2 (proj2 (proj2 (proj2 H)))))].
Defined.

(** ** Integration and the references of the graph *)

Lemma mapM_ok_iff : forall (A B : Type) (f : A -> Exc B) (p : A -> bool) l,
  (forall x, (exists y, f x = Ok y) <-> p x = true) ->
  (exists ys, mapM f l = Ok ys) <-> forallb p l = true.
Proof.
  intros A B f p l Hp. induction l as [|a l IH]; simpl.
  - split; [reflexivity | intros _; exists []; reflexivity].
  - rewrite andb_true_iff, <- IH, <- Hp. split.
    + intros [ys H]. destruct (f a) as [b|]; simpl in H; [|discriminate].
      destruct (mapM f l) as [bs|]; simpl in H; [|discriminate].
      split; eexists; reflexivity.
    + intros [[b Hb] [bs Hbs]]. rewrite Hb, Hbs. simpl. eexists. reflexivity.
Qed.

Lemma forallb_of_map : forall (A B : Type) (f : A -> B) (p : B -> bool) l,
  forallb p (map f l) = forallb (fun x => p (f x)) l.
Proof.
  intros A B f p l. induction l as [|a l IH]; simpl; [reflexivity|].
  rewrite IH. reflexivity.
Qed.

Lemma dict_mapM_ok_iff :
  forall (K V W : Type) (f : V -> Exc W) (p : V -> bool) (d : PyDict K V),
    (forall v, (exists w, f v = Ok w) <-> p v = true) ->
    (exists d', dict_mapM f d = Ok d') <-> forallb p (dict_values d) = true.
Proof.
  intros K V W f p d Hp. unfold dict_mapM, dict_values.
  rewrite forallb_of_map.
  apply mapM_ok_iff. intros [k v]. simpl. rewrite <- Hp. split.
  - intros [y H]. destruct (f v) as [w|]; [|discriminate]. eexists. reflexivity.
  - intros [w ->]. eexists. reflexivity.
Qed.

Lemma dict_mapM_keys : forall (K V W : Type) (f : V -> Exc W)
                              (d : PyDict K V) d',
  dict_mapM f d = Ok d' -> dict_keys d' = dict_keys d.
Proof.
  intros K V W f. unfold dict_mapM.
  induction d as [|[k v] d IH]; intros d' H; simpl in H.
  - injection H as <-. reflexivity.
  - destruct (f v) as [w|]; simpl in H; [|discriminate].
    destruct (mapM _ d) as [ws|] eqn:E; simpl in H; [|discriminate].
    injection H as <-. simpl. rewrite (IH ws eq_refl). reflexivity.
Qed.

Lemma dict_mem_existsb : forall (V : Type) (d : PyDict Z V) k,
  dict_mem Z.eqb d k = existsb (Z.eqb k) (dict_keys d).
Proof.
  intros V d k. unfold dict_mem.
  induction d as [|[k' v] d IH]; simpl; [reflexivity|].
  destruct (k =? k'); [reflexivity | exact IH].
Qed.

Lemma resolves_same_keys :
  forall (A V W : Type) (d : PyDict Z V) (d' : PyDict Z W) (r : Ref A),
    dict_keys d' = dict_keys d -> resolves d' r = resolves d r.
Proof.
  intros A V W d d' [i|u|a] H; simpl; try reflexivity.
  rewrite !dict_mem_existsb, H. reflexivity.
Qed.

Lemma schema_resolves_same_keys :
  forall (d d' : PyDict Z Schema.t) (r : SchemaField),
    dict_keys d' = dict_keys d -> schema_resolves d' r = schema_resolves d r.
Proof.
  intros d d' [i|u|s|b] H; simpl; try reflexivity.
  rewrite !dict_mem_existsb, H. reflexivity.
Qed.

(** A lookup by the content of a reference field returns exactly when the
    field holds an id the index has. *)
Lemma getitem_ref_ok : forall (A V : Type) (d : PyDict Z V) cls (r : Ref A),
  (exists v, getitem_id d (key_of_ref cls r) = Ok v) <-> resolves d r = true.
Proof.
  intros A V d cls [i|u|a]; simpl; unfold dict_mem.
  - destruct (dict_get Z.eqb d i).
    + split; [reflexivity | intros _; eexists; reflexivity].
    + split; [intros [v H]; discriminate | discriminate].
  - split; [intros [v H]; discriminate | discriminate].
  - split; [intros [v H]; discriminate | discriminate].
Qed.

Lemma getitem_schemafield_ok : forall (d : PyDict Z Schema.t) r,
  (exists v, getitem_id d (key_of_schemafield r) = Ok v)
  <-> schema_resolves d r = true.
Proof.
  intros d [i|u|s|b]; simpl; unfold dict_mem.
  - destruct (dict_get Z.eqb d i).
    + split; [reflexivity | intros _; eexists; reflexivity].
    + split; [intros [v H]; discriminate | discriminate].
  - split; [intros [v H]; discriminate | discriminate].
  - split; [intros [v H]; discriminate | discriminate].
  - destruct b; simpl; split; try discriminate; intros [v H]; discriminate.
Qed.

Lemma connect_namespace_ok : forall ns_byid fn r,
  (exists n, connect_namespace ns_byid fn r = Ok n)
  <-> resolves ns_byid r = true.
Proof.
  intros ns_byid fn r. rewrite <- (getitem_ref_ok ns_byid "Namespace" r).
  unfold connect_namespace. split.
  - intros [n H]. destruct (getitem_id _ _); [|discriminate].
    eexists. reflexivity.
  - intros [v ->]. eexists. reflexivity.
Qed.

Lemma integrate_schema_ok : forall ns_byid fn sch,
  (exists sch', integrate_schema ns_byid fn sch = Ok sch')
  <-> resolves ns_byid (Schema.namespace sch) = true.
Proof.
  intros. rewrite <- (connect_namespace_ok ns_byid fn). unfold integrate_schema.
  split.
  - intros [s H]. destruct (connect_namespace _ _ _); [|discriminate].
    eexists. reflexivity.
  - intros [n ->]. eexists. reflexivity.
Qed.

Lemma integrate_system_ok : forall ns_byid fn sys,
  (exists sys', integrate_system ns_byid fn sys = Ok sys')
  <-> resolves ns_byid (System.namespace sys) = true.
Proof.
  intros. rewrite <- (connect_namespace_ok ns_byid fn). unfold integrate_system.
  split.
  - intros [s H]. destruct (connect_namespace _ _ _); [|discriminate].
    eexists. reflexivity.
  - intros [n ->]. eexists. reflexivity.
Qed.

Lemma integrate_data_entity_ok : forall ns_byid fn fs sys_byid sch_byid ent,
  (exists ent',
      integrate_data_entity ns_byid fn fs sys_byid sch_byid ent = Ok ent')
  <-> resolves ns_byid (Data_entity.namespace ent)
      && resolves sys_byid (Data_entity.system ent)
      && schema_resolves sch_byid (Data_entity.entity_schema ent) = true.
Proof.
  intros. rewrite !andb_true_iff.
  rewrite <- (connect_namespace_ok ns_byid fn).
  rewrite <- (getitem_ref_ok sys_byid "System").
  rewrite <- getitem_schemafield_ok.
  unfold integrate_data_entity. cbn [Data_entity.set_namespace
    Data_entity.set_system Data_entity.system Data_entity.entity_schema].
  split.
  - intros [e H].
    destruct (connect_namespace _ _ _); [|discriminate]. cbn [bind] in H.
    destruct (getitem_id sys_byid _); [|discriminate]. cbn [bind] in H.
    destruct (getitem_id sch_byid _); [|discriminate].
    repeat split; eexists; reflexivity.
  - intros [[[n ->] [s ->]] [sch ->]]. eexists. reflexivity.
Qed.

Lemma connect_entity_ok : forall ent_byid r,
  (exists r', connect_entity ent_byid r = Ok r') <-> resolves ent_byid r = true.
Proof.
  intros. rewrite <- (getitem_ref_ok ent_byid "Data_entity").
  unfold connect_entity. split.
  - intros [n H]. destruct (getitem_id _ _); [|discriminate].
    eexists. reflexivity.
  - intros [v ->]. eexists. reflexivity.
Qed.

Lemma integrate_side_ok : forall ent_byid s,
  (exists s', integrate_side ent_byid s = Ok s')
  <-> side_resolves ent_byid s = true.
Proof.
  intros ent_byid [r|l]; simpl.
  - rewrite <- connect_entity_ok. split.
    + intros [s H]. destruct (connect_entity _ _); [|discriminate].
      eexists. reflexivity.
    + intros [r' ->]. eexists. reflexivity.
  - rewrite <- (mapM_ok_iff (connect_entity ent_byid) (resolves ent_byid) l
                  (connect_entity_ok ent_byid)).
    split.
    + intros [s H]. destruct (mapM _ _); [|discriminate]. eexists. reflexivity.
    + intros [l' ->]. eexists. reflexivity.
Qed.

Lemma integrate_instance_ok : forall ent_byid instance,
  (exists i', integrate_instance ent_byid instance = Ok i')
  <-> instance_resolves ent_byid instance = true.
Proof.
  intros. unfold instance_resolves. rewrite andb_true_iff.
  rewrite <- !integrate_side_ok. unfold integrate_instance. split.
  - intros [i H]. destruct (integrate_side _ (input _)); [|discriminate].
    cbn [bind] in H. destruct (integrate_side _ (output _)); [|discriminate].
    split; eexists; reflexivity.
  - intros [[i ->] [o ->]]. eexists. reflexivity.
Qed.

Lemma integrate_pipeline_ok : forall ns_byid fn ent_byid pl,
  (exists pl', integrate_pipeline ns_byid fn ent_byid pl = Ok pl')
  <-> resolves ns_byid (Pipeline.namespace pl)
      && forallb (instance_resolves ent_byid) (Pipeline.input_output pl)
      = true.
Proof.
  intros. rewrite andb_true_iff.
  rewrite <- (connect_namespace_ok ns_byid fn).
  rewrite <- (mapM_ok_iff (integrate_instance ent_byid)
                (instance_resolves ent_byid) (Pipeline.input_output pl)
                (integrate_instance_ok ent_byid)).
  unfold integrate_pipeline.
  cbn [Pipeline.set_namespace Pipeline.input_output]. split.
  - intros [p H]. destruct (connect_namespace _ _ _); [|discriminate].
    cbn [bind] in H. destruct (mapM _ _); [|discriminate].
    split; eexists; reflexivity.
  - intros [[n ->] [io ->]]. eexists. reflexivity.
Qed.

Lemma forallb_ext_in : forall (A : Type) (p q : A -> bool) l,
  (forall x, p x = q x) -> forallb p l = forallb q l.
Proof.
  intros A p q l H. induction l as [|a l IH]; simpl; [reflexivity|].
  rewrite H, IH. reflexivity.
Qed.

(** X6. Integration returns exactly on an index with referential
    integrity: [integrate_pipelines] yields its list of pipelines if and
    only if every reference held by a schema, system, data entity or
    pipeline of the index is an id (not a key, not an embedded object) that
    the index of the referenced type holds; otherwise it raises. *)
Theorem integrate_pipelines_iff_referential_integrity :
  forall (idx : IdIdx) (flatten_namespaces flatten_schemas : bool),
    (exists integrated,
        integrate_pipelines idx flatten_namespaces flatten_schemas
        = Ok integrated)
    <-> referential_integrity idx = true.
Proof.
  intros idx fn fs. unfold referential_integrity, integrate_pipelines.
  rewrite !andb_true_iff.
  rewrite <- (dict_mapM_ok_iff (integrate_schema (namespaces_idx idx) fn) _
                (schemas_idx idx) (integrate_schema_ok (namespaces_idx idx) fn)).
  rewrite <- (dict_mapM_ok_iff (integrate_system (namespaces_idx idx) fn) _
                (systems_idx idx) (integrate_system_ok (namespaces_idx idx) fn)).
  split.
  - intros [pls H].
    destruct (dict_mapM (integrate_schema _ _) _) as [sch_byid|] eqn:E1;
      [|discriminate]. cbn [bind] in H.
    destruct (dict_mapM (integrate_system _ _) _) as [sys_byid|] eqn:E2;
      [|discriminate]. cbn [bind] in H.
    destruct (dict_mapM (integrate_data_entity _ _ _ _ _) _)
      as [ent_byid|] eqn:E3; [|discriminate]. cbn [bind] in H.
    destruct (dict_mapM (integrate_pipeline _ _ _) _) as [pl_byid|] eqn:E4;
      [|discriminate].
    pose proof (dict_mapM_keys _ _ E1) as K1.
    pose proof (dict_mapM_keys _ _ E2) as K2.
    pose proof (dict_mapM_keys _ _ E3) as K3.
    repeat split; try (eexists; reflexivity).
    + assert (Hex : exists d',
                 dict_mapM (integrate_data_entity (namespaces_idx idx) fn fs
                              sys_byid sch_byid) (data_entities_idx idx)
                 = Ok d') by (eexists; exact E3).
      rewrite (dict_mapM_ok_iff _ _ _
                 (integrate_data_entity_ok (namespaces_idx idx) fn fs
                    sys_byid sch_byid)) in Hex.
      rewrite <- Hex. apply forallb_ext_in. intros e.
      unfold data_entity_resolves.
      rewrite (resolves_same_keys _ _ (Data_entity.system e) K2).
      rewrite (schema_resolves_same_keys _ _ (Data_entity.entity_schema e) K1).
      reflexivity.
    + assert (Hex : exists d',
                 dict_mapM (integrate_pipeline (namespaces_idx idx) fn
                              ent_byid) (pipelines_idx idx)
                 = Ok d') by (eexists; exact E4).
      rewrite (dict_mapM_ok_iff _ _ _
                 (integrate_pipeline_ok (namespaces_idx idx) fn ent_byid))
        in Hex.
      rewrite <- Hex. apply forallb_ext_in. intros p.
      unfold pipeline_resolves. f_equal. apply forallb_ext_in. intros i.
      unfold instance_resolves, side_resolves.
      destruct (input i), (output i);
        repeat rewrite (resolves_same_keys _ _ _ K3);
        repeat (rewrite (forallb_ext_in _ _ _
                           (fun r => resolves_same_keys _ _ r K3)));
        reflexivity.
  - intros [[[[sch_byid E1] [sys_byid E2]] H3] H4].
    rewrite E1, E2. cbn [bind].
    pose proof (dict_mapM_keys _ _ E1) as K1.
    pose proof (dict_mapM_keys _ _ E2) as K2.
    assert (Hex : exists d',
               dict_mapM (integrate_data_entity (namespaces_idx idx) fn fs
                            sys_byid sch_byid) (data_entities_idx idx)
               = Ok d').
    { rewrite (dict_mapM_ok_iff _ _ _
                 (integrate_data_entity_ok (namespaces_idx idx) fn fs
                    sys_byid sch_byid)).
      rewrite <- H3. apply forallb_ext_in. intros e.
      unfold data_entity_resolves.
      rewrite (resolves_same_keys _ _ (Data_entity.system e) K2).
      rewrite (schema_resolves_same_keys _ _ (Data_entity.entity_schema e) K1).
      reflexivity. }
    destruct Hex as [ent_byid E3]. rewrite E3. cbn [bind].
    pose proof (dict_mapM_keys _ _ E3) as K3.
    assert (Hex : exists d',
               dict_mapM (integrate_pipeline (namespaces_idx idx) fn ent_byid)
                 (pipelines_idx idx) = Ok d').
    { rewrite (dict_mapM_ok_iff _ _ _
                 (integrate_pipeline_ok (namespaces_idx idx) fn ent_byid)).
      rewrite <- H4. apply forallb_ext_in. intros p.
      unfold pipeline_resolves. f_equal. apply forallb_ext_in. intros i.
      unfold instance_resolves, side_resolves.
      destruct (input i), (output i);
        repeat rewrite (resolves_same_keys _ _ _ K3);
        repeat (rewrite (forallb_ext_in _ _ _
                           (fun r => resolves_same_keys _ _ r K3)));
        reflexivity. }
    destruct Hex as [pl_byid E4]. rewrite E4. cbn [bind].
    eexists. reflexivity.
Qed.

Lemma integrate_pipelines_scenario :
  referential_integrity (create_id_indexes Scenario.graph_with_pipelines)
  = true
  /\ (exists integrated,
        integrate_pipelines (create_id_indexes Scenario.graph_with_pipelines)
          true false = Ok integrated)
  /\ referential_integrity
       (create_id_indexes (mk_objects [] [Scenario.orders] [] [] [])) = false
  /\ integrate_pipelines
       (create_id_indexes (mk_objects [] [Scenario.orders] [] [] []))
       true false = Raise (KeyError "1").
Proof.
  split; [reflexivity|]. split.
  - exact (proj2 (integrate_pipelines_iff_referential_integrity
                    (create_id_indexes Scenario.graph_with_pipelines)
                    true false) eq_refl).
  - split; reflexivity.
Defined.

(** ** References by key and references by id *)

Lemma unid_ref_to_id_idem :
  forall (A V : Type) (idx : PyDict (option string) V) (ident : V -> Z)
         (r r' : Ref A),
    unid_ref_to_id idx ident r = Ok r' -> unid_ref_to_id idx ident r' = Ok r'.
Proof.
  intros A V idx ident [i|u|a] r' H; simpl in H.
  - injection H as <-. reflexivity.
  - destruct (getitem_unid idx u); simpl in H; [|discriminate].
    injection H as <-. reflexivity.
  - injection H as <-. reflexivity.
Qed.

Lemma mapM_idem : forall (A : Type) (f : A -> Exc A) l l',
  (forall x y, f x = Ok y -> f y = Ok y) ->
  mapM f l = Ok l' -> mapM f l' = Ok l'.
Proof.
  intros A f l l' Hf. revert l'.
  induction l as [|a l IH]; intros l' H; simpl in H.
  - injection H as <-. reflexivity.
  - destruct (f a) as [b|] eqn:Ea; simpl in H; [|discriminate].
    destruct (mapM f l) as [bs|]; simpl in H; [|discriminate].
    injection H as <-. simpl. rewrite (Hf _ _ Ea), (IH bs eq_refl).
    reflexivity.
Qed.

Lemma side_unid_refs_to_ids_idem : forall uidx s s',
  side_unid_refs_to_ids uidx s = Ok s' -> side_unid_refs_to_ids uidx s' = Ok s'.
Proof.
  intros uidx s s' H. unfold side_unid_refs_to_ids in *. cbv zeta in *.
  destruct s as [r|l].
  - destruct (unid_ref_to_id _ _ r) as [r'|] eqn:E; cbn [bind] in H;
      [|discriminate].
    injection H as <-. rewrite (unid_ref_to_id_idem _ _ _ E). reflexivity.
  - destruct (mapM _ l) as [l'|] eqn:E; cbn [bind] in H; [|discriminate].
    injection H as <-.
    rewrite (@mapM_idem _
               (unid_ref_to_id (data_entities_unid_idx uidx) Data_entity.id)
               l l' (@unid_ref_to_id_idem _ _ _ _) E).
    reflexivity.
Qed.

Lemma instance_unid_refs_to_ids_idem : forall uidx i i',
  instance_unid_refs_to_ids uidx i = Ok i' ->
  instance_unid_refs_to_ids uidx i' = Ok i'.
Proof.
  intros uidx i i' H. unfold instance_unid_refs_to_ids in *.
  destruct (side_unid_refs_to_ids uidx (input i)) as [a|] eqn:Ea;
    simpl in H; [|discriminate].
  destruct (side_unid_refs_to_ids uidx (output i)) as [b|] eqn:Eb;
    simpl in H; [|discriminate].
  injection H as <-. simpl.
  rewrite (side_unid_refs_to_ids_idem _ _ Ea),
    (side_unid_refs_to_ids_idem _ _ Eb).
  reflexivity.
Qed.

(** X7. Reference normalisation is idempotent and keeps the identity: when
    [unid_refs_to_ids] returns, its result has the id of the entity it was
    given, and normalising the result once more returns it unchanged, so
    the result holds no reference by key any more. *)
Theorem unid_refs_to_ids_idempotent :
  forall (uidx : UnidIdx) (obj obj' : Entity),
    unid_refs_to_ids uidx obj = Ok obj' ->
    unid_refs_to_ids uidx obj' = Ok obj'
    /\ entity_id obj' = entity_id obj
    /\ entity_class obj' = entity_class obj.
Proof.
  intros uidx [n|s|s|e|p] obj' H; simpl in H.
  - injection H as <-. repeat split.
  - unfold schema_unid_refs_to_ids in H.
    destruct (unid_ref_to_id _ _ _) as [r|] eqn:E; simpl in H; [|discriminate].
    injection H as <-. simpl. unfold schema_unid_refs_to_ids.
    cbn [Schema.set_namespace Schema.namespace].
    rewrite (unid_ref_to_id_idem _ _ _ E). repeat split.
  - unfold system_unid_refs_to_ids in H.
    destruct (unid_ref_to_id _ _ _) as [r|] eqn:E; simpl in H; [|discriminate].
    injection H as <-. simpl. unfold system_unid_refs_to_ids.
    cbn [System.set_namespace System.namespace].
    rewrite (unid_ref_to_id_idem _ _ _ E). repeat split.
  - unfold data_entity_unid_refs_to_ids in H.
    destruct (unid_ref_to_id _ _ (Data_entity.namespace e)) as [r|] eqn:E;
      simpl in H; [|discriminate].
    destruct (unid_ref_to_id _ _ (Data_entity.system e)) as [r2|] eqn:E2;
      simpl in H; [|discriminate].
    destruct (Data_entity.entity_schema e) as [i|u|sch|b] eqn:Es; simpl in H.
    + injection H as <-. simpl. unfold data_entity_unid_refs_to_ids.
      cbn [Data_entity.set_namespace Data_entity.set_system
           Data_entity.namespace Data_entity.system Data_entity.entity_schema].
      rewrite (unid_ref_to_id_idem _ _ _ E). cbn [bind].
      rewrite (unid_ref_to_id_idem _ _ _ E2). cbn [bind]. rewrite Es.
      repeat split.
    + destruct (getitem_unid _ u) as [sch|]; simpl in H; [|discriminate].
      injection H as <-. simpl. unfold data_entity_unid_refs_to_ids.
      cbn [Data_entity.set_namespace Data_entity.set_system
           Data_entity.set_entity_schema
           Data_entity.namespace Data_entity.system Data_entity.entity_schema].
      rewrite (unid_ref_to_id_idem _ _ _ E). cbn [bind].
      rewrite (unid_ref_to_id_idem _ _ _ E2). repeat split.
    + injection H as <-. simpl. unfold data_entity_unid_refs_to_ids.
      cbn [Data_entity.set_namespace Data_entity.set_system
           Data_entity.namespace Data_entity.system Data_entity.entity_schema].
      rewrite (unid_ref_to_id_idem _ _ _ E). cbn [bind].
      rewrite (unid_ref_to_id_idem _ _ _ E2). cbn [bind]. rewrite Es.
      repeat split.
    + injection H as <-. simpl. unfold data_entity_unid_refs_to_ids.
      cbn [Data_entity.set_namespace Data_entity.set_system
           Data_entity.namespace Data_entity.system Data_entity.entity_schema].
      rewrite (unid_ref_to_id_idem _ _ _ E). cbn [bind].
      rewrite (unid_ref_to_id_idem _ _ _ E2). cbn [bind]. rewrite Es.
      repeat split.
  - unfold pipeline_unid_refs_to_ids in H.
    destruct (unid_ref_to_id _ _ (Pipeline.namespace p)) as [r|] eqn:E;
      simpl in H; [|discriminate].
    destruct (mapM _ (Pipeline.input_output p)) as [io|] eqn:Eio;
      simpl in H; [|discriminate].
    injection H as <-. simpl. unfold pipeline_unid_refs_to_ids.
    cbn [Pipeline.set_namespace Pipeline.set_input_output Pipeline.namespace
         Pipeline.input_output].
    rewrite (unid_ref_to_id_idem _ _ _ E). cbn [bind].
    rewrite (mapM_idem _ _ (instance_unid_refs_to_ids_idem uidx) Eio).
    repeat split.
Qed.

Lemma unid_refs_to_ids_scenario :
  let uidx := MetadataStructure.by_unid (Scenario.loaded Scenario.graph) in
  unid_refs_to_ids uidx (ESystem Scenario.crm)
  = Ok (ESystem (System.set_namespace Scenario.crm (RId 1)))
  /\ unid_refs_to_ids uidx
       (ESystem (System.set_namespace Scenario.crm (RId 1)))
     = Ok (ESystem (System.set_namespace Scenario.crm (RId 1))).
Proof.
  intro uidx.
  assert (H : unid_refs_to_ids uidx (ESystem Scenario.crm)
              = Ok (ESystem (System.set_namespace Scenario.crm (RId 1))))
    by (vm_compute; reflexivity).
  split; [exact H | exact (proj1 (unid_refs_to_ids_idempotent _ _ H))].
Defined.

(** ** The consumer-facing key of a derived pipeline key *)

Lemma string_of_uint_no_dot : forall d,
  no_char dot (NilEmpty.string_of_uint d) = true.
Proof. induction d; simpl; auto. Qed.

Lemma str_of_int_no_dot : forall n, no_char dot (str_of_int n) = true.
Proof.
  intro n. unfold str_of_int, NilZero.string_of_int.
  destruct (Z.to_int n) as [d|d]; simpl; unfold NilZero.string_of_uint;
    destruct d; try reflexivity; apply string_of_uint_no_dot.
Qed.

Lemma rfind_from_no_char : forall c s pos best,
  no_char c s = true -> rfind_from c s pos best = best.
Proof.
  intros c. induction s as [|a s IH]; intros pos best H; simpl in *.
  - reflexivity.
  - apply andb_true_iff in H. destruct H as [Ha Hs].
    apply negb_true_iff in Ha. rewrite Ha. apply IH. exact Hs.
Qed.

Lemma rfind_from_app : forall c pre suf pos best,
  no_char c suf = true ->
  rfind_from c (pre ++ String c suf) pos best
  = pos + Z.of_nat (String.length pre).
Proof.
  intros c. induction pre as [|a pre IH]; intros suf pos best H.
  - simpl. rewrite Ascii.eqb_refl. rewrite rfind_from_no_char by exact H. lia.
  - cbn [append rfind_from String.length]. rewrite IH by exact H. lia.
Qed.

(** Cutting at the last dot drops exactly a dot-free tail. *)
Lemma slice_to_rfind_app : forall pre suf,
  no_char dot suf = true ->
  slice_to (pre ++ String dot suf) (rfind (pre ++ String dot suf) dot) = pre.
Proof.
  intros pre suf H. unfold rfind. rewrite rfind_from_app by exact H.
  unfold slice_to.
  replace (0 + Z.of_nat (String.length pre) <? 0) with false
    by (symmetry; apply Z.ltb_ge; lia).
  replace (Z.to_nat (0 + Z.of_nat (String.length pre)))
    with (String.length pre) by lia.
  apply take_length_app.
Qed.

Lemma append_assoc' : forall a b c : string, (a ++ b) ++ c = a ++ (b ++ c).
Proof.
  induction a as [|x a IH]; intros b c; simpl; [reflexivity|].
  rewrite IH. reflexivity.
Qed.

(** X8. The key derived for a pipeline is
    [namespace.name.type.version], and the consumer-facing identifier that
    [integrated_to_dag_config] cuts out of it is [namespace.name.type],
    whatever dots the namespace, the name and the type contain themselves:
    the text of a version number has no dot. *)
Theorem derived_pipeline_key_identifier :
  forall (idx : IdIdx) (i : Z) (pl : Pipeline.t) (u : string),
    dict_get Z.eqb (pipelines_idx idx) i = Some pl ->
    id_to_unid idx "pipelines" i = Ok u ->
    exists ns,
      namespace_id_to_unid idx
        (key_of_ref "Namespace" (Pipeline.namespace pl)) = Ok ns
      /\ u = ns ++ "." ++ Pipeline.name pl ++ "." ++ Pipeline.type pl ++ "."
             ++ str_of_int (Pipeline.version pl)
      /\ pipeline_identifier_of (Pipeline.set_unid pl (Some u))
         = Ok (ns ++ "." ++ Pipeline.name pl ++ "." ++ Pipeline.type pl).
Proof.
  intros idx i pl u Hget H.
  change (id_to_unid idx "pipelines" i)
    with (pipeline_id_to_unid idx (KInt i)) in H.
  unfold pipeline_id_to_unid in H. cbn [getitem_id] in H. rewrite Hget in H.
  cbn [bind] in H.
  destruct (namespace_id_to_unid idx _) as [ns|]; cbn [bind] in H;
    [|discriminate].
  injection H as <-. exists ns. split; [reflexivity|].
  unfold dotted. split; [reflexivity|].
  unfold pipeline_identifier_of. cbn [Pipeline.set_unid Pipeline.unid].
  f_equal.
  replace (ns ++ "." ++ Pipeline.name pl ++ "." ++ Pipeline.type pl ++ "."
           ++ str_of_int (Pipeline.version pl))
    with ((ns ++ "." ++ Pipeline.name pl ++ "." ++ Pipeline.type pl)
          ++ String dot (str_of_int (Pipeline.version pl))).
  - apply slice_to_rfind_app. apply str_of_int_no_dot.
  - rewrite !append_assoc'. reflexivity.
Qed.

Lemma derived_pipeline_key_scenario :
  let idx := create_id_indexes Scenario.graph_with_pipelines in
  id_to_unid idx "pipelines" 2 = Ok "sales.load.ingest.2"
  /\ pipeline_identifier_of
       (Pipeline.set_unid (Scenario.load_v 2 2 true)
          (Some "sales.load.ingest.2"))
     = Ok "sales.load.ingest".
Proof.
  intro idx.
  destruct (@derived_pipeline_key_identifier idx 2 (Scenario.load_v 2 2 true)
              "sales.load.ingest.2" eq_refl eq_refl)
    as (ns & Hns & _ & Hid).
  split; [reflexivity|].
  vm_compute in Hns. injection Hns as <-. exact Hid.
Defined.

(** ** Flat records and the reserved prefixes *)

Lemma dict_update_get_other : forall (e d : PyDict string PyVal) k,
  (forall kv, In kv e -> String.eqb k (fst kv) = false) ->
  dict_get String.eqb (dict_update String.eqb d e) k = dict_get String.eqb d k.
Proof.
  unfold dict_update.
  induction e as [|[k' v'] e IH]; intros d k H; simpl; [reflexivity|].
  rewrite IH by (intros kv Hin; apply H; right; exact Hin).
  rewrite dict_get_set by exact String.eqb_eq.
  pose proof (H (k', v') (or_introl eq_refl)) as Hk. simpl in Hk.
  rewrite Hk. reflexivity.
Qed.

(** A config that passes [config_keys_are_legal] leaves every key with a
    reserved prefix as it finds it. *)
Lemma legal_config_skips_reserved : forall (c : Config) (d : PyDict string PyVal) k,
  (if negb (config_truthy c) then true
   else negb (existsb reserved_key (dict_keys (config_items c)))) = true ->
  reserved_key k = true ->
  dict_get String.eqb
    (if config_truthy c then dict_update String.eqb d (config_items c) else d)
    k
  = dict_get String.eqb d k.
Proof.
  intros c d k Hlegal Hk. destruct (config_truthy c); [|reflexivity].
  cbn [negb] in Hlegal. apply negb_true_iff in Hlegal.
  apply dict_update_get_other. intros kv Hin.
  destruct (String.eqb k (fst kv)) eqn:E; [|reflexivity].
  apply String.eqb_eq in E. subst k.
  assert (Hex : existsb reserved_key (dict_keys (config_items c)) = true).
  { apply existsb_exists. exists (fst kv). split; [|exact Hk].
    unfold dict_keys. apply in_map. exact Hin. }
  congruence.
Qed.



(** X10. The flat record of a pipeline instance: whenever [flatten_instance]
    returns a dict, its entries [i] and [o] are the flattened input and
    output side of the chosen instance, also when the pipeline's config has
    keys of these names (the config entry is lost); and when the config
    passes [config_keys_are_legal], every [pl_] entry is the attribute of
    the pipeline. *)
Theorem flat_instance_fields :
  forall (pl : Pipeline.t) (instance_nr : Z) (v : PyVal),
    flatten_instance pl instance_nr false = Ok v ->
    exists record instance i o,
      v = VDict record
      /\ py_index (Pipeline.input_output pl) instance_nr = Ok instance
      /\ flatten_side (input instance) = Ok i
      /\ flatten_side (output instance) = Ok o
      /\ dict_get String.eqb record "i" = Some i
      /\ dict_get String.eqb record "o" = Some o
      /\ (config_keys_are_legal (EPipeline pl) = Ok true ->
          forall key, In key FLAT_PL_KEYS ->
            dict_get String.eqb record ("pl_" ++ key)
            = dict_get String.eqb (pipeline_attrs false pl) key).
Proof.
  intros pl n v H.
  destruct pl as [pid punid pns pname pdesc penabled pversion pscope ptype
                    pvelocity pio pcfg pcreated pmodified].
  unfold flatten_instance in H.
  cbn [put_keys foldM FLAT_PL_KEYS bind getattr pipeline_attrs dict_get
       String.eqb Ascii.eqb Bool.eqb append dict_set Pipeline.config
       Pipeline.input_output] in H.
  destruct (py_index pio n) as [instance|] eqn:Einst; cbn [bind] in H;
    [|discriminate].
  destruct (flatten_side (input instance)) as [i|] eqn:Ei; cbn [bind] in H;
    [|discriminate].
  destruct (flatten_side (output instance)) as [o|] eqn:Eo; cbn [bind] in H;
    [|discriminate].
  injection H as <-.
  eexists. exists instance, i, o.
  split; [reflexivity|]. split; [exact Einst|]. split; [exact Ei|].
  split; [exact Eo|].
  split.
  { rewrite !dict_get_set by exact String.eqb_eq. reflexivity. }
  split.
  { rewrite !dict_get_set by exact String.eqb_eq. reflexivity. }
  intros Hlegal key Hin.
  unfold config_keys_are_legal in Hlegal.
  cbn [config_of_entity bind Pipeline.config] in Hlegal.
  assert (Hl : (if negb (config_truthy pcfg) then true
                else negb (existsb reserved_key (dict_keys (config_items pcfg))))
               = true)
    by (destruct (negb (config_truthy pcfg));
        [reflexivity | injection Hlegal as ->; reflexivity]).
  rewrite !dict_get_set by exact String.eqb_eq.
  replace (("pl_" ++ key =? "o")%string) with false
    by (repeat (destruct Hin as [<-|Hin]; [reflexivity|]); destruct Hin).
  replace (("pl_" ++ key =? "i")%string) with false
    by (repeat (destruct Hin as [<-|Hin]; [reflexivity|]); destruct Hin).
  rewrite legal_config_skips_reserved
    by (try exact Hl;
        repeat (destruct Hin as [<-|Hin]; [reflexivity|]); destruct Hin).
  repeat (destruct Hin as [<-|Hin]; [reflexivity|]). destruct Hin.
Qed.

Lemma flat_instance_fields_scenario :
  let pl := Examples.load_integrated in
  exists record i,
    flatten_instance pl 0 false = Ok (VDict record)
    /\ flatten_side (One (RObj Examples.orders_raw_embedded)) = Ok i
    /\ dict_get String.eqb record "i" = Some i
    /\ dict_get String.eqb record "retries" = Some (VInt 3)
    /\ dict_get String.eqb record "pl_name" = Some (VStr "load").
Proof.
  intros pl.
  destruct (@flat_instance_fields pl 0 _ eq_refl)
    as (record & instance & i & o & Hv & Hidx & Hi & Ho & Hgi & Hgo & Hpl).
  vm_compute in Hidx. injection Hidx as <-.
  exists record, i. split; [rewrite <- Hv; reflexivity|].
  split; [exact Hi|]. split; [exact Hgi|]. split.
  - injection Hv as <-. reflexivity.
  - exact (Hpl eq_refl "name" ltac:(simpl; tauto)).
Defined.

(** ** Choosing an instance *)

Lemma py_index_out_of_range : forall (A : Type) (l : list A) n,
  Z.of_nat (List.length l) <= n \/ n < - Z.of_nat (List.length l) ->
  py_index l n = Raise (IndexError "list index out of range").
Proof.
  intros A l n H. unfold py_index.
  destruct (n <? 0) eqn:En.
  - apply Z.ltb_lt in En.
    destruct ((n + Z.of_nat (List.length l) <? 0)
              || (Z.of_nat (List.length l) <=? n + Z.of_nat (List.length l)))
      eqn:E; [reflexivity|].
    apply orb_false_iff in E. destruct E as [E1 E2].
    apply Z.ltb_ge in E1. apply Z.leb_gt in E2. lia.
  - apply Z.ltb_ge in En.
    destruct ((n <? 0) || (Z.of_nat (List.length l) <=? n)) eqn:E;
      [reflexivity|].
    apply orb_false_iff in E. destruct E as [E1 E2].
    apply Z.leb_gt in E2. lia.
Qed.

Lemma py_index_negative : forall (A : Type) (l : list A) n,
  - Z.of_nat (List.length l) <= n < 0 ->
  py_index l n = py_index l (n + Z.of_nat (List.length l)).
Proof.
  intros A l n H. unfold py_index. cbv zeta.
  destruct (n <? 0) eqn:E1; [|apply Z.ltb_ge in E1; lia].
  assert (E2 : (n + Z.of_nat (List.length l) <? 0) = false)
    by (apply Z.ltb_ge; lia).
  rewrite !E2. reflexivity.
Qed.

(** The [pl_] entries of a flat instance record never fail. *)
Lemma flatten_instance_head : forall pl n,
  exists instance_conf, forall objectify,
    flatten_instance pl n objectify
    = (instance <- py_index (Pipeline.input_output pl) n ;;
       i <- flatten_side (input instance) ;;
       let instance_conf := dict_set String.eqb instance_conf "i" i in
       o <- flatten_side (output instance) ;;
       let instance_conf := dict_set String.eqb instance_conf "o" o in
       if objectify
       then objectify_flat_instance instance_conf
       else Ok (VDict instance_conf)).
Proof.
  intros pl n. destruct pl. eexists. intro objectify. reflexivity.
Qed.

(** X11. Bounds of the instance number: [flatten_instance] raises
    [IndexError] for an instance number at or beyond the number of
    instances or below its negative, before any entity is flattened; a
    negative number within the bounds counts from the end. *)
Theorem flatten_instance_bounds :
  forall (pl : Pipeline.t) (instance_nr : Z) (objectify_output : bool),
    let n := Z.of_nat (List.length (Pipeline.input_output pl)) in
    (n <= instance_nr \/ instance_nr < - n ->
     flatten_instance pl instance_nr objectify_output
     = Raise (IndexError "list index out of range"))
    /\ (- n <= instance_nr < 0 ->
        flatten_instance pl instance_nr objectify_output
        = flatten_instance pl (instance_nr + n) objectify_output).
Proof.
  intros pl k b n. split.
  - intros H. destruct (flatten_instance_head pl k) as [conf Hf].
    rewrite Hf, py_index_out_of_range by exact H. reflexivity.
  - intros H. destruct pl. unfold flatten_instance.
    cbn [Pipeline.input_output] in *.
    rewrite (py_index_negative _ H). reflexivity.
Qed.

Lemma flatten_instance_bounds_scenario :
  let pl := Scenario.load_v 1 1 true in
  flatten_instance pl 1 false = Raise (IndexError "list index out of range")
  /\ flatten_instance pl (-1) false = flatten_instance pl 0 false.
Proof.
  intro pl. split.
  - exact (proj1 (flatten_instance_bounds pl 1 false)
             ltac:(left; vm_compute; discriminate)).
  - exact (proj2 (flatten_instance_bounds pl (-1) false)
             ltac:(vm_compute; split; [discriminate | reflexivity])).
Defined.

(** ** Objectified flat records *)

Lemma mapM_simple_namespace : forall recs,
  mapM simple_namespace (map VDict recs)
  = Ok (map (VObj "SimpleNamespace") recs).
Proof.
  induction recs as [|r recs IH]; simpl; [reflexivity|].
  rewrite IH. reflexivity.
Qed.

Lemma objectify_flattened_side : forall s v,
  flatten_side s = Ok v -> exists v', objectify_side v = Ok v'.
Proof.
  intros [r|l] v H; simpl in H.
  - destruct (flatten_entity r); simpl in H; [|discriminate].
    injection H as <-. eexists. reflexivity.
  - destruct (mapM flatten_entity l) as [recs|]; simpl in H; [|discriminate].
    injection H as <-. simpl. rewrite mapM_simple_namespace.
    eexists. reflexivity.
Qed.

(** X12. Objectifying never fails on what flattening produced: whenever
    [flatten_instance] returns the flat record as a dict, the same call
    with [objectify_output=True] returns the record as a [SimpleNamespace]
    with the same entries, its [i] and [o] entries objectified. *)
Theorem flatten_instance_objectified :
  forall (pl : Pipeline.t) (instance_nr : Z) (record : PyDict string PyVal),
    flatten_instance pl instance_nr false = Ok (VDict record) ->
    exists i o i' o',
      dict_get String.eqb record "i" = Some i
      /\ dict_get String.eqb record "o" = Some o
      /\ objectify_side i = Ok i'
      /\ objectify_side o = Ok o'
      /\ flatten_instance pl instance_nr true
         = Ok (VObj "SimpleNamespace"
                 (dict_set String.eqb (dict_set String.eqb record "i" i')
                    "o" o')).
Proof.
  intros pl n record H.
  destruct (flatten_instance_head pl n) as [conf Hf].
  rewrite Hf in H. rewrite Hf.
  destruct (py_index _ n) as [instance|]; cbn [bind] in *; [|discriminate].
  destruct (flatten_side (input instance)) as [i|] eqn:Ei; cbn [bind] in *;
    [|discriminate].
  destruct (flatten_side (output instance)) as [o|] eqn:Eo; cbn [bind] in *;
    [|discriminate].
  injection H as <-.
  destruct (objectify_flattened_side _ Ei) as [i' Hi'].
  destruct (objectify_flattened_side _ Eo) as [o' Ho'].
  exists i, o, i', o'.
  split; [rewrite !dict_get_set by exact String.eqb_eq; reflexivity|].
  split; [rewrite !dict_get_set by exact String.eqb_eq; reflexivity|].
  split; [exact Hi'|]. split; [exact Ho'|].
  unfold objectify_flat_instance, getitem_str.
  rewrite !dict_get_set by exact String.eqb_eq. cbn [String.eqb Ascii.eqb
    Bool.eqb bind].
  rewrite Hi'. cbn [bind]. rewrite Ho'. reflexivity.
Qed.

Lemma flatten_instance_objectified_scenario :
  exists record v,
    flatten_instance Examples.load_integrated 0 false = Ok (VDict record)
    /\ flatten_instance Examples.load_integrated 0 true = Ok v
    /\ type_name v = "SimpleNamespace".
Proof.
  assert (H : exists record,
             flatten_instance Examples.load_integrated 0 false
             = Ok (VDict record)) by (eexists; vm_compute; reflexivity).
  destruct H as [record H].
  destruct (flatten_instance_objectified _ _ H)
    as (i & o & i' & o' & _ & _ & _ & _ & Hobj).
  exists record. eexists. split; [exact H|].
  split; [exact Hobj | reflexivity].
Defined.

(** ** Dependants of schemas, systems and data entities *)

(** X13. The dependency gate for a schema or a system found in the
    workspace: its dependants are exactly the data entities of
    [md_objects] that name it by id, in their order; when there is one,
    [delete_entity] prints its refusal, leaves the manager as it was and
    returns the report; when there is none, the call goes on with the
    staged deletion. *)
Theorem delete_schema_or_system_gate :
  forall (mm : MetadataManager.t) (w : World) (ws : MetadataStructure.t)
         (entity_type unid : string) (e : Entity),
    MetadataManager.workspace mm = Some ws ->
    entity_type = "schemas" \/ entity_type = "systems" ->
    unid_index_get (MetadataStructure.by_unid ws) entity_type unid
    = Ok (Some e) ->
    let referencing :=
      map EData_entity
        (filter (references_entity e)
           (data_entities (MetadataStructure.md_objects ws))) in
    get_entity_dependants e (MetadataStructure.md_objects ws)
    = Ok {| has_dependants := negb (is_nil referencing);
            dependants := referencing |}
    /\ (referencing <> [] ->
        MetadataManager.delete_entity entity_type unid (mm, w)
        = ((mm,
            after_printing w
              ["The object you're trying to delete is depended upon by other objects.";
               "Aborting";
               "Please inspect the dependants report returned by delete_entity()"]),
           Ok (RetDependants
                 {| has_dependants := true; dependants := referencing |})))
    /\ (referencing = [] ->
        MetadataManager.delete_entity entity_type unid (mm, w)
        = MetadataManager.delete_staged entity_type unid (mm, w)).
Proof.
  intros mm w ws entity_type unid e Hws Htype Hget referencing.
  assert (Hdep : get_entity_dependants e (MetadataStructure.md_objects ws)
                 = Ok {| has_dependants := negb (is_nil referencing);
                         dependants := referencing |}).
  { subst referencing.
    destruct Htype as [-> | ->]; cbn in Hget;
      destruct (dict_get ounid_eqb _ (Some unid)) as [o|]; try discriminate;
      injection Hget as <-;
      cbn [get_entity_dependants]; unfold references_entity;
      unfold get_schema_dependants, get_system_dependants;
      rewrite scan_dependants_filter;
      cbn [has_dependants dependants no_dependants app orb];
      rewrite existsb_filter_nil;
      match goal with
      | |- context [filter ?p ?l] => destruct (filter p l); reflexivity
      end. }
  split; [exact Hdep|].
  assert (Hrun : MetadataManager.delete_entity entity_type unid (mm, w)
                 = (if negb (is_nil referencing)
                    then
                      ((mm,
                        after_printing w
            ["The object you're trying to delete is depended upon by other objects.";
             "Aborting";
             "Please inspect the dependants report returned by delete_entity()"]),
                       Ok (RetDependants
                             {| has_dependants := negb (is_nil referencing);
                                dependants := referencing |}))
                    else MetadataManager.delete_staged entity_type unid
                           (mm, w))).
  { destruct mm as [store stash current wsp cache]. cbn in Hws. subst wsp.
    unfold MetadataManager.delete_entity, MetadataManager.get_entity_by_unid.
    replace (negb (str_in entity_type ENTITIES)) with false
      by (destruct Htype as [-> | ->]; reflexivity).
    replace (negb (entity_type =? "pipelines")%string) with true
      by (destruct Htype as [-> | ->]; reflexivity).
    unfold sbind, MetadataManager.workspace_for, lift, sret, sraise.
    cbn [fst snd MetadataManager.workspace].
    rewrite Hget. cbn [fst snd MetadataManager.workspace].
    rewrite Hget. rewrite Hdep. cbn [has_dependants].
    destruct (negb (is_nil referencing)); [|reflexivity].
    unfold MetadataManager.say, MetadataManager.world, print, after_printing.
    cbn. rewrite <- !app_assoc. reflexivity. }
  rewrite Hrun. split; intro H.
  - destruct referencing; [contradiction|reflexivity].
  - rewrite H. reflexivity.
Qed.

Lemma delete_schema_gate_scenario :
  let mm := Scenario.manager (Scenario.loaded Scenario.graph) in
  let w := Scenario.console [] in
  MetadataManager.delete_entity "schemas" "orders.1" (mm, w)
  = ((mm,
      after_printing w
        ["The object you're trying to delete is depended upon by other objects.";
         "Aborting";
         "Please inspect the dependants report returned by delete_entity()"]),
     Ok (RetDependants
           {| has_dependants := true;
              dependants := [EData_entity Scenario.orders_raw] |})).
Proof.
  intros mm w.
  destruct (@delete_schema_or_system_gate mm w
              (Scenario.loaded Scenario.graph) "schemas" "orders.1"
              (ESchema (Schema.set_unid Scenario.orders (Some "orders.1"))))
    as (_ & Hrefuse & _);
    [reflexivity | left; reflexivity | vm_compute; reflexivity |].
  apply Hrefuse. vm_compute. discriminate.
Defined.

(** One side of an instance appends the pipeline once per reference that
    names the data entity. *)
Lemma scan_side_counts : forall id pl s result,
  exists k : nat,
    scan_side id pl s result
    = {| has_dependants := has_dependants result || negb (k =? 0)%nat;
         dependants := (dependants result ++ repeat (EPipeline pl) k)%list |}
    /\ (negb (k =? 0)%nat = side_references id s).
Proof.
  intros id pl [r|l] result; cbn [scan_side side_references].
  - destruct (ref_eq_id r id).
    + exists 1%nat. split; [|reflexivity]. unfold add_dependant. simpl.
      rewrite orb_true_r. reflexivity.
    + exists 0%nat. split; [|reflexivity]. destruct result. simpl.
      rewrite orb_false_r, app_nil_r. reflexivity.
  - revert result. induction l as [|r l IH]; intros result;
      cbn [fold_left existsb].
    + exists 0%nat. split; [|reflexivity]. destruct result. simpl.
      rewrite orb_false_r, app_nil_r. reflexivity.
    + destruct (ref_eq_id r id); cbn [orb].
      * destruct (IH (add_dependant result (EPipeline pl))) as (k & Hk & _).
        exists (S k). split; [|reflexivity]. rewrite Hk.
        cbn [add_dependant has_dependants dependants repeat Nat.eqb negb orb].
        rewrite orb_true_r, <- app_assoc. reflexivity.
      * exact (IH result).
Qed.

Lemma repeat_app : forall (A : Type) (x : A) a b,
  (repeat x a ++ repeat x b)%list = repeat x (a + b).
Proof.
  intros A x a b. induction a as [|a IH]; simpl; [reflexivity|].
  rewrite IH. reflexivity.
Qed.

(** The instances of one pipeline. *)
Lemma scan_instances_counts : forall id pl io result,
  exists k : nat,
    fold_left
      (fun result instance =>
         scan_side id pl (output instance)
           (scan_side id pl (input instance) result))
      io result
    = {| has_dependants := has_dependants result || negb (k =? 0)%nat;
         dependants := (dependants result ++ repeat (EPipeline pl) k)%list |}
    /\ (negb (k =? 0)%nat
        = existsb (fun instance => side_references id (input instance)
                                   || side_references id (output instance))
            io).
Proof.
  intros id pl. induction io as [|i io IH]; intros result;
    cbn [fold_left existsb].
  - exists 0%nat. split; [|reflexivity]. destruct result. simpl.
    rewrite orb_false_r, app_nil_r. reflexivity.
  - destruct (scan_side_counts id pl (input i) result) as (k1 & E1 & H1).
    rewrite E1.
    match goal with
    | |- context [scan_side id pl (output i) ?r] =>
        destruct (scan_side_counts id pl (output i) r) as (k2 & E2 & H2)
    end.
    rewrite E2.
    match goal with
    | |- context [fold_left _ io ?r] =>
        destruct (IH r) as (k3 & E3 & H3)
    end.
    exists (k1 + k2 + k3)%nat. rewrite E3.
    cbn [has_dependants dependants]. split.
    + f_equal.
      * destruct (has_dependants result), k1, k2, k3; reflexivity.
      * rewrite <- !app_assoc, !repeat_app, Nat.add_assoc. reflexivity.
    + rewrite <- H1, <- H2, <- H3. destruct k1, k2, k3; reflexivity.
Qed.

(** X14. The dependants of a data entity: [has_dependants] holds exactly
    when some pipeline of [md_objects] names the entity by id on a side of
    one of its instances, it holds exactly when the list of dependants is
    not empty, and every dependant listed is such a pipeline. *)
Theorem data_entity_dependants_are_referencing_pipelines :
  forall (data_entity : Data_entity.t) (metadata_obj : MdObjects),
    let id := Data_entity.id data_entity in
    let result := get_data_entity_dependants data_entity metadata_obj in
    has_dependants result
    = existsb (pipeline_references id) (pipelines metadata_obj)
    /\ has_dependants result = negb (is_nil (dependants result))
    /\ forall d, In d (dependants result) ->
         exists pl,
           d = EPipeline pl /\ In pl (pipelines metadata_obj)
           /\ pipeline_references id pl = true.
Proof.
  intros data_entity metadata_obj id result. subst result.
  unfold get_data_entity_dependants. cbv zeta. fold id.
  assert (H : forall pls seen result,
             has_dependants result = existsb (pipeline_references id) seen ->
             has_dependants result = negb (is_nil (dependants result)) ->
             (forall d, In d (dependants result) ->
                exists pl, d = EPipeline pl /\ In pl (seen ++ pls)%list
                           /\ pipeline_references id pl = true) ->
             let result' :=
               fold_left
                 (fun result pl =>
                    if entity_in (EPipeline pl) (dependants result)
                    then result
                    else
                      fold_left
                        (fun result instance =>
                           scan_side id pl (output instance)
                             (scan_side id pl (input instance) result))
                        (Pipeline.input_output pl) result)
                 pls result in
             has_dependants result'
             = existsb (pipeline_references id) (seen ++ pls)%list
             /\ has_dependants result' = negb (is_nil (dependants result'))
             /\ forall d, In d (dependants result') ->
                  exists pl, d = EPipeline pl /\ In pl (seen ++ pls)%list
                             /\ pipeline_references id pl = true).
  { induction pls as [|pl pls IH]; intros seen result H1 H2 H3; simpl.
    - rewrite app_nil_r in *. auto.
    - replace (seen ++ pl :: pls)%list with ((seen ++ [pl]) ++ pls)%list
        in * by (rewrite <- app_assoc; reflexivity).
      destruct (entity_in (EPipeline pl) (dependants result)) eqn:Ein.
      + apply IH; [|exact H2|exact H3].
        rewrite existsb_app, <- H1. simpl.
        assert (Hh : has_dependants result = true).
        { rewrite H2. destruct (dependants result); [discriminate|reflexivity]. }
        rewrite Hh. reflexivity.
      + destruct (scan_instances_counts id pl (Pipeline.input_output pl)
                    result) as (k & Hk & Hrefs).
        rewrite Hk. apply IH; cbn [has_dependants dependants].
        * rewrite existsb_app, <- H1. simpl. rewrite orb_false_r.
          unfold pipeline_references. rewrite <- Hrefs. reflexivity.
        * rewrite H2. destruct (dependants result), k; reflexivity.
        * intros d Hd. apply in_app_or in Hd. destruct Hd as [Hd|Hd].
          -- exact (H3 d Hd).
          -- pose proof Hd as Hin. apply repeat_spec in Hd. subst d.
             exists pl.
             split; [reflexivity|]. split.
             ++ apply in_or_app. left. apply in_or_app. right. left.
                reflexivity.
             ++ unfold pipeline_references. rewrite <- Hrefs.
                destruct k; [destruct Hin|reflexivity]. }
  apply (H (pipelines metadata_obj) [] no_dependants);
    try reflexivity. intros d [].
Qed.

Lemma data_entity_dependants_scenario :
  let result :=
    get_data_entity_dependants Scenario.orders_raw
      Scenario.graph_with_pipelines in
  has_dependants result = true
  /\ dependants result
     = [EPipeline (Scenario.load_v 1 1 true);
        EPipeline (Scenario.load_v 1 1 true);
        EPipeline (Scenario.load_v 2 2 true);
        EPipeline (Scenario.load_v 2 2 true);
        EPipeline (Scenario.load_v 3 3 false);
        EPipeline (Scenario.load_v 3 3 false)].
Proof.
  intro result.
  destruct (data_entity_dependants_are_referencing_pipelines
              Scenario.orders_raw Scenario.graph_with_pipelines)
    as (Hhas & _ & _).
  split; [etransitivity; [exact Hhas | reflexivity] | reflexivity].
Defined.

(** ** Whole-graph validation and the build *)

Lemma validate_each_spec :
  forall (A : Type) (f : A -> Exc Report) (l : list A) (ok ok' : bool) rs,
    MetadataStructure.validate_each f l ok = Ok (ok', rs) ->
    mapM f l = Ok rs /\ ok' = ok && forallb result_valid rs.
Proof.
  intros A f l ok ok' rs H. unfold MetadataStructure.validate_each in H.
  assert (G : forall l acc ok' rs,
             foldM (fun acc x =>
                      result <- f x ;;
                      Ok (if negb (result_valid result) then false
                          else fst acc,
                          (snd acc ++ [result])%list))
               l acc = Ok (ok', rs) ->
             exists rs', mapM f l = Ok rs'
                         /\ rs = (snd acc ++ rs')%list
                         /\ ok' = fst acc && forallb result_valid rs').
  { clear. induction l as [|x l IH]; intros acc ok' rs H; simpl in H.
    - injection H as ->. exists []. cbn [fst snd forallb].
      rewrite app_nil_r, andb_true_r. auto.
    - destruct (f x) as [r|] eqn:Ef; cbn [bind] in H; [|discriminate].
      destruct (IH _ _ _ H) as (rs' & Hm & Hrs & Hok).
      exists (r :: rs'). cbn [mapM forallb]. rewrite Ef, Hm.
      cbn [bind fst snd] in *.
      split; [reflexivity|]. split.
      + rewrite Hrs, <- app_assoc. reflexivity.
      + rewrite Hok. destruct (result_valid r), (fst acc); reflexivity. }
  destruct (G _ _ _ _ H) as (rs' & Hm & Hrs & Hok). simpl in Hrs, Hok.
  subst rs'. split; assumption.
Qed.

(** X15. A whole-graph validation that returns: the report lists the result
    of the per-entity validator for every schema, system, data entity and
    pipeline of [md_objects], in their order; the verdict is true exactly
    when every one of these results is valid; and on the structure only
    [valid] and [report] are assigned, so validation never changes the
    graph it validates. *)
Theorem validate_aggregates_entity_results :
  forall (st st' : MetadataStructure.t * World) (rep : StructReport.t),
    MetadataStructure.validate st = (st', Ok rep) ->
    let s := fst st in
    let objs := MetadataStructure.md_objects s in
    let by_id := MetadataStructure.by_id s in
    let by_unid := MetadataStructure.by_unid s in
    mapM (fun schema => validate_schema schema by_id by_unid) (schemas objs)
    = Ok (StructReport.schemas rep)
    /\ mapM (fun system => validate_system system objs by_id by_unid)
         (systems objs)
       = Ok (StructReport.systems rep)
    /\ mapM (fun data_entity =>
               validate_data_entity data_entity objs by_id by_unid)
         (data_entities objs)
       = Ok (StructReport.data_entities rep)
    /\ mapM (fun pipeline => validate_pipeline pipeline objs by_id by_unid)
         (pipelines objs)
       = Ok (StructReport.pipelines rep)
    /\ StructReport.valid rep
       = forallb result_valid
           (StructReport.schemas rep ++ StructReport.systems rep
            ++ StructReport.data_entities rep ++ StructReport.pipelines rep)
    /\ fst st'
       = MetadataStructure.set_validation s (StructReport.valid rep) rep.
Proof.
  intros [s0 w0] st' rep H s objs by_id by_unid.
  unfold MetadataStructure.validate in H.
  unfold sbind at 1 in H.
  unfold MetadataStructure.world, pendulum_now in H. cbn [fst snd] in H.
  unfold sbind at 1 in H. unfold MetadataStructure.self in H.
  cbn [fst snd] in H.
  unfold sbind at 1 in H. unfold lift at 1 in H.
  destruct (MetadataStructure.validate_each _ (schemas _) true)
    as [[ok1 schs]|] eqn:E1; [|discriminate].
  unfold sbind at 1 in H. unfold lift at 1 in H.
  destruct (MetadataStructure.validate_each _ (systems _) ok1)
    as [[ok2 syss]|] eqn:E2; [|discriminate].
  unfold sbind at 1 in H. unfold lift at 1 in H.
  destruct (MetadataStructure.validate_each _ (data_entities _) ok2)
    as [[ok3 ents]|] eqn:E3; [|discriminate].
  unfold sbind at 1 in H. unfold lift at 1 in H.
  destruct (MetadataStructure.validate_each _ (pipelines _) ok3)
    as [[ok4 pls]|] eqn:E4; [|discriminate].
  unfold sbind, MetadataStructure.assign, sret in H. cbn [fst snd] in H.
  injection H as <- <-.
  apply validate_each_spec in E1, E2, E3, E4.
  destruct E1 as [M1 O1], E2 as [M2 O2], E3 as [M3 O3], E4 as [M4 O4].
  cbn [StructReport.schemas StructReport.systems StructReport.data_entities
       StructReport.pipelines StructReport.valid fst].
  repeat split; try assumption.
  rewrite !forallb_app. subst ok4 ok3 ok2 ok1. cbn [andb].
  rewrite !andb_assoc. reflexivity.
Qed.

Lemma validate_aggregates_scenario :
  let st :=
    (Scenario.loaded
       (mk_objects [Scenario.sales] [Scenario.orders_json] [] [] []),
     Scenario.console []) in
  exists st' rep,
    MetadataStructure.validate st = (st', Ok rep)
    /\ map valid (StructReport.schemas rep) = [false]
    /\ StructReport.valid rep = false
    /\ fst st' = MetadataStructure.set_validation (fst st) false rep.
Proof.
  intro st.
  refine (ex_intro _ ?[st'] (ex_intro _ ?[rep] _)).
  assert (H : MetadataStructure.validate st = (?st', Ok ?rep))
    by (vm_compute; reflexivity).
  split; [exact H|].
  destruct (validate_aggregates_entity_results _ H)
    as (_ & _ & _ & _ & _ & Hst).
  split; [reflexivity|]. split; [reflexivity | exact Hst].
Defined.

Lemma skeeps_sbind :
  forall (P A B : Type) (proj : MetadataStructure.t -> P)
         (m : MetadataStructure.Method A)
         (f : A -> MetadataStructure.Method B),
    structure_keeps proj m -> (forall a, structure_keeps proj (f a)) ->
    structure_keeps proj (sbind m f).
Proof.
  intros P A B proj m f Hm Hf st st' r H. unfold sbind in H.
  destruct (m st) as [s1 [a|e]] eqn:Em.
  - rewrite (Hf a _ _ _ H). exact (Hm _ _ _ Em).
  - injection H as <- <-. exact (Hm _ _ _ Em).
Qed.

Lemma skeeps_sret : forall (P A : Type) (proj : MetadataStructure.t -> P) (a : A),
  structure_keeps proj (sret a : MetadataStructure.Method A).
Proof. intros P A proj a st st' r H. injection H as <- <-. reflexivity. Qed.

Lemma skeeps_lift : forall (P A : Type) (proj : MetadataStructure.t -> P)
                           (m : Exc A),
  structure_keeps proj (lift m : MetadataStructure.Method A).
Proof. intros P A proj m st st' r H. injection H as <- <-. reflexivity. Qed.

Lemma skeeps_self : forall (P : Type) (proj : MetadataStructure.t -> P),
  structure_keeps proj MetadataStructure.self.
Proof. intros P proj st st' r H. injection H as <- <-. reflexivity. Qed.

Lemma skeeps_world : forall (P A : Type) (proj : MetadataStructure.t -> P)
                            (m : SE World A),
  structure_keeps proj (MetadataStructure.world m).
Proof.
  intros P A proj m st st' r H. unfold MetadataStructure.world in H.
  destruct (m (snd st)) as [w' r']. injection H as <- <-. reflexivity.
Qed.

Lemma skeeps_assign : forall (P : Type) (proj : MetadataStructure.t -> P) f,
  (forall s, proj (f s) = proj s) ->
  structure_keeps proj (MetadataStructure.assign f).
Proof.
  intros P proj f Hf st st' r H. injection H as <- <-. apply Hf.
Qed.

Lemma skeeps_generate_unids : forall (P : Type) (proj : MetadataStructure.t -> P),
  (forall s x, proj (MetadataStructure.set_by_id s x) = proj s) ->
  structure_keeps proj
    (fun st : MetadataStructure.t * World =>
       let '(idx, r) := generate_unids (MetadataStructure.by_id (fst st)) in
       ((MetadataStructure.set_by_id (fst st) idx, snd st), r)).
Proof.
  intros P proj Hp st st' r H.
  destruct (generate_unids _) as [idx r']. injection H as <- <-. apply Hp.
Qed.

Ltac skeeps :=
  repeat first
    [ apply skeeps_sbind; [|intro]
    | apply skeeps_sret | apply skeeps_lift | apply skeeps_self
    | apply skeeps_world
    | apply skeeps_assign; intros; reflexivity
    | apply skeeps_generate_unids; intros; reflexivity
    | match goal with
      | |- structure_keeps _ (if ?b then _ else _) => destruct b
      | |- structure_keeps _ (let '(_, _) := ?p in _) => destruct p
      end ].

Lemma validate_keeps : forall (P : Type) (proj : MetadataStructure.t -> P),
  (forall s v r, proj (MetadataStructure.set_validation s v r) = proj s) ->
  structure_keeps proj MetadataStructure.validate.
Proof.
  intros P proj Hp. unfold MetadataStructure.validate. skeeps.
  apply skeeps_assign. intros. apply Hp.
Qed.

Lemma build_from_objects_keeps_dag_config_field :
  structure_keeps MetadataStructure.dag_config
    MetadataStructure.build_from_objects.
Proof.
  unfold MetadataStructure.build_from_objects, MetadataStructure.rebuild.
  skeeps.
Qed.

Lemma build_from_objects_keeps_md_objects :
  structure_keeps MetadataStructure.md_objects
    MetadataStructure.build_from_objects.
Proof.
  unfold MetadataStructure.build_from_objects, MetadataStructure.rebuild.
  skeeps.
Qed.

(** X16. Rebuilding from the objects never refreshes the consumer
    structure: whether [build_from_objects] returns or raises, [dag_config]
    is what it was before the call, and so is [md_objects]; only
    [build_from_json] recomputes [dag_config]. *)
Theorem build_from_objects_keeps_dag_config :
  forall (st st' : MetadataStructure.t * World) (r : Exc unit),
    MetadataStructure.build_from_objects st = (st', r) ->
    MetadataStructure.dag_config (fst st')
    = MetadataStructure.dag_config (fst st)
    /\ MetadataStructure.md_objects (fst st')
       = MetadataStructure.md_objects (fst st).
Proof.
  intros st st' r H. split.
  - exact (build_from_objects_keeps_dag_config_field _ H).
  - exact (build_from_objects_keeps_md_objects _ H).
Qed.

Lemma build_from_objects_stale_scenario :
  let st :=
    (MetadataStructure.set_md_objects (Scenario.empty_structure Scenario.t0)
       Scenario.graph_with_pipelines,
     Scenario.console []) in
  exists st',
    MetadataStructure.build_from_objects st = (st', Ok tt)
    /\ MetadataStructure.dag_config (fst st') = []
    /\ option_map (@dict_keys string (list PyVal))
         (match integrated_to_dag_config
                  (MetadataStructure.integrated (fst st')) with
          | Ok conf => Some conf
          | Raise _ => None
          end)
       = Some ["sales.load.ingest"].
Proof.
  intro st.
  refine (ex_intro _ ?[st'] _).
  assert (H : MetadataStructure.build_from_objects st = (?st', Ok tt))
    by (vm_compute; reflexivity).
  split; [exact H|]. split.
  - rewrite (proj1 (build_from_objects_keeps_dag_config _ H)). reflexivity.
  - vm_compute. reflexivity.
Defined.

(** ** Transactions, whatever their outcome *)

Lemma sbind_inv : forall (S A B : Type) (m : SE S A) (f : A -> SE S B) s s' r,
  sbind m f s = (s', r) ->
  (exists e, m s = (s', Raise e) /\ r = Raise e)
  \/ (exists s1 a, m s = (s1, Ok a) /\ f a s1 = (s', r)).
Proof.
  intros S A B m f s s' r H. unfold sbind in H.
  destruct (m s) as [s1 [a|e]].
  - right. exists s1, a. split; [reflexivity | exact H].
  - left. injection H as <- <-. exists e. split; reflexivity.
Qed.

Lemma say_then : forall (A : Type) line (k : MetadataManager.Method A) st,
  (MetadataManager.say line ;;; k) st
  = k (fst st, after_printing (snd st) [line]).
Proof. intros A line k [mm w]. reflexivity. Qed.

Lemma say_eq : forall line st,
  MetadataManager.say line st
  = ((fst st, after_printing (snd st) [line]), Ok tt).
Proof. intros line [mm w]. reflexivity. Qed.

Lemma commit_then : forall (A : Type) (k : MetadataManager.Method A) st,
  (MetadataManager.commit_cache ;;; k) st
  = k (MetadataManager.set_cache
         (MetadataManager.set_workspace (fst st)
            (MetadataManager.cache (fst st))) None,
       snd st).
Proof. intros A k [mm w]. reflexivity. Qed.

(** The end of every transaction: commit the cache if it validated, give
    up otherwise. *)
Lemma commit_or_give_up :
  forall (a1 a2 a3 b1 b2 b3 : string) (ret_ok ret_fail : Ret) st st' r,
    (c <~ MetadataManager.cache_for "valid" ;;
     if MetadataStructure.valid c
     then
       MetadataManager.say a1 ;;; MetadataManager.say a2 ;;;
       MetadataManager.say a3 ;;; MetadataManager.commit_cache ;;;
       MetadataManager.say_save_hint ;;; sret ret_ok
     else
       MetadataManager.say b1 ;;; MetadataManager.say b2 ;;;
       MetadataManager.say b3 ;;; sret ret_fail) st
    = (st', r) ->
    (MetadataManager.workspace (fst st') = MetadataManager.workspace (fst st)
     /\ (r = Ok ret_fail \/ exists e, r = Raise e))
    \/ (exists c,
          MetadataManager.cache (fst st) = Some c
          /\ MetadataStructure.valid c = true
          /\ MetadataManager.workspace (fst st') = Some c
          /\ MetadataManager.cache (fst st') = None
          /\ r = Ok ret_ok).
Proof.
  intros a1 a2 a3 b1 b2 b3 ret_ok ret_fail st st' r H.
  apply sbind_inv in H. destruct H as [(e & H & ->) | (s1 & c1 & Hc & H)].
  - left. split; [|right; eexists; reflexivity].
    exact (@keeps_cache_for "valid" _ _ _ H).
  - unfold MetadataManager.cache_for in Hc.
    destruct (MetadataManager.cache (fst st)) as [c|] eqn:Ec; [|discriminate].
    injection Hc as <- <-.
    destruct (MetadataStructure.valid c) eqn:Ev.
    + right. exists c. rewrite !say_then, commit_then in H.
      cbn [fst snd] in H. unfold sbind at 1 in H.
      unfold MetadataManager.say_save_hint in H.
      rewrite !say_then, say_eq in H. cbn [fst snd] in H.
      unfold sret in H. injection H as <- <-. cbn [fst MetadataManager.workspace
        MetadataManager.cache MetadataManager.set_cache
        MetadataManager.set_workspace].
      repeat split; assumption || reflexivity.
    + left. rewrite !say_then in H.
      cbn [fst snd] in H. unfold sret in H. injection H as <- <-. cbn [fst].
      split; [reflexivity | left; reflexivity].
Qed.

Lemma rebuild_cache_ok : forall st st1,
  MetadataManager.rebuild_cache st = (st1, Ok tt) ->
  exists c0 c1,
    MetadataManager.cache (fst st) = Some c0
    /\ MetadataManager.cache (fst st1) = Some c1
    /\ MetadataManager.workspace (fst st1) = MetadataManager.workspace (fst st)
    /\ MetadataStructure.md_objects c1 = MetadataStructure.md_objects c0
    /\ MetadataStructure.dag_config c1 = MetadataStructure.dag_config c0.
Proof.
  intros st st1 H.
  unfold MetadataManager.rebuild_cache, MetadataManager.on_cache in H.
  destruct (MetadataManager.cache (fst st)) as [c0|] eqn:Ec; [|discriminate].
  destruct (MetadataStructure.build_from_objects (c0, snd st))
    as [[c1 w1] r1] eqn:Eb.
  injection H as <- ->.
  pose proof (build_from_objects_keeps_dag_config_field _ Eb) as Hd.
  pose proof (build_from_objects_keeps_md_objects _ Eb) as Hm.
  exists c0, c1. cbn [fst snd] in *. repeat split; assumption.
Qed.

Lemma stage_add_ok : forall ws0 e st st1,
  MetadataManager.stage_add ws0 e st = (st1, Ok tt) ->
  exists ws e' c,
    MetadataManager.workspace (fst st) = Some ws
    /\ unid_refs_to_ids (MetadataStructure.by_unid ws0) e = Ok e'
    /\ MetadataManager.cache (fst st1) = Some c
    /\ MetadataManager.workspace (fst st1) = Some ws
    /\ MetadataStructure.md_objects c
       = append_sorted (MetadataStructure.md_objects ws) e'
    /\ MetadataStructure.dag_config c = MetadataStructure.dag_config ws.
Proof.
  intros ws0 e [mm w] st1 H. unfold MetadataManager.stage_add in H.
  unfold sbind at 1 in H. unfold lift at 1 in H.
  destruct (unid_refs_to_ids _ e) as [e'|] eqn:Ee; [|discriminate].
  unfold sbind at 1 in H. unfold MetadataManager.assign at 1 in H.
  cbn [fst snd] in H.
  unfold sbind at 1 in H. unfold MetadataManager.cache_for at 1 in H.
  cbn [fst snd MetadataManager.cache MetadataManager.set_cache] in H.
  destruct (MetadataManager.workspace mm) as [ws|] eqn:Ews; [|discriminate].
  unfold sbind at 1 in H. unfold MetadataManager.assign at 1 in H.
  cbn [fst snd] in H.
  destruct (rebuild_cache_ok _ H) as (c0 & c1 & Hc0 & Hc1 & Hw & Hm & Hd).
  cbn [fst MetadataManager.cache MetadataManager.set_cache
       MetadataManager.workspace] in Hc0, Hw.
  injection Hc0 as <-.
  exists ws, e', c1. cbn [fst].
  repeat split; try assumption; try reflexivity;
    try (rewrite Hw; exact Ews).
Qed.

Lemma stage_update_ok : forall e st st1,
  MetadataManager.stage_update e st = (st1, Ok tt) ->
  exists ws e' c,
    let now := mk_datetime (clock (snd st) (ticks (snd st))) "Europe/Amsterdam" in
    MetadataManager.workspace (fst st) = Some ws
    /\ unid_refs_to_ids (MetadataStructure.by_unid ws) e = Ok e'
    /\ id_in_index (MetadataStructure.by_id ws) (stamp_entity e' now) = true
    /\ MetadataManager.cache (fst st1) = Some c
    /\ MetadataManager.workspace (fst st1) = Some ws
    /\ MetadataStructure.md_objects c
       = objects_from_id_index
           (put_in_index (MetadataStructure.by_id ws) (stamp_entity e' now))
    /\ MetadataStructure.dag_config c = MetadataStructure.dag_config ws.
Proof.
  intros e [mm w] st1 H. unfold MetadataManager.stage_update in H.
  unfold sbind at 1 in H. unfold MetadataManager.assign at 1 in H.
  cbn [fst snd] in H.
  unfold sbind at 1 in H. unfold MetadataManager.workspace_for at 1 in H.
  cbn [fst snd MetadataManager.workspace MetadataManager.set_cache] in H.
  destruct (MetadataManager.workspace mm) as [ws|] eqn:Ews; [|discriminate].
  unfold sbind at 1 in H. unfold lift at 1 in H.
  destruct (unid_refs_to_ids _ e) as [e'|] eqn:Ee; [|discriminate].
  unfold sbind at 1 in H.
  unfold MetadataManager.world, pendulum_now in H. cbn [fst snd] in H.
  unfold sbind at 1 in H. unfold MetadataManager.cache_for at 1 in H.
  cbn [fst snd MetadataManager.cache MetadataManager.set_cache] in H.
  destruct (id_in_index (MetadataStructure.by_id ws) _) eqn:Ein;
    cbn [negb] in H; [|discriminate].
  unfold sbind at 1 in H. unfold MetadataManager.assign at 1 in H.
  cbn [fst snd] in H.
  destruct (rebuild_cache_ok _ H) as (c0 & c1 & Hc0 & Hc1 & Hw & Hm & Hd).
  cbn [fst MetadataManager.cache MetadataManager.set_cache
       MetadataManager.workspace] in Hc0, Hw.
  injection Hc0 as <-.
  exists ws, e', c1. cbn [fst snd].
  repeat split; try assumption; try reflexivity;
    try (rewrite Hw; exact Ews).
Qed.

Lemma stage_delete_ok : forall entity_type unid st st1,
  MetadataManager.stage_delete entity_type unid st = (st1, Ok tt) ->
  exists ws c,
    MetadataManager.workspace (fst st) = Some ws
    /\ MetadataManager.cache (fst st1) = Some c
    /\ MetadataManager.workspace (fst st1) = Some ws
    /\ MetadataStructure.md_objects c
       = objects_from_unid_index
           (unid_index_del (MetadataStructure.by_unid ws) entity_type unid)
    /\ MetadataStructure.dag_config c = MetadataStructure.dag_config ws.
Proof.
  intros entity_type unid [mm w] st1 H.
  unfold MetadataManager.stage_delete in H.
  unfold sbind at 1 in H. unfold MetadataManager.assign at 1 in H.
  cbn [fst snd] in H.
  unfold sbind at 1 in H. unfold MetadataManager.cache_for at 1 in H.
  cbn [fst snd MetadataManager.cache MetadataManager.set_cache] in H.
  destruct (MetadataManager.workspace mm) as [ws|] eqn:Ews; [|discriminate].
  unfold sbind at 1 in H. unfold MetadataManager.assign at 1 in H.
  cbn [fst snd] in H.
  destruct (rebuild_cache_ok _ H) as (c0 & c1 & Hc0 & Hc1 & Hw & Hm & Hd).
  cbn [fst MetadataManager.cache MetadataManager.set_cache
       MetadataManager.workspace] in Hc0, Hw.
  injection Hc0 as <-.
  exists ws, c1. cbn [fst].
  repeat split; try assumption; try reflexivity;
    try (rewrite Hw; exact Ews).
Qed.

Lemma workspace_for_ok : forall attr st s1 ws,
  MetadataManager.workspace_for attr st = (s1, Ok ws) ->
  s1 = st /\ MetadataManager.workspace (fst st) = Some ws.
Proof.
  intros attr st s1 ws H. unfold MetadataManager.workspace_for in H.
  destruct (MetadataManager.workspace (fst st)); [|discriminate].
  injection H as <- <-. split; reflexivity.
Qed.

Lemma lift_inv : forall (S A : Type) (m : Exc A) (s s' : S) r,
  lift m s = (s', r) -> s' = s /\ r = m.
Proof. intros S A m s s' r H. injection H as <- <-. split; reflexivity. Qed.

Lemma some_eq :
  forall (A : Type) (a b : A), Some a = Some b -> a = b.
Proof. intros A a b H. congruence. Qed.

(** X17. Every run of [add_new_entity], whether it returns or raises:
    either it does not return [True] and the workspace is the one it found,
    or it returns [True] and has committed: the candidate passed the
    new-entity validation, the workspace is now the staged copy, which
    validated as a whole and whose [md_objects] are those of the old
    workspace with the candidate (its references turned into ids) added
    and the collection sorted by id, the cache is cleared, and
    [dag_config] is still the one of the old workspace. *)
Theorem add_new_entity_commits_or_keeps :
  forall (e : Entity) (st st' : MetadataManager.t * World) (r : Exc Ret),
    MetadataManager.add_new_entity e st = (st', r) ->
    (r <> Ok RetTrue
     /\ MetadataManager.workspace (fst st')
        = MetadataManager.workspace (fst st))
    \/ (r = Ok RetTrue
        /\ exists ws ws' e' result,
             committed (fst st) (fst st') ws ws'
             /\ validate_new_entity e ws = Ok result
             /\ valid result = true
             /\ unid_refs_to_ids (MetadataStructure.by_unid ws) e = Ok e'
             /\ MetadataStructure.md_objects ws'
                = append_sorted (MetadataStructure.md_objects ws) e').
Proof.
  intros e st st' r H0. pose proof H0 as H.
  unfold MetadataManager.add_new_entity in H.
  apply sbind_inv in H. destruct H as [(ex & H & ->) | (s1 & ws & Hws & H)].
  { left. split; [discriminate|].
    exact (@keeps_workspace_for _ _ _ _ H). }
  apply workspace_for_ok in Hws. destruct Hws as [-> Hws].
  apply sbind_inv in H.
  destruct H as [(ex & H & ->) | (s2 & result & Hres & H)].
  { left. apply lift_inv in H. destruct H as [-> _].
    split; [discriminate | reflexivity]. }
  apply lift_inv in Hres. destruct Hres as [-> Hres]. symmetry in Hres.
  destruct (valid result) eqn:Hvalid; cbn [negb] in H.
  2:{ left. destruct st as [mm w]. cbn [fst] in Hws.
      rewrite (add_new_entity_rejected _ w _ Hws Hres Hvalid) in H0.
      injection H0 as <- <-. split; [discriminate | reflexivity]. }
  apply sbind_inv in H.
  destruct H as [(ex & H & ->) | (s3 & choice & Hconfirm & H)].
  { left. split; [discriminate|].
    exact (@confirm_add_keeps_workspace _ _ _ H). }
  pose proof (@confirm_add_keeps_workspace _ _ _ Hconfirm) as Hw3.
  destruct (lower choice =? "n")%string.
  { left. rewrite say_then in H. unfold sret in H. injection H as <- <-.
    split; [discriminate | exact Hw3]. }
  destruct (lower choice =? "y")%string.
  2:{ left. unfold sret in H. injection H as <- <-.
      split; [discriminate | exact Hw3]. }
  apply sbind_inv in H.
  destruct H as [(ex & H & ->) | (s4 & [] & Hstage & H)].
  { left. split; [discriminate|].
    rewrite (@stage_add_keeps_workspace ws e _ _ _ H). exact Hw3. }
  pose proof (@stage_add_keeps_workspace ws e _ _ _ Hstage) as Hw4.
  apply commit_or_give_up in H.
  destruct H as [[Hw [-> | [ex ->]]] | (c & Hc & Hv & Hw & Hcache & ->)].
  - left. split; [discriminate|]. congruence.
  - left. split; [discriminate|]. congruence.
  - right. split; [reflexivity|].
    destruct (stage_add_ok _ _ _ Hstage)
      as (ws2 & e' & c2 & Hws2 & He' & Hc2 & _ & Hobjs & Hdag).
    assert (ws2 = ws) by congruence. subst ws2.
    assert (c2 = c) by congruence. subst c2.
    exists ws, c, e', result. unfold committed. repeat split; assumption.
Qed.

Lemma add_new_entity_commit_scenario :
  let st :=
    (Scenario.manager (Scenario.loaded Scenario.graph),
     Scenario.console ["y"]) in
  exists st' ws',
    MetadataManager.add_new_entity (ESystem Scenario.crm) st
    = (st', Ok RetTrue)
    /\ MetadataManager.workspace (fst st') = Some ws'
    /\ MetadataManager.cache (fst st') = None
    /\ MetadataStructure.valid ws' = true
    /\ systems (MetadataStructure.md_objects ws')
       = [Scenario.erp; System.set_namespace Scenario.crm (RId 1)]
    /\ MetadataStructure.dag_config ws' = [].
Proof.
  intro st.
  assert (H : exists st',
             MetadataManager.add_new_entity (ESystem Scenario.crm) st
             = (st', Ok RetTrue)) by (eexists; vm_compute; reflexivity).
  destruct H as [st' H].
  destruct (add_new_entity_commits_or_keeps _ _ H)
    as [[Hne _] | (_ & ws & ws' & e' & result & Hcommit & _ & _ & He' & Hobjs)].
  - exfalso. apply Hne. reflexivity.
  - destruct Hcommit as (Hws & Hws' & Hcache & Hvalid & Hdag).
    change (Some (Scenario.loaded Scenario.graph) = Some ws) in Hws.
    apply some_eq in Hws. subst ws.
    vm_compute in He'. injection He' as <-.
    exists st', ws'. split; [exact H|]. split; [exact Hws'|].
    split; [exact Hcache|]. split; [exact Hvalid|]. split.
    + rewrite Hobjs. vm_compute. reflexivity.
    + rewrite Hdag. vm_compute. reflexivity.
Defined.

(** X18. Every run of [update_entity], whether it returns or raises:
    either the workspace is the one it found, or the update has committed:
    the entity, its references turned into ids, stamped with the time of
    the call and its [unid] cleared, has an id the id index of the
    workspace holds; the workspace is now the staged copy, which validated
    as a whole and whose [md_objects] are read back from that index with
    the entity put in the place of the one with its id; the cache is
    cleared, and [dag_config] is still the one of the old workspace. *)
Theorem update_entity_commits_or_keeps :
  forall (e : Entity) (st st' : MetadataManager.t * World) (r : Exc Ret),
    MetadataManager.update_entity e st = (st', r) ->
    MetadataManager.workspace (fst st') = MetadataManager.workspace (fst st)
    \/ (r = Ok RetNone
        /\ exists ws ws' e',
             let now :=
               mk_datetime (clock (snd st) (ticks (snd st)))
                 "Europe/Amsterdam" in
             committed (fst st) (fst st') ws ws'
             /\ unid_refs_to_ids (MetadataStructure.by_unid ws) e = Ok e'
             /\ id_in_index (MetadataStructure.by_id ws) (stamp_entity e' now)
                = true
             /\ MetadataStructure.md_objects ws'
                = objects_from_id_index
                    (put_in_index (MetadataStructure.by_id ws)
                       (stamp_entity e' now))).
Proof.
  intros e st st' r H. unfold MetadataManager.update_entity in H.
  apply sbind_inv in H.
  destruct H as [(ex & H & ->) | (s1 & [] & Hstage & H)].
  { left. exact (@stage_update_keeps_workspace e _ _ _ H). }
  pose proof (@stage_update_keeps_workspace e _ _ _ Hstage) as Hw1.
  apply commit_or_give_up in H.
  destruct H as [[Hw _] | (c & Hc & Hv & Hw & Hcache & ->)].
  - left. congruence.
  - right. split; [reflexivity|].
    destruct (stage_update_ok _ _ Hstage)
      as (ws & e' & c1 & Hws & He' & Hin & Hc1 & _ & Hobjs & Hdag).
    assert (c1 = c) by congruence. subst c1.
    exists ws, c, e'. unfold committed. repeat split; assumption.
Qed.

(** X19. Every run of [delete_entity], whether it returns or raises:
    either it does not return [True] and the workspace is the one it found,
    or it returns [True] and has committed: the entity was found under its
    key, it is a pipeline or has no dependants, the workspace is now the
    staged copy, which validated as a whole and whose [md_objects] are
    read back from the key index of the old workspace without that key;
    the cache is cleared, and [dag_config] is still the one of the old
    workspace. *)
Theorem delete_entity_commits_or_keeps :
  forall (entity_type unid : string) (st st' : MetadataManager.t * World)
         (r : Exc Ret),
    MetadataManager.delete_entity entity_type unid st = (st', r) ->
    (r <> Ok RetTrue
     /\ MetadataManager.workspace (fst st')
        = MetadataManager.workspace (fst st))
    \/ (r = Ok RetTrue
        /\ exists ws ws' e,
             committed (fst st) (fst st') ws ws'
             /\ unid_index_get (MetadataStructure.by_unid ws) entity_type unid
                = Ok (Some e)
             /\ (entity_type = "pipelines"
                 \/ exists dep_report,
                      get_entity_dependants e (MetadataStructure.md_objects ws)
                      = Ok dep_report
                      /\ has_dependants dep_report = false)
             /\ MetadataStructure.md_objects ws'
                = objects_from_unid_index
                    (unid_index_del (MetadataStructure.by_unid ws)
                       entity_type unid)).
Proof.
  intros entity_type unid st st' r H.
  assert (Hstaged : forall ws e,
             MetadataManager.workspace (fst st) = Some ws ->
             unid_index_get (MetadataStructure.by_unid ws) entity_type unid
             = Ok (Some e) ->
             (entity_type = "pipelines"
              \/ exists dep_report,
                   get_entity_dependants e (MetadataStructure.md_objects ws)
                   = Ok dep_report
                   /\ has_dependants dep_report = false) ->
             MetadataManager.delete_staged entity_type unid st = (st', r) ->
             (r <> Ok RetTrue
              /\ MetadataManager.workspace (fst st')
                 = MetadataManager.workspace (fst st))
             \/ (r = Ok RetTrue
                 /\ exists ws ws' e,
                      committed (fst st) (fst st') ws ws'
                      /\ unid_index_get (MetadataStructure.by_unid ws)
                           entity_type unid = Ok (Some e)
                      /\ (entity_type = "pipelines"
                          \/ exists dep_report,
                               get_entity_dependants e
                                 (MetadataStructure.md_objects ws)
                               = Ok dep_report
                               /\ has_dependants dep_report = false)
                      /\ MetadataStructure.md_objects ws'
                         = objects_from_unid_index
                             (unid_index_del (MetadataStructure.by_unid ws)
                                entity_type unid))).
  { intros ws e Hws Hget Hgate Hd. unfold MetadataManager.delete_staged in Hd.
    apply sbind_inv in Hd.
    destruct Hd as [(ex & Hd & ->) | (s1 & [] & Hstage & Hd)].
    { left. split; [discriminate|].
      exact (@stage_delete_keeps_workspace entity_type unid _ _ _ Hd). }
    pose proof (@stage_delete_keeps_workspace entity_type unid _ _ _ Hstage)
      as Hw1.
    apply commit_or_give_up in Hd.
    destruct Hd as [[Hw [-> | [ex ->]]] | (c & Hc & Hv & Hw & Hcache & ->)].
    - left. split; [discriminate|]. congruence.
    - left. split; [discriminate|]. congruence.
    - right. split; [reflexivity|].
      destruct (stage_delete_ok _ _ _ Hstage)
        as (ws2 & c1 & Hws2 & Hc1 & _ & Hobjs & Hdag).
      assert (ws2 = ws) by congruence. subst ws2.
      assert (c1 = c) by congruence. subst c1.
      exists ws, c, e. unfold committed. repeat split; assumption. }
  unfold MetadataManager.delete_entity in H.
  destruct (negb (str_in entity_type ENTITIES)).
  { left. unfold sraise in H. injection H as <- <-.
    split; [discriminate | reflexivity]. }
  apply sbind_inv in H. destruct H as [(ex & H & ->) | (s1 & ws & Hws & H)].
  { left. split; [discriminate|].
    exact (@keeps_workspace_for _ _ _ _ H). }
  apply workspace_for_ok in Hws. destruct Hws as [-> Hws].
  apply sbind_inv in H.
  destruct H as [(ex & H & ->) | (s2 & found & Hget & H)].
  { left. apply lift_inv in H. destruct H as [-> _].
    split; [discriminate | reflexivity]. }
  apply lift_inv in Hget. destruct Hget as [-> Hget]. symmetry in Hget.
  destruct found as [e|].
  2:{ left. unfold sraise in H. injection H as <- <-.
      split; [discriminate | reflexivity]. }
  apply sbind_inv in H.
  destruct H as [(ex & H & ->) | (s3 & entity & Hent & H)].
  { left. split; [discriminate|].
    revert H. unfold MetadataManager.get_entity_by_unid.
    generalize st st' (@Raise Entity ex).
    change (keeps_workspace
              (if negb (str_in entity_type ENTITIES)
               then sraise (ValueError (entity_type
                                        ++ " is not a valid entity type."))
               else
                 ws <~ MetadataManager.workspace_for "by_unid" ;;
                 found <~ lift (unid_index_get (MetadataStructure.by_unid ws)
                                  entity_type unid) ;;
                 match found with
                 | None =>
                     sraise (ValueError ("There are no " ++ entity_type
                                         ++ " with unid " ++ unid))
                 | Some entity => sret entity
                 end)).
    keeps. destruct a0; keeps. }
  assert (Hent' : s3 = st /\ entity = e).
  { unfold MetadataManager.get_entity_by_unid in Hent.
    destruct (negb (str_in entity_type ENTITIES));
      [unfold sraise in Hent; discriminate|].
    unfold sbind at 1 in Hent. unfold MetadataManager.workspace_for in Hent.
    rewrite Hws in Hent. unfold sbind at 1 in Hent. unfold lift in Hent.
    rewrite Hget in Hent. unfold sret in Hent. injection Hent as <- <-.
    split; reflexivity. }
  destruct Hent' as [-> ->].
  destruct (negb (entity_type =? "pipelines")%string) eqn:Epl.
  - apply sbind_inv in H.
    destruct H as [(ex & H & ->) | (s4 & dep & Hdep & H)].
    { left. apply lift_inv in H. destruct H as [-> _].
      split; [discriminate | reflexivity]. }
    apply lift_inv in Hdep. destruct Hdep as [-> Hdep]. symmetry in Hdep.
    destruct (has_dependants dep) eqn:Ehas.
    + left. rewrite !say_then in H. unfold sret in H. injection H as <- <-.
      split; [discriminate | reflexivity].
    + apply (Hstaged ws e Hws Hget); [|exact H].
      right. exists dep. split; assumption.
  - apply (Hstaged ws e Hws Hget); [|exact H].
    left. apply negb_false_iff in Epl. apply String.eqb_eq in Epl. exact Epl.
Qed.

Lemma update_entity_commit_scenario :
  let st :=
    (Scenario.manager (Scenario.loaded Scenario.graph), Scenario.console []) in
  exists st' ws',
    MetadataManager.update_entity (ESchema Examples.orders_described) st
    = (st', Ok RetNone)
    /\ MetadataManager.workspace (fst st') = Some ws'
    /\ MetadataManager.cache (fst st') = None
    /\ MetadataStructure.valid ws' = true
    /\ map Schema.description (schemas (MetadataStructure.md_objects ws'))
       = [Some "customer orders"].
Proof.
  intro st.
  assert (H : exists st',
             MetadataManager.update_entity (ESchema Examples.orders_described)
               st
             = (st', Ok RetNone)) by (eexists; vm_compute; reflexivity).
  destruct H as [st' H].
  destruct (update_entity_commits_or_keeps _ _ H)
    as [Hkept | (_ & ws & ws' & e' & Hcommit & He' & _ & Hobjs)].
  - exfalso.
    assert (Hd : option_map
                   (fun ws => map Schema.description
                                (schemas (MetadataStructure.md_objects ws)))
                   (MetadataManager.workspace (fst st'))
                 = Some [None]) by (rewrite Hkept; vm_compute; reflexivity).
    vm_compute in H. injection H as <-. vm_compute in Hd. discriminate.
  - destruct Hcommit as (Hws & Hws' & Hcache & Hvalid & Hdag).
    change (Some (Scenario.loaded Scenario.graph) = Some ws) in Hws.
    apply some_eq in Hws. subst ws.
    vm_compute in He'. injection He' as <-.
    exists st', ws'. split; [exact H|]. split; [exact Hws'|].
    split; [exact Hcache|]. split; [exact Hvalid|].
    rewrite Hobjs. vm_compute. reflexivity.
Defined.

Lemma delete_entity_commit_scenario :
  let st :=
    (Scenario.manager (Scenario.loaded Scenario.graph_with_finance),
     Scenario.console []) in
  exists st' ws',
    MetadataManager.delete_entity "namespaces" "finance" st
    = (st', Ok RetTrue)
    /\ MetadataManager.workspace (fst st') = Some ws'
    /\ MetadataManager.cache (fst st') = None
    /\ MetadataStructure.valid ws' = true
    /\ map Namespace.name (namespaces (MetadataStructure.md_objects ws'))
       = ["sales"].
Proof.
  intro st.
  assert (H : exists st',
             MetadataManager.delete_entity "namespaces" "finance" st
             = (st', Ok RetTrue)) by (eexists; vm_compute; reflexivity).
  destruct H as [st' H].
  destruct (delete_entity_commits_or_keeps _ _ _ H)
    as [[Hne _] | (_ & ws & ws' & e & Hcommit & _ & _ & Hobjs)].
  - exfalso. apply Hne. reflexivity.
  - destruct Hcommit as (Hws & Hws' & Hcache & Hvalid & Hdag).
    change (Some (Scenario.loaded Scenario.graph_with_finance) = Some ws)
      in Hws.
    apply some_eq in Hws. subst ws.
    exists st', ws'. split; [exact H|]. split; [exact Hws'|].
    split; [exact Hcache|]. split; [exact Hvalid|].
    rewrite Hobjs. vm_compute. reflexivity.
Defined.

(** ** The question put to the user *)

Lemma ask_again_answered :
  forall (bad : list string) (good : string) (rest : list string)
         (w : World) (choice : string),
    (choice :: stdin w)%list = (bad ++ good :: rest)%list ->
    no_answer bad = true ->
    MetadataManager.is_y_or_n good = true ->
    MetadataManager.ask_again (stdin w) choice w
    = (mk_world (ticks w) (clock w) rest (stdout w ++ turned_down bad), Ok good).
Proof.
  induction bad as [|b bad IH]; intros good rest w choice Hin Hbad Hgood.
  - simpl in Hin. injection Hin as -> Hw.
    destruct w as [t c i o]. cbn [stdin] in *. subst i.
    cbn [turned_down flat_map]. rewrite app_nil_r.
    destruct rest; cbn [MetadataManager.ask_again]; rewrite Hgood; reflexivity.
  - simpl in Hin. injection Hin as -> Hw.
    cbn [no_answer forallb] in Hbad. apply andb_true_iff in Hbad.
    destruct Hbad as [Hb Hbad]. apply negb_true_iff in Hb.
    destruct w as [t c i o]. cbn [stdin] in *. subst i.
    destruct bad as [|b2 bad];
      cbn [app MetadataManager.ask_again]; rewrite Hb;
      unfold sbind, print, input_line; cbn [ticks clock stdin stdout];
      match goal with
      | |- MetadataManager.ask_again ?p ?c ?w' = _ =>
          pose proof (IH good rest w' c eq_refl Hbad Hgood) as Hrec
      end;
      cbn [stdin ticks clock stdout] in Hrec; rewrite Hrec;
      f_equal; f_equal;
      match goal with
      | |- _ = (_ ++ turned_down (b :: ?l))%list =>
          change (turned_down (b :: l))
            with ([""; (b ++ " is not a valid option. Enter y or n.")%string;
                   ""; MetadataManager.ask_add] ++ turned_down l)%list
      end;
      rewrite <- !app_assoc; reflexivity.
Qed.

Lemma ask_again_exhausted : forall (lines : list string) (w : World) choice,
  stdin w = lines ->
  no_answer (choice :: lines) = true ->
  MetadataManager.ask_again (stdin w) choice w
  = (mk_world (ticks w) (clock w) []
       (stdout w ++ turned_down (choice :: lines)),
     Raise EOFError).
Proof.
  induction lines as [|l lines IH]; intros w choice Hin Hbad;
    cbn [no_answer forallb] in Hbad; apply andb_true_iff in Hbad;
    destruct Hbad as [Hb Hbad]; apply negb_true_iff in Hb;
    destruct w as [t c i o]; cbn [stdin] in *; subst i;
    cbn [MetadataManager.ask_again]; rewrite Hb;
    unfold sbind, print, input_line; cbn [ticks clock stdin stdout].
  - cbn [turned_down flat_map]. rewrite app_nil_r, <- !app_assoc. reflexivity.
  - match goal with
    | |- MetadataManager.ask_again ?p ?c ?w' = _ =>
        pose proof (IH w' c eq_refl Hbad) as Hrec
    end.
    cbn [stdin ticks clock stdout] in Hrec. rewrite Hrec.
    f_equal. f_equal.
    change (turned_down (choice :: l :: lines))
      with ([""; (choice ++ " is not a valid option. Enter y or n.")%string;
             ""; MetadataManager.ask_add] ++ turned_down (l :: lines))%list.
    rewrite <- !app_assoc. reflexivity.
Qed.

Lemma ask_choice_answered : forall bad good rest (w : World),
  stdin w = (bad ++ good :: rest)%list ->
  no_answer bad = true ->
  MetadataManager.is_y_or_n good = true ->
  MetadataManager.ask_choice w
  = (mk_world (ticks w) (clock w) rest
       (stdout w ++ [MetadataManager.ask_add] ++ turned_down bad),
     Ok good).
Proof.
  intros bad good rest [t c i o] Hin Hbad Hgood. cbn [stdin] in Hin. subst i.
  unfold MetadataManager.ask_choice, sbind, input_line.
  cbn [stdin ticks clock stdout].
  destruct bad as [|b bad]; cbn [app].
  - pose proof (@ask_again_answered [] good rest
                  (mk_world t c rest (o ++ [MetadataManager.ask_add])) good
                  eq_refl eq_refl Hgood) as H.
    cbn [stdin ticks clock stdout turned_down flat_map] in H.
    cbn [stdin]. rewrite H. cbn [turned_down flat_map app].
    rewrite !app_nil_r. reflexivity.
  - pose proof (@ask_again_answered (b :: bad) good rest
                  (mk_world t c (bad ++ good :: rest)
                     (o ++ [MetadataManager.ask_add])) b
                  eq_refl Hbad Hgood) as H.
    cbn [stdin ticks clock stdout] in H. cbn [stdin]. rewrite H.
    rewrite <- !app_assoc. reflexivity.
Qed.

Lemma ask_choice_exhausted : forall (w : World),
  no_answer (stdin w) = true ->
  MetadataManager.ask_choice w
  = (mk_world (ticks w) (clock w) []
       (stdout w ++ [MetadataManager.ask_add] ++ turned_down (stdin w)),
     Raise EOFError).
Proof.
  intros [t c i o] Hbad. cbn [stdin] in *.
  unfold MetadataManager.ask_choice, sbind, input_line.
  cbn [stdin ticks clock stdout].
  destruct i as [|l lines].
  - cbn [turned_down flat_map]. rewrite app_nil_r. reflexivity.
  - pose proof (@ask_again_exhausted lines
                  (mk_world t c lines (o ++ [MetadataManager.ask_add])) l
                  eq_refl Hbad) as H.
    cbn [stdin ticks clock stdout] in H. cbn [stdin]. rewrite H.
    rewrite <- !app_assoc. reflexivity.
Qed.

(** [add_new_entity] up to the answer of the user, for a candidate that
    passed. *)
Lemma add_new_entity_asks : forall e mm w ws result,
  MetadataManager.workspace mm = Some ws ->
  validate_new_entity e ws = Ok result ->
  valid result = true ->
  MetadataManager.add_new_entity e (mm, w)
  = match MetadataManager.ask_choice
            (after_printing w ["Your new metadata entity is valid."; ""]) with
    | (w', Ok choice) =>
        (if (lower choice =? "n")%string
         then MetadataManager.say "Aborting" ;;; sret RetFalse
         else if (lower choice =? "y")%string
         then
           MetadataManager.stage_add ws e ;;;
           c <~ MetadataManager.cache_for "valid" ;;
           if MetadataStructure.valid c
           then
             MetadataManager.say "Your new entity is added to cache." ;;;
             MetadataManager.say "Cache is still a valid structure" ;;;
             MetadataManager.say
               "Copying cache to Workspace and deleting cache" ;;;
             MetadataManager.commit_cache ;;;
             MetadataManager.say_save_hint ;;;
             sret RetTrue
           else
             MetadataManager.say
               "Adding your new object made cache an invalid structure." ;;;
             MetadataManager.say "Aborting" ;;;
             MetadataManager.say
               "Inspect mm.cache.report to find out what is wrong." ;;;
             sret RetFalse
         else sret RetNone) (mm, w')
    | (w', Raise ex) => ((mm, w'), Raise ex)
    end.
Proof.
  intros e mm w ws result Hws Hres Hvalid.
  unfold MetadataManager.add_new_entity.
  unfold sbind at 1. unfold MetadataManager.workspace_for. cbn [fst].
  rewrite Hws. unfold sbind at 1. unfold lift. rewrite Hres, Hvalid.
  cbn [negb]. unfold sbind at 1. unfold MetadataManager.confirm_add.
  rewrite !say_then. unfold MetadataManager.world. cbn [fst snd].
  unfold after_printing. cbn [ticks clock stdin stdout].
  rewrite <- !app_assoc. cbn [app].
  destruct (MetadataManager.ask_choice _) as [w' [choice|ex]]; reflexivity.
Qed.

(** X20. Declining: when the candidate passed the new-entity validation
    and the first answer among the lines typed is [n] (in either case),
    [add_new_entity] returns [False] and leaves the manager, cache
    included, as it found it, having asked again after every line that was
    neither [y] nor [n]. *)
Theorem add_new_entity_declined :
  forall (e : Entity) (mm : MetadataManager.t) (w : World)
         (ws : MetadataStructure.t) (result : Report)
         (bad : list string) (good : string) (rest : list string),
    MetadataManager.workspace mm = Some ws ->
    validate_new_entity e ws = Ok result ->
    valid result = true ->
    stdin w = (bad ++ good :: rest)%list ->
    no_answer bad = true ->
    lower good = "n" ->
    MetadataManager.add_new_entity e (mm, w)
    = ((mm,
        mk_world (ticks w) (clock w) rest
          (stdout w
           ++ ["Your new metadata entity is valid."; "";
               MetadataManager.ask_add]
           ++ turned_down bad ++ ["Aborting"])),
       Ok RetFalse).
Proof.
  intros e mm w ws result bad good rest Hws Hres Hvalid Hin Hbad Hn.
  rewrite (add_new_entity_asks e mm w Hws Hres Hvalid).
  rewrite (@ask_choice_answered bad good rest)
    by (try assumption; unfold MetadataManager.is_y_or_n; rewrite Hn;
        reflexivity).
  rewrite Hn. cbn [String.eqb Ascii.eqb Bool.eqb].
  rewrite say_then. unfold sret, after_printing.
  cbn [fst snd ticks clock stdin stdout].
  rewrite <- !app_assoc. reflexivity.
Qed.

(** X21. Running out of input: when the candidate passed the new-entity
    validation and no line typed is [y] or [n], [add_new_entity] asks
    until the input is exhausted and raises [EOFError], leaving the manager
    as it found it. *)
Theorem add_new_entity_input_exhausted :
  forall (e : Entity) (mm : MetadataManager.t) (w : World)
         (ws : MetadataStructure.t) (result : Report),
    MetadataManager.workspace mm = Some ws ->
    validate_new_entity e ws = Ok result ->
    valid result = true ->
    no_answer (stdin w) = true ->
    MetadataManager.add_new_entity e (mm, w)
    = ((mm,
        mk_world (ticks w) (clock w) []
          (stdout w
           ++ ["Your new metadata entity is valid."; "";
               MetadataManager.ask_add]
           ++ turned_down (stdin w))),
       Raise EOFError).
Proof.
  intros e mm w ws result Hws Hres Hvalid Hbad.
  rewrite (add_new_entity_asks e mm w Hws Hres Hvalid).
  rewrite ask_choice_exhausted by exact Hbad.
  unfold after_printing. cbn [fst snd ticks clock stdin stdout].
  rewrite <- !app_assoc. reflexivity.
Qed.

Lemma add_new_entity_declined_scenario :
  let mm := Scenario.manager (Scenario.loaded Scenario.graph) in
  MetadataManager.add_new_entity (ESystem Scenario.crm)
    (mm, Scenario.console ["maybe"; "N"; "y"])
  = ((mm,
      mk_world 0 Z.of_nat ["y"]
        ["Your new metadata entity is valid."; "";
         MetadataManager.ask_add; "";
         "maybe is not a valid option. Enter y or n."; "";
         MetadataManager.ask_add; "Aborting"]),
     Ok RetFalse).
Proof.
  intro mm.
  exact (@add_new_entity_declined (ESystem Scenario.crm) mm
           (Scenario.console ["maybe"; "N"; "y"])
           (Scenario.loaded Scenario.graph) new_result ["maybe"] "N" ["y"]
           eq_refl ltac:(vm_compute; reflexivity) eq_refl eq_refl eq_refl
           eq_refl).
Defined.

Lemma add_new_entity_input_exhausted_scenario :
  let mm := Scenario.manager (Scenario.loaded Scenario.graph) in
  MetadataManager.add_new_entity (ESystem Scenario.crm)
    (mm, Scenario.console ["yes"])
  = ((mm,
      mk_world 0 Z.of_nat []
        ["Your new metadata entity is valid."; "";
         MetadataManager.ask_add; "";
         "yes is not a valid option. Enter y or n."; "";
         MetadataManager.ask_add]),
     Raise EOFError).
Proof.
  intro mm.
  exact (@add_new_entity_input_exhausted (ESystem Scenario.crm) mm
           (Scenario.console ["yes"]) (Scenario.loaded Scenario.graph)
           new_result eq_refl ltac:(vm_compute; reflexivity) eq_refl eq_refl).
Defined.

(** ** The manager and its storage locations *)

Lemma go_on_again_answered :
  forall (bad : list string) (good : string) (rest : list string)
         (w : World) (go_on : string),
    (go_on :: stdin w)%list = (bad ++ good :: rest)%list ->
    no_answer bad = true ->
    MetadataManager.is_y_or_n good = true ->
    exists out,
      go_on_again (stdin w) go_on w
      = (mk_world (ticks w) (clock w) rest out, Ok good).
Proof.
  induction bad as [|b bad IH]; intros good rest w go_on Hin Hbad Hgood.
  - simpl in Hin. injection Hin as -> Hw.
    destruct w as [t c i o]. cbn [stdin] in *. subst i. exists o.
    destruct rest; cbn [go_on_again]; rewrite Hgood; reflexivity.
  - simpl in Hin. injection Hin as -> Hw.
    cbn [no_answer forallb] in Hbad. apply andb_true_iff in Hbad.
    destruct Hbad as [Hb Hbad]. apply negb_true_iff in Hb.
    destruct w as [t c i o]. cbn [stdin] in *. subst i.
    destruct bad as [|b2 bad];
      cbn [app go_on_again]; rewrite Hb;
      unfold sbind, print, input_line; cbn [ticks clock stdin stdout];
      match goal with
      | |- exists _, go_on_again ?p ?c ?w' = _ =>
          destruct (IH good rest w' c eq_refl Hbad Hgood) as [out Hrec]
      end;
      cbn [stdin ticks clock stdout] in Hrec; rewrite Hrec;
      exists out; reflexivity.
Qed.

Lemma ask_go_on_answered :
  forall (bad : list string) (good : string) (rest : list string) (w : World),
    stdin w = (bad ++ good :: rest)%list ->
    no_answer bad = true ->
    MetadataManager.is_y_or_n good = true ->
    exists out,
      ask_go_on_choice w = (mk_world (ticks w) (clock w) rest out, Ok good).
Proof.
  intros bad good rest [t c i o] Hin Hbad Hgood. cbn [stdin] in Hin. subst i.
  unfold ask_go_on_choice, sbind, input_line.
  cbn [stdin ticks clock stdout].
  destruct bad as [|b bad]; cbn [app].
  - destruct (@go_on_again_answered [] good rest
                (mk_world t c rest (o ++ [ask_go_on])) good
                eq_refl eq_refl Hgood) as [out H].
    cbn [stdin ticks clock stdout] in H. cbn [stdin]. rewrite H.
    exists out. reflexivity.
  - destruct (@go_on_again_answered (b :: bad) good rest
                (mk_world t c (bad ++ good :: rest) (o ++ [ask_go_on])) b
                eq_refl Hbad Hgood) as [out H].
    cbn [stdin ticks clock stdout] in H. cbn [stdin]. rewrite H.
    exists out. reflexivity.
Qed.


Section ManagerStorageFacts.
Variable Store : Type.
Variable models : Pydantic.
Variable jsonable_encoder : PyVal -> PyVal.
Variables store_adapter stash_adapter : StorageAdapter Store.

Lemma load_from_raises :
  forall (adapter : StorageAdapter Store) (location : MetadataLocation)
         (st : (MetadataManager.t * World) * Store),
    load_from models adapter location st
    = (st, Raise (TypeError "argument of type 'NoneType' is not iterable")).
Proof.
  intros adapter location [[mm w] s]. reflexivity.
Qed.

(** X22. Nothing is ever loaded: the load methods call [read_metadata]
    without [exclude_entities], so [load_current], and [load_workspace]
    from the store or from the stash, raise [TypeError] before the adapter
    reads and before anything is assigned, and [load_workspace] from
    another source raises its [ValueError]; the constructor therefore
    returns a manager only when it is told to load neither, and this
    manager has no [current], no [workspace] and no [cache]. *)
Theorem manager_never_loads :
  (forall st : (MetadataManager.t * World) * Store,
      load_current models store_adapter st
      = (st, Raise (TypeError "argument of type 'NoneType' is not iterable")))
  /\ (forall (source : string) (st : (MetadataManager.t * World) * Store),
         load_workspace models store_adapter stash_adapter source st
         = (st,
            Raise (if ((source =? "store") || (source =? "stash"))%string
                   then TypeError "argument of type 'NoneType' is not iterable"
                   else ValueError ("Source must be store or stash. Not "
                                    ++ source))))
  /\ (forall (store stash : MetadataLocation) (load_current_arg : bool)
             (load_workspace_arg : option string) (ws : World * Store),
         fst (manager_init models store_adapter stash_adapter store stash
                load_current_arg load_workspace_arg ws) = ws
         /\ forall mm,
              snd (manager_init models store_adapter stash_adapter store stash
                     load_current_arg load_workspace_arg ws) = Ok mm
              <-> (load_current_arg = false
                   /\ (load_workspace_arg = None \/ load_workspace_arg = Some "")
                   /\ mm = MetadataManager.mk store stash None None None)).
Proof.
  assert (Hcurrent : forall st : (MetadataManager.t * World) * Store,
             load_current models store_adapter st
             = (st, Raise (TypeError
                             "argument of type 'NoneType' is not iterable"))).
  { intros [[mm w] s]. reflexivity. }
  assert (Hworkspace :
            forall (source : string) (st : (MetadataManager.t * World) * Store),
              load_workspace models store_adapter stash_adapter source st
              = (st,
                 Raise (if ((source =? "store") || (source =? "stash"))%string
                        then TypeError
                               "argument of type 'NoneType' is not iterable"
                        else ValueError ("Source must be store or stash. Not "
                                         ++ source)))).
  { intros source [[mm w] s]. unfold load_workspace, sbind, in_manager.
    cbn [MetadataManager.self fst snd].
    destruct (source =? "store")%string eqn:E1; cbn [orb].
    - rewrite load_from_raises. reflexivity.
    - destruct (source =? "stash")%string eqn:E2.
      + rewrite load_from_raises. reflexivity.
      + reflexivity. }
  split; [exact Hcurrent|]. split; [exact Hworkspace|].
  intros store stash lc lw [w s]. unfold manager_init. cbn [fst snd].
  unfold sbind.
  destruct lc.
  - rewrite Hcurrent. cbn [fst snd]. split; [reflexivity|].
    intro mm. split.
    + intro H. discriminate H.
    + intros (H & _). discriminate H.
  - unfold sret.
    destruct lw as [source|].
    + destruct source as [|c source'].
      * cbn [fst snd]. split; [reflexivity|].
        intro mm. split.
        -- intro H. injection H as <-. repeat split. right. reflexivity.
        -- intros (_ & _ & ->). reflexivity.
      * rewrite Hworkspace. cbn [fst snd]. split; [reflexivity|].
        intro mm. split; [intro H | intros (_ & [H | H] & _)]; discriminate H.
    + cbn [fst snd]. split; [reflexivity|].
      intro mm. split.
      * intro H. injection H as <-. repeat split. left. reflexivity.
      * intros (_ & _ & ->). reflexivity.
Qed.

(** The write both [stash_workspace] and [store_workspace] end with: it
    reaches the storage only. *)
Lemma write_workspace_run :
  forall (adapter : StorageAdapter Store) (location : MetadataLocation)
         (mm : MetadataManager.t) (w : World) (s : Store)
         (ws : MetadataStructure.t),
    MetadataManager.workspace mm = Some ws ->
    write_workspace jsonable_encoder adapter location ((mm, w), s)
    = let '(s', r) :=
        write_metadata jsonable_encoder (adapter_write adapter)
          (address location)
          (val_of_objects (MetadataStructure.md_objects ws)) s in
      (((mm, w), s'), r).
Proof.
  intros adapter location mm w s ws Hws.
  unfold write_workspace, sbind, in_manager, in_store.
  unfold MetadataManager.workspace_for. cbn [fst snd]. rewrite Hws.
  cbn [fst snd]. reflexivity.
Qed.

Lemma in_manager_say_then :
  forall (A : Type) (line : string) (k : StorageMethod Store A)
         (mm : MetadataManager.t) (w : World) (s : Store),
    (in_manager (MetadataManager.say line) ;;; k) ((mm, w), s)
    = k ((mm, after_printing w [line]), s).
Proof. intros. reflexivity. Qed.

(** What a call of [store_workspace] does, in closed form. *)
Lemma store_workspace_run :
  forall (mm : MetadataManager.t) (w : World) (s : Store)
         (ws : MetadataStructure.t),
    MetadataManager.workspace mm = Some ws ->
    store_workspace jsonable_encoder store_adapter ((mm, w), s)
    = if MetadataStructure.valid ws
      then
        match write_metadata jsonable_encoder (adapter_write store_adapter)
                (address (MetadataManager.store mm))
                (val_of_objects (MetadataStructure.md_objects ws)) s with
        | (s', Ok _) =>
            (((mm,
               after_printing w
                 ["Workspace is a valid structure. Writing to Store.";
                  "Write complete"; "Reloading current from store"]), s'),
             Ok true)
        | (s', Raise e) =>
            (((mm,
               after_printing w
                 ["Workspace is a valid structure. Writing to Store."]), s'),
             Raise e)
        end
      else
        (((mm,
           after_printing w
             ["ERROR!! Workspace is in an invalid state.";
              "Inspect workspace.report to find out what is going on";
              "Consider writing to stash instead of store.";
              "Stash will accept an invalid workspace with a warning."]), s),
         Ok false).
Proof.
  intros mm w s ws Hws. unfold store_workspace.
  unfold sbind at 1. unfold in_manager at 1.
  unfold MetadataManager.workspace_for. cbn [fst snd]. rewrite Hws.
  cbn [fst snd].
  destruct (MetadataStructure.valid ws); cbn [negb].
  - rewrite in_manager_say_then. unfold sbind at 1. unfold in_manager at 1.
    cbn [MetadataManager.self fst snd]. unfold sbind at 1.
    rewrite (@write_workspace_run store_adapter (MetadataManager.store mm)
               mm _ s ws Hws).
    destruct (write_metadata _ _ _ _ s) as [s' [[]|e]].
    + rewrite !in_manager_say_then. unfold sret, after_printing.
      cbn [ticks clock stdin stdout]. rewrite <- !app_assoc. reflexivity.
    + reflexivity.
  - rewrite !in_manager_say_then. unfold sret, after_printing.
    cbn [ticks clock stdin stdout]. rewrite <- !app_assoc. reflexivity.
Qed.

(** X23. [store_workspace] writes a valid workspace only, and reloads
    nothing. In every run, returning or raising, the manager, and so its
    [current], is the one the call found, although the method announces
    that it reloads [current] from the store; on a workspace that is not
    valid the call returns [False] and leaves the storage untouched; and
    when the call returns [True] the workspace is valid and the storage is
    what [write_metadata] made of it. *)
Theorem store_workspace_writes_valid_only :
  forall (st st' : (MetadataManager.t * World) * Store) (r : Exc bool),
    store_workspace jsonable_encoder store_adapter st = (st', r) ->
    fst (fst st') = fst (fst st)
    /\ (forall ws,
           MetadataManager.workspace (fst (fst st)) = Some ws ->
           MetadataStructure.valid ws = false ->
           r = Ok false /\ snd st' = snd st)
    /\ (r = Ok true ->
        exists ws,
          MetadataManager.workspace (fst (fst st)) = Some ws
          /\ MetadataStructure.valid ws = true
          /\ write_metadata jsonable_encoder (adapter_write store_adapter)
               (address (MetadataManager.store (fst (fst st))))
               (val_of_objects (MetadataStructure.md_objects ws)) (snd st)
             = (snd st', Ok tt)).
Proof.
  intros [[mm w] s] st' r H. cbn [fst snd].
  destruct (MetadataManager.workspace mm) as [ws|] eqn:Hws.
  - rewrite (store_workspace_run mm w s Hws) in H.
    destruct (MetadataStructure.valid ws) eqn:Hvalid.
    + destruct (write_metadata _ _ _ _ s) as [s' [[]|e]] eqn:Hwrite;
        injection H as <- <-; cbn [fst snd].
      * split; [reflexivity|]. split.
        -- intros ws' Heq Hinvalid. injection Heq as <-. congruence.
        -- intros _. exists ws. repeat split; assumption.
      * split; [reflexivity|]. split.
        -- intros ws' Heq Hinvalid. injection Heq as <-. congruence.
        -- intro Habs. discriminate Habs.
    + injection H as <- <-. cbn [fst snd]. split; [reflexivity|]. split.
      * intros ws' _ _. split; reflexivity.
      * intro Habs. discriminate Habs.
  - unfold store_workspace, sbind, in_manager in H.
    unfold MetadataManager.workspace_for in H. cbn [fst snd] in H.
    rewrite Hws in H. cbn [fst snd] in H. injection H as <- <-.
    cbn [fst snd]. split; [reflexivity|]. split.
    + intros ws' Heq. discriminate Heq.
    + intro Habs. discriminate Habs.
Qed.

(** X24. [stash_workspace] on a workspace that is not valid, when the
    first answer among the lines typed is [good], a [y] or an [n] in
    either case: the manager is the one the call found and the lines after
    the answer are still to be read; the call returns [False] with the
    storage untouched exactly when the answer is the lower-case [n]; any
    other answer, the upper-case [N] included, has the invalid workspace
    written: the storage is what [write_metadata] makes of it, and the call
    returns [True] when the write returned and raises what it raised. *)
Theorem stash_workspace_aborts_on_lowercase_n_only :
  forall (mm : MetadataManager.t) (w : World) (s : Store)
         (ws : MetadataStructure.t) (bad : list string) (good : string)
         (rest : list string)
         (st' : (MetadataManager.t * World) * Store) (r : Exc bool),
    MetadataManager.workspace mm = Some ws ->
    MetadataStructure.valid ws = false ->
    stdin w = (bad ++ good :: rest)%list ->
    no_answer bad = true ->
    MetadataManager.is_y_or_n good = true ->
    stash_workspace jsonable_encoder stash_adapter ((mm, w), s) = (st', r) ->
    let written :=
      write_metadata jsonable_encoder (adapter_write stash_adapter)
        (address (MetadataManager.stash mm))
        (val_of_objects (MetadataStructure.md_objects ws)) s in
    fst (fst st') = mm
    /\ stdin (snd (fst st')) = rest
    /\ (good = "n" -> r = Ok false /\ snd st' = s)
    /\ (good <> "n" ->
        snd st' = fst written
        /\ r = match snd written with
               | Ok _ => Ok true
               | Raise e => Raise e
               end).
Proof.
  intros mm w s ws bad good rest st' r Hws Hinvalid Hin Hbad Hgood H written.
  unfold stash_workspace in H.
  unfold sbind at 1 in H. unfold in_manager at 1 in H.
  unfold MetadataManager.workspace_for in H. cbn [fst snd] in H.
  rewrite Hws in H. cbn [fst snd] in H. rewrite Hinvalid in H.
  cbn [negb] in H. rewrite in_manager_say_then in H.
  unfold sbind at 1 in H. unfold in_manager at 1 in H.
  unfold MetadataManager.world in H. cbn [fst snd] in H.
  destruct (@ask_go_on_answered bad good rest
              (after_printing w ["WARNING! Workspace is in an invalid state."])
              Hin Hbad Hgood) as [out Hask].
  rewrite Hask in H. cbn [fst snd] in H.
  destruct (good =? "n")%string eqn:En.
  - apply String.eqb_eq in En. rewrite in_manager_say_then in H.
    unfold sret in H. injection H as <- <-. cbn [fst snd stdin].
    split; [reflexivity|]. split; [reflexivity|]. split.
    + intros _. split; reflexivity.
    + intro Hne. contradiction.
  - apply String.eqb_neq in En. rewrite in_manager_say_then in H.
    unfold sbind at 1 in H. unfold in_manager at 1 in H.
    cbn [MetadataManager.self fst snd] in H. unfold sbind at 1 in H.
    rewrite (@write_workspace_run stash_adapter (MetadataManager.stash mm)
               mm _ s ws Hws) in H.
    fold written in H.
    destruct written as [s' [[]|e]].
    + rewrite in_manager_say_then in H. unfold sret in H.
      injection H as <- <-. cbn [fst snd stdin].
      split; [reflexivity|]. split; [reflexivity|]. split.
      * intro Heq. contradiction.
      * intros _. split; reflexivity.
    + injection H as <- <-. cbn [fst snd stdin].
      split; [reflexivity|]. split; [reflexivity|]. split.
      * intro Heq. contradiction.
      * intros _. split; reflexivity.
Qed.

End ManagerStorageFacts.

Lemma store_workspace_scenario :
  let st :=
    ((Scenario.manager (Scenario.loaded Scenario.graph), Scenario.console []),
     @nil (string * PyVal)) in
  exists st',
    store_workspace dump_val Examples.memory_adapter st = (st', Ok true)
    /\ MetadataManager.current (fst (fst st')) = None
    /\ dict_keys (snd st')
       = ["namespaces"; "schemas"; "systems"; "data_entities"; "pipelines"].
Proof.
  intro st.
  assert (H : exists st',
             store_workspace dump_val Examples.memory_adapter st
             = (st', Ok true)) by (eexists; vm_compute; reflexivity).
  destruct H as [[[mm' w'] s'] H].
  destruct (@store_workspace_writes_valid_only _ dump_val
              Examples.memory_adapter st (mm', w', s') (Ok true) H)
    as (Hmm & _ & Hwritten).
  destruct (Hwritten eq_refl) as (ws & Hws & _ & Hwrite).
  change (Some (Scenario.loaded Scenario.graph) = Some ws) in Hws.
  apply some_eq in Hws. subst ws.
  exists (mm', w', s'). split; [exact H|]. split.
  - rewrite Hmm. reflexivity.
  - cbn [snd] in Hwrite |- *.
    vm_compute in Hwrite. injection Hwrite as <-. reflexivity.
Defined.

Lemma stash_workspace_scenario :
  let st :=
    ((Scenario.manager (Scenario.loaded Examples.graph_json),
      Scenario.console ["maybe"; "N"; "n"]),
     @nil (string * PyVal)) in
  exists st',
    stash_workspace dump_val Examples.memory_adapter st = (st', Ok true)
    /\ stdin (snd (fst st')) = ["n"]
    /\ dict_keys (snd st')
       = ["namespaces"; "schemas"; "systems"; "data_entities"; "pipelines"].
Proof.
  intro st.
  assert (H : exists st',
             stash_workspace dump_val Examples.memory_adapter st
             = (st', Ok true)) by (eexists; vm_compute; reflexivity).
  destruct H as [st' H].
  destruct (@stash_workspace_aborts_on_lowercase_n_only _ dump_val
              Examples.memory_adapter
              (Scenario.manager (Scenario.loaded Examples.graph_json))
              (Scenario.console ["maybe"; "N"; "n"]) []
              (Scenario.loaded Examples.graph_json) ["maybe"] "N" ["n"]
              st' (Ok true) eq_refl ltac:(vm_compute; reflexivity) eq_refl
              eq_refl eq_refl H)
    as (_ & Hin & _ & Hwritten).
  destruct Hwritten as [Hstore _]; [discriminate|].
  exists st'. split; [exact H|]. split; [exact Hin|].
  rewrite Hstore. vm_compute. reflexivity.
Defined.

(** ** Updating what is not there *)

Lemma stamp_entity_keeps_identity :
  forall (idx : IdIdx) (e : Entity) (m : datetime),
    id_in_index idx (stamp_entity e m) = id_in_index idx e
    /\ entity_class (stamp_entity e m) = entity_class e
    /\ entity_id (stamp_entity e m) = entity_id e.
Proof. intros idx [n|s|s|d|p] m; repeat split; reflexivity. Qed.

(** X25. Updating an entity whose id the workspace does not hold: when the
    references of the entity resolve and its id is not in the id index of
    its type, [update_entity] raises the [ValueError] that names the class
    and the id; it has printed nothing and read the clock once; the
    workspace is the one it found, and the cache is left holding the copy
    of the workspace made at the start of the call. *)
Theorem update_entity_unknown_id :
  forall (e e' : Entity) (mm : MetadataManager.t) (w : World)
         (ws : MetadataStructure.t),
    MetadataManager.workspace mm = Some ws ->
    unid_refs_to_ids (MetadataStructure.by_unid ws) e = Ok e' ->
    id_in_index (MetadataStructure.by_id ws) e' = false ->
    MetadataManager.update_entity e (mm, w)
    = ((MetadataManager.set_cache mm (Some ws),
        mk_world (S (ticks w)) (clock w) (stdin w) (stdout w)),
       Raise (ValueError (entity_class e' ++ " with id "
                          ++ str_of_int (entity_id e')
                          ++ " not found in indexes"))).
Proof.
  intros e e' mm w ws Hws He' Hin.
  unfold MetadataManager.update_entity, MetadataManager.stage_update.
  unfold sbind, MetadataManager.assign, MetadataManager.workspace_for,
    MetadataManager.cache_for, MetadataManager.world, lift, pendulum_now.
  cbn [fst snd MetadataManager.set_cache MetadataManager.workspace
       MetadataManager.cache].
  rewrite Hws. cbn [fst snd]. rewrite He'.
  cbn [fst snd MetadataManager.set_cache MetadataManager.workspace
       MetadataManager.cache].
  destruct (stamp_entity_keeps_identity (MetadataStructure.by_id ws) e'
              (mk_datetime (clock w (ticks w)) "Europe/Amsterdam"))
    as (Hi & Hc & Hid).
  rewrite Hi, Hin. cbn [negb]. unfold sraise. rewrite Hc, Hid. reflexivity.
Qed.

Lemma update_entity_unknown_id_scenario :
  let mm := Scenario.manager (Scenario.loaded Scenario.graph) in
  MetadataManager.update_entity (ESystem Scenario.crm) (mm, Scenario.console [])
  = ((MetadataManager.set_cache mm (Some (Scenario.loaded Scenario.graph)),
      mk_world 1 Z.of_nat [] []),
     Raise (ValueError "System with id 2 not found in indexes")).
Proof.
  intro mm.
  exact (@update_entity_unknown_id (ESystem Scenario.crm)
           (ESystem (System.set_namespace Scenario.crm (RId 1))) mm
           (Scenario.console []) (Scenario.loaded Scenario.graph) eq_refl
           ltac:(vm_compute; reflexivity) ltac:(vm_compute; reflexivity)).
Defined.

(** ** Reading with a list of excluded entity types *)

Section ReadMetadataFacts.
Variable Store : Type.
Variable storage_reader : Reader Store.
Variable location : PyVal.
Variable exclude_entities : list string.

Lemma read_metadata_loop_keys :
  forall (entities : list string) (md_json : MdJson) (s s' : Store)
         (out : MdJson),
    read_metadata_loop storage_reader location (Some exclude_entities)
      entities md_json s = (s', Ok out) ->
    forallb (fun entity => str_in entity ENTITIES) entities = true
    /\ forall k,
         dict_mem String.eqb out k
         = (str_in k entities && negb (str_in k exclude_entities))
           || dict_mem String.eqb md_json k.
Proof.
  induction entities as [|e rest IH]; intros md_json s s' out H.
  - cbn [read_metadata_loop] in H. unfold sret in H. injection H as <- <-.
    split; [reflexivity|]. intro k. reflexivity.
  - cbn [read_metadata_loop] in H. apply sbind_inv in H.
    destruct H as [(ex & _ & Habs) | (s1 & md1 & Hstep & H)];
      [discriminate Habs|].
    destruct (IH _ _ _ _ H) as [Hall Hkeys]. clear IH H.
    unfold read_metadata_step in Hstep.
    destruct (str_in e ENTITIES) eqn:Evalid; cbn [negb] in Hstep;
      [|unfold sraise in Hstep; discriminate Hstep].
    cbn [forallb]. rewrite Evalid, Hall. split; [reflexivity|].
    intro k. rewrite Hkeys.
    change (str_in k (e :: rest)) with ((k =? e)%string || str_in k rest).
    unfold sbind at 1 in Hstep. unfold lift, not_in_opt in Hstep.
    destruct (str_in e exclude_entities) eqn:Eex; cbn [negb] in Hstep.
    + unfold sret in Hstep. injection Hstep as <- <-.
      destruct (k =? e)%string eqn:Eke.
      * apply String.eqb_eq in Eke. subst k. rewrite Eex.
        cbn [negb orb andb]. rewrite andb_false_r. reflexivity.
      * reflexivity.
    + unfold sbind in Hstep.
      destruct (storage_reader location e s) as [s2 [records|ex]];
        [|discriminate Hstep].
      unfold sret in Hstep. injection Hstep as <- <-.
      rewrite (@dict_mem_set _ _ _ String.eqb_eq).
      destruct (k =? e)%string eqn:Eke.
      * apply String.eqb_eq in Eke. subst k. rewrite Eex.
        cbn [negb orb andb]. rewrite orb_true_r. reflexivity.
      * cbn [orb]. reflexivity.
Qed.

(** X26. What [read_metadata] returns when it is given a list of excluded
    entity types: the entity types considered are all of [ENTITIES] when
    [md_entities] is [None] or empty, and [md_entities] otherwise; a call
    that returns has found every one of them in [ENTITIES], and the keys of
    its result are exactly the types considered that are not excluded. *)
Theorem read_metadata_keys :
  forall (md_entities : option (list string)) (s s' : Store)
         (md_json : MdJson),
    read_metadata storage_reader location md_entities (Some exclude_entities) s
    = (s', Ok md_json) ->
    let considered :=
      match md_entities with
      | None | Some [] => ENTITIES
      | Some entities => entities
      end in
    forallb (fun entity => str_in entity ENTITIES) considered = true
    /\ forall k,
         dict_mem String.eqb md_json k
         = str_in k considered && negb (str_in k exclude_entities).
Proof.
  intros md_entities s s' md_json H considered.
  unfold read_metadata in H.
  assert (Hc : entities_considered md_entities = considered)
    by (destruct md_entities as [[|e l]|]; reflexivity).
  rewrite Hc in H.
  destruct (read_metadata_loop_keys _ _ _ H) as [Hall Hkeys].
  split; [exact Hall|]. intro k. rewrite Hkeys.
  cbn [dict_mem dict_get]. rewrite orb_false_r. reflexivity.
Qed.

End ReadMetadataFacts.

Lemma read_metadata_keys_scenario :
  exists (s' : nat) (md_json : MdJson),
    read_metadata Scenario.counting_reader (VStr ".") (Some [])
      (Some ["dag_config"]) 0%nat
    = (s', Ok md_json)
    /\ s' = 5%nat
    /\ forall k,
         dict_mem String.eqb md_json k
         = str_in k ENTITIES && negb (str_in k ["dag_config"]).
Proof.
  assert (H : exists md_json,
             read_metadata Scenario.counting_reader (VStr ".") (Some [])
               (Some ["dag_config"]) 0%nat
             = (5%nat, Ok md_json)) by (eexists; vm_compute; reflexivity).
  destruct H as [md_json H].
  exists 5%nat, md_json. split; [exact H|]. split; [reflexivity|].
  exact (proj2 (@read_metadata_keys nat Scenario.counting_reader (VStr ".")
                  ["dag_config"] (Some []) 0%nat 5%nat md_json H)).
Defined.

(** ** The entity type as an argument *)

Ltac known_collection :=
  split; [|split];
  [ split; [intros _; simpl; auto 10 | intros _; eexists; reflexivity]
  | split; [intros _; simpl; auto 10 | intros _; eexists; reflexivity]
  | let Hout := fresh "Hout" in
    intro Hout; exfalso; apply Hout; simpl; auto 10 ].

(** X27. The entity type as an argument of the lookups: [id_exists] and
    [unid_exists] answer exactly for the names of the five collections;
    for every other name each of the four lookups raises, whatever the
    index holds: the [ValueError] of the guard for a name outside
    [ENTITIES], and for [dag_config], which the guard lets through, a
    [KeyError] for the index that does not exist in [id_exists],
    [unid_exists] and [get_next_free_id], and the closing [ValueError] of
    [id_to_unid]. *)
Theorem entity_type_guard :
  forall (metadata_id_idx : IdIdx) (metadata_unid_idx : UnidIdx)
         (entity : string) (id : Z) (unid : string),
    let collections :=
      ["namespaces"; "schemas"; "systems"; "data_entities"; "pipelines"] in
    ((exists found, id_exists metadata_id_idx entity id = Ok found)
     <-> In entity collections)
    /\ ((exists found, unid_exists metadata_unid_idx entity unid = Ok found)
        <-> In entity collections)
    /\ (~ In entity collections ->
        id_exists metadata_id_idx entity id
        = Raise (if (entity =? "dag_config")%string
                 then KeyError "dag_config_idx"
                 else not_an_entity entity)
        /\ unid_exists metadata_unid_idx entity unid
           = Raise (if (entity =? "dag_config")%string
                    then KeyError "dag_config_unid_idx"
                    else not_an_entity entity)
        /\ get_next_free_id metadata_id_idx entity
           = Raise (if (entity =? "dag_config")%string
                    then KeyError "dag_config_idx"
                    else not_an_entity entity)
        /\ id_to_unid metadata_id_idx entity id
           = Raise (if (entity =? "dag_config")%string
                    then ValueError
                           "dag_config Cannot be processed by id_to_unid()"
                    else not_an_entity entity)).
Proof.
  intros idx uidx entity id unid collections. subst collections.
  destruct (entity =? "namespaces")%string eqn:E1;
    [apply String.eqb_eq in E1; subst entity; known_collection|].
  destruct (entity =? "schemas")%string eqn:E2;
    [apply String.eqb_eq in E2; subst entity; known_collection|].
  destruct (entity =? "systems")%string eqn:E3;
    [apply String.eqb_eq in E3; subst entity; known_collection|].
  destruct (entity =? "data_entities")%string eqn:E4;
    [apply String.eqb_eq in E4; subst entity; known_collection|].
  destruct (entity =? "pipelines")%string eqn:E5;
    [apply String.eqb_eq in E5; subst entity; known_collection|].
  assert (Hout : ~ In entity
                     ["namespaces"; "schemas"; "systems"; "data_entities";
                      "pipelines"]).
  { simpl. intros [H | [H | [H | [H | [H | []]]]]]; subst entity;
      discriminate. }
  destruct (entity =? "dag_config")%string eqn:E6.
  - apply String.eqb_eq in E6. subst entity.
    split; [|split].
    + split; [intros [found H]; discriminate H | intro H; contradiction].
    + split; [intros [found H]; discriminate H | intro H; contradiction].
    + intros _. repeat split; reflexivity.
  - assert (Hguard : str_in entity ENTITIES = false).
    { unfold str_in, ENTITIES. cbn [existsb].
      rewrite E1, E2, E3, E4, E5, E6. reflexivity. }
    assert (Hid : id_exists idx entity id = Raise (not_an_entity entity))
      by (unfold id_exists; rewrite Hguard; reflexivity).
    assert (Hunid : unid_exists uidx entity unid
                    = Raise (not_an_entity entity))
      by (unfold unid_exists; rewrite Hguard; reflexivity).
    split; [|split].
    + split; [intros [found H]; congruence | intro H; contradiction].
    + split; [intros [found H]; congruence | intro H; contradiction].
    + intros _. split; [exact Hid|]. split; [exact Hunid|]. split.
      * unfold get_next_free_id. rewrite Hguard. reflexivity.
      * unfold id_to_unid. rewrite Hguard. reflexivity.
Qed.

Lemma entity_type_guard_scenario :
  let metadata_id_idx := create_id_indexes Scenario.graph in
  id_exists metadata_id_idx "dag_config" 1 = Raise (KeyError "dag_config_idx")
  /\ get_next_free_id metadata_id_idx "dag_config"
     = Raise (KeyError "dag_config_idx")
  /\ id_to_unid metadata_id_idx "dag_config" 1
     = Raise (ValueError "dag_config Cannot be processed by id_to_unid()").
Proof.
  intro metadata_id_idx.
  assert (Hout : ~ In "dag_config"
                     ["namespaces"; "schemas"; "systems"; "data_entities";
                      "pipelines"]).
  { simpl. intros [H | [H | [H | [H | [H | []]]]]]; discriminate H. }
  destruct (proj2 (proj2 (entity_type_guard metadata_id_idx
                            (create_unid_indexes Scenario.graph) "dag_config"
                            1 "sales")) Hout)
    as (Hid & _ & Hnext & Hkey).
  split; [exact Hid|]. split; [exact Hnext | exact Hkey].
Defined.
